(** * Session-scoped OAuth lifecycle and MCP tool invocation

    A shallow embedding of the Gmail and Calendar chat agents
    (mcp-agents/gmail_chat_uagent and mcp-agents/calendar_chat_uagent):
    the credential broker of [server.py], the retrying tool invoker and the
    conversational router of [*_chat_proto.py], and the REST callback of
    [*_chat_agent.py].

    Python code becomes functions in a state-and-exception monad over an
    explicit [World]: the files on disk, the shared broker object, the
    [CURRENT_SESSION_DATA] context variable, the agent storage and outbox.
    Everything the code reaches outside the repository (Google's OAuth
    library and REST API, the OpenAI stream, uuid4, transport failures) is
    an oracle: a field of [Env] or a tape in the [World]. *)

From Stdlib Require Import Ascii String ZArith.
From stdpp Require Import base strings gmap list.

Set Warnings "-register-all".
Open Scope string_scope.

(** ** Python values, exceptions and outcomes *)

Module Py.

(** The subclasses of [Exception] the code distinguishes or produces. *)
Inductive exn_class :=
| RuntimeError | FileNotFoundError | KeyError | ValueError
| AttributeError | ToolError | OtherException.

(** An [Exception] instance: its class and [str(e)]. *)
Record exn := Exn { exn_cls : exn_class; exn_str : string }.

Inductive outcome (A : Type) :=
| Ret (a : A)
| Raise (e : exn).
Arguments Ret {A} a.
Arguments Raise {A} e.

Definition exn_class_eqb (c d : exn_class) : bool :=
  match c, d with
  | RuntimeError, RuntimeError | FileNotFoundError, FileNotFoundError
  | KeyError, KeyError | ValueError, ValueError
  | AttributeError, AttributeError | ToolError, ToolError
  | OtherException, OtherException => true
  | _, _ => false
  end.

(** Truthiness of a string: [bool(s)]. *)
Definition nonempty (s : string) : bool :=
  match s with EmptyString => false | String _ _ => true end.

(** [s.startswith(p)] *)
Fixpoint startswith (p s : string) : bool :=
  match p, s with
  | EmptyString, _ => true
  | String a p', String b s' => if Ascii.eqb a b then startswith p' s' else false
  | String _ _, EmptyString => false
  end.

(** [p in s] for strings. *)
Fixpoint contains (p s : string) : bool :=
  if startswith p s then true
  else match s with
       | EmptyString => false
       | String _ s' => contains p s'
       end.

(** A string is the UTF-8 encoding of a Python [str].  [str.strip()]
    removes the characters for which [str.isspace()] holds: U+0009 to
    U+000D, U+001C to U+0020, U+0085, U+00A0, U+1680, U+2000 to U+200A,
    U+2028, U+2029, U+202F, U+205F and U+3000.  [is_space] recognises those
    of one byte, [is_space2] and [is_space3] the encodings of the others. *)
Definition is_space (c : ascii) : bool :=
  let n := nat_of_ascii c in
  (((9 <=? n) && (n <=? 13)) || ((28 <=? n) && (n <=? 32)))%nat.

Definition is_space2 (a b : ascii) : bool :=
  let (m, n) := (nat_of_ascii a, nat_of_ascii b) in
  ((m =? 194) && ((n =? 133) || (n =? 160)))%nat.

Definition is_space3 (a b c : ascii) : bool :=
  let '(l, m, n) := (nat_of_ascii a, nat_of_ascii b, nat_of_ascii c) in
  (((l =? 225) && (m =? 154) && (n =? 128))
   || ((l =? 226) && (m =? 128)
       && (((128 <=? n) && (n <=? 138)) || (n =? 168) || (n =? 169) || (n =? 175)))
   || ((l =? 226) && (m =? 129) && (n =? 159))
   || ((l =? 227) && (m =? 128) && (n =? 128)))%nat.

(** Removes the leading characters that [sp1], [sp2] or [sp3] recognise. *)
Fixpoint lstrip_by (sp1 : ascii -> bool) (sp2 : ascii -> ascii -> bool)
    (sp3 : ascii -> ascii -> ascii -> bool) (s : string) : string :=
  match s with
  | EmptyString => EmptyString
  | String a s1 =>
      if sp1 a then lstrip_by sp1 sp2 sp3 s1
      else
        match s1 with
        | EmptyString => s
        | String b s2 =>
            if sp2 a b then lstrip_by sp1 sp2 sp3 s2
            else
              match s2 with
              | EmptyString => s
              | String c s3 => if sp3 a b c then lstrip_by sp1 sp2 sp3 s3 else s
              end
        end
  end.

Fixpoint rev_onto (s acc : string) : string :=
  match s with
  | EmptyString => acc
  | String c s' => rev_onto s' (String c acc)
  end.

(** [s.lstrip()] *)
Definition lstrip (s : string) : string := lstrip_by is_space is_space2 is_space3 s.

(** [s.rstrip()]: the same on the reversed string, where the bytes of a
    character come last byte first. *)
Definition rstrip (s : string) : string :=
  rev_onto
    (lstrip_by is_space (fun a b => is_space2 b a) (fun a b c => is_space3 c b a)
               (rev_onto s EmptyString))
    EmptyString.

(** [s.strip()] *)
Definition strip (s : string) : string := rstrip (lstrip s).

(** [s.lower()] on ASCII letters.  The code lowers a text only to look for
    an ASCII phrase in it, and no character outside ASCII lowers to text
    that could take part in a match of that phrase. *)
Definition lower_ascii (c : ascii) : ascii :=
  let n := nat_of_ascii c in
  if ((65 <=? n) && (n <=? 90))%nat then ascii_of_nat (n + 32) else c.

Fixpoint lower (s : string) : string :=
  match s with
  | EmptyString => EmptyString
  | String c s' => String (lower_ascii c) (lower s')
  end.

End Py.
Export Py.

(** ** JSON documents *)

Module Json.

Inductive json :=
| JNull
| JBool (b : bool)
| JNum (n : Z)
| JStr (s : string)
| JArr (l : list json)
| JObj (kv : list (string * json)).

(** Text as [json.loads] sees it: the serialisation of a document
    ([json.dumps] produces it, [json.loads] gives the document back), or
    text that is not JSON. *)
Inductive jtext :=
| Doc (j : json)
| Raw (s : string).

Definition json_dumps (j : json) : jtext := Doc j.

Definition json_loads (t : jtext) : outcome json :=
  match t with
  | Doc j => Ret j
  | Raw _ => Raise (Exn ValueError "Expecting value: line 1 column 1 (char 0)")
  end.

(** [bool(v)] *)
Definition truthy (j : json) : bool :=
  match j with
  | JNull => false
  | JBool b => b
  | JNum n => negb (n =? 0)%Z
  | JStr s => nonempty s
  | JArr l => match l with [] => false | _ => true end
  | JObj kv => match kv with [] => false | _ => true end
  end.

Fixpoint assoc (k : string) (kv : list (string * json)) : option json :=
  match kv with
  | [] => None
  | (k', v) :: kv' => if String.eqb k k' then Some v else assoc k kv'
  end.

(** [d.get(k)]; raises [AttributeError] when [d] is not a dict. *)
Definition get (d : json) (k : string) : outcome (option json) :=
  match d with
  | JObj kv => Ret (assoc k kv)
  | _ => Raise (Exn AttributeError "object has no attribute 'get'")
  end.

(** [bool(d.get(k))] for an optional value: [None] is falsy. *)
Definition truthy_opt (o : option json) : bool :=
  match o with Some v => truthy v | None => false end.

(** The failure payload every tool and the invoker produce:
    [{"success": False, "error": str(e)}]. *)
Definition failure (msg : string) : json :=
  JObj [("success", JBool false); ("error", JStr msg)].

End Json.
Export Json.

(** ** Data model: token material, files, broker object, sessions *)

(** Token material as [exchange_code_for_token] writes it and
    [get_service] reads it back. *)
Record token_data := TokenData {
  token : string;
  refresh_token : option string;
  token_uri : string;
  client_id : string;
  client_secret : string;
  scopes : list string;
}.

(** [token_info["token"] = creds.token] *)
Definition with_token (t : token_data) (tok : string) : token_data :=
  {| token := tok; refresh_token := refresh_token t; token_uri := token_uri t;
     client_id := client_id t; client_secret := client_secret t;
     scopes := scopes t |}.

(** The client configuration in the client-secrets file. *)
Record client_config := ClientConfig {
  cc_client_id : string;
  cc_client_secret : string;
  cc_auth_uri : string;
  cc_token_uri : string;
}.

(** What a file on disk holds, as the code reads it: a token document, a
    client-secrets document, or anything else. *)
Inductive file_content :=
| TokenFile (t : token_data)
| SecretsFile (c : client_config)
| Junk.

(** The in-progress authorization flow ([google_auth_oauthlib.flow.Flow]). *)
Record Flow := MkFlow { flow_client : client_config }.

(** An authenticated API client ([googleapiclient.discovery.build]). *)
Record Service := Build { svc_api : string; svc_creds : token_data }.

(** The broker object ([GmailAuth] / [CalendarAuth]); one instance is shared
    by all sessions of a process. *)
Module Broker.
Record t := Mk {
  credentials_path : string;
  tokens_path : string;
  _service : option Service;
  _flow : option Flow;
}.

Definition set_tokens_path (p : string) (a : t) : t :=
  Mk (credentials_path a) p (_service a) (_flow a).
Definition set_service (s : option Service) (a : t) : t :=
  Mk (credentials_path a) (tokens_path a) s (_flow a).
Definition set_flow (f : option Flow) (a : t) : t :=
  Mk (credentials_path a) (tokens_path a) (_service a) f.
End Broker.

(** One entry of the conversation history. *)
Record chat_entry := Entry { source : string; content : string }.

(** The per-session dict kept in agent storage.  A field is [None] when the
    key is absent.  [authenticated] is the key [gmail_authenticated] of the
    Gmail agent and [cal_authenticated] of the Calendar agent. *)
Module Session.
Record t := Mk {
  messages : option (list chat_entry);
  sender_address : option string;
  tokens_path : option string;
  token_json : option file_content;
  awaiting_auth_code : option bool;
  oauth_link_sent : option bool;
  authenticated : option bool;
  auth_code : option string;
  state : option string;
}.

(** [{}] *)
Definition empty : t := Mk None None None None None None None None None.

(** [{"messages": []}] *)
Definition fresh : t := Mk (Some []) None None None None None None None None.

Definition set_messages v (s : t) : t :=
  Mk v (sender_address s) (tokens_path s) (token_json s) (awaiting_auth_code s)
     (oauth_link_sent s) (authenticated s) (auth_code s) (state s).
Definition set_sender_address v (s : t) : t :=
  Mk (messages s) v (tokens_path s) (token_json s) (awaiting_auth_code s)
     (oauth_link_sent s) (authenticated s) (auth_code s) (state s).
Definition set_tokens_path v (s : t) : t :=
  Mk (messages s) (sender_address s) v (token_json s) (awaiting_auth_code s)
     (oauth_link_sent s) (authenticated s) (auth_code s) (state s).
Definition set_token_json v (s : t) : t :=
  Mk (messages s) (sender_address s) (tokens_path s) v (awaiting_auth_code s)
     (oauth_link_sent s) (authenticated s) (auth_code s) (state s).
Definition set_awaiting_auth_code v (s : t) : t :=
  Mk (messages s) (sender_address s) (tokens_path s) (token_json s) v
     (oauth_link_sent s) (authenticated s) (auth_code s) (state s).
Definition set_oauth_link_sent v (s : t) : t :=
  Mk (messages s) (sender_address s) (tokens_path s) (token_json s)
     (awaiting_auth_code s) v (authenticated s) (auth_code s) (state s).
Definition set_authenticated v (s : t) : t :=
  Mk (messages s) (sender_address s) (tokens_path s) (token_json s)
     (awaiting_auth_code s) (oauth_link_sent s) v (auth_code s) (state s).
Definition set_auth_code v (s : t) : t :=
  Mk (messages s) (sender_address s) (tokens_path s) (token_json s)
     (awaiting_auth_code s) (oauth_link_sent s) (authenticated s) v (state s).
Definition set_state v (s : t) : t :=
  Mk (messages s) (sender_address s) (tokens_path s) (token_json s)
     (awaiting_auth_code s) (oauth_link_sent s) (authenticated s) (auth_code s) v.

(** [bool(d.get(flag))] *)
Definition flag (o : option bool) : bool :=
  match o with Some b => b | None => false end.

(** [bool(d.get("tokens_path"))] and the like, for string values. *)
Definition str_truthy (o : option string) : bool :=
  match o with Some s => nonempty s | None => false end.
End Session.

(** The three router states of the specification, read off the flags. *)
Inductive router_state := UNAUTHENTICATED | AWAITING_CODE | AUTHENTICATED.

Definition state_of (s : Session.t) : router_state :=
  if Session.flag (Session.authenticated s) then AUTHENTICATED
  else if Session.flag (Session.awaiting_auth_code s) then AWAITING_CODE
  else UNAUTHENTICATED.

(** ** Messages *)

(** A content block of an inbound [ChatMessage]. *)
Inductive content_block :=
| TextContent (text : string)
| StartSessionContent
| EndSessionContent
| OtherContent.

(** What the agent sends: an acknowledgement or a chat message with one text
    block ([_create_chat_message(text)], [end_session] false). *)
Inductive out_msg :=
| ChatAcknowledgement
| ChatMessage (text : string).

(** The reply of the REST callback. *)
Record OAuthResponse := MkOAuthResponse { success : bool; message : string }.

(** What agent storage holds under [SESSIONS_KEY]. *)
Inductive stored :=
| NoValue
| Unparseable
| Sessions (m : gmap string Session.t).

(** ** The outside world *)

(** What FastMCP's [_mcp_call_tool] can hand back, by shape. *)
Inductive mcp_result :=
| Blocks (texts : list jtext)          (* a list of content blocks with [.text] *)
| Block (text : jtext)                 (* one object with [.text] *)
| WithStructured (texts : list jtext) (structured : json)
                                       (* the tuple (content blocks, dict) *)
| Structured (j : json)                (* a dict or a list of plain values *)
| Plain (str : jtext).                 (* anything else, given as [str(result)] *)

(** One parsed event of the OpenAI response stream. *)
Inductive event :=
| Delta (text : string)
| ToolCall (calls : list (string * jtext))
| OtherEvent.

(** The configuration of a process and the oracles for what lies outside
    the repository:
    - [TOKENS_PATH], [tokens_dir], [MAX_HISTORY], [SYSTEM_PROMPT]: the module
      constants [TOKENS_PATH], [GMAIL_TOKENS_DIR] / [CAL_TOKENS_DIR],
      [MAX_HISTORY] and [_SYSTEM_PROMPT];
    - [authorization_url fl state]: the URL of
      [Flow.authorization_url(prompt="consent", state=state)], where the
      library generates the state when none is given;
    - [fetch_token fl code]: [Flow.fetch_token(code=code)] followed by
      [Flow.credentials];
    - [expired], [refresh]: [Credentials.expired] and the access token after
      [Credentials.refresh];
    - [api_execute name args svc]: what the body of the credentialed tool
      [name] returns once it holds the service (the Google API requests and
      the formatting of their answers), or the exception it raises;
    - [uuid4 n]: the [n]-th value of [uuid4()];
    - [repr_json v]: [str(v)] for a value that is not a string;
    - [valid_args name args]: whether FastMCP accepts [args] for the
      credentialed tool [name];
    - [leaked_tool_calls], [leaked_parallel_calls]: the tool calls that the
      fallback of [handle_chat_message] recovers from a reply by its two
      regular-expression searches (each call is a name and its parameters,
      or the exception raised while reading it). *)
Record Env := MkEnv {
  TOKENS_PATH : string;
  tokens_dir : string;
  MAX_HISTORY : nat;
  SYSTEM_PROMPT : string;
  authorization_url : Flow -> option string -> string;
  fetch_token : Flow -> string -> outcome token_data;
  expired : token_data -> bool;
  refresh : token_data -> outcome string;
  api_execute : string -> json -> Service -> outcome json;
  uuid4 : nat -> string;
  repr_json : json -> string;
  valid_args : string -> json -> bool;
  leaked_tool_calls : string -> list (outcome (string * json));
  leaked_parallel_calls : string -> option (list (outcome (string * json)));
}.

(** One entry of the dispatch log: the tool, its arguments, and the
    authentication flag of the session in [CURRENT_SESSION_DATA] when
    [_mcp_call_tool] was entered. *)
Record dispatch := Dispatch {
  d_tool : string;
  d_args : json;
  d_authenticated : bool;
}.

(** The state the handlers run in.  [mcp_faults] and [llm_tape] are oracle
    tapes: each call of [_mcp_call_tool] consumes one entry of [mcp_faults]
    ([Some e]: the call raises [e] before the tool runs), each request to the
    OpenAI stream consumes one entry of [llm_tape].  [tool_log], [api_log]
    and [sleep_log] only record what happened: the tool calls dispatched,
    the credentialed tool bodies run, the delays slept (in milliseconds). *)
Record World := MkWorld {
  fs : gmap string file_content;
  auth : Broker.t;
  CURRENT_SESSION_DATA : option Session.t;
  storage : stored;
  outbox : list (string * out_msg);
  mcp_faults : list (option exn);
  llm_tape : list (outcome (list event));
  uuid_count : nat;
  tool_log : list dispatch;
  api_log : list (string * json);
  sleep_log : list nat;
}.

Definition set_fs v (w : World) : World :=
  MkWorld v (auth w) (CURRENT_SESSION_DATA w) (storage w) (outbox w) (mcp_faults w) (llm_tape w) (uuid_count w) (tool_log w) (api_log w) (sleep_log w).
Definition set_auth v (w : World) : World :=
  MkWorld (fs w) v (CURRENT_SESSION_DATA w) (storage w) (outbox w) (mcp_faults w) (llm_tape w) (uuid_count w) (tool_log w) (api_log w) (sleep_log w).
Definition set_ctx v (w : World) : World :=
  MkWorld (fs w) (auth w) v (storage w) (outbox w) (mcp_faults w) (llm_tape w) (uuid_count w) (tool_log w) (api_log w) (sleep_log w).
Definition set_storage v (w : World) : World :=
  MkWorld (fs w) (auth w) (CURRENT_SESSION_DATA w) v (outbox w) (mcp_faults w) (llm_tape w) (uuid_count w) (tool_log w) (api_log w) (sleep_log w).
Definition set_outbox v (w : World) : World :=
  MkWorld (fs w) (auth w) (CURRENT_SESSION_DATA w) (storage w) v (mcp_faults w) (llm_tape w) (uuid_count w) (tool_log w) (api_log w) (sleep_log w).
Definition set_mcp_faults v (w : World) : World :=
  MkWorld (fs w) (auth w) (CURRENT_SESSION_DATA w) (storage w) (outbox w) v (llm_tape w) (uuid_count w) (tool_log w) (api_log w) (sleep_log w).
Definition set_llm_tape v (w : World) : World :=
  MkWorld (fs w) (auth w) (CURRENT_SESSION_DATA w) (storage w) (outbox w) (mcp_faults w) v (uuid_count w) (tool_log w) (api_log w) (sleep_log w).
Definition set_uuid_count v (w : World) : World :=
  MkWorld (fs w) (auth w) (CURRENT_SESSION_DATA w) (storage w) (outbox w) (mcp_faults w) (llm_tape w) v (tool_log w) (api_log w) (sleep_log w).
Definition set_tool_log v (w : World) : World :=
  MkWorld (fs w) (auth w) (CURRENT_SESSION_DATA w) (storage w) (outbox w) (mcp_faults w) (llm_tape w) (uuid_count w) v (api_log w) (sleep_log w).
Definition set_api_log v (w : World) : World :=
  MkWorld (fs w) (auth w) (CURRENT_SESSION_DATA w) (storage w) (outbox w) (mcp_faults w) (llm_tape w) (uuid_count w) (tool_log w) v (sleep_log w).
Definition set_sleep_log v (w : World) : World :=
  MkWorld (fs w) (auth w) (CURRENT_SESSION_DATA w) (storage w) (outbox w) (mcp_faults w) (llm_tape w) (uuid_count w) (tool_log w) (api_log w) v.

(** ** The state-and-exception monad *)

Definition M (A : Type) : Type := World -> outcome A * World.

Definition ret {A} (a : A) : M A := fun w => (Ret a, w).
Definition raise {A} (e : exn) : M A := fun w => (Raise e, w).

Definition bind {A B} (m : M A) (k : A -> M B) : M B :=
  fun w => match m w with
           | (Ret a, w') => k a w'
           | (Raise e, w') => (Raise e, w')
           end.

Declare Scope py_scope.
Delimit Scope py_scope with py.
Notation "x <- m ; k" := (bind m (fun x => k))
  (at level 20, m at level 100, k at level 200, only parsing) : py_scope.
Notation "m ;; k" := (bind m (fun _ => k))
  (at level 100, k at level 200, only parsing, right associativity) : py_scope.
Open Scope py_scope.

(** [try: m  except Exception as e: h e] *)
Definition try_except {A} (m : M A) (h : exn -> M A) : M A :=
  fun w => match m w with
           | (Ret a, w') => (Ret a, w')
           | (Raise e, w') => h e w'
           end.

(** [try: m  except cls as e: h e] *)
Definition try_except_cls {A} (cls : exn_class) (m : M A) (h : exn -> M A) : M A :=
  fun w => match m w with
           | (Ret a, w') => (Ret a, w')
           | (Raise e, w') =>
               if exn_class_eqb (exn_cls e) cls then h e w' else (Raise e, w')
           end.

(** [try: m  finally: f] *)
Definition finally {A} (m : M A) (f : M unit) : M A :=
  fun w => match m w with
           | (r, w') =>
               match f w' with
               | (Ret _, w'') => (r, w'')
               | (Raise e, w'') => (Raise e, w'')
               end
           end.

Definition lift {A} (o : outcome A) : M A := fun w => (o, w).
Definition gets {A} (f : World -> A) : M A := fun w => (Ret (f w), w).
Definition modify (f : World -> World) : M unit := fun w => (Ret tt, f w).
Definition when (b : bool) (m : M unit) : M unit := if b then m else ret tt.

(** *** Files *)

(** The files are those of a process that may read and write its working
    directory: [fs] maps a path to what the file holds, every directory
    exists ([mkdir(exist_ok=True)] changes nothing), a write always
    succeeds and a removal fails only for a missing file.  What the code
    does when the operating system refuses a write or a removal (no
    permission, a directory in the way, a full disk) is not modelled. *)

(** [os.path.exists(p)] *)
Definition path_exists (p : string) : M bool :=
  gets (fun w => bool_decide (is_Some (fs w !! p))).

(** [open(p, "w")] followed by [json.dump(..., f)] *)
Definition write_file (p : string) (c : file_content) : M unit :=
  modify (fun w => set_fs (<[p := c]> (fs w)) w).

Definition no_such_file (p : string) : exn :=
  Exn FileNotFoundError ("[Errno 2] No such file or directory: '" +:+ p +:+ "'").

(** [open(p, "r")] *)
Definition read_file (p : string) : M file_content :=
  fun w => match fs w !! p with
           | Some c => (Ret c, w)
           | None => (Raise (no_such_file p), w)
           end.

(** [os.remove(p)] *)
Definition remove_file (p : string) : M unit :=
  fun w => match fs w !! p with
           | Some _ => (Ret tt, set_fs (delete p (fs w)) w)
           | None => (Raise (no_such_file p), w)
           end.

(** [json.load(f)] of a token file followed by the
    [token_info["token"]] ... lookups of [get_service]. *)
Definition load_token_info (c : file_content) : outcome token_data :=
  match c with
  | TokenFile t => Ret t
  | SecretsFile _ => Raise (Exn KeyError "'token'")
  | Junk => Raise (Exn ValueError "Expecting value: line 1 column 1 (char 0)")
  end.

(** [json.load(f)] where the document is kept as it is. *)
Definition load_json_file (c : file_content) : outcome file_content :=
  match c with
  | Junk => Raise (Exn ValueError "Expecting value: line 1 column 1 (char 0)")
  | _ => Ret c
  end.

(** *** Broker and context variable accessors *)

Definition get_auth : M Broker.t := gets auth.
Definition modify_auth (f : Broker.t -> Broker.t) : M unit :=
  modify (fun w => set_auth (f (auth w)) w).

(** [pathlib.Path(dir) / f"oauth_tokens_{name}.json"] as a string. *)
Definition token_file_for (E : Env) (name : string) : string :=
  tokens_dir E +:+ "/oauth_tokens_" +:+ name +:+ ".json".

(** [uuid4()] *)
Definition fresh_uuid (E : Env) : M string :=
  fun w => (Ret (uuid4 E (uuid_count w)), set_uuid_count (S (uuid_count w)) w).

(** [ctx.send(to, msg)] *)
Definition send (to : string) (m : out_msg) : M unit :=
  modify (fun w => set_outbox (outbox w ++ [(to, m)]) w).

(** [Flow.from_client_secrets_file(path, ...)]: opens and parses the
    client-secrets file. *)
Definition from_client_secrets_file (path : string) : M Flow :=
  c <- read_file path;
  match c with
  | SecretsFile cfg => ret (MkFlow cfg)
  | _ => raise (Exn ValueError "Client secrets must be for a web or installed app.")
  end.

(** The part of a credentialed tool that follows [get_service]: the Google
    API requests and the formatting of the reply, as one oracle
    ([api_execute]); the call is recorded in [api_log]. *)
Definition run_with_service (E : Env) (name : string) (args : json)
    (svc : Service) : M jtext :=
  modify (fun w => set_api_log (api_log w ++ [(name, args)]) w);;
  r <- lift (api_execute E name args svc);
  ret (json_dumps r).

(** [except Exception as e: return json.dumps({"success": False, "error": str(e)})] *)
Definition or_failure (m : M jtext) : M jtext :=
  try_except m (fun e => ret (json_dumps (failure (exn_str e)))).

(** An optional string argument of a tool call. *)
Definition opt_str_arg (args : json) (k : string) : outcome (option string) :=
  match args with
  | JObj kv =>
      match assoc k kv with
      | None | Some JNull => Ret None
      | Some (JStr s) => Ret (Some s)
      | Some _ => Raise (Exn ToolError ("Input validation error: " +:+ k))
      end
  | _ => Raise (Exn ToolError "Input validation error")
  end.

(** A required string argument of a tool call. *)
Definition str_arg (args : json) (k : string) : outcome string :=
  match args with
  | JObj kv =>
      match assoc k kv with
      | Some (JStr s) => Ret s
      | _ => Raise (Exn ToolError ("Input validation error: " +:+ k))
      end
  | _ => Raise (Exn ToolError "Input validation error")
  end.

(** ** gmail_chat_uagent/server.py *)

Module GmailServer.

(** [GmailAuth.get_oauth_url] *)
Definition get_oauth_url (E : Env) (session_id : option string) : M string :=
  a <- get_auth;
  ex <- path_exists (Broker.credentials_path a);
  if negb ex then
    raise (Exn FileNotFoundError
             ("Google OAuth client secrets not found at "
                +:+ Broker.credentials_path a +:+ "."))
  else
    fl <- from_client_secrets_file (Broker.credentials_path a);
    modify_auth (Broker.set_flow (Some fl));;
    if Session.str_truthy session_id
    then ret (authorization_url E fl session_id)
    else ret (authorization_url E fl None).

(** [GmailAuth.exchange_code_for_token] *)
Definition exchange_code_for_token (E : Env) (auth_code : string) : M bool :=
  a <- get_auth;
  match Broker._flow a with
  | None =>
      raise (Exn RuntimeError "OAuth flow not initialised. Call get_oauth_url first.")
  | Some fl =>
      creds <- lift (fetch_token E fl auth_code);
      write_file (Broker.tokens_path a) (TokenFile creds);;
      ret true
  end.

(** [GmailAuth.get_service] *)
Definition get_service (E : Env) : M Service :=
  a <- get_auth;
  match Broker._service a with
  | Some svc => ret svc
  | None =>
      ex <- path_exists (Broker.tokens_path a);
      if negb ex then
        raise (Exn RuntimeError
                 "Not authenticated – run setup_oauth/complete_oauth first.")
      else
        c <- read_file (Broker.tokens_path a);
        token_info <- lift (load_token_info c);
        creds <-
          (if expired E token_info
              && Session.str_truthy (refresh_token token_info)
           then
             tok <- lift (refresh E token_info);
             write_file (Broker.tokens_path a)
                        (TokenFile (with_token token_info tok));;
             ret (with_token token_info tok)
           else ret token_info);
        modify_auth (Broker.set_service (Some (Build "gmail" creds)));;
        ret (Build "gmail" creds)
  end.

(** [setup_oauth] *)
Definition setup_oauth (E : Env) (session_id : option string) : M jtext :=
  or_failure
    (url <- get_oauth_url E session_id;
     ret (json_dumps (JObj [("success", JBool true); ("auth_url", JStr url)]))).

(** [complete_oauth] *)
Definition complete_oauth (E : Env) (auth_code : string) : M jtext :=
  or_failure
    (exchange_code_for_token E auth_code;;
     ret (json_dumps (JObj [("success", JBool true)]))).

(** [json.load(f).get("scopes", [])] *)
Definition load_scopes (c : file_content) : outcome (list string) :=
  match c with
  | TokenFile t => Ret (scopes t)
  | SecretsFile _ => Ret []
  | Junk => Raise (Exn ValueError "Expecting value: line 1 column 1 (char 0)")
  end.

(** [check_auth_status] *)
Definition check_auth_status (E : Env) : M jtext :=
  a <- get_auth;
  let token_file := Broker.tokens_path a in
  ex <- path_exists token_file;
  if nonempty token_file && ex then
    try_except
      (c <- read_file token_file;
       scs <- lift (load_scopes c);
       get_service E;;
       ret (json_dumps (JObj [("success", JBool true);
                              ("authenticated", JBool true);
                              ("scopes", JArr (JStr <$> scs))])))
      (fun e => ret (json_dumps (JObj [("success", JBool false);
                                       ("authenticated", JBool false);
                                       ("error", JStr (exn_str e))])))
  else
    ret (json_dumps (JObj [("success", JBool true);
                           ("authenticated", JBool false)])).

(** [reset_oauth_tokens]: the one tool without [try]/[except]; what
    [os.remove] raises would escape it. *)
Definition reset_oauth_tokens (E : Env) : M jtext :=
  ex <- path_exists (TOKENS_PATH E);
  if ex then
    remove_file (TOKENS_PATH E);;
    modify_auth (Broker.set_service None);;
    ret (json_dumps (JObj [("success", JBool true)]))
  else ret (json_dumps (failure "No token file")).

(** [send_email], [list_emails], [read_email], [delete_email],
    [delete_last_sent_email], [get_profile]: each obtains the service
    first and turns any exception into a failure payload. *)
Definition credentialed_tool (E : Env) (name : string) (args : json) : M jtext :=
  or_failure (svc <- get_service E; run_with_service E name args svc).

Definition credentialed_tools : list string :=
  ["send_email"; "list_emails"; "read_email"; "delete_email";
   "delete_last_sent_email"; "get_profile"].

(** The tool registry of the FastMCP instance: the body run for a tool
    name, after FastMCP validated the arguments. *)
Definition call_tool (E : Env) (name : string) (args : json) : M jtext :=
  if String.eqb name "setup_oauth" then
    sid <- lift (opt_str_arg args "session_id"); setup_oauth E sid
  else if String.eqb name "complete_oauth" then
    code <- lift (str_arg args "auth_code"); complete_oauth E code
  else if String.eqb name "check_auth_status" then check_auth_status E
  else if String.eqb name "reset_oauth_tokens" then reset_oauth_tokens E
  else if bool_decide (name ∈ credentialed_tools) then
    if valid_args E name args then credentialed_tool E name args
    else raise (Exn ToolError ("Input validation error: " +:+ name))
  else raise (Exn ToolError ("Unknown tool: " +:+ name)).

End GmailServer.

(** ** calendar_chat_uagent/server.py *)

Module CalendarServer.

(** [CalendarAuth.get_oauth_url] *)
Definition get_oauth_url (E : Env) (session_id : option string) : M string :=
  a <- get_auth;
  fl <- from_client_secrets_file (Broker.credentials_path a);
  modify_auth (Broker.set_flow (Some fl));;
  ret (authorization_url E fl session_id).

(** [CalendarAuth.exchange_code_for_token] *)
Definition exchange_code_for_token (E : Env) (code : string) : M unit :=
  a <- get_auth;
  match Broker._flow a with
  | None =>
      raise (Exn RuntimeError "OAuth flow not initialised. Call get_oauth_url first.")
  | Some fl =>
      creds <- lift (fetch_token E fl code);
      write_file (Broker.tokens_path a) (TokenFile creds)
  end.

(** [CalendarAuth.service] *)
Definition service (E : Env) : M Service :=
  a <- get_auth;
  match Broker._service a with
  | Some svc => ret svc
  | None =>
      ex <- path_exists (Broker.tokens_path a);
      if negb ex then
        raise (Exn RuntimeError "Not authenticated – run setup_oauth first.")
      else
        c <- read_file (Broker.tokens_path a);
        data <- lift (load_token_info c);
        creds <-
          (if expired E data && Session.str_truthy (refresh_token data)
           then
             tok <- lift (refresh E data);
             write_file (Broker.tokens_path a) (TokenFile (with_token data tok));;
             ret (with_token data tok)
           else ret data);
        modify_auth (Broker.set_service (Some (Build "calendar" creds)));;
        ret (Build "calendar" creds)
  end.

(** [setup_oauth] *)
Definition setup_oauth (E : Env) (session_id : option string) : M jtext :=
  or_failure
    (url <- get_oauth_url E session_id;
     ret (json_dumps (JObj [("success", JBool true); ("auth_url", JStr url)]))).

(** [complete_oauth] *)
Definition complete_oauth (E : Env) (auth_code : string) : M jtext :=
  or_failure
    (exchange_code_for_token E auth_code;;
     ret (json_dumps (JObj [("success", JBool true)]))).

(** [check_auth_status] *)
Definition check_auth_status : M jtext :=
  a <- get_auth;
  ok <- path_exists (Broker.tokens_path a);
  ret (json_dumps (JObj [("success", JBool true); ("authenticated", JBool ok)])).

(** [list_calendars], [list_events], [create_event], [search_events],
    [get_free_busy]: obtain the service, then call the API. *)
Definition credentialed_tool (E : Env) (name : string) (args : json) : M jtext :=
  or_failure (svc <- service E; run_with_service E name args svc).

(** [update_event], [delete_event]: [event_id] is checked before the
    service is obtained. *)
Definition event_tool (E : Env) (name : string) (args : json) : M jtext :=
  or_failure
    (event_id <- lift (opt_str_arg args "event_id");
     if negb (Session.str_truthy event_id)
     then raise (Exn ValueError "event_id is required")
     else svc <- service E; run_with_service E name args svc).

Definition credentialed_tools : list string :=
  ["list_calendars"; "list_events"; "create_event"; "search_events";
   "get_free_busy"].

Definition event_tools : list string := ["update_event"; "delete_event"].

Definition call_tool (E : Env) (name : string) (args : json) : M jtext :=
  if String.eqb name "setup_oauth" then
    sid <- lift (opt_str_arg args "session_id"); setup_oauth E sid
  else if String.eqb name "complete_oauth" then
    code <- lift (str_arg args "auth_code"); complete_oauth E code
  else if String.eqb name "check_auth_status" then check_auth_status
  else if bool_decide (name ∈ credentialed_tools) then
    if valid_args E name args then credentialed_tool E name args
    else raise (Exn ToolError ("Input validation error: " +:+ name))
  else if bool_decide (name ∈ event_tools) then
    if valid_args E name args then event_tool E name args
    else raise (Exn ToolError ("Input validation error: " +:+ name))
  else raise (Exn ToolError ("Unknown tool: " +:+ name)).

End CalendarServer.

(** ** The tool invoker (gmail_chat_proto.py, calendar_chat_proto.py) *)

(** [_unwrap]: normalises the result shapes to one text.  A tuple is
    replaced by its first component, the list of content blocks; an empty
    list is dumped as JSON. *)
Definition _unwrap (result : mcp_result) : jtext :=
  match result with
  | WithStructured (t :: _) _ | Blocks (t :: _) => t
  | WithStructured [] _ | Blocks [] => json_dumps (JArr [])
  | Block t => t
  | Structured j => json_dumps j
  | Plain s => s
  end.

(** The authentication flag of the session in the context variable. *)
Definition current_flag (w : World) : bool :=
  match CURRENT_SESSION_DATA w with
  | Some s => Session.flag (Session.authenticated s)
  | None => false
  end.

(** [mcp._mcp_call_tool(fn_name, args)]: the call is logged, may fail
    before the tool runs (the fault tape), and otherwise runs the tool of
    the registry and wraps its text in one content block. *)
Definition _mcp_call_tool (call_tool : string -> json -> M jtext)
    (fn_name : string) (args : json) : M mcp_result :=
  modify (fun w =>
            set_tool_log (tool_log w ++ [Dispatch fn_name args (current_flag w)]) w);;
  fault <- (fun w => match mcp_faults w with
                     | [] => (Ret None, w)
                     | f :: rest => (Ret f, set_mcp_faults rest w)
                     end);
  match fault with
  | Some e => raise e
  | None => t <- call_tool fn_name args; ret (Blocks [t])
  end.

(** [session_ctx[...] = v]: [session_ctx] is the dict held by the context
    variable, or a local [{}] when the variable is unset. *)
Definition update_session_ctx (f : Session.t -> Session.t) : M unit :=
  modify (fun w => match CURRENT_SESSION_DATA w with
                   | Some s => set_ctx (Some (f s)) w
                   | None => w
                   end).

(** [CURRENT_SESSION_DATA.get()] with [{}] on [LookupError]. *)
Definition get_session_ctx : M Session.t :=
  gets (fun w => default Session.empty (CURRENT_SESSION_DATA w)).

(** [await asyncio.sleep(0.5)] *)
Definition sleep_half_second : M unit :=
  modify (fun w => set_sleep_log (sleep_log w ++ [500]) w).

(** The clean-up that follows every exit of the retry loop:
    [if temp_created and tokens_path and os.path.exists(tokens_path):
       try: os.remove(tokens_path) except Exception: pass] *)
Definition cleanup_temp (temp_created : bool) (tokens_path : option string) : M unit :=
  match tokens_path with
  | Some p =>
      if temp_created && nonempty p then
        ex <- path_exists p;
        when ex (try_except (remove_file p) (fun _ => ret tt))
      else ret tt
  | None => ret tt
  end.

(** [for attempt in range(2): try: ... except Exception as e: ...] and the
    fall-through after the loop. *)
Fixpoint retry_loop (call_once : M mcp_result) (temp_created : bool)
    (tokens_path : option string) (attempts : list nat) : M jtext :=
  match attempts with
  | [] =>
      cleanup_temp temp_created tokens_path;;
      ret (json_dumps (failure "Unknown tool failure"))
  | attempt :: rest =>
      try_except
        (result <- call_once;
         let out := _unwrap result in
         cleanup_temp temp_created tokens_path;;
         ret out)
        (fun e =>
           if (attempt =? 0)%nat then
             sleep_half_second;;
             retry_loop call_once temp_created tokens_path rest
           else
             cleanup_temp temp_created tokens_path;;
             ret (json_dumps (failure (exn_str e))))
  end.

(** [range(2)] *)
Definition range2 : list nat := [0; 1]%nat.

(** A fresh temporary token file, or the session's own path:
    [tokens_path or tokens_dir / f"oauth_tokens_{uuid4()}.json"]. *)
Definition path_or_fresh (E : Env) (tokens_path : option string) : M string :=
  match tokens_path with
  | Some p => if nonempty p then ret p
              else u <- fresh_uuid E; ret (token_file_for E u)
  | None => u <- fresh_uuid E; ret (token_file_for E u)
  end.

(** [os.path.exists(tokens_path)] for an optional path. *)
Definition opt_path_exists (tokens_path : option string) : M bool :=
  match tokens_path with
  | Some p => path_exists p
  | None => ret false
  end.

(** [auth.tokens_path = str(tokens_path); auth._service = None] *)
Definition point_broker_at (p : string) : M unit :=
  modify_auth (Broker.set_tokens_path p);;
  modify_auth (Broker.set_service None).

(** *** The OpenAI Responses stream *)

(** The line feed of ["\n".join(...)] and of the reply texts. *)
Definition nl : string := String (ascii_of_nat 10) EmptyString.

(** [sep.join(l)] *)
Fixpoint join (sep : string) (l : list string) : string :=
  match l with
  | [] => EmptyString
  | [x] => x
  | x :: rest => x +:+ sep +:+ join sep rest
  end.

(** [l[-k:]] *)
Definition last_n {A} (k : nat) (l : list A) : list A :=
  if (k =? 0)%nat then l else drop (length l - k) l.

(** One request to [https://api.openai.com/v1/responses]: the events of the
    stream, or the exception the HTTP client raises. *)
Definition next_stream : M (list event) :=
  fun w => match llm_tape w with
           | [] => (Ret [], w)
           | o :: rest => (o, set_llm_tape rest w)
           end.

(** [for call in pending: ... out = await run_tool(fn, args_dict)] *)
Fixpoint run_calls (run_tool : string -> json -> M jtext)
    (calls : list (string * jtext)) : M unit :=
  match calls with
  | [] => ret tt
  | (fn, args_json) :: rest =>
      args_dict <- lift (json_loads args_json);
      run_tool fn args_dict;;
      run_calls run_tool rest
  end.

(** [async for raw in stream.aiter_lines(): ...]: collects the text deltas
    up to the first [tool_call] event, whose calls it runs before leaving
    the stream ([break]).  The boolean tells whether it left by [break]. *)
Fixpoint consume_stream (run_tool : string -> json -> M jtext)
    (events : list event) (chunks : list string) : M (list string * bool) :=
  match events with
  | [] => ret (chunks, false)
  | Delta text :: rest => consume_stream run_tool rest (chunks ++ [text])
  | ToolCall calls :: _ => run_calls run_tool calls;; ret (chunks, true)
  | OtherEvent :: rest => consume_stream run_tool rest chunks
  end.

(** [for hop in range(hops): ... else: on_limit] *)
Fixpoint hop_loop (run_tool : string -> json -> M jtext) (on_limit : M string)
    (hops : nat) (chunks : list string) : M string :=
  match hops with
  | O => on_limit
  | S hops' =>
      events <- next_stream;
      r <- consume_stream run_tool events chunks;
      if snd r then hop_loop run_tool on_limit hops' (fst r)
      else ret (strip (join EmptyString (fst r)))
  end.

(** [for c in calls: ... out = await run_tool(name, params)] over the tool
    calls recovered from a reply that leaked them as text. *)
Fixpoint run_leaked (run_tool : string -> json -> M jtext)
    (calls : list (outcome (string * json))) : M unit :=
  match calls with
  | [] => ret tt
  | c :: rest =>
      np <- lift c;
      run_tool (fst np) (snd np);;
      run_leaked run_tool rest
  end.

(** [sessions = json.loads(ctx.storage.get(SESSIONS_KEY) or "{}")], with
    [{}] when that fails. *)
Definition load_sessions : M (gmap string Session.t) :=
  gets (fun w => match storage w with
                 | Sessions m => m
                 | _ => ∅
                 end).

(** [sessions[session_id] = session_data;
     ctx.storage.set(SESSIONS_KEY, json.dumps(sessions))] *)
Definition store_session (sessions : gmap string Session.t) (session_id : string)
    (session_data : Session.t) : M unit :=
  modify (set_storage (Sessions (<[session_id := session_data]> sessions))).

(** [[b.text.strip() for b in msg.content if isinstance(b, TextContent)]] *)
Definition texts_of (msg : list content_block) : list string :=
  omap (fun b => match b with
                 | TextContent text => Some (strip text)
                 | _ => None
                 end) msg.

(** [any(isinstance(b, StartSessionContent) for b in msg.content)] *)
Definition has_start (msg : list content_block) : bool :=
  existsb (fun b => match b with StartSessionContent => true | _ => false end) msg.

(** The value of an f-string field: [str(v)]. *)
Definition format_json (E : Env) (v : json) : string :=
  match v with
  | JStr s => s
  | _ => repr_json E v
  end.

Module GmailProto.

(** The first part of [_run_gmail_tool], up to the retry loop: recreates
    the token file from the in-memory token JSON when needed and points
    the shared broker at the session's token file.  Returns
    [(tokens_path, temp_created)].  It runs outside the [try] of the loop;
    on the files modelled here its [mkdir], [open] and [json.dump] succeed. *)
Definition prepare_tokens (E : Env) : M (option string * bool) :=
  session_ctx <- get_session_ctx;
  let tokens_path := Session.tokens_path session_ctx in
  let token_json := Session.token_json session_ctx in
  ex <- opt_path_exists tokens_path;
  prep <-
    (match token_json with
     | Some tj =>
         if negb (Session.str_truthy tokens_path) || negb ex then
           p <- path_or_fresh E tokens_path;
           write_file p tj;;
           update_session_ctx (Session.set_tokens_path (Some p));;
           ret (Some p, true)
         else ret (tokens_path, false)
     | None => ret (tokens_path, false)
     end);
  a <- get_auth;
  (match fst prep with
   | Some p =>
       when (nonempty p && negb (String.eqb (Broker.tokens_path a) p))
            (point_broker_at p)
   | None => ret tt
   end);;
  ret prep.

(** [_call_once] *)
Definition _call_once (E : Env) (fn_name : string) (args : json) : M mcp_result :=
  _mcp_call_tool (GmailServer.call_tool E) fn_name args.

(** [_run_gmail_tool] *)
Definition _run_gmail_tool (E : Env) (fn_name : string) (args : json) : M jtext :=
  prep <- prepare_tokens E;
  retry_loop (_call_once E fn_name args) (snd prep) (fst prep) range2.


(** [_call_openai_responses]; [messages] goes into the request only. *)
Definition _call_openai_responses (E : Env) (messages : list (string * string))
    : M string :=
  hop_loop (_run_gmail_tool E)
           (raise (Exn RuntimeError
                     "Streaming run exceeded hop limit – possible tool loop?"))
           10 [].

(** The session dict of the running handler is the dict in the context
    variable: [session_data[k] = v] and [session_data.pop(k, None)]. *)
Definition session_data : M Session.t := get_session_ctx.
Definition update := update_session_ctx.

(** [sessions[session_id] = session_data; ctx.storage.set(...)] *)
Definition persist (sessions : gmap string Session.t) (session_id : string) : M unit :=
  sd <- session_data;
  store_session sessions session_id sd.

(** Step 0 of [handle_chat_message]: when the session claims to be
    authenticated, check it with the [check_auth_status] tool. *)
Definition revalidate (E : Env) : M unit :=
  sd <- session_data;
  (match Session.tokens_path sd with
   | Some p => when (nonempty p) (point_broker_at p)
   | None => ret tt
   end);;
  try_except
    (status_raw <- _run_gmail_tool E "check_auth_status" (JObj []);
     status <- lift (json_loads status_raw);
     a <- lift (get status "authenticated");
     when (negb (truthy_opt a)) (update (Session.set_authenticated (Some false))))
    (fun _ => update (Session.set_authenticated (Some false))).

Definition auth_success_text : string :=
  "✅ Authentication successful! You can now ask me to read, send or manage your Gmail messages.".

(** The branch [if auth_code:] of the authentication workflow. *)
Definition complete_flow (E : Env) (sessions : gmap string Session.t)
    (session_id sender auth_code : string) : M unit :=
  let tokens_path := token_file_for E session_id in
  update (Session.set_tokens_path (Some tokens_path));;
  update (Session.set_auth_code (Some auth_code));;
  point_broker_at tokens_path;;
  parsed <-
    try_except_cls RuntimeError
      (result <- _run_gmail_tool E "complete_oauth" (JObj [("auth_code", JStr auth_code)]);
       lift (json_loads result))
      (fun _ =>
         update (Session.set_awaiting_auth_code None);;
         ret (failure "OAuth flow reset. Please authorise again."));
  ok <- lift (get parsed "success");
  reply <-
    (if truthy_opt ok then
       update (Session.set_authenticated (Some true));;
       update (Session.set_awaiting_auth_code None);;
       update (Session.set_oauth_link_sent None);;
       try_except
         (c <- read_file tokens_path;
          token_obj <- lift (load_json_file c);
          update (Session.set_token_json (Some token_obj));;
          try_except_cls FileNotFoundError (remove_file tokens_path)
                         (fun _ => ret tt))
         (fun _ => ret tt);;
       ret auth_success_text
     else
       update (Session.set_awaiting_auth_code None);;
       err <- lift (get parsed "error");
       ret ("❌ Authentication failed: "
              +:+ format_json E (default (JStr "unknown error") err)
              +:+ ". Please try again."));
  send sender (ChatMessage reply);;
  persist sessions session_id.

Definition reminder_text : string :=
  "⚠️ I'm still waiting for the Google authorisation to complete. "
    +:+ "Please click the Authorise Gmail link I sent above and grant access.".

(** The text that carries the authorization link. *)
Definition link_reply (auth_url : string) : string :=
  "Click the **Authorize Gmail** link below." +:+ nl
    +:+ "A browser tab will open – sign in & grant access." +:+ nl
    +:+ "Once authorised, please send me your query." +:+ nl +:+ nl
    +:+ "[Authorize Gmail](" +:+ auth_url +:+ ")".

(** [if "state=" not in auth_url: auth_url = f"{auth_url}{sep}state={state_val}"] *)
Definition attach_state (auth_url state_val : string) : string :=
  if negb (contains "state=" auth_url) then
    let sep := if contains "?" auth_url then "&" else "?" in
    auth_url +:+ sep +:+ "state=" +:+ state_val
  else auth_url.

(** The [try] block of "Not authenticated & not waiting – start OAuth":
    [None] when the handler returned from inside it, otherwise the link. *)
Definition request_link (E : Env) (session_id sender : string) : M (option string) :=
  try_except
    (oauth_json <- _run_gmail_tool E "setup_oauth" (JObj [("session_id", JStr session_id)]);
     oauth_data <- lift (json_loads oauth_json);
     ok <- lift (get oauth_data "success");
     if negb (truthy_opt ok) then
       err <- lift (get oauth_data "error");
       let err_msg := default (JStr "Unknown error during OAuth setup") err in
       send sender (ChatMessage ("❌ Authentication setup failed: " +:+ format_json E err_msg));;
       ret None
     else
       u <- lift (get oauth_data "auth_url");
       auth_url <- (match default (JStr "") u with
                    | JStr url => ret url
                    | _ => raise (Exn OtherException
                                    "argument of type is not iterable")
                    end);
       let state_val := session_id in
       let auth_url := attach_state auth_url state_val in
       update (Session.set_state (Some state_val));;
       update (Session.set_awaiting_auth_code (Some true));;
       update (Session.set_oauth_link_sent (Some true));;
       ret (Some auth_url))
    (fun oauth_err =>
       send sender (ChatMessage ("❌ Authentication setup failed: " +:+ exn_str oauth_err));;
       ret None).

(** "Not authenticated & not waiting – start OAuth". *)
Definition start_oauth (E : Env) (sessions : gmap string Session.t)
    (session_id sender : string) : M unit :=
  r <- request_link E session_id sender;
  match r with
  | None => ret tt
  | Some auth_url =>
      send sender (ChatMessage (link_reply auth_url));;
      persist sessions session_id
  end.

(** [possible if possible.startswith("4/") else None], for a session that
    awaits the code and a message with text. *)
Definition code_of (awaiting : bool) (inbound_texts : list string) : option string :=
  if awaiting then
    match inbound_texts with
    | possible :: _ => if startswith "4/" possible then Some possible else None
    | [] => None
    end
  else None.

(** Step 1 of [handle_chat_message]: the branch
    [if not session_data.get("gmail_authenticated"):]. *)
Definition auth_workflow (E : Env) (sessions : gmap string Session.t)
    (session_id sender : string) (inbound_texts : list string) : M unit :=
  sd <- session_data;
  if Session.flag (Session.oauth_link_sent sd)
     && negb (Session.flag (Session.awaiting_auth_code sd))
  then ret tt
  else
    match code_of (Session.flag (Session.awaiting_auth_code sd)) inbound_texts with
    | Some auth_code => complete_flow E sessions session_id sender auth_code
    | None =>
        if Session.flag (Session.awaiting_auth_code sd) then
          send sender (ChatMessage reminder_text);;
          persist sessions session_id
        else start_oauth E sessions session_id sender
    end.

(** [_to_openai] *)
Definition _to_openai (m : chat_entry) : string * string :=
  (if String.eqb (source m) "human" then "user" else "assistant", content m).

(** The fallback for a reply that leaked tool calls as text: the calls
    are run and the model is asked again.  The two regular-expression
    searches and the parsing of what they find are the oracles
    [leaked_tool_calls] and [leaked_parallel_calls]; any exception leaves
    the reply as it was when the exception occurred. *)
Definition fallback (E : Env) (assistant_reply : string) : M string :=
  try_except
    (r1 <- (match leaked_tool_calls E assistant_reply with
            | [] => ret assistant_reply
            | calls =>
                run_leaked (_run_gmail_tool E) calls;;
                _call_openai_responses E [("assistant", EmptyString)]
            end);
     try_except
       (if startswith "parallel_tool_calls" (strip r1) then
          match leaked_parallel_calls E r1 with
          | Some call_list =>
              run_leaked (_run_gmail_tool E) call_list;;
              _call_openai_responses E [("assistant", EmptyString)]
          | None => ret r1
          end
        else ret r1)
       (fun _ => ret r1))
    (fun _ => ret assistant_reply).

(** Steps 3 to 5 of [handle_chat_message]: the authenticated session. *)
Definition converse (E : Env) (sessions : gmap string Session.t)
    (session_id sender : string) (inbound_texts : list string) : M unit :=
  sd <- session_data;
  let history := default [] (Session.messages sd) in
  let messages := ("system", SYSTEM_PROMPT E) :: (_to_openai <$> history) in
  let user_content := join nl inbound_texts in
  messages <-
    (match inbound_texts with
     | [] => ret messages
     | _ =>
         update (Session.set_messages
                   (Some (history ++ [Entry "human" user_content])%list));;
         ret (messages ++ [("user", user_content)])%list
     end);
  sd <- session_data;
  (match Session.messages sd with
   | None => raise (Exn KeyError "'messages'")
   | Some l =>
       when (MAX_HISTORY E * 2 <? length l)%nat
            (update (Session.set_messages (Some (last_n (MAX_HISTORY E * 2) l))))
   end);;
  assistant_reply <- _call_openai_responses E messages;
  assistant_reply <- fallback E assistant_reply;
  sd <- session_data;
  update (Session.set_messages
            (Some (default [] (Session.messages sd)
                     ++ [Entry "assistant" assistant_reply])%list));;
  send sender (ChatMessage assistant_reply);;
  persist sessions session_id.

(** The body of the [try] of [handle_chat_message]. *)
Definition route (E : Env) (sessions : gmap string Session.t)
    (session_id sender : string) (msg : list content_block) : M unit :=
  let start := has_start msg in
  when start (modify (set_ctx (Some Session.fresh)));;
  let inbound_texts := if start then [] else texts_of msg in
  sd <- session_data;
  if bool_decide (inbound_texts = [])
     && negb (Session.flag (Session.awaiting_auth_code sd))
  then persist sessions session_id
  else
    a <- get_auth;
    when (Session.flag (Session.awaiting_auth_code sd)
            && bool_decide (Broker._flow a = None))
         (update (Session.set_awaiting_auth_code None);;
          update (Session.set_oauth_link_sent None));;
    sd <- session_data;
    when (Session.flag (Session.authenticated sd)) (revalidate E);;
    sd <- session_data;
    if negb (Session.flag (Session.authenticated sd))
    then auth_workflow E sessions session_id sender inbound_texts
    else converse E sessions session_id sender inbound_texts.

(** [handle_chat_message].  [external_storage] is [None], so the download
    of a token asset never runs. *)
Definition handle_chat_message (E : Env) (session sender : string)
    (msg : list content_block) : M unit :=
  send sender ChatAcknowledgement;;
  sessions <- load_sessions;
  let session_id := session in
  let session_data :=
    Session.set_sender_address (Some sender)
      (default Session.fresh (sessions !! session_id)) in
  token <- gets CURRENT_SESSION_DATA;
  modify (set_ctx (Some session_data));;
  finally (route E sessions session_id sender msg)
          (modify (set_ctx token)).

End GmailProto.

Module CalendarProto.

(** The first part of [_run_cal_tool], up to the retry loop, outside its
    [try]; as for Gmail, its [mkdir], [open] and [json.dump] succeed on the
    files modelled here. *)
Definition prepare_tokens (E : Env) : M (option string * bool) :=
  session_ctx <- get_session_ctx;
  let tokens_path := Session.tokens_path session_ctx in
  let token_json := Session.token_json session_ctx in
  ex <- opt_path_exists tokens_path;
  if Session.str_truthy tokens_path && ex then
    a <- get_auth;
    (match tokens_path with
     | Some p =>
         when (negb (String.eqb (Broker.tokens_path a) p)) (point_broker_at p)
     | None => ret tt
     end);;
    ret (tokens_path, false)
  else
    match token_json with
    | Some tj =>
        p <- path_or_fresh E tokens_path;
        write_file p tj;;
        update_session_ctx (Session.set_tokens_path (Some p));;
        point_broker_at p;;
        ret (Some p, true)
    | None => ret (tokens_path, false)
    end.

(** [_call_once] *)
Definition _call_once (E : Env) (fn : string) (args : json) : M mcp_result :=
  _mcp_call_tool (CalendarServer.call_tool E) fn args.

(** [_run_cal_tool] *)
Definition _run_cal_tool (E : Env) (fn : string) (args : json) : M jtext :=
  prep <- prepare_tokens E;
  retry_loop (_call_once E fn args) (snd prep) (fst prep) range2.


(** [_call_openai_responses]; [messages] goes into the request only. *)
Definition _call_openai_responses (E : Env) (messages : list (string * string))
    : M string :=
  hop_loop (_run_cal_tool E) (ret "(no response)") 10 [].

(** Runs [m] for a handler whose dict [data] is a local variable.  When
    the context variable holds that very dict ([aliased]), what [m] writes
    into the dict of the context variable is written into [data]; the
    outcome of [m] is handed back as a value, next to the dict. *)
Definition call_with {A} (aliased : bool) (data : Session.t) (m : M A)
    : M (outcome A * Session.t) :=
  if aliased then
    fun w => match m (set_ctx (Some data) w) with
             | (r, w') => (Ret (r, default data (CURRENT_SESSION_DATA w')), w')
             end
  else
    fun w => match m w with
             | (r, w') => (Ret (r, data), w')
             end.

(** The validation of an authenticated session at the start of
    [_handle].  Returns the dict and whether the context variable still
    holds it. *)
Definition revalidate (E : Env) (data : Session.t) : M (Session.t * bool) :=
  let has_json := bool_decide (is_Some (Session.token_json data)) in
  let has_path := Session.str_truthy (Session.tokens_path data) in
  let token_ctx :=
    Session.set_tokens_path
      (if has_path then Session.tokens_path data else None)
      (Session.set_token_json
         (if has_json then Session.token_json data else None) Session.empty) in
  (match Session.tokens_path data with
   | Some p => when (nonempty p) (point_broker_at p)
   | None => ret tt
   end);;
  let swapped := has_json || has_path in
  when swapped (modify (set_ctx (Some token_ctx)));;
  r <- call_with (negb swapped) data
         (status_raw <- _run_cal_tool E "check_auth_status" (JObj []);
          status <- lift (json_loads status_raw);
          a <- lift (get status "authenticated");
          ret (truthy_opt a));
  let data := match fst r with
              | Ret true => snd r
              | _ => Session.set_authenticated (Some false) (snd r)
              end in
  when swapped (modify (set_ctx (Some Session.empty)));;
  ret (data, negb swapped).

Definition reminder_text : string :=
  "🔄 Still waiting for you to grant access in the browser popup. Once finished, just ask me your question again.".

Definition link_reply (auth_url : string) : string :=
  "Click the **Authorize Calendar** link below." +:+ nl +:+ nl
    +:+ "[Authorize Calendar](" +:+ auth_url +:+ ")" +:+ nl +:+ nl
    +:+ "Once authorised, paste the code here or just ask your question again.".

(** The branch [if not data.get("cal_authenticated"):] of [_handle]. *)
Definition auth_workflow (E : Env) (sessions : gmap string Session.t)
    (sid sender : string) (inbound : list string) (data : Session.t)
    (aliased : bool) : M unit :=
  if Session.flag (Session.oauth_link_sent data)
     && negb (Session.flag (Session.awaiting_auth_code data))
  then ret tt
  else if Session.flag (Session.awaiting_auth_code data) then
    when (negb (bool_decide (inbound = [])))
         (send sender (ChatMessage reminder_text));;
    store_session sessions sid data
  else
    r <- call_with aliased data
           (_run_cal_tool E "setup_oauth" (JObj [("session_id", JStr sid)]));
    let data := snd r in
    oauth_json <- lift (fst r);
    oauth_data <- lift (json_loads oauth_json);
    ok <- lift (get oauth_data "success");
    if negb (truthy_opt ok) then
      err <- lift (get oauth_data "error");
      let err_msg := default (JStr "Unknown error during OAuth setup") err in
      send sender (ChatMessage ("❌ Authentication setup failed: " +:+ format_json E err_msg))
    else
      u <- lift (get oauth_data "auth_url");
      let auth_url := format_json E (default (JStr "") u) in
      let data := Session.set_awaiting_auth_code (Some true) data in
      let data := Session.set_oauth_link_sent (Some true) data in
      send sender (ChatMessage (link_reply auth_url));;
      store_session sessions sid data.

(** [_looks_like_oauth_prompt] *)
Definition _looks_like_oauth_prompt (text : string) : bool :=
  let t := lower text in
  (contains "authorize" t && contains "calendar" t) || contains "authentication" t.

(** The rest of [_handle]: the authenticated session. *)
Definition converse (E : Env) (sessions : gmap string Session.t)
    (sid sender : string) (inbound : list string) (data : Session.t)
    (aliased : bool) : M unit :=
  let history := default [] (Session.messages data) in
  let filtered :=
    filter (fun m => negb (String.eqb (source m) "assistant"
                             && _looks_like_oauth_prompt (content m)) = true)
           history in
  data <-
    (if negb (bool_decide (history = []))
        && negb (length filtered =? length history)%nat
     then
       let data := Session.set_messages (Some filtered) data in
       store_session sessions sid data;;
       ret data
     else ret data);
  let messages :=
    ([("system", SYSTEM_PROMPT E);
      ("system", "The user is already authenticated with valid Google Calendar tokens. Use the calendar tools directly; do NOT request OAuth again.")]
       ++ ((fun m => (source m, content m)) <$> default [] (Session.messages data)))%list in
  step <-
    (match inbound with
     | [] => ret (messages, data)
     | _ =>
         match Session.messages data with
         | None => raise (Exn KeyError "'messages'")
         | Some l =>
             ret ((messages ++ [("user", join nl inbound)])%list,
                  Session.set_messages
                    (Some (l ++ [Entry "human" (join nl inbound)])%list) data)
         end
     end);
  let messages := fst step in
  let data := snd step in
  data <-
    (match Session.messages data with
     | None => raise (Exn KeyError "'messages'")
     | Some l =>
         if (MAX_HISTORY E * 2 <? length l)%nat
         then ret (Session.set_messages (Some (last_n (MAX_HISTORY E * 2) l)) data)
         else ret data
     end);
  r <- call_with aliased data (_call_openai_responses E messages);
  let data := snd r in
  answer <- lift (fst r);
  let data :=
    Session.set_messages
      (Some (default [] (Session.messages data) ++ [Entry "assistant" answer])%list)
      data in
  send sender (ChatMessage answer);;
  store_session sessions sid data.

(** [_handle] *)
Definition _handle (E : Env) (session sender : string)
    (msg : list content_block) : M unit :=
  send sender ChatAcknowledgement;;
  st <- gets storage;
  sessions <-
    (match st with
     | Sessions m => ret m
     | NoValue => ret ∅
     | Unparseable =>
         raise (Exn ValueError "Expecting value: line 1 column 1 (char 0)")
     end);
  let sid := session in
  let data :=
    Session.set_sender_address (Some sender)
      (default Session.fresh (sessions !! sid)) in
  let start := has_start msg in
  let data := if start then Session.fresh else data in
  let inbound := if start then [] else texts_of msg in
  if bool_decide (inbound = [])
     && negb (Session.flag (Session.awaiting_auth_code data))
  then store_session sessions sid data
  else
    token <- gets CURRENT_SESSION_DATA;
    modify (set_ctx (Some data));;
    finally
      (r <- (if Session.flag (Session.authenticated data)
             then revalidate E data
             else ret (data, true));
       if negb (Session.flag (Session.authenticated (fst r)))
       then auth_workflow E sessions sid sender inbound (fst r) (snd r)
       else converse E sessions sid sender inbound (fst r) (snd r))
      (modify (set_ctx token)).

End CalendarProto.

(** ** gmail_chat_uagent/gmail_chat_agent.py *)

Module GmailAgent.

(** The [message] field of [OAuthResponse] is a [str]. *)
Definition as_message (v : json) : outcome string :=
  match v with
  | JStr s => Ret s
  | _ => Raise (Exn ValueError "validation error for OAuthResponse: message")
  end.

(** [res.get("error", "").lower()] *)
Definition error_lower (res : json) : outcome string :=
  match get res "error" with
  | Ret (Some (JStr s)) => Ret (lower s)
  | Ret None => Ret EmptyString
  | Ret (Some _) => Raise (Exn AttributeError "object has no attribute 'lower'")
  | Raise e => Raise e
  end.

(** "If flow not initialised, run setup_oauth then retry": the two calls
    that follow a lost flow. *)
Definition restart_and_retry (E : Env) (sid code : string) : M json :=
  GmailProto._run_gmail_tool E "setup_oauth" (JObj [("session_id", JStr sid)]);;
  out <- GmailProto._run_gmail_tool E "complete_oauth" (JObj [("auth_code", JStr code)]);
  lift (json_loads out).

(** The [try] block of [_handle_oauth]: complete the exchange through the
    tool invoker and, when the flow object is missing, set it up again
    and retry. *)
Definition exchange (E : Env) (sid code : string) : M json :=
  out <- GmailProto._run_gmail_tool E "complete_oauth" (JObj [("auth_code", JStr code)]);
  res <- lift (json_loads out);
  ok <- lift (get res "success");
  lost <- (if negb (truthy_opt ok) then
             err <- lift (error_lower res);
             ret (contains "flow not initialised" err)
           else ret false);
  if lost then restart_and_retry E sid code else ret res.

(** [_handle_oauth]: the REST endpoint [/oauth/callback]. *)
Definition _handle_oauth (E : Env) (session_id auth_code : string) : M OAuthResponse :=
  let sid := session_id in
  let code := strip auth_code in
  sessions <- load_sessions;
  let session_data := default Session.fresh (sessions !! sid) in
  if Session.flag (Session.authenticated session_data) then
    ret (MkOAuthResponse true "Already authenticated")
  else
    let tpath := token_file_for E sid in
    let session_data := Session.set_tokens_path (Some tpath) session_data in
    let session_data := Session.set_auth_code (Some code) session_data in
    let session_ctx := Session.set_tokens_path (Some tpath) Session.empty in
    modify (set_ctx (Some session_ctx));;
    res <- finally (exchange E sid code)
                   (modify (set_ctx (Some Session.empty)));
    ok <- lift (get res "success");
    if negb (truthy_opt ok) then
      err <- lift (get res "error");
      msg <- lift (as_message (default (JStr "OAuth failed") err));
      ret (MkOAuthResponse false msg)
    else
      session_data <-
        try_except
          (c <- read_file tpath;
           token_obj <- lift (load_json_file c);
           try_except (remove_file tpath) (fun _ => ret tt);;
           ret (Session.set_token_json (Some token_obj) session_data))
          (fun _ => ret session_data);
      let session_data := Session.set_authenticated (Some true) session_data in
      let session_data := Session.set_awaiting_auth_code None session_data in
      let session_data := Session.set_oauth_link_sent None session_data in
      store_session sessions sid session_data;;
      (match Session.sender_address session_data with
       | Some addr =>
           when (nonempty addr)
                (send addr (ChatMessage GmailProto.auth_success_text))
       | None => ret tt
       end);;
      ret (MkOAuthResponse true "OAuth completed and tokens stored").

End GmailAgent.

(** ** Sample environments and worlds *)

Module Sample.

Definition cfg : client_config :=
  ClientConfig "client-1" "secret-1"
               "https://accounts.google.com/o/oauth2/auth"
               "https://oauth2.googleapis.com/token".

Definition tok : token_data :=
  TokenData "access-0" (Some "refresh-0") "https://oauth2.googleapis.com/token"
            "client-1" "secret-1" ["https://www.googleapis.com/auth/gmail.send"].

(** An environment in which the provider accepts the code ["4/good"]
    only, every stored token counts as expired, and a refresh yields
    ["access-1"]. *)
Definition E : Env := {|
  TOKENS_PATH := "oauth_tokens.json";
  tokens_dir := ".tokens";
  MAX_HISTORY := 10;
  SYSTEM_PROMPT := "You are an AI assistant for Gmail.";
  authorization_url := fun _ st =>
    "https://accounts.google.com/o/oauth2/auth?response_type=code&state="
      +:+ default "generated" st +:+ "&prompt=consent";
  fetch_token := fun _ code =>
    if String.eqb code "4/good" then Ret tok
    else Raise (Exn OtherException "(invalid_grant) Bad Request");
  expired := fun _ => true;
  refresh := fun _ => Ret "access-1";
  api_execute := fun _ _ _ => Ret (JObj [("success", JBool true)]);
  uuid4 := fun _ => "00000000-0000-4000-8000-000000000000";
  repr_json := fun _ => "None";
  valid_args := fun _ _ => true;
  leaked_tool_calls := fun _ => [];
  leaked_parallel_calls := fun _ => None;
|}.

(** A freshly started agent: the client secrets are on disk, nothing else. *)
Definition w0 : World := {|
  fs := {[ "client_secret.json" := SecretsFile cfg ]};
  auth := Broker.Mk "client_secret.json" "oauth_tokens.json" None None;
  CURRENT_SESSION_DATA := None;
  storage := NoValue;
  outbox := [];
  mcp_faults := [];
  llm_tape := [];
  uuid_count := 0;
  tool_log := [];
  api_log := [];
  sleep_log := [];
|}.

(** The same agent when the next two tool calls fail in transport. *)
Definition w_faulty (e1 e2 : exn) : World :=
  set_mcp_faults [Some e1; Some e2] w0.

(** The same agent when only the next tool call fails in transport. *)
Definition w_flaky (e1 : exn) : World :=
  set_mcp_faults [Some e1; None] w0.

(** The agent after session ["s1"] sent "help". *)
Definition w1 : World :=
  snd (GmailProto.handle_chat_message E "s1" "agent1alice" [TextContent "help"] w0).

(** ... and then pasted a code the provider rejects. *)
Definition w2_bad : World :=
  snd (GmailProto.handle_chat_message E "s1" "agent1alice" [TextContent "4/bad"] w1).

(** A broker with a cached service whose token file is gone. *)
Definition w_cached : World :=
  set_auth (Broker.Mk "client_secret.json" "oauth_tokens.json"
                      (Some (Build "gmail" tok)) None) w0.

(** A broker with a cached service and its token file on disk. *)
Definition w_cached_token : World :=
  set_fs (<["oauth_tokens.json" := TokenFile tok]> (fs w0)) w_cached.

(** A broker whose token file is on disk. *)
Definition w_token : World :=
  set_fs (<["oauth_tokens.json" := TokenFile tok]> (fs w0)) w0.

(** A broker whose token file holds no JSON. *)
Definition w_junk : World :=
  set_fs (<["oauth_tokens.json" := Junk]> (fs w0)) w0.

End Sample.

(** ** Proof support: effects, totality, unrolled loops *)

(** [keeps f m]: running [m] never changes the component [f] of the world. *)
Definition keeps {A B} (f : World -> B) (m : M A) : Prop :=
  forall w, f (snd (m w)) = f w.

Create HintDb keeps.

(** What a tool of the server cannot change: everything but the files, the
    broker and the API log. *)
Record tool_proof {B} (f : World -> B) : Prop := ToolProof {
  tp_fs : forall v w, f (set_fs v w) = f w;
  tp_auth : forall v w, f (set_auth v w) = f w;
  tp_api : forall v w, f (set_api_log v w) = f w;
}.

(** What the invoker cannot change beyond what a tool can: the uuid
    counter, the tape of faults, the logs and the [tokens_path] entry of
    the dict in the context variable. *)
Record invoker_proof {B} (f : World -> B) : Prop := InvokerProof {
  ip_tool : tool_proof f;
  ip_uuid : forall v w, f (set_uuid_count v w) = f w;
  ip_faults : forall v w, f (set_mcp_faults v w) = f w;
  ip_log : forall v w, f (set_tool_log v w) = f w;
  ip_sleep : forall v w, f (set_sleep_log v w) = f w;
  ip_path : forall p s w,
      CURRENT_SESSION_DATA w = Some s ->
      f (set_ctx (Some (Session.set_tokens_path p s)) w) = f w;
}.

(** What the part of the invoker before the retry loop cannot change. *)
Record prepare_proof {B} (f : World -> B) : Prop := PrepareProof {
  pp_fs : forall v w, f (set_fs v w) = f w;
  pp_auth : forall v w, f (set_auth v w) = f w;
  pp_uuid : forall v w, f (set_uuid_count v w) = f w;
  pp_path : forall p s w,
      CURRENT_SESSION_DATA w = Some s ->
      f (set_ctx (Some (Session.set_tokens_path p s)) w) = f w;
}.

(** [returns m]: [m] never raises. *)
Definition returns {A} (m : M A) : Prop :=
  forall w, exists a, fst (m w) = Ret a.

(** The world after [await asyncio.sleep(0.5)]. *)
Definition slept (w : World) : World := set_sleep_log (sleep_log w ++ [500]) w.

(** The world after the clean-up of the temporary token file. *)
Definition cleaned (tc : bool) (tp : option string) (w : World) : World :=
  snd (cleanup_temp tc tp w).

(** The world after [_mcp_call_tool] logged its dispatch. *)
Definition logged (fn : string) (args : json) (w : World) : World :=
  set_tool_log (tool_log w ++ [Dispatch fn args (current_flag w)]) w.

(** Both invokers are a preparation that never raises, followed by the
    retry loop around [_mcp_call_tool]. *)
Definition invoker_shape (prepare : M (option string * bool))
    (ct : string -> json -> M jtext) (run : string -> json -> M jtext) : Prop :=
  forall fn args w, exists prep w0,
    prepare w = (Ret prep, w0)
    /\ run fn args w
       = retry_loop (_mcp_call_tool ct fn args) (snd prep) (fst prep) range2 w0.

(** ** Statements about the invoker *)

(** What one invocation leaves in the logs: the tool was called once, or
    it was called twice with one sleep of 500 ms in between. *)
Definition called_once_or_twice (fn : string) (args : json) (w w' : World) : Prop :=
  let d := Dispatch fn args (current_flag w) in
  (tool_log w' = (tool_log w ++ [d])%list /\ sleep_log w' = sleep_log w)
  \/ (tool_log w' = (tool_log w ++ [d; d])%list
      /\ sleep_log w' = (sleep_log w ++ [500])%list).

(** An exception without a message, such as [asyncio.TimeoutError()]. *)
Definition silent_error : exn := Exn OtherException EmptyString.

(** An exception with a message. *)
Definition timeout_error : exn := Exn OtherException "timed out".

(** ** Statements about the credential broker *)

Definition not_authenticated_gmail : exn :=
  Exn RuntimeError "Not authenticated – run setup_oauth/complete_oauth first.".

Definition not_authenticated_calendar : exn :=
  Exn RuntimeError "Not authenticated – run setup_oauth first.".

Definition flow_lost_message : string :=
  "OAuth flow not initialised. Call get_oauth_url first.".

(** The world in which the broker caches [svc]. *)
Definition caching (svc : Service) (w : World) : World :=
  set_auth (Broker.set_service (Some svc) (auth w)) w.

(** The world in which the broker's token file holds [t]. *)
Definition persisting (t : token_data) (w : World) : World :=
  set_fs (<[Broker.tokens_path (auth w) := TokenFile t]> (fs w)) w.

(** The world in which the broker holds the flow [fl]. *)
Definition with_flow (fl : Flow) (w : World) : World :=
  set_auth (Broker.set_flow (Some fl) (auth w)) w.

(** [ensure_valid] on a broker that caches no service: it fails without a
    token file, refreshes and persists an expired token that has a refresh
    token, and otherwise hands the stored material on unchanged. *)
Definition ensure_valid_contract (E : Env) (api : string) (not_authenticated : exn)
    (ensure : M Service) : Prop :=
  forall w : World,
    Broker._service (auth w) = None ->
    let p := Broker.tokens_path (auth w) in
    (fs w !! p = None -> ensure w = (Raise not_authenticated, w))
    /\ (forall t tok,
           fs w !! p = Some (TokenFile t) ->
           expired E t = true ->
           Session.str_truthy (refresh_token t) = true ->
           refresh E t = Ret tok ->
           ensure w = (Ret (Build api (with_token t tok)),
                       caching (Build api (with_token t tok))
                               (persisting (with_token t tok) w)))
    /\ (forall t,
           fs w !! p = Some (TokenFile t) ->
           expired E t && Session.str_truthy (refresh_token t) = false ->
           ensure w = (Ret (Build api t), caching (Build api t) w)).

(** A cached service is handed out as it is. *)
Definition reuses_cached_service (ensure : M Service) : Prop :=
  forall (w : World) (svc : Service),
    Broker._service (auth w) = Some svc -> ensure w = (Ret svc, w).

(** ** Statements about the router *)

(** The sessions in agent storage, as [handle_chat_message] loads them. *)
Definition sessions_of (w : World) : gmap string Session.t :=
  match storage w with
  | Sessions m => m
  | _ => ∅
  end.

(** The dict of session [sid]: the stored one, or [{"messages": []}]. *)
Definition session_of (sid : string) (w : World) : Session.t :=
  default Session.fresh (sessions_of w !! sid).

(** The world in which the router starts to work on a message of [sender]
    for a session whose dict is [sd]: the message is acknowledged and the
    dict, with the sender's address, is in the context variable. *)
Definition entered (sender : string) (sd : Session.t) (w : World) : World :=
  set_ctx (Some (Session.set_sender_address (Some sender) sd))
          (set_outbox (outbox w ++ [(sender, ChatAcknowledgement)]) w).

(** The dict in the context variable. *)
Definition current_session (w : World) : Session.t :=
  default Session.empty (CURRENT_SESSION_DATA w).

(** The session dict with which the Gmail router asks for the exchange of
    [code]: token path and code recorded. *)
Definition with_code (E : Env) (sid code : string) (sd : Session.t) : Session.t :=
  Session.set_auth_code (Some code)
    (Session.set_tokens_path (Some (token_file_for E sid)) sd).

(** The world in which the Gmail router calls [complete_oauth] for [code]:
    as [entered], with token path and code recorded in the dict and the
    broker pointed at the session's token file. *)
Definition code_received (E : Env) (sid sender code : string) (sd : Session.t)
    (w : World) : World :=
  let w1 := entered sender sd w in
  set_auth (Broker.set_service None
              (Broker.set_tokens_path (token_file_for E sid) (auth w1)))
           (set_ctx (Some (with_code E sid code
                             (Session.set_sender_address (Some sender) sd))) w1).

(** The reply of the Gmail router to a failed exchange. *)
Definition auth_failed_text (E : Env) (d : list (string * json)) : string :=
  "❌ Authentication failed: "
    +:+ format_json E (default (JStr "unknown error") (assoc "error" d))
    +:+ ". Please try again.".

(** The session dict after the router sent the authorization link. *)
Definition awaiting_code (sid : string) (sd : Session.t) : Session.t :=
  Session.set_oauth_link_sent (Some true)
    (Session.set_awaiting_auth_code (Some true)
       (Session.set_state (Some sid) sd)).

(** The same for the Calendar router, which records no state. *)
Definition awaiting_grant (sd : Session.t) : Session.t :=
  Session.set_oauth_link_sent (Some true)
    (Session.set_awaiting_auth_code (Some true) sd).

(** Whether the context variable holds a dict. *)
Definition ctx_set (w : World) : bool :=
  match CURRENT_SESSION_DATA w with Some _ => true | None => false end.

(** ** Statements about the authentication gate on tool calls *)

(** The tools that start and complete the authorization. *)
Definition oauth_tool (name : string) : Prop :=
  name = "setup_oauth" \/ name = "complete_oauth".

(** A dispatch that respects the authentication gate: the session was authenticated when
    the call was dispatched, or the call is one of the two OAuth tools. *)
Definition gated (d : dispatch) : Prop :=
  d_authenticated d = true \/ oauth_tool (d_tool d).

(** [w'] extends the dispatch log of [w] by gated dispatches only. *)
Definition extends_gated (w w' : World) : Prop :=
  exists l, tool_log w' = (tool_log w ++ l)%list /\ Forall gated l.

(** A computation that dispatches gated calls only, whatever the session. *)
Definition gated_run {A} (m : M A) : Prop :=
  forall w, extends_gated w (snd (m w)).

(** A computation that, run for an authenticated session, dispatches gated
    calls only and leaves the session authenticated. *)
Definition gated_if_auth {A} (m : M A) : Prop :=
  forall w, current_flag w = true ->
            extends_gated w (snd (m w)) /\ current_flag (snd (m w)) = true.

(** A computation that, started for an authenticated session, dispatches
    gated calls only (the session may lose the flag on the way). *)
Definition gated_from_auth {A} (m : M A) : Prop :=
  forall w, current_flag w = true -> extends_gated w (snd (m w)).
(** ** Further statements about the server tools and the invoker *)

(** A tool reply as the routers read it: a JSON object whose [success]
    entry is a boolean. *)
Definition success_payload (r : outcome jtext) : Prop :=
  exists d b, r = Ret (json_dumps (JObj d)) /\ assoc "success" d = Some (JBool b).

(** The reply of the Gmail [check_auth_status] for a usable token file. *)
Definition authenticated_with (scs : list string) : json :=
  JObj [("success", JBool true); ("authenticated", JBool true);
        ("scopes", JArr (JStr <$> scs))].

(** The reply of [check_auth_status] without a token file. *)
Definition not_authenticated_status : json :=
  JObj [("success", JBool true); ("authenticated", JBool false)].

(** The token file the invoker recreates from the in-memory token JSON:
    the session's own path, or a fresh one named by [uuid4()]. *)
Definition temp_token_path (E : Env) (tokens_path : option string) (w : World)
    : string :=
  match tokens_path with
  | Some p => if nonempty p then p else token_file_for E (uuid4 E (uuid_count w))
  | None => token_file_for E (uuid4 E (uuid_count w))
  end.

(** The world in which the shared broker points at the token file [p] and
    caches no service: [auth.tokens_path = p; auth._service = None]. *)
Definition repointed (p : string) (w : World) : World :=
  set_auth (Broker.set_service None (Broker.set_tokens_path p (auth w))) w.

(** The world in which a credentialed tool ran its API requests for
    [args] with the service [svc], which the broker now caches. *)
Definition served (name : string) (args : json) (svc : Service) (w : World) : World :=
  set_api_log (api_log w ++ [(name, args)])
    (set_auth (Broker.set_service (Some svc) (auth w)) w).

(** ** Further sample worlds *)

Module Scenario.

(** Token material without a refresh token. *)
Definition tok_plain : token_data :=
  TokenData "access-9" None "https://oauth2.googleapis.com/token"
            "client-1" "secret-1" ["https://www.googleapis.com/auth/gmail.readonly"].

(** The token file of session ["s1"]. *)
Definition path_s1 : string := token_file_for Sample.E "s1".

(** An authenticated session that knows its token file ... *)
Definition sd_on_disk : Session.t :=
  Session.set_authenticated (Some true)
    (Session.set_tokens_path (Some path_s1) Session.fresh).

(** ... and one that also carries the token in its dict. *)
Definition sd_in_memory : Session.t :=
  Session.set_token_json (Some (TokenFile tok_plain)) sd_on_disk.

(** A tool call for the first session, whose token file is on disk, while
    the broker still caches the client of somebody else. *)
Definition w_on_disk : World :=
  set_ctx (Some sd_on_disk)
    (set_fs (<[path_s1 := TokenFile tok_plain]> (fs Sample.w_cached)) Sample.w_cached).

(** A tool call for the second session, whose token file is not on disk. *)
Definition w_in_memory : World :=
  set_ctx (Some sd_in_memory) Sample.w_cached.

(** The agent of [Sample.w1] after a restart: the session still awaits the
    code, the broker has no flow object. *)
Definition w_lost_flow : World :=
  set_auth (Broker.set_flow None (auth Sample.w1)) Sample.w1.

(** An agent that stores the authenticated session ["s1"], whose token is
    in its dict only, when the model will answer the next request with a
    text in two parts. *)
Definition w_chat : World :=
  set_llm_tape [Ret [Delta "You have "; OtherEvent; Delta "two new messages. "]]
    (set_storage (Sessions {[ "s1" := sd_in_memory ]}) Sample.w0).

(** An agent that stores session ["s1"] as authenticated although its token
    file is gone and its dict holds no token. *)
Definition w_token_gone : World :=
  set_llm_tape [Ret [Delta "You have no new messages."]]
    (set_storage (Sessions {[ "s1" := sd_on_disk ]}) Sample.w0).

End Scenario.

(** ** Further statements about the routers *)

(** The world after the Gmail handler handled the messages [msgs] of
    session [sid] one after the other; a message is its sender and its
    content. *)
Fixpoint delivered (E : Env) (sid : string)
    (msgs : list (string * list content_block)) (w : World) : World :=
  match msgs with
  | [] => w
  | (sender, msg) :: rest =>
      delivered E sid rest (snd (GmailProto.handle_chat_message E sid sender msg w))
  end.

(** The world after the router acknowledged a message of [sender],
    replied with the texts [replies] and stored the dict [sd] for [sid]. *)
Definition answered (sid sender : string) (replies : list string) (sd : Session.t)
    (w : World) : World :=
  set_storage (Sessions (<[sid := sd]> (sessions_of w)))
    (set_outbox (outbox w ++ (sender, ChatAcknowledgement)
                          :: ((fun t => (sender, ChatMessage t)) <$> replies)) w).

(** The world in which the Gmail router starts a new authorization for a
    session that awaited a code whose flow object is lost: as [entered],
    with both flags of the old flow removed from the dict. *)
Definition restarted (sender : string) (sd : Session.t) (w : World) : World :=
  set_ctx (Some (Session.set_oauth_link_sent None
                   (Session.set_awaiting_auth_code None
                      (Session.set_sender_address (Some sender) sd))))
          (set_outbox (outbox w ++ [(sender, ChatAcknowledgement)]) w).

(** [preserves I m]: running [m] never breaks the invariant [I]. *)
Definition preserves (I : World -> Prop) {A} (m : M A) : Prop :=
  forall w, I w -> I (snd (m w)).

(** What the handlers never change but through [send] and the storing of
    the session: agent storage and outbox. *)
Definition mailbox (w : World) : stored * list (string * out_msg) :=
  (storage w, outbox w).

(** The stored dicts of all sessions but [sid] are those of [base]. *)
Definition others_as_in (base : gmap string Session.t) (sid : string)
    (w : World) : Prop :=
  forall sid', sid' <> sid -> sessions_of w !! sid' = base !! sid'.

(** The outbox is [base] followed by messages to [sender] only. *)
Definition sent_to_only (sender : string) (base : list (string * out_msg))
    (w : World) : Prop :=
  exists l, outbox w = (base ++ l)%list /\ Forall (fun m => fst m = sender) l.

(** What a handler reaches outside the agent on behalf of a session: the
    requests to the model that are still to come, and the API requests
    made so far. *)
Definition reached (w : World) : list (outcome (list event)) * list (string * json) :=
  (llm_tape w, api_log w).

(** The tools that make no API request. *)
Definition oauth_tools : list string :=
  ["setup_oauth"; "complete_oauth"; "check_auth_status"; "reset_oauth_tokens"].

(** The conversation history of a session dict: [d.get("messages", [])]. *)
Definition history (s : Session.t) : list chat_entry :=
  default [] (Session.messages s).

(** The history in the dict of the context variable. *)
Definition ctx_history (w : World) : list chat_entry := history (current_session w).

(** That history together with agent storage. *)
Definition history_and_storage (w : World) : list chat_entry * stored :=
  (ctx_history w, storage w).

(** Both the dict at hand and the stored dict of [sid] hold at most
    [bound] history entries. *)
Definition history_within (bound : nat) (sid : string) (w : World) : Prop :=
  length (ctx_history w) <= bound /\ length (history (session_of sid w)) <= bound.

(** The stored dict of [sid] holds at most [bound] history entries. *)
Definition stored_history_within (bound : nat) (sid : string) (w : World) : Prop :=
  length (history (session_of sid w)) <= bound.

(** ** Further statements about the loop around the model *)

(** The calls of the first [tool_call] event of a stream, if it has one. *)
Fixpoint first_tool_calls (events : list event) : option (list (string * jtext)) :=
  match events with
  | [] => None
  | ToolCall calls :: _ => Some calls
  | _ :: rest => first_tool_calls rest
  end.

(** The text deltas of a stream, in order. *)
Definition deltas (events : list event) : list string :=
  omap (fun ev => match ev with Delta text => Some text | _ => None end) events.

(** The answer that [_call_openai_responses] returns for a stream without
    tool calls: the chunks joined without separator, then stripped. *)
Definition answer (events : list event) : string :=
  strip (join EmptyString (deltas events)).

(** The history after the user's texts were appended and the list was cut
    to its last [MAX_HISTORY * 2] entries. *)
Definition with_user_text (E : Env) (texts : list string) (h : list chat_entry)
    : list chat_entry :=
  let l := (h ++ [Entry "human" (join nl texts)])%list in
  if (MAX_HISTORY E * 2 <? length l)%nat then last_n (MAX_HISTORY E * 2) l else l.

(** The session dict that the Gmail handler stores after it answered the
    user's texts with [reply]. *)
Definition conversed (E : Env) (sender : string) (texts : list string)
    (reply : string) (sd : Session.t) : Session.t :=
  Session.set_messages
    (Some (with_user_text E texts (history sd) ++ [Entry "assistant" reply])%list)
    (Session.set_sender_address (Some sender) sd).

(** The text deltas of a stream up to its first [tool_call] event, which
    ends the reading of the stream. *)
Fixpoint spoken (events : list event) : list string :=
  match events with
  | [] => []
  | Delta text :: rest => text :: spoken rest
  | ToolCall _ :: _ => []
  | OtherEvent :: rest => spoken rest
  end.

(** The text deltas that a sequence of streams contributes to the answer. *)
Definition said (streams : list (outcome (list event))) : list string :=
  mjoin ((fun o => match o with Ret events => spoken events | Raise _ => [] end)
           <$> streams).

(** A request that the model answers with a round of tool calls whose
    arguments are JSON. *)
Definition tool_round (o : outcome (list event)) : Prop :=
  exists events calls,
    o = Ret events
    /\ first_tool_calls events = Some calls
    /\ Forall (fun c => exists j, json_loads (snd c) = Ret j) calls.

Definition hop_limit_error : exn :=
  Exn RuntimeError "Streaming run exceeded hop limit – possible tool loop?".

(** ** The REST callback of the Calendar agent (calendar_chat_agent.py) *)

Module CalendarAgent.

Definition auth_success_text : string :=
  "✅ Calendar authorisation successful! You can now ask me about your calendar.".

(** "Flow missing – calling setup_oauth then retrying complete_oauth": the
    two calls that follow a lost flow. *)
Definition restart_and_retry (E : Env) (sid code : string) : M json :=
  CalendarProto._run_cal_tool E "setup_oauth" (JObj [("session_id", JStr sid)]);;
  out <- CalendarProto._run_cal_tool E "complete_oauth" (JObj [("auth_code", JStr code)]);
  lift (json_loads out).

(** The [try] block of [_cb]: complete the exchange through the tool
    invoker and, when the flow object is missing, set it up again and
    retry. *)
Definition exchange (E : Env) (sid code : string) : M json :=
  out <- CalendarProto._run_cal_tool E "complete_oauth" (JObj [("auth_code", JStr code)]);
  res <- lift (json_loads out);
  ok <- lift (get res "success");
  lost <- (if negb (truthy_opt ok) then
             err <- lift (GmailAgent.error_lower res);
             ret (contains "flow not initialised" err)
           else ret false);
  if lost then restart_and_retry E sid code else ret res.

(** [_cb]: the REST endpoint [/oauth/callback].  [CANONICAL_TOKENS_PATH] is
    the module constant [TOKENS_PATH] of the server. *)
Definition _cb (E : Env) (session_id auth_code : string) : M OAuthResponse :=
  let sid := session_id in
  let code := strip auth_code in
  sessions <- load_sessions;
  let data := default Session.empty (sessions !! sid) in
  if Session.flag (Session.authenticated data) then
    ret (MkOAuthResponse true "Already authenticated")
  else
    let tpath := token_file_for E sid in
    let data := Session.set_tokens_path (Some tpath) data in
    let data := Session.set_auth_code (Some code) data in
    modify (set_ctx (Some (Session.set_tokens_path (Some tpath) Session.empty)));;
    res <- finally (exchange E sid code)
                   (modify (set_ctx (Some Session.empty)));
    ok <- lift (get res "success");
    if negb (truthy_opt ok) then
      err <- lift (get res "error");
      msg <- lift (GmailAgent.as_message (default (JStr "OAuth failed") err));
      ret (MkOAuthResponse false msg)
    else
      data <-
        try_except
          (c <- read_file (TOKENS_PATH E);
           token_obj <- lift (load_json_file c);
           let data := Session.set_token_json (Some token_obj) data in
           let data := Session.set_tokens_path (Some (TOKENS_PATH E)) data in
           try_except (ex <- path_exists tpath; when ex (remove_file tpath))
                      (fun _ => ret tt);;
           ret data)
          (fun _ => ret data);
      let data := Session.set_authenticated (Some true) data in
      let data := Session.set_awaiting_auth_code None data in
      let data := Session.set_oauth_link_sent None data in
      store_session sessions sid data;;
      (match Session.sender_address data with
       | Some addr =>
           when (nonempty addr) (send addr (ChatMessage auth_success_text))
       | None => ret tt
       end);;
      ret (MkOAuthResponse true "OAuth completed and tokens stored").

End CalendarAgent.

(** The dict of session [sid] as the Calendar callback reads it: the
    stored one, or [{}]. *)
Definition calendar_session_of (sid : string) (w : World) : Session.t :=
  default Session.empty (sessions_of w !! sid).

(** What the Calendar callback records in the dict whatever the canonical
    token file holds: the code, the flag, and no flag of a pending flow. *)
Definition calendar_marked (code : string) (sd : Session.t) : Session.t :=
  Session.set_oauth_link_sent None
    (Session.set_awaiting_auth_code None
       (Session.set_authenticated (Some true)
          (Session.set_auth_code (Some code) sd))).

(** The message with which the Calendar callback tells the user of the
    success, when the session knows the user's address. *)
Definition calendar_notification (sd : Session.t) : list (string * out_msg) :=
  match Session.sender_address sd with
  | Some addr =>
      if nonempty addr then [(addr, ChatMessage CalendarAgent.auth_success_text)] else []
  | None => []
  end.

(** ** Further statements about the REST callback *)

(** The world in which the invoker made sure that the broker points at the
    session's token file [p]: a broker that pointed elsewhere is re-pointed
    and loses its cached service. *)
Definition pointed (p : string) (w : World) : World :=
  if String.eqb (Broker.tokens_path (auth w)) p then w else repointed p w.

(** The session dict that the Gmail callback stores after a successful
    exchange of [code] for the token material [creds]. *)
Definition completed (E : Env) (sid code : string) (creds : token_data)
    (sd : Session.t) : Session.t :=
  Session.set_oauth_link_sent None
    (Session.set_awaiting_auth_code None
       (Session.set_authenticated (Some true)
          (Session.set_token_json (Some (TokenFile creds))
             (Session.set_auth_code (Some code)
                (Session.set_tokens_path (Some (token_file_for E sid)) sd))))).

(** The message that tells the user of the success, when the session
    knows the user's address. *)
Definition notification (sd : Session.t) : list (string * out_msg) :=
  match Session.sender_address sd with
  | Some addr =>
      if nonempty addr then [(addr, ChatMessage GmailProto.auth_success_text)] else []
  | None => []
  end.

(** The broker can exchange [code] for the token material [creds]: it
    holds a flow object for which the provider accepts the code, or it
    has lost the flow object but can build a new one from the client
    secrets on disk. *)
Definition exchangeable (E : Env) (code : string) (creds : token_data)
    (w : World) : Prop :=
  (exists fl, Broker._flow (auth w) = Some fl /\ fetch_token E fl code = Ret creds)
  \/ (Broker._flow (auth w) = None
      /\ exists cfg,
           fs w !! Broker.credentials_path (auth w) = Some (SecretsFile cfg)
           /\ fetch_token E (MkFlow cfg) code = Ret creds).

(** ** Reasoning about effects: what a computation leaves untouched *)

Section Keeps.
Context {B : Type} (f : World -> B).

Lemma keeps_ret {A} (a : A) : keeps f (ret a).
Proof. intros w. reflexivity. Qed.

Lemma keeps_raise {A} (e : exn) : keeps f (@raise A e).
Proof. intros w. reflexivity. Qed.

Lemma keeps_lift {A} (o : outcome A) : keeps f (lift o).
Proof. intros w. reflexivity. Qed.

Lemma keeps_gets {A} (g : World -> A) : keeps f (gets g).
Proof. intros w. reflexivity. Qed.

Lemma keeps_modify (g : World -> World) :
  (forall w, f (g w) = f w) -> keeps f (modify g).
Proof. intros H w. apply H. Qed.

Lemma keeps_bind {A C} (m : M A) (k : A -> M C) :
  keeps f m -> (forall a, keeps f (k a)) -> keeps f (bind m k).
Proof.
  intros Hm Hk w. unfold bind. specialize (Hm w).
  destruct (m w) as [[a|e] w']; cbn in *; [rewrite Hk|]; exact Hm.
Qed.

Lemma keeps_try_except {A} (m : M A) (h : exn -> M A) :
  keeps f m -> (forall e, keeps f (h e)) -> keeps f (try_except m h).
Proof.
  intros Hm Hh w. unfold try_except. specialize (Hm w).
  destruct (m w) as [[a|e] w']; cbn in *; [|rewrite Hh]; exact Hm.
Qed.

Lemma keeps_try_except_cls {A} cls (m : M A) (h : exn -> M A) :
  keeps f m -> (forall e, keeps f (h e)) -> keeps f (try_except_cls cls m h).
Proof.
  intros Hm Hh w. unfold try_except_cls. specialize (Hm w).
  destruct (m w) as [[a|e] w']; cbn in *; [exact Hm|].
  destruct (exn_class_eqb _ _); [rewrite Hh|]; exact Hm.
Qed.

Lemma keeps_finally {A} (m : M A) (g : M unit) :
  keeps f m -> keeps f g -> keeps f (finally m g).
Proof.
  intros Hm Hg w. unfold finally. specialize (Hm w).
  destruct (m w) as [r w']. specialize (Hg w').
  destruct (g w') as [[[]|e] w'']; cbn in *; congruence.
Qed.

Lemma keeps_when (b : bool) (m : M unit) : keeps f m -> keeps f (when b m).
Proof. intros Hm. destruct b; [exact Hm | apply keeps_ret]. Qed.

Lemma keeps_get_auth : keeps f get_auth.
Proof. intros w. reflexivity. Qed.

Lemma keeps_path_exists p : keeps f (path_exists p).
Proof. intros w. reflexivity. Qed.

Lemma keeps_read_file p : keeps f (read_file p).
Proof. intros w. unfold read_file. destruct (fs w !! p); reflexivity. Qed.

Lemma keeps_get_session_ctx : keeps f get_session_ctx.
Proof. intros w. reflexivity. Qed.

(** The components that writing a file, or touching the broker, the API
    log or the uuid counter cannot change. *)
Hypothesis f_fs : forall v w, f (set_fs v w) = f w.
Hypothesis f_auth : forall v w, f (set_auth v w) = f w.
Hypothesis f_api : forall v w, f (set_api_log v w) = f w.
Hypothesis f_uuid : forall v w, f (set_uuid_count v w) = f w.

Lemma keeps_write_file p c : keeps f (write_file p c).
Proof. intros w. apply f_fs. Qed.

Lemma keeps_remove_file p : keeps f (remove_file p).
Proof.
  intros w. unfold remove_file. destruct (fs w !! p); [apply f_fs | reflexivity].
Qed.

Lemma keeps_modify_auth g : keeps f (modify_auth g).
Proof. intros w. apply f_auth. Qed.

Lemma keeps_fresh_uuid E : keeps f (fresh_uuid E).
Proof. intros w. apply f_uuid. Qed.

Lemma keeps_api_log g :
  keeps f (modify (fun w => set_api_log (g w) w)).
Proof. intros w. apply f_api. Qed.

End Keeps.

(** One step of a [keeps] proof, following the shape of the computation. *)
Ltac keeps_side := solve [intros; reflexivity | assumption | intros; auto].

Ltac keeps_step :=
  lazymatch goal with
  | |- keeps _ (bind _ _) => apply keeps_bind; [| intros ?]
  | |- keeps _ (ret _) => apply keeps_ret
  | |- keeps _ (raise _) => apply keeps_raise
  | |- keeps _ (lift _) => apply keeps_lift
  | |- keeps _ (gets _) => apply keeps_gets
  | |- keeps _ get_auth => apply keeps_get_auth
  | |- keeps _ get_session_ctx => apply keeps_get_session_ctx
  | |- keeps _ (path_exists _) => apply keeps_path_exists
  | |- keeps _ (read_file _) => apply keeps_read_file
  | |- keeps _ (write_file _ _) => apply keeps_write_file; keeps_side
  | |- keeps _ (remove_file _) => apply keeps_remove_file; keeps_side
  | |- keeps _ (modify_auth _) =>
      first [apply keeps_modify_auth; keeps_side
            | apply keeps_modify; intros; reflexivity]
  | |- keeps _ (fresh_uuid _) => apply keeps_fresh_uuid; keeps_side
  | |- keeps _ (try_except _ _) => apply keeps_try_except; [| intros ?]
  | |- keeps _ (try_except_cls _ _ _) => apply keeps_try_except_cls; [| intros ?]
  | |- keeps _ (finally _ _) => apply keeps_finally
  | |- keeps _ (when _ _) => apply keeps_when
  | |- keeps _ (or_failure _) => unfold or_failure
  | |- keeps _ (update_session_ctx _) =>
      first [solve [eauto with keeps]
            | apply keeps_modify; intros ?w;
              destruct (CURRENT_SESSION_DATA w); reflexivity]
  | |- keeps _ (modify _) => apply keeps_modify; keeps_side
  | |- keeps _ (match ?x with _ => _ end) => destruct x
  | |- keeps _ _ => solve [eauto with keeps]
  end.

Ltac keeps_auto := repeat keeps_step.

Ltac use_tool_proof H :=
  pose proof (tp_fs _ H); pose proof (tp_auth _ H); pose proof (tp_api _ H).

Lemma keeps_from_client_secrets_file {B} (f : World -> B) p :
  keeps f (from_client_secrets_file p).
Proof. unfold from_client_secrets_file. keeps_auto. Qed.

#[export] Hint Resolve keeps_from_client_secrets_file : keeps.

Lemma keeps_run_with_service {B} (f : World -> B) E name args svc :
  tool_proof f -> keeps f (run_with_service E name args svc).
Proof. intros H. use_tool_proof H. unfold run_with_service. keeps_auto. Qed.

#[export] Hint Resolve keeps_run_with_service : keeps.

Lemma keeps_gmail_get_service {B} (f : World -> B) E :
  tool_proof f -> keeps f (GmailServer.get_service E).
Proof. intros H. use_tool_proof H. unfold GmailServer.get_service. keeps_auto. Qed.

#[export] Hint Resolve keeps_gmail_get_service : keeps.

Lemma keeps_calendar_service {B} (f : World -> B) E :
  tool_proof f -> keeps f (CalendarServer.service E).
Proof. intros H. use_tool_proof H. unfold CalendarServer.service. keeps_auto. Qed.

#[export] Hint Resolve keeps_calendar_service : keeps.

Lemma keeps_gmail_call_tool {B} (f : World -> B) E name args :
  tool_proof f -> keeps f (GmailServer.call_tool E name args).
Proof.
  intros H. use_tool_proof H.
  unfold GmailServer.call_tool, GmailServer.setup_oauth, GmailServer.complete_oauth,
    GmailServer.check_auth_status, GmailServer.reset_oauth_tokens,
    GmailServer.credentialed_tool, GmailServer.get_oauth_url,
    GmailServer.exchange_code_for_token.
  keeps_auto.
Qed.

#[export] Hint Resolve keeps_gmail_call_tool : keeps.

Lemma keeps_calendar_call_tool {B} (f : World -> B) E name args :
  tool_proof f -> keeps f (CalendarServer.call_tool E name args).
Proof.
  intros H. use_tool_proof H.
  unfold CalendarServer.call_tool, CalendarServer.setup_oauth,
    CalendarServer.complete_oauth, CalendarServer.check_auth_status,
    CalendarServer.credentialed_tool, CalendarServer.event_tool,
    CalendarServer.get_oauth_url, CalendarServer.exchange_code_for_token.
  keeps_auto.
Qed.

#[export] Hint Resolve keeps_calendar_call_tool : keeps.

(** ** The invoker: what one invocation does to the logs *)

Ltac use_invoker_proof H :=
  pose proof (ip_uuid _ H); pose proof (ip_faults _ H); pose proof (ip_log _ H);
  pose proof (ip_sleep _ H); pose proof (ip_path _ H);
  let T := fresh in pose proof (ip_tool _ H) as T; use_tool_proof T.

Lemma invoker_proof_current_flag : invoker_proof current_flag.
Proof.
  repeat split; try reflexivity.
  intros p s w H. unfold current_flag. cbn. rewrite H. reflexivity.
Qed.

Lemma invoker_proof_storage : invoker_proof storage.
Proof. repeat split; reflexivity. Qed.

Lemma invoker_proof_outbox : invoker_proof outbox.
Proof. repeat split; reflexivity. Qed.

Lemma invoker_proof_llm_tape : invoker_proof llm_tape.
Proof. repeat split; reflexivity. Qed.

#[export] Hint Resolve invoker_proof_current_flag invoker_proof_storage
  invoker_proof_outbox invoker_proof_llm_tape ip_tool : keeps.

Lemma keeps_cleanup_temp {B} (f : World -> B) tc tp :
  (forall v w, f (set_fs v w) = f w) -> keeps f (cleanup_temp tc tp).
Proof. intros H. unfold cleanup_temp. keeps_auto. Qed.

#[export] Hint Resolve keeps_cleanup_temp : keeps.

Lemma keeps_point_broker_at {B} (f : World -> B) p :
  (forall v w, f (set_auth v w) = f w) -> keeps f (point_broker_at p).
Proof. intros H. unfold point_broker_at. keeps_auto. Qed.

#[export] Hint Resolve keeps_point_broker_at : keeps.

Lemma keeps_path_or_fresh {B} (f : World -> B) E tp :
  (forall v w, f (set_uuid_count v w) = f w) -> keeps f (path_or_fresh E tp).
Proof. intros H. unfold path_or_fresh. keeps_auto. Qed.

#[export] Hint Resolve keeps_path_or_fresh : keeps.

Lemma keeps_opt_path_exists {B} (f : World -> B) tp : keeps f (opt_path_exists tp).
Proof. unfold opt_path_exists. keeps_auto. Qed.

#[export] Hint Resolve keeps_opt_path_exists : keeps.

Lemma invoker_prepare_proof {B} (f : World -> B) :
  invoker_proof f -> prepare_proof f.
Proof.
  intros H. use_invoker_proof H. split; assumption.
Qed.

#[export] Hint Resolve invoker_prepare_proof : keeps.

Lemma keeps_update_path {B} (f : World -> B) p :
  prepare_proof f -> keeps f (update_session_ctx (Session.set_tokens_path p)).
Proof.
  intros H w. unfold update_session_ctx, modify. cbn.
  destruct (CURRENT_SESSION_DATA w) eqn:Hc; [|reflexivity].
  apply (pp_path _ H). exact Hc.
Qed.

#[export] Hint Resolve keeps_update_path : keeps.

Lemma keeps_gmail_prepare {B} (f : World -> B) E :
  prepare_proof f -> keeps f (GmailProto.prepare_tokens E).
Proof.
  intros H. pose proof (pp_fs _ H). pose proof (pp_auth _ H).
  pose proof (pp_uuid _ H). unfold GmailProto.prepare_tokens. keeps_auto.
Qed.

Lemma keeps_calendar_prepare {B} (f : World -> B) E :
  prepare_proof f -> keeps f (CalendarProto.prepare_tokens E).
Proof.
  intros H. pose proof (pp_fs _ H). pose proof (pp_auth _ H).
  pose proof (pp_uuid _ H). unfold CalendarProto.prepare_tokens. keeps_auto.
Qed.

#[export] Hint Resolve keeps_gmail_prepare keeps_calendar_prepare : keeps.

Lemma keeps_mcp_call_tool {B} (f : World -> B) ct fn args :
  (forall v w, f (set_tool_log v w) = f w) ->
  (forall v w, f (set_mcp_faults v w) = f w) ->
  (forall n a, keeps f (ct n a)) ->
  keeps f (_mcp_call_tool ct fn args).
Proof.
  intros Hl Hf Hct. unfold _mcp_call_tool.
  apply keeps_bind; [keeps_auto | intros _].
  apply keeps_bind.
  - intros w. destruct (mcp_faults w); cbn; auto.
  - intros fault. keeps_auto.
Qed.

Lemma keeps_retry_loop {B} (f : World -> B) call tc tp attempts :
  invoker_proof f -> keeps f call -> keeps f (retry_loop call tc tp attempts).
Proof.
  intros H Hc. use_invoker_proof H.
  induction attempts as [|attempt rest IH]; cbn [retry_loop].
  - keeps_auto.
  - unfold sleep_half_second. keeps_auto.
Qed.

Lemma keeps_run_gmail_tool {B} (f : World -> B) E fn args :
  invoker_proof f -> keeps f (GmailProto._run_gmail_tool E fn args).
Proof.
  intros H. unfold GmailProto._run_gmail_tool, GmailProto._call_once.
  apply keeps_bind; [auto with keeps | intros prep].
  apply keeps_retry_loop; [assumption |].
  apply keeps_mcp_call_tool; [apply (ip_log _ H) | apply (ip_faults _ H) |].
  intros. apply keeps_gmail_call_tool. apply (ip_tool _ H).
Qed.

Lemma keeps_run_cal_tool {B} (f : World -> B) E fn args :
  invoker_proof f -> keeps f (CalendarProto._run_cal_tool E fn args).
Proof.
  intros H. unfold CalendarProto._run_cal_tool, CalendarProto._call_once.
  apply keeps_bind; [auto with keeps | intros prep].
  apply keeps_retry_loop; [assumption |].
  apply keeps_mcp_call_tool; [apply (ip_log _ H) | apply (ip_faults _ H) |].
  intros. apply keeps_calendar_call_tool. apply (ip_tool _ H).
Qed.

#[export] Hint Resolve keeps_run_gmail_tool keeps_run_cal_tool : keeps.

(** *** Totality *)

Lemma returns_ret {A} (a : A) : returns (ret a).
Proof. intros w. eexists. reflexivity. Qed.

Lemma returns_gets {A} (g : World -> A) : returns (gets g).
Proof. intros w. eexists. reflexivity. Qed.

Lemma returns_modify g : returns (modify g).
Proof. intros w. eexists. reflexivity. Qed.

Lemma returns_bind {A C} (m : M A) (k : A -> M C) :
  returns m -> (forall a, returns (k a)) -> returns (bind m k).
Proof.
  intros Hm Hk w. unfold bind. destruct (Hm w) as [a Ha].
  destruct (m w) as [r w']. cbn in Ha. subst r. apply Hk.
Qed.

Lemma returns_try_except {A} (m : M A) (h : exn -> M A) :
  (forall e, returns (h e)) -> returns (try_except m h).
Proof.
  intros Hh w. unfold try_except.
  destruct (m w) as [[a|e] w']; [eexists; reflexivity | apply Hh].
Qed.

Lemma returns_when b m : returns m -> returns (when b m).
Proof. intros H. destruct b; [exact H | apply returns_ret]. Qed.

Ltac returns_step :=
  lazymatch goal with
  | |- returns (bind _ _) => apply returns_bind; [| intros ?]
  | |- returns (ret _) => apply returns_ret
  | |- returns (gets _) => apply returns_gets
  | |- returns get_auth => apply returns_gets
  | |- returns get_session_ctx => apply returns_gets
  | |- returns (path_exists _) => apply returns_gets
  | |- returns (modify _) => apply returns_modify
  | |- returns (modify_auth _) => apply returns_modify
  | |- returns (write_file _ _) => apply returns_modify
  | |- returns (update_session_ctx _) => apply returns_modify
  | |- returns (fresh_uuid _) => let w := fresh in intros w; eexists; reflexivity
  | |- returns (try_except _ _) => apply returns_try_except; intros ?
  | |- returns (when _ _) => apply returns_when
  | |- returns (match ?x with _ => _ end) => destruct x
  end.

Lemma returns_cleanup_temp tc tp : returns (cleanup_temp tc tp).
Proof. unfold cleanup_temp. repeat returns_step. Qed.

Lemma cleanup_temp_ret tc tp w : fst (cleanup_temp tc tp w) = Ret tt.
Proof. destruct (returns_cleanup_temp tc tp w) as [[] H]. exact H. Qed.

Lemma returns_gmail_prepare E : returns (GmailProto.prepare_tokens E).
Proof.
  unfold GmailProto.prepare_tokens, opt_path_exists, path_or_fresh, point_broker_at.
  repeat returns_step.
Qed.

Lemma returns_calendar_prepare E : returns (CalendarProto.prepare_tokens E).
Proof.
  unfold CalendarProto.prepare_tokens, opt_path_exists, path_or_fresh, point_broker_at.
  repeat returns_step.
Qed.

(** *** The retry loop, unrolled *)

Lemma retry_loop_range2 call tc tp w :
  retry_loop call tc tp range2 w =
    match call w with
    | (Ret r, w1) => (Ret (_unwrap r), cleaned tc tp w1)
    | (Raise e1, w1) =>
        match call (slept w1) with
        | (Ret r, w2) => (Ret (_unwrap r), cleaned tc tp w2)
        | (Raise e2, w2) => (Ret (json_dumps (failure (exn_str e2))), cleaned tc tp w2)
        end
    end.
Proof.
  unfold range2, cleaned. cbn [retry_loop Nat.eqb].
  unfold try_except at 1. unfold bind at 1.
  destruct (call w) as [[r|e1] w1].
  - unfold bind. pose proof (cleanup_temp_ret tc tp w1) as Hc.
    destruct (cleanup_temp tc tp w1) as [o w2]. cbn in *. subst o. reflexivity.
  - unfold bind at 1. unfold sleep_half_second, modify. fold (slept w1).
    unfold try_except, bind.
    destruct (call (slept w1)) as [[r|e2] w2].
    + pose proof (cleanup_temp_ret tc tp w2) as Hc.
      destruct (cleanup_temp tc tp w2) as [o w3]. cbn in *. subst o. reflexivity.
    + pose proof (cleanup_temp_ret tc tp w2) as Hc.
      destruct (cleanup_temp tc tp w2) as [o w3]. cbn in *. subst o. reflexivity.
Qed.

Lemma mcp_call_fault ct fn args w e rest :
  mcp_faults w = Some e :: rest ->
  _mcp_call_tool ct fn args w = (Raise e, set_mcp_faults rest (logged fn args w)).
Proof.
  intros H. unfold _mcp_call_tool, bind, modify, raise. cbn. rewrite H. reflexivity.
Qed.

Lemma mcp_call_tool_log ct fn args w :
  (forall n a, keeps tool_log (ct n a)) ->
  tool_log (snd (_mcp_call_tool ct fn args w))
  = (tool_log w ++ [Dispatch fn args (current_flag w)])%list.
Proof.
  intros Hct. unfold _mcp_call_tool, bind at 1 2, modify. cbn.
  destruct (mcp_faults w) as [|[e|] rest]; cbn; try reflexivity.
  - unfold bind. match goal with |- context [ct fn args ?w0] =>
      pose proof (Hct fn args w0) as H; destruct (ct fn args w0) as [[t|e] w'] end;
      cbn in *; exact H.
  - unfold bind. match goal with |- context [ct fn args ?w0] =>
      pose proof (Hct fn args w0) as H; destruct (ct fn args w0) as [[t|e] w'] end;
      cbn in *; exact H.
Qed.

(** ** The tool invoker: retry and failure payload *)
Lemma prepare_proof_mcp_faults : prepare_proof mcp_faults.
Proof. repeat split; reflexivity. Qed.

Lemma prepare_proof_tool_log : prepare_proof tool_log.
Proof. repeat split; reflexivity. Qed.

Lemma prepare_proof_sleep_log : prepare_proof sleep_log.
Proof. repeat split; reflexivity. Qed.

Lemma prepare_proof_current_flag : prepare_proof current_flag.
Proof. apply invoker_prepare_proof, invoker_proof_current_flag. Qed.

Lemma tool_proof_tool_log : tool_proof tool_log.
Proof. repeat split; reflexivity. Qed.

Lemma tool_proof_sleep_log : tool_proof sleep_log.
Proof. repeat split; reflexivity. Qed.

Lemma tool_proof_current_flag : tool_proof current_flag.
Proof. repeat split; reflexivity. Qed.

Lemma tool_proof_mcp_faults : tool_proof mcp_faults.
Proof. repeat split; reflexivity. Qed.

#[export] Hint Resolve prepare_proof_mcp_faults prepare_proof_tool_log
  prepare_proof_sleep_log prepare_proof_current_flag tool_proof_tool_log
  tool_proof_sleep_log tool_proof_current_flag tool_proof_mcp_faults : keeps.

Lemma gmail_invoker_shape E :
  invoker_shape (GmailProto.prepare_tokens E) (GmailServer.call_tool E)
                (GmailProto._run_gmail_tool E).
Proof.
  intros fn args w. destruct (returns_gmail_prepare E w) as [prep Hp].
  exists prep, (snd (GmailProto.prepare_tokens E w)). split.
  - destruct (GmailProto.prepare_tokens E w); cbn in *. congruence.
  - unfold GmailProto._run_gmail_tool, bind, GmailProto._call_once.
    destruct (GmailProto.prepare_tokens E w); cbn in *. subst. reflexivity.
Qed.

Lemma calendar_invoker_shape E :
  invoker_shape (CalendarProto.prepare_tokens E) (CalendarServer.call_tool E)
                (CalendarProto._run_cal_tool E).
Proof.
  intros fn args w. destruct (returns_calendar_prepare E w) as [prep Hp].
  exists prep, (snd (CalendarProto.prepare_tokens E w)). split.
  - destruct (CalendarProto.prepare_tokens E w); cbn in *. congruence.
  - unfold CalendarProto._run_cal_tool, bind, CalendarProto._call_once.
    destruct (CalendarProto.prepare_tokens E w); cbn in *. subst. reflexivity.
Qed.

Section Invoker.
Variables (prepare : M (option string * bool))
          (ct : string -> json -> M jtext)
          (run : string -> json -> M jtext).
Hypothesis shape : invoker_shape prepare ct run.
Hypothesis prepare_keeps : forall B (f : World -> B), prepare_proof f -> keeps f prepare.
Hypothesis ct_keeps : forall B (f : World -> B) n a, tool_proof f -> keeps f (ct n a).

(** Two failures in a row: the payload carries [str(e)] of the second. *)
Lemma invoker_fails_twice fn args w e1 e2 rest :
  mcp_faults w = Some e1 :: Some e2 :: rest ->
  fst (run fn args w) = Ret (json_dumps (failure (exn_str e2))).
Proof.
  intros Hf. destruct (shape fn args w) as (prep & w0 & Hp & ->).
  pose proof (prepare_keeps _ mcp_faults prepare_proof_mcp_faults w) as Hk.
  rewrite Hp in Hk. cbn in Hk. rewrite Hf in Hk.
  rewrite retry_loop_range2.
  rewrite (mcp_call_fault _ _ _ _ _ _ Hk).
  erewrite mcp_call_fault by reflexivity. reflexivity.
Qed.

(** One failure, then a result: the result, normalised. *)
Lemma invoker_retries_once fn args w prep w0 e1 w1 r w2 :
  prepare w = (Ret prep, w0) ->
  _mcp_call_tool ct fn args w0 = (Raise e1, w1) ->
  _mcp_call_tool ct fn args (slept w1) = (Ret r, w2) ->
  run fn args w = (Ret (_unwrap r), cleaned (snd prep) (fst prep) w2).
Proof.
  intros Hp H1 H2. destruct (shape fn args w) as (prep' & w0' & Hp' & ->).
  rewrite Hp in Hp'. injection Hp' as <- <-.
  rewrite retry_loop_range2, H1, H2. reflexivity.
Qed.

(** Every invocation calls the tool once or twice, and sleeps the fixed
    half second exactly when it calls twice. *)
Lemma invoker_accounting fn args w :
  let w' := snd (run fn args w) in
  let d := Dispatch fn args (current_flag w) in
  (tool_log w' = (tool_log w ++ [d])%list /\ sleep_log w' = sleep_log w)
  \/ (tool_log w' = (tool_log w ++ [d; d])%list
      /\ sleep_log w' = (sleep_log w ++ [500])%list).
Proof.
  cbn zeta. destruct (shape fn args w) as (prep & w0 & Hp & ->).
  pose proof (prepare_keeps _ tool_log prepare_proof_tool_log w) as Hl.
  pose proof (prepare_keeps _ sleep_log prepare_proof_sleep_log w) as Hs.
  pose proof (prepare_keeps _ current_flag prepare_proof_current_flag w) as Hc.
  rewrite Hp in Hl, Hs, Hc. cbn in Hl, Hs, Hc.
  rewrite retry_loop_range2.
  assert (Hct : forall n a, keeps tool_log (ct n a))
    by (intros; apply ct_keeps; auto with keeps).
  assert (Hsl : keeps sleep_log (_mcp_call_tool ct fn args))
    by (apply keeps_mcp_call_tool; try reflexivity; intros;
        apply ct_keeps; auto with keeps).
  assert (Hfl : keeps current_flag (_mcp_call_tool ct fn args))
    by (apply keeps_mcp_call_tool; try reflexivity; intros;
        apply ct_keeps; auto with keeps).
  pose proof (mcp_call_tool_log ct fn args w0 Hct) as L1.
  pose proof (Hsl w0) as S1. pose proof (Hfl w0) as F1.
  destruct (_mcp_call_tool ct fn args w0) as [[r|e1] w1]; cbn in L1, S1, F1.
  - left. unfold cleaned. cbn.
    rewrite (keeps_cleanup_temp tool_log _ _ (fun _ _ => eq_refl) w1).
    rewrite (keeps_cleanup_temp sleep_log _ _ (fun _ _ => eq_refl) w1).
    rewrite L1, S1, Hl, Hs, Hc. split; reflexivity.
  - right.
    pose proof (mcp_call_tool_log ct fn args (slept w1) Hct) as L2.
    pose proof (Hsl (slept w1)) as S2.
    assert (forall w2, tool_log (cleaned (snd prep) (fst prep) w2) = tool_log w2
                       /\ sleep_log (cleaned (snd prep) (fst prep) w2) = sleep_log w2)
      as Hcl.
    { intros w2. unfold cleaned. split.
      - apply (keeps_cleanup_temp tool_log _ _ (fun _ _ => eq_refl)).
      - apply (keeps_cleanup_temp sleep_log _ _ (fun _ _ => eq_refl)). }
    destruct (_mcp_call_tool ct fn args (slept w1)) as [[r|e2] w2];
      cbn in L2, S2; cbn [snd];
      destruct (Hcl w2) as [-> ->]; rewrite L2, S2;
      change (tool_log (slept w1)) with (tool_log w1);
      change (current_flag (slept w1)) with (current_flag w1);
      change (sleep_log (slept w1)) with (sleep_log w1 ++ [500])%list;
      rewrite L1, S1, F1, Hl, Hs, Hc, <- app_assoc; split; reflexivity.
Qed.
End Invoker.

(** C2, as stated, fails: when the second exception carries no message,
    the error of the failure payload is the empty string. *)
Lemma invoker_failure_error_may_be_empty :
  ~ (forall (E : Env) (fn : string) (args : json) (w : World)
            (e1 e2 : exn) (rest : list (option exn)),
        mcp_faults w = Some e1 :: Some e2 :: rest ->
        exists msg : string,
          msg <> EmptyString
          /\ fst (GmailProto._run_gmail_tool E fn args w)
             = Ret (json_dumps (failure msg))).
Proof.
  intros claim.
  destruct (claim Sample.E "list_emails" (JObj [])
                  (Sample.w_faulty silent_error silent_error)
                  silent_error silent_error [] eq_refl)
    as (msg & Hne & Heq).
  vm_compute in Heq. apply Hne. congruence.
Qed.

(** C2, amended: when the remote call raises on the first attempt and on
    the retry, [_run_gmail_tool] and [_run_cal_tool] return the payload
    [{"success": false, "error": str(e)}] for the second exception [e] and
    do not raise; the error is non-empty exactly when [str(e)] is. *)
Theorem invoker_returns_failure_payload
    (E : Env) (fn : string) (args : json) (w : World)
    (e1 e2 : exn) (rest : list (option exn)) :
  mcp_faults w = Some e1 :: Some e2 :: rest ->
  fst (GmailProto._run_gmail_tool E fn args w)
  = Ret (json_dumps (failure (exn_str e2)))
  /\ fst (CalendarProto._run_cal_tool E fn args w)
     = Ret (json_dumps (failure (exn_str e2))).
Proof.
  intros Hf. split.
  - eapply invoker_fails_twice; eauto using gmail_invoker_shape.
    intros. apply keeps_gmail_prepare. assumption.
  - eapply invoker_fails_twice; eauto using calendar_invoker_shape.
    intros. apply keeps_calendar_prepare. assumption.
Qed.

Lemma invoker_returns_failure_payload_witness :
  mcp_faults (Sample.w_faulty silent_error timeout_error)
  = [Some silent_error; Some timeout_error]
  /\ fst (GmailProto._run_gmail_tool Sample.E "list_emails" (JObj [])
            (Sample.w_faulty silent_error timeout_error))
     = Ret (json_dumps (failure "timed out"))
  /\ fst (CalendarProto._run_cal_tool Sample.E "list_emails" (JObj [])
            (Sample.w_faulty silent_error timeout_error))
     = Ret (json_dumps (failure "timed out")).
Proof.
  split; [reflexivity |].
  apply (invoker_returns_failure_payload Sample.E "list_emails" (JObj [])
           (Sample.w_faulty silent_error timeout_error)
           silent_error timeout_error []).
  reflexivity.
Defined.

(** C3: when the remote call raises on the first attempt and returns on
    the second, the invoker returns the normalised result of the second
    call; and whatever happens, one invocation calls the remote tool once
    or twice, sleeping the fixed 500 ms exactly before the one retry. *)
Theorem invoker_single_retry (E : Env) (fn : string) (args : json) (w : World) :
  (forall prep w0 e1 w1 r w2,
      GmailProto.prepare_tokens E w = (Ret prep, w0) ->
      GmailProto._call_once E fn args w0 = (Raise e1, w1) ->
      GmailProto._call_once E fn args (slept w1) = (Ret r, w2) ->
      fst (GmailProto._run_gmail_tool E fn args w) = Ret (_unwrap r))
  /\ (forall prep w0 e1 w1 r w2,
         CalendarProto.prepare_tokens E w = (Ret prep, w0) ->
         CalendarProto._call_once E fn args w0 = (Raise e1, w1) ->
         CalendarProto._call_once E fn args (slept w1) = (Ret r, w2) ->
         fst (CalendarProto._run_cal_tool E fn args w) = Ret (_unwrap r))
  /\ called_once_or_twice fn args w (snd (GmailProto._run_gmail_tool E fn args w))
  /\ called_once_or_twice fn args w (snd (CalendarProto._run_cal_tool E fn args w)).
Proof.
  repeat split.
  - intros prep w0 e1 w1 r w2 Hp H1 H2.
    erewrite (invoker_retries_once _ _ _ (gmail_invoker_shape E)); eauto.
  - intros prep w0 e1 w1 r w2 Hp H1 H2.
    erewrite (invoker_retries_once _ _ _ (calendar_invoker_shape E)); eauto.
  - apply (invoker_accounting _ _ _ (gmail_invoker_shape E)).
    + intros. apply keeps_gmail_prepare. assumption.
    + intros. apply keeps_gmail_call_tool. assumption.
  - apply (invoker_accounting _ _ _ (calendar_invoker_shape E)).
    + intros. apply keeps_calendar_prepare. assumption.
    + intros. apply keeps_calendar_call_tool. assumption.
Qed.

Lemma invoker_single_retry_witness :
  fst (GmailProto._run_gmail_tool Sample.E "check_auth_status" (JObj [])
         (Sample.w_flaky timeout_error))
  = Ret (json_dumps (JObj [("success", JBool true); ("authenticated", JBool false)])).
Proof.
  pose (w := Sample.w_flaky timeout_error).
  pose (p := GmailProto.prepare_tokens Sample.E w).
  pose (c1 := GmailProto._call_once Sample.E "check_auth_status" (JObj []) (snd p)).
  pose (c2 := GmailProto._call_once Sample.E "check_auth_status" (JObj [])
                (slept (snd c1))).
  apply (proj1 (invoker_single_retry Sample.E "check_auth_status" (JObj []) w)
           (None, false) (snd p) timeout_error (snd c1)
           (Blocks [json_dumps (JObj [("success", JBool true);
                                      ("authenticated", JBool false)])])
           (snd c2)).
  - vm_compute. reflexivity.
  - vm_compute. reflexivity.
  - vm_compute. reflexivity.
Defined.

(** ** The credential broker *)

Ltac run :=
  unfold bind, ret, raise, gets, modify, lift, when, try_except, try_except_cls,
    finally, get_auth, modify_auth, path_exists, write_file, read_file,
    remove_file, or_failure, from_client_secrets_file in *;
  cbn.

Lemma gmail_get_service_contract E :
  ensure_valid_contract E "gmail" not_authenticated_gmail (GmailServer.get_service E).
Proof.
  intros w Hs p. subst p. unfold GmailServer.get_service. repeat split.
  - intros Hf. run. rewrite Hs, Hf. reflexivity.
  - intros t tok Hf He Hr Ht. run.
    repeat (progress (rewrite ?Hs, ?Hf, ?He, ?Hr, ?Ht; cbn)). reflexivity.
  - intros t Hf He. run.
    repeat (progress (rewrite ?Hs, ?Hf, ?He; cbn)). reflexivity.
Qed.

Lemma calendar_service_contract E :
  ensure_valid_contract E "calendar" not_authenticated_calendar (CalendarServer.service E).
Proof.
  intros w Hs p. subst p. unfold CalendarServer.service. repeat split.
  - intros Hf. run. rewrite Hs, Hf. reflexivity.
  - intros t tok Hf He Hr Ht. run.
    repeat (progress (rewrite ?Hs, ?Hf, ?He, ?Hr, ?Ht; cbn)). reflexivity.
  - intros t Hf He. run.
    repeat (progress (rewrite ?Hs, ?Hf, ?He; cbn)). reflexivity.
Qed.

(** C5, as stated, fails: a broker that caches a service returns it without
    looking at the token file, so an expired token with a refresh token is
    neither refreshed nor persisted. *)
Lemma get_service_cached_skips_refresh :
  ~ (forall (E : Env) (w : World) (t : token_data) (tok : string),
        fs w !! Broker.tokens_path (auth w) = Some (TokenFile t) ->
        expired E t = true ->
        Session.str_truthy (refresh_token t) = true ->
        refresh E t = Ret tok ->
        fs (snd (GmailServer.get_service E w)) !! Broker.tokens_path (auth w)
        = Some (TokenFile (with_token t tok))).
Proof.
  intros claim.
  specialize (claim Sample.E Sample.w_cached_token Sample.tok "access-1"
                    eq_refl eq_refl eq_refl eq_refl).
  vm_compute in claim. discriminate.
Qed.

(** C5, amended: on a broker that caches no service, [get_service] and
    [service] raise "Not authenticated" when the token file is absent,
    refresh an expired token that has a refresh token and write the new
    access token into the token file in place, and otherwise build the
    service from the stored material, leaving the file as it is; a cached
    service is returned as it is, without looking at the token file. *)
Theorem ensure_valid_refreshes_or_reuses (E : Env) :
  ensure_valid_contract E "gmail" not_authenticated_gmail (GmailServer.get_service E)
  /\ ensure_valid_contract E "calendar" not_authenticated_calendar
                           (CalendarServer.service E)
  /\ reuses_cached_service (GmailServer.get_service E)
  /\ reuses_cached_service (CalendarServer.service E).
Proof.
  split; [apply gmail_get_service_contract |].
  split; [apply calendar_service_contract |].
  split; intros w svc H.
  - unfold GmailServer.get_service. run. rewrite H. reflexivity.
  - unfold CalendarServer.service. run. rewrite H. reflexivity.
Qed.

Lemma ensure_valid_refreshes_or_reuses_witness :
  GmailServer.get_service Sample.E Sample.w_token
  = (Ret (Build "gmail" (with_token Sample.tok "access-1")),
     caching (Build "gmail" (with_token Sample.tok "access-1"))
             (persisting (with_token Sample.tok "access-1") Sample.w_token)).
Proof.
  apply (proj1 (proj2 (proj1 (ensure_valid_refreshes_or_reuses Sample.E)
                         Sample.w_token eq_refl))
           Sample.tok "access-1");
    reflexivity.
Defined.

(** C10: the Calendar [check_auth_status] never fails and reports exactly
    whether the broker's token file exists, whatever the file holds; the
    Gmail variant also runs [get_service] and reports a failure when the
    file is there but unusable. *)
Theorem calendar_check_auth_status_total :
  (forall w : World,
      CalendarServer.check_auth_status w =
        (Ret (json_dumps
                (JObj [("success", JBool true);
                       ("authenticated",
                        JBool (bool_decide
                                 (is_Some (fs w !! Broker.tokens_path (auth w)))))])),
         w))
  /\ (exists (E : Env) (w : World),
         is_Some (fs w !! Broker.tokens_path (auth w))
         /\ fst (GmailServer.check_auth_status E w) =
              Ret (json_dumps
                     (JObj [("success", JBool false);
                            ("authenticated", JBool false);
                            ("error", JStr "Expecting value: line 1 column 1 (char 0)")]))).
Proof.
  split.
  - intros w. reflexivity.
  - exists Sample.E, Sample.w_junk. split.
    + vm_compute. eauto.
    + vm_compute. reflexivity.
Qed.

(** C6, as stated, fails for the empty session id: the Gmail broker then
    leaves the state parameter to the provider library. *)
Lemma get_oauth_url_empty_session_id_unbound :
  ~ (forall (E : Env) (w : World) (session_id url : string),
        fst (GmailServer.get_oauth_url E (Some session_id) w) = Ret url ->
        exists fl : Flow, url = authorization_url E fl (Some session_id)).
Proof.
  intros claim.
  destruct (claim Sample.E Sample.w0 EmptyString _ eq_refl) as [fl H].
  vm_compute in H. discriminate.
Qed.

(** C6, amended: with the client secrets on disk, the Gmail broker returns
    the authorization URL the provider library builds for [state] = the
    session id whenever the session id is non-empty, and the Calendar
    broker passes every session id on as [state]; both keep the flow
    object.  Without the client-secrets file both raise
    [FileNotFoundError], which [setup_oauth] reports as a failure payload. *)
Theorem begin_authorization_binds_session (E : Env) (w : World) :
  let path := Broker.credentials_path (auth w) in
  (forall cfg session_id,
      fs w !! path = Some (SecretsFile cfg) ->
      nonempty session_id = true ->
      GmailServer.get_oauth_url E (Some session_id) w
      = (Ret (authorization_url E (MkFlow cfg) (Some session_id)),
         with_flow (MkFlow cfg) w))
  /\ (forall cfg session_id,
         fs w !! path = Some (SecretsFile cfg) ->
         CalendarServer.get_oauth_url E session_id w
         = (Ret (authorization_url E (MkFlow cfg) session_id),
            with_flow (MkFlow cfg) w))
  /\ (fs w !! path = None ->
      forall session_id,
        (exists msg,
            GmailServer.get_oauth_url E session_id w
            = (Raise (Exn FileNotFoundError msg), w)
            /\ GmailServer.setup_oauth E session_id w
               = (Ret (json_dumps (failure msg)), w))
        /\ (exists msg,
               CalendarServer.get_oauth_url E session_id w
               = (Raise (Exn FileNotFoundError msg), w)
               /\ CalendarServer.setup_oauth E session_id w
                  = (Ret (json_dumps (failure msg)), w))).
Proof.
  intros path. subst path. repeat split.
  - intros cfg sid Hf Hn. unfold GmailServer.get_oauth_url.
    repeat (progress (run; rewrite ?Hf, ?Hn)). reflexivity.
  - intros cfg sid Hf. unfold CalendarServer.get_oauth_url.
    repeat (progress (run; rewrite ?Hf)). reflexivity.
  - eexists. unfold GmailServer.setup_oauth, GmailServer.get_oauth_url.
    repeat (progress (run; rewrite ?H)). split; reflexivity.
  - eexists. unfold CalendarServer.setup_oauth, CalendarServer.get_oauth_url.
    repeat (progress (run; rewrite ?H)). split; reflexivity.
Qed.

Lemma begin_authorization_binds_session_witness :
  GmailServer.get_oauth_url Sample.E (Some "s1") Sample.w0
  = (Ret "https://accounts.google.com/o/oauth2/auth?response_type=code&state=s1&prompt=consent",
     with_flow (MkFlow Sample.cfg) Sample.w0).
Proof.
  apply (proj1 (begin_authorization_binds_session Sample.E Sample.w0)
           Sample.cfg "s1");
    reflexivity.
Defined.

(** ** Completing the authorization *)

Lemma mcp_call_clear ct fn args w :
  hd None (mcp_faults w) = None ->
  _mcp_call_tool ct fn args w =
    bind (ct fn args) (fun t => ret (Blocks [t]))
         (set_mcp_faults (tl (mcp_faults w)) (logged fn args w)).
Proof.
  intros H. unfold _mcp_call_tool, bind at 1 2, modify. cbn.
  destruct (mcp_faults w) as [|[e|] rest] eqn:Hm; cbn in H; try discriminate.
  - replace (set_mcp_faults (tl []) (logged fn args w)) with (logged fn args w);
      [reflexivity |].
    unfold logged. destruct w; cbn in *; subst; reflexivity.
  - reflexivity.
Qed.

(** The first attempt succeeds when no fault is due and the tool returns. *)
Lemma invoker_first_try prepare ct run fn args w prep w0 t w1 :
  invoker_shape prepare ct run ->
  prepare w = (Ret prep, w0) ->
  hd None (mcp_faults w0) = None ->
  ct fn args (set_mcp_faults (tl (mcp_faults w0)) (logged fn args w0)) = (Ret t, w1) ->
  run fn args w = (Ret t, cleaned (snd prep) (fst prep) w1).
Proof.
  intros shape Hp Hf Hc. destruct (shape fn args w) as (prep' & w0' & Hp' & ->).
  rewrite Hp in Hp'. injection Hp' as <- <-.
  rewrite retry_loop_range2, (mcp_call_clear _ _ _ _ Hf).
  unfold bind. rewrite Hc. reflexivity.
Qed.

Lemma gmail_prepare_keeps_flow E :
  keeps (fun w => Broker._flow (auth w)) (GmailProto.prepare_tokens E).
Proof.
  unfold GmailProto.prepare_tokens, point_broker_at, path_or_fresh, opt_path_exists.
  keeps_auto.
Qed.

Lemma complete_oauth_flow_lost E code w :
  Broker._flow (auth w) = None ->
  GmailServer.complete_oauth E code w
  = (Ret (json_dumps (failure flow_lost_message)), w).
Proof.
  intros H. unfold GmailServer.complete_oauth, GmailServer.exchange_code_for_token.
  repeat (progress (run; rewrite ?H)). reflexivity.
Qed.

Lemma run_complete_oauth_flow_lost E code w :
  Broker._flow (auth w) = None ->
  hd None (mcp_faults w) = None ->
  fst (GmailProto._run_gmail_tool E "complete_oauth" (JObj [("auth_code", JStr code)]) w)
  = Ret (json_dumps (failure flow_lost_message)).
Proof.
  intros Hfl Hf.
  destruct (returns_gmail_prepare E w) as [prep Hp].
  pose proof (gmail_prepare_keeps_flow E w) as Kf.
  pose proof (keeps_gmail_prepare mcp_faults E prepare_proof_mcp_faults w) as Km.
  destruct (GmailProto.prepare_tokens E w) as [o w0] eqn:Hprep.
  cbn in Hp, Kf, Km. subst o.
  erewrite (invoker_first_try _ _ _ _ _ _ _ _ _ _ (gmail_invoker_shape E) Hprep).
  - reflexivity.
  - rewrite Km. exact Hf.
  - change (GmailServer.call_tool E "complete_oauth" (JObj [("auth_code", JStr code)]))
      with (bind (lift (Ret code)) (GmailServer.complete_oauth E)).
    unfold bind, lift. apply complete_oauth_flow_lost.
    cbn. rewrite Kf. exact Hfl.
Qed.

(** C4: [complete_oauth] persists the token material into the broker's
    token file when the exchange succeeds; when the exchange fails it
    returns a failure payload and changes nothing; and when the flow
    object is missing it returns the failure "OAuth flow not initialised.
    Call get_oauth_url first." and changes nothing, upon which the REST
    callback runs [setup_oauth] and retries. *)
Theorem complete_authorization_contract (E : Env) (code : string) (w : World) :
  (forall fl creds,
      Broker._flow (auth w) = Some fl ->
      fetch_token E fl code = Ret creds ->
      GmailServer.complete_oauth E code w
      = (Ret (json_dumps (JObj [("success", JBool true)])), persisting creds w))
  /\ (forall fl e,
         Broker._flow (auth w) = Some fl ->
         fetch_token E fl code = Raise e ->
         GmailServer.complete_oauth E code w
         = (Ret (json_dumps (failure (exn_str e))), w))
  /\ (Broker._flow (auth w) = None ->
      GmailServer.complete_oauth E code w
      = (Ret (json_dumps (failure flow_lost_message)), w)
      /\ (hd None (mcp_faults w) = None ->
          forall sid,
            GmailAgent.exchange E sid code w
            = GmailAgent.restart_and_retry E sid code
                (snd (GmailProto._run_gmail_tool E "complete_oauth"
                        (JObj [("auth_code", JStr code)]) w)))).
Proof.
  repeat split.
  - intros fl creds Hfl Hx.
    unfold GmailServer.complete_oauth, GmailServer.exchange_code_for_token.
    repeat (progress (run; rewrite ?Hfl, ?Hx)). reflexivity.
  - intros fl e Hfl Hx.
    unfold GmailServer.complete_oauth, GmailServer.exchange_code_for_token.
    repeat (progress (run; rewrite ?Hfl, ?Hx)). reflexivity.
  - apply complete_oauth_flow_lost. assumption.
  - intros Hf sid. pose proof (run_complete_oauth_flow_lost E code w H Hf) as Hr.
    unfold GmailAgent.exchange. unfold bind at 1.
    destruct (GmailProto._run_gmail_tool E "complete_oauth" _ w) as [o w1].
    cbn in Hr. subst o. reflexivity.
Qed.

Lemma complete_authorization_contract_witness :
  GmailServer.complete_oauth Sample.E "4/good" Sample.w0
  = (Ret (json_dumps (failure flow_lost_message)), Sample.w0)
  /\ GmailServer.complete_oauth Sample.E "4/bad" (with_flow (MkFlow Sample.cfg) Sample.w0)
     = (Ret (json_dumps (failure "(invalid_grant) Bad Request")),
        with_flow (MkFlow Sample.cfg) Sample.w0)
  /\ GmailServer.complete_oauth Sample.E "4/good" (with_flow (MkFlow Sample.cfg) Sample.w0)
     = (Ret (json_dumps (JObj [("success", JBool true)])),
        persisting Sample.tok (with_flow (MkFlow Sample.cfg) Sample.w0)).
Proof.
  split; [| split].
  - apply (proj2 (proj2 (complete_authorization_contract Sample.E "4/good" Sample.w0))).
    reflexivity.
  - apply (proj1 (proj2 (complete_authorization_contract Sample.E "4/bad"
                           (with_flow (MkFlow Sample.cfg) Sample.w0)))
             (MkFlow Sample.cfg) (Exn OtherException "(invalid_grant) Bad Request"));
      reflexivity.
  - apply (proj1 (complete_authorization_contract Sample.E "4/good"
                    (with_flow (MkFlow Sample.cfg) Sample.w0))
             (MkFlow Sample.cfg) Sample.tok);
      reflexivity.
Defined.

(** ** The REST callback *)

Lemma bind_ret_inv {A C} (m : M A) (k : A -> M C) w r w1 :
  bind m k w = (Ret r, w1) ->
  exists a w', m w = (Ret a, w') /\ k a w' = (Ret r, w1).
Proof.
  unfold bind. destruct (m w) as [[a|e] w']; [eauto | discriminate].
Qed.

Lemma already_authenticated E sid code w m sd :
  storage w = Sessions m -> m !! sid = Some sd ->
  Session.flag (Session.authenticated sd) = true ->
  GmailAgent._handle_oauth E sid code w
  = (Ret (MkOAuthResponse true "Already authenticated"), w).
Proof.
  intros Hs Hm Hf. unfold GmailAgent._handle_oauth, load_sessions, bind at 1, gets.
  rewrite Hs, Hm. cbn. rewrite Hf. reflexivity.
Qed.

Lemma handle_oauth_success E sid code w r w1 :
  GmailAgent._handle_oauth E sid code w = (Ret r, w1) ->
  success r = true ->
  exists m sd,
    storage w1 = Sessions m /\ m !! sid = Some sd
    /\ Session.flag (Session.authenticated sd) = true.
Proof.
  unfold GmailAgent._handle_oauth, load_sessions. unfold bind at 1. unfold gets.
  set (sessions := match storage w with Sessions m => m | _ => ∅ end).
  destruct (Session.flag (Session.authenticated (default Session.fresh (sessions !! sid))))
    eqn:Hflag.
  - intros H _. injection H as <- <-. subst sessions.
    destruct (storage w) as [| |m] eqn:Hs;
      try (rewrite lookup_empty in Hflag; discriminate).
    destruct (m !! sid) as [sd|] eqn:Hm; [|discriminate]. eauto.
  - intros H Hsucc.
    apply bind_ret_inv in H as (_ & w2 & _ & H).
    apply bind_ret_inv in H as (res & w3 & _ & H).
    apply bind_ret_inv in H as (ok & w4 & _ & H).
    destruct (negb (truthy_opt ok)).
    + apply bind_ret_inv in H as (err & w5 & _ & H).
      apply bind_ret_inv in H as (msg & w6 & _ & H).
      injection H as <- <-. discriminate.
    + apply bind_ret_inv in H as (sd & w5 & _ & H).
      apply bind_ret_inv in H as ([] & w6 & Hst & H).
      apply bind_ret_inv in H as ([] & w7 & Hsend & H).
      injection H as <- <-.
      unfold store_session, modify in Hst. injection Hst as <-.
      assert (Hk : storage w7 = storage (set_storage
                (Sessions (<[sid := Session.set_oauth_link_sent None
                                  (Session.set_awaiting_auth_code None
                                     (Session.set_authenticated (Some true) sd))]>
                             sessions)) w5)).
      { destruct (Session.sender_address _) as [addr|]; cbn in Hsend.
        - destruct (nonempty addr); cbn in Hsend; injection Hsend as <-; reflexivity.
        - injection Hsend as <-. reflexivity. }
      rewrite Hk. cbn. eexists _, _. split; [reflexivity |].
      rewrite lookup_insert_eq. split; reflexivity.
Qed.

(** C9: a session that is already authenticated answers every further
    delivery of a code with the success "Already authenticated" and changes
    nothing, neither the token file nor the stored session; and after one
    successful delivery the session is in that state. *)
Theorem complete_authorization_idempotent (E : Env) (sid : string) (w : World) :
  (forall m sd code,
      storage w = Sessions m -> m !! sid = Some sd ->
      Session.flag (Session.authenticated sd) = true ->
      GmailAgent._handle_oauth E sid code w
      = (Ret (MkOAuthResponse true "Already authenticated"), w))
  /\ (forall code r w1,
         GmailAgent._handle_oauth E sid code w = (Ret r, w1) ->
         success r = true ->
         forall code',
           GmailAgent._handle_oauth E sid code' w1
           = (Ret (MkOAuthResponse true "Already authenticated"), w1)).
Proof.
  split.
  - intros. eapply already_authenticated; eauto.
  - intros code r w1 H Hs code'.
    destruct (handle_oauth_success _ _ _ _ _ _ H Hs) as (m & sd & Hst & Hm & Hf).
    eapply already_authenticated; eauto.
Qed.

Lemma complete_authorization_idempotent_witness :
  GmailAgent._handle_oauth Sample.E "s1" "4/good"
    (snd (GmailAgent._handle_oauth Sample.E "s1" "4/good" Sample.w1))
  = (Ret (MkOAuthResponse true "Already authenticated"),
     snd (GmailAgent._handle_oauth Sample.E "s1" "4/good" Sample.w1)).
Proof.
  apply (proj2 (complete_authorization_idempotent Sample.E "s1" Sample.w1)
           "4/good" (MkOAuthResponse true "OAuth completed and tokens stored")
           (snd (GmailAgent._handle_oauth Sample.E "s1" "4/good" Sample.w1))).
  - vm_compute. reflexivity.
  - reflexivity.
Defined.

(** ** The conversational router *)

Lemma startswith_app p s : startswith p (p +:+ s) = true.
Proof.
  induction p as [|a p IH]; simpl; [reflexivity |].
  rewrite Ascii.eqb_refl. exact IH.
Qed.

Lemma contains_startswith p s : startswith p s = true -> contains p s = true.
Proof. intros H. destruct s; simpl; rewrite H; reflexivity. Qed.

Lemma contains_cons p c s :
  contains p (String c s)
  = if startswith p (String c s) then true else contains p s.
Proof. reflexivity. Qed.

Lemma contains_app_r p a s : contains p s = true -> contains p (a +:+ s) = true.
Proof.
  intros H. induction a as [|c a IH]; [exact H |].
  change (String c a +:+ s) with (String c (a +:+ s)). rewrite contains_cons.
  destruct (startswith p (String c (a +:+ s))); [reflexivity | exact IH].
Qed.

Lemma startswith_app_l q t b : startswith q t = true -> startswith q (t +:+ b) = true.
Proof.
  revert t. induction q as [|a q IH]; intros [|c t]; simpl;
    try reflexivity; try discriminate.
  destruct (Ascii.eqb a c); [apply IH | discriminate].
Qed.

Lemma contains_app_l p s b : contains p s = true -> contains p (s +:+ b) = true.
Proof.
  induction s as [|c s IH].
  - intros H. apply contains_startswith, startswith_app_l.
    simpl in H. destruct (startswith p EmptyString); [reflexivity | discriminate].
  - change (String c s +:+ b) with (String c (s +:+ b)). rewrite !contains_cons.
    destruct (startswith p (String c s)) eqn:Hp.
    + intros _. apply (startswith_app_l _ _ b) in Hp.
      change (String c s +:+ b) with (String c (s +:+ b)) in Hp.
      rewrite Hp. reflexivity.
    + intros H. destruct (startswith p (String c (s +:+ b))); [reflexivity | auto].
Qed.

Lemma contains_middle p a b : contains p (a +:+ p +:+ b) = true.
Proof. apply contains_app_r, contains_startswith, startswith_app. Qed.

(** The link the Gmail router sends carries a [state=] parameter and the
    URL the broker returned. *)
Lemma attach_state_has_state url sid :
  contains "state=" (GmailProto.attach_state url sid) = true.
Proof.
  unfold GmailProto.attach_state.
  destruct (contains "state=" url) eqn:H; cbn [negb]; [exact H |].
  apply contains_app_r, contains_app_r. apply contains_startswith, startswith_app.
Qed.

Lemma startswith_refl s : startswith s s = true.
Proof.
  induction s as [|a s IH]; simpl; [reflexivity |].
  rewrite Ascii.eqb_refl. exact IH.
Qed.

Lemma attach_state_prefix url sid :
  startswith url (GmailProto.attach_state url sid) = true.
Proof.
  unfold GmailProto.attach_state.
  destruct (negb (contains "state=" url)); [apply startswith_app | apply startswith_refl].
Qed.

Lemma gmail_link_reply_contains url u :
  contains url u = true -> contains url (GmailProto.link_reply u) = true.
Proof.
  intros H. unfold GmailProto.link_reply.
  do 8 apply contains_app_r. apply contains_app_l. exact H.
Qed.

Lemma calendar_link_reply_contains url :
  contains url (CalendarProto.link_reply url) = true.
Proof.
  unfold CalendarProto.link_reply.
  do 4 apply contains_app_r. apply contains_startswith, startswith_app.
Qed.

Arguments GmailProto._run_gmail_tool : simpl never.
Arguments GmailProto._call_openai_responses : simpl never.
Arguments GmailProto.revalidate : simpl never.
Arguments GmailProto.complete_flow : simpl never.
Arguments GmailProto.request_link : simpl never.
Arguments GmailProto.start_oauth : simpl never.
Arguments GmailProto.auth_workflow : simpl never.
Arguments GmailProto.fallback : simpl never.
Arguments GmailProto.converse : simpl never.
Arguments GmailProto.route : simpl never.
Arguments GmailProto.persist : simpl never.
Arguments CalendarProto._run_cal_tool : simpl never.
Arguments CalendarProto._call_openai_responses : simpl never.
Arguments CalendarProto.revalidate : simpl never.
Arguments CalendarProto.auth_workflow : simpl never.
Arguments CalendarProto.converse : simpl never.
Arguments token_file_for : simpl never.

Lemma handle_chat_message_unfold E sid sender msg w :
  GmailProto.handle_chat_message E sid sender msg w
  = finally (GmailProto.route E (sessions_of w) sid sender msg)
            (modify (set_ctx (CURRENT_SESSION_DATA w)))
            (entered sender (session_of sid w) w).
Proof. reflexivity. Qed.

Lemma finally_reset {A} (m : M A) token w :
  finally m (modify (set_ctx token)) w = (fst (m w), set_ctx token (snd (m w))).
Proof. unfold finally, modify. destruct (m w). reflexivity. Qed.

(** The router of a session that is not authenticated goes to the
    authentication workflow. *)
Lemma route_not_authenticated E sessions sid sender msg v sd :
  has_start msg = false ->
  CURRENT_SESSION_DATA v = Some sd ->
  Session.flag (Session.authenticated sd) = false ->
  texts_of msg <> [] \/ Session.flag (Session.awaiting_auth_code sd) = true ->
  (Session.flag (Session.awaiting_auth_code sd) = true -> Broker._flow (auth v) <> None) ->
  GmailProto.route E sessions sid sender msg v
  = GmailProto.auth_workflow E sessions sid sender (texts_of msg) v.
Proof.
  intros Hs Hc Ha Ht Hf. unfold GmailProto.route. rewrite Hs.
  unfold GmailProto.session_data, get_session_ctx, when, bind, gets, ret, get_auth.
  cbn. rewrite Hc. cbn.
  assert (bool_decide (texts_of msg = [])
          && negb (Session.flag (Session.awaiting_auth_code sd)) = false) as ->.
  { destruct Ht as [Ht | Ht].
    - rewrite bool_decide_eq_false_2 by exact Ht. reflexivity.
    - rewrite Ht. apply andb_false_r. }
  assert (Session.flag (Session.awaiting_auth_code sd)
          && bool_decide (Broker._flow (auth v) = None) = false) as ->.
  { destruct (Session.flag (Session.awaiting_auth_code sd)); [|reflexivity].
    rewrite bool_decide_eq_false_2 by auto. reflexivity. }
  cbn. rewrite Hc. cbn. rewrite Ha. cbn. rewrite Hc. cbn. rewrite Ha. reflexivity.
Qed.

Lemma invoker_proof_ctx_set : invoker_proof ctx_set.
Proof.
  repeat split; try reflexivity.
  intros p s w H. unfold ctx_set. cbn. rewrite H. reflexivity.
Qed.

Lemma ctx_set_some w : ctx_set w = true -> CURRENT_SESSION_DATA w = Some (current_session w).
Proof.
  unfold ctx_set, current_session. destruct (CURRENT_SESSION_DATA w); [reflexivity | discriminate].
Qed.

Lemma auth_workflow_starts E sessions sid sender texts v sd :
  CURRENT_SESSION_DATA v = Some sd ->
  Session.flag (Session.oauth_link_sent sd) = false ->
  Session.flag (Session.awaiting_auth_code sd) = false ->
  GmailProto.auth_workflow E sessions sid sender texts v
  = GmailProto.start_oauth E sessions sid sender v.
Proof.
  intros Hc Hl Ha. unfold GmailProto.auth_workflow, GmailProto.session_data,
    get_session_ctx, bind, gets. cbn. rewrite Hc. cbn. rewrite Hl, Ha. reflexivity.
Qed.

Lemma auth_workflow_completes E sessions sid sender code rest v sd :
  CURRENT_SESSION_DATA v = Some sd ->
  Session.flag (Session.awaiting_auth_code sd) = true ->
  startswith "4/" code = true ->
  GmailProto.auth_workflow E sessions sid sender (code :: rest) v
  = GmailProto.complete_flow E sessions sid sender code v.
Proof.
  intros Hc Ha Hs. unfold GmailProto.auth_workflow, GmailProto.session_data,
    get_session_ctx, bind, gets. cbn. rewrite Hc. cbn. rewrite Ha.
  rewrite andb_false_r. unfold GmailProto.code_of. rewrite Hs. reflexivity.
Qed.

(** The world after the Gmail router sent the link: the dict in the
    context variable updated, the reply in the outbox, the session stored. *)
Lemma start_oauth_sends_link E sessions sid sender v oauth_json w2 d url :
  ctx_set v = true ->
  GmailProto._run_gmail_tool E "setup_oauth" (JObj [("session_id", JStr sid)]) v
  = (Ret oauth_json, w2) ->
  json_loads oauth_json = Ret (JObj d) ->
  truthy_opt (assoc "success" d) = true ->
  assoc "auth_url" d = Some (JStr url) ->
  GmailProto.start_oauth E sessions sid sender v
  = (Ret tt,
     set_storage
       (Sessions (<[sid := awaiting_code sid (current_session w2)]> sessions))
       (set_outbox
          (outbox w2 ++ [(sender,
                          ChatMessage (GmailProto.link_reply
                                         (GmailProto.attach_state url sid)))])
          (set_ctx (Some (awaiting_code sid (current_session w2))) w2))).
Proof.
  intros Hv Hrun Hj Hok Hu.
  pose proof (keeps_run_gmail_tool ctx_set E "setup_oauth"
                (JObj [("session_id", JStr sid)]) invoker_proof_ctx_set v) as Hk.
  rewrite Hrun in Hk. cbn in Hk. rewrite Hv in Hk. apply ctx_set_some in Hk.
  unfold GmailProto.start_oauth, GmailProto.request_link.
  unfold bind at 1. unfold try_except. unfold bind at 1. rewrite Hrun.
  unfold bind, lift. rewrite Hj. cbn. rewrite Hok. cbn. rewrite Hu. cbn.
  unfold GmailProto.update, update_session_ctx, modify, ret, send. cbn.
  rewrite Hk. cbn.
  unfold GmailProto.persist, GmailProto.session_data, get_session_ctx, bind, gets,
    store_session, modify. cbn.
  reflexivity.
Qed.

Lemma current_flag_session w :
  current_flag w = Session.flag (Session.authenticated (current_session w)).
Proof. unfold current_flag, current_session. destruct (CURRENT_SESSION_DATA w); reflexivity. Qed.

Lemma calendar_handle_not_authenticated E sid sender msg w :
  storage w <> Unparseable ->
  has_start msg = false ->
  texts_of msg <> [] \/ Session.flag (Session.awaiting_auth_code (session_of sid w)) = true ->
  Session.flag (Session.authenticated (session_of sid w)) = false ->
  CalendarProto._handle E sid sender msg w
  = finally (CalendarProto.auth_workflow E (sessions_of w) sid sender (texts_of msg)
               (Session.set_sender_address (Some sender) (session_of sid w)) true)
            (modify (set_ctx (CURRENT_SESSION_DATA w)))
            (entered sender (session_of sid w) w).
Proof.
  intros Hst Hs Ht Ha. unfold CalendarProto._handle. rewrite Hs.
  unfold bind at 1. unfold send, modify. unfold bind at 1. unfold gets. cbn [storage set_outbox].
  unfold bind at 1.
  assert ((match storage w with
           | NoValue => ret ∅
           | Unparseable => raise (Exn ValueError "Expecting value: line 1 column 1 (char 0)")
           | Sessions m => ret m
           end) (set_outbox (outbox w ++ [(sender, ChatAcknowledgement)]) w)
          = (Ret (sessions_of w), set_outbox (outbox w ++ [(sender, ChatAcknowledgement)]) w))
    as ->.
  { unfold sessions_of. destruct (storage w); [reflexivity | contradiction | reflexivity]. }
  fold (session_of sid w). cbn [Session.awaiting_auth_code Session.set_sender_address].
  assert (bool_decide (texts_of msg = [])
          && negb (Session.flag (Session.awaiting_auth_code (session_of sid w))) = false)
    as ->.
  { destruct Ht as [Ht | Ht].
    - rewrite bool_decide_eq_false_2 by exact Ht. reflexivity.
    - rewrite Ht. apply andb_false_r. }
  unfold bind at 1. unfold gets. cbn [CURRENT_SESSION_DATA set_outbox].
  unfold bind at 1. unfold modify. cbn [Session.authenticated Session.set_sender_address].
  rewrite Ha. cbn [negb].
  unfold finally. unfold bind at 1. unfold ret. cbn [fst snd negb Session.authenticated
    Session.set_sender_address]. rewrite Ha. reflexivity.
Qed.

(** The world after the Calendar router sent the link. *)
Lemma calendar_auth_workflow_sends_link E sessions sid sender texts sd w
      oauth_json w2 d url :
  let data := Session.set_sender_address (Some sender) sd in
  Session.flag (Session.oauth_link_sent sd) = false ->
  Session.flag (Session.awaiting_auth_code sd) = false ->
  CalendarProto._run_cal_tool E "setup_oauth" (JObj [("session_id", JStr sid)])
    (entered sender sd w) = (Ret oauth_json, w2) ->
  json_loads oauth_json = Ret (JObj d) ->
  truthy_opt (assoc "success" d) = true ->
  assoc "auth_url" d = Some (JStr url) ->
  CalendarProto.auth_workflow E sessions sid sender texts data true (entered sender sd w)
  = (Ret tt,
     set_storage
       (Sessions (<[sid := awaiting_grant (current_session w2)]> sessions))
       (set_outbox
          (outbox w2 ++ [(sender, ChatMessage (CalendarProto.link_reply url))]) w2)).
Proof.
  intros data Hl Ha Hrun Hj Hok Hu.
  pose proof (keeps_run_cal_tool ctx_set E "setup_oauth"
                (JObj [("session_id", JStr sid)]) invoker_proof_ctx_set
                (entered sender sd w)) as Hk.
  rewrite Hrun in Hk. cbn in Hk. apply ctx_set_some in Hk.
  unfold CalendarProto.auth_workflow. subst data.
  cbn [Session.oauth_link_sent Session.awaiting_auth_code Session.set_sender_address].
  rewrite Hl, Ha. cbn [andb negb].
  unfold bind at 1. unfold CalendarProto.call_with.
  change (set_ctx (Some (Session.set_sender_address (Some sender) sd)) (entered sender sd w))
    with (entered sender sd w).
  rewrite Hrun. cbn [fst snd].
  unfold bind, lift. rewrite Hj. cbn. rewrite Hok. cbn. rewrite Hu. cbn.
  unfold send, store_session, modify. cbn.
  unfold current_session. rewrite Hk. reflexivity.
Qed.

(** When [setup_oauth] fails, here for want of the client secrets, both
    routers report the failure to the user and the session stays
    [UNAUTHENTICATED]. *)
Lemma router_reports_failed_setup :
  let w := set_fs ∅ Sample.w0 in
  let g := snd (GmailProto.handle_chat_message Sample.E "s1" "agent1alice"
                  [TextContent "help"] w) in
  let c := snd (CalendarProto._handle Sample.E "s1" "agent1alice"
                  [TextContent "help"] w) in
  state_of (session_of "s1" g) = UNAUTHENTICATED
  /\ state_of (session_of "s1" c) = UNAUTHENTICATED
  /\ omap (fun m => match snd m with ChatMessage t => Some t | _ => None end)
          (outbox g)
     = ["❌ Authentication setup failed: Google OAuth client secrets not found at client_secret.json."]
  /\ omap (fun m => match snd m with ChatMessage t => Some t | _ => None end)
          (outbox c)
     = ["❌ Authentication setup failed: [Errno 2] No such file or directory: 'client_secret.json'"].
Proof. vm_compute. repeat split. Qed.

(** C7 does not hold of the code: a session that is neither authenticated
    nor awaiting a code but still has the link-sent flag (the state in
    which a rejected code leaves it) gets no authorization link; the
    router returns at its guard against duplicate sends. *)
Lemma router_skips_session_with_link_sent :
  ~ (forall (E : Env) (sid sender text : string) (w : World),
        state_of (session_of sid w) = UNAUTHENTICATED ->
        state_of (session_of sid
                    (snd (GmailProto.handle_chat_message E sid sender
                            [TextContent text] w)))
        = AWAITING_CODE).
Proof.
  intros claim.
  specialize (claim Sample.E "s1" "agent1alice" "help" Sample.w2_bad eq_refl).
  vm_compute in claim. discriminate.
Qed.

(** Where the routers do begin an authorization: for a session that is
    not authenticated, not awaiting a code and has no link-sent flag, a
    message with user text (and no start-session block) makes the router
    call [setup_oauth] with the session id; when that returns a success
    payload with an [auth_url], the router sets [awaiting_auth_code] and
    [oauth_link_sent], stores the session, now in [AWAITING_CODE], and
    replies with a message that contains the URL (the Gmail router also
    makes sure the link carries a [state=] parameter). *)
Theorem router_begins_authorization
    (E : Env) (sid sender : string) (msg : list content_block) (w : World) :
  has_start msg = false ->
  texts_of msg <> [] ->
  Session.flag (Session.authenticated (session_of sid w)) = false ->
  Session.flag (Session.awaiting_auth_code (session_of sid w)) = false ->
  Session.flag (Session.oauth_link_sent (session_of sid w)) = false ->
  (forall oauth_json w2 d url,
      GmailProto._run_gmail_tool E "setup_oauth" (JObj [("session_id", JStr sid)])
        (entered sender (session_of sid w) w) = (Ret oauth_json, w2) ->
      json_loads oauth_json = Ret (JObj d) ->
      truthy_opt (assoc "success" d) = true ->
      assoc "auth_url" d = Some (JStr url) ->
      let reply := GmailProto.link_reply (GmailProto.attach_state url sid) in
      let w' := snd (GmailProto.handle_chat_message E sid sender msg w) in
      fst (GmailProto.handle_chat_message E sid sender msg w) = Ret tt
      /\ storage w'
         = Sessions (<[sid := awaiting_code sid (current_session w2)]> (sessions_of w))
      /\ state_of (session_of sid w') = AWAITING_CODE
      /\ outbox w' = (outbox w2 ++ [(sender, ChatMessage reply)])%list
      /\ contains url reply = true
      /\ contains "state=" reply = true)
  /\ (storage w <> Unparseable ->
      forall oauth_json w2 d url,
        CalendarProto._run_cal_tool E "setup_oauth" (JObj [("session_id", JStr sid)])
          (entered sender (session_of sid w) w) = (Ret oauth_json, w2) ->
        json_loads oauth_json = Ret (JObj d) ->
        truthy_opt (assoc "success" d) = true ->
        assoc "auth_url" d = Some (JStr url) ->
        let reply := CalendarProto.link_reply url in
        let w' := snd (CalendarProto._handle E sid sender msg w) in
        fst (CalendarProto._handle E sid sender msg w) = Ret tt
        /\ storage w'
           = Sessions (<[sid := awaiting_grant (current_session w2)]> (sessions_of w))
        /\ state_of (session_of sid w') = AWAITING_CODE
        /\ outbox w' = (outbox w2 ++ [(sender, ChatMessage reply)])%list
        /\ contains url reply = true).
Proof.
  intros Hs Ht Ha Hw Hl. split.
  - intros oauth_json w2 d url Hrun Hj Hok Hu reply w'. subst reply w'.
    pose proof (keeps_run_gmail_tool current_flag E "setup_oauth"
                  (JObj [("session_id", JStr sid)]) invoker_proof_current_flag
                  (entered sender (session_of sid w) w)) as Hk.
    rewrite Hrun in Hk. cbn [snd] in Hk.
    rewrite handle_chat_message_unfold, finally_reset.
    rewrite (route_not_authenticated _ _ _ _ _ _
               (Session.set_sender_address (Some sender) (session_of sid w)));
      [| exact Hs | reflexivity | exact Ha | left; exact Ht
       | cbn; rewrite Hw; discriminate].
    rewrite (auth_workflow_starts _ _ _ _ _ _
               (Session.set_sender_address (Some sender) (session_of sid w)));
      [| reflexivity | exact Hl | exact Hw].
    rewrite (start_oauth_sends_link E (sessions_of w) sid sender
               (entered sender (session_of sid w) w) oauth_json w2 d url
               eq_refl Hrun Hj Hok Hu).
    cbn [fst snd storage outbox set_ctx set_storage set_outbox].
    repeat split.
    + unfold session_of at 1. unfold sessions_of at 1.
      cbn [storage set_ctx set_storage set_outbox].
      rewrite lookup_insert_eq. cbn [default].
      unfold state_of, awaiting_code. cbn.
      rewrite <- current_flag_session, Hk.
      change (current_flag (entered sender (session_of sid w) w))
        with (Session.flag (Session.authenticated (session_of sid w))).
      rewrite Ha. reflexivity.
    + apply gmail_link_reply_contains, contains_startswith, attach_state_prefix.
    + apply gmail_link_reply_contains, attach_state_has_state.
  - intros Hst oauth_json w2 d url Hrun Hj Hok Hu reply w'. subst reply w'.
    pose proof (keeps_run_cal_tool current_flag E "setup_oauth"
                  (JObj [("session_id", JStr sid)]) invoker_proof_current_flag
                  (entered sender (session_of sid w) w)) as Hk.
    rewrite Hrun in Hk. cbn [snd] in Hk.
    rewrite calendar_handle_not_authenticated, finally_reset by auto.
    rewrite (calendar_auth_workflow_sends_link _ _ _ _ _ _ _ _ _ _ _ Hl Hw Hrun Hj Hok Hu).
    cbn [fst snd storage outbox set_ctx set_storage set_outbox].
    repeat split.
    + unfold session_of at 1. unfold sessions_of at 1.
      cbn [storage set_ctx set_storage set_outbox].
      rewrite lookup_insert_eq. cbn [default].
      unfold state_of, awaiting_grant. cbn.
      rewrite <- current_flag_session, Hk.
      change (current_flag (entered sender (session_of sid w) w))
        with (Session.flag (Session.authenticated (session_of sid w))).
      rewrite Ha. reflexivity.
    + apply calendar_link_reply_contains.
Qed.

Lemma router_begins_authorization_witness :
  state_of (session_of "s1"
              (snd (GmailProto.handle_chat_message Sample.E "s1" "agent1alice"
                      [TextContent "help"] Sample.w0)))
  = AWAITING_CODE.
Proof.
  assert (Ht : texts_of [TextContent "help"] <> []) by (vm_compute; discriminate).
  pose (url := "https://accounts.google.com/o/oauth2/auth?response_type=code&state=s1&prompt=consent").
  pose (d := [("success", JBool true); ("auth_url", JStr url)]).
  pose (v := entered "agent1alice" (session_of "s1" Sample.w0) Sample.w0).
  pose (w2 := snd (GmailProto._run_gmail_tool Sample.E "setup_oauth"
                     (JObj [("session_id", JStr "s1")]) v)).
  refine (proj1 (proj2 (proj2
            (proj1 (router_begins_authorization Sample.E "s1" "agent1alice"
                      [TextContent "help"] Sample.w0
                      eq_refl Ht eq_refl eq_refl eq_refl)
               (json_dumps (JObj d)) w2 d url _ eq_refl eq_refl eq_refl)))).
  vm_compute. reflexivity.
Defined.

(** What the Gmail router does with the answer to [complete_oauth]. *)
Lemma complete_flow_result E sessions sid sender code sd w result w2 d :
  GmailProto._run_gmail_tool E "complete_oauth" (JObj [("auth_code", JStr code)])
    (code_received E sid sender code sd w) = (Ret result, w2) ->
  json_loads result = Ret (JObj d) ->
  exists w',
    GmailProto.complete_flow E sessions sid sender code (entered sender sd w) = (Ret tt, w')
    /\ (truthy_opt (assoc "success" d) = true ->
        (exists sd',
            storage w' = Sessions (<[sid := sd']> sessions)
            /\ Session.authenticated sd' = Some true
            /\ Session.awaiting_auth_code sd' = None
            /\ Session.oauth_link_sent sd' = None)
        /\ outbox w' = (outbox w2 ++ [(sender, ChatMessage GmailProto.auth_success_text)])%list)
    /\ (truthy_opt (assoc "success" d) = false ->
        storage w'
        = Sessions (<[sid := Session.set_awaiting_auth_code None (current_session w2)]> sessions)
        /\ outbox w' = (outbox w2 ++ [(sender, ChatMessage (auth_failed_text E d))])%list).
Proof.
  intros Hrun Hj.
  pose proof (keeps_run_gmail_tool ctx_set E "complete_oauth"
                (JObj [("auth_code", JStr code)]) invoker_proof_ctx_set
                (code_received E sid sender code sd w)) as Hk.
  rewrite Hrun in Hk. cbn in Hk. apply ctx_set_some in Hk.
  unfold GmailProto.complete_flow.
  unfold GmailProto.update, update_session_ctx, point_broker_at, modify_auth.
  unfold bind at 1 2 3 4. unfold modify at 1 2 3 4.
  cbn [CURRENT_SESSION_DATA entered set_ctx set_outbox set_auth auth].
  unfold bind at 1. unfold try_except_cls. unfold bind at 1.
  change (GmailProto._run_gmail_tool E "complete_oauth" (JObj [("auth_code", JStr code)]) _)
    with (GmailProto._run_gmail_tool E "complete_oauth" (JObj [("auth_code", JStr code)])
            (code_received E sid sender code sd w)).
  rewrite Hrun. unfold lift at 1. rewrite Hj.
  unfold bind at 1. unfold lift at 1. cbn [get].
  destruct (truthy_opt (assoc "success" d)) eqn:Hok.
  - (* the exchange succeeded *)
    unfold bind at 1. unfold bind at 1. unfold bind at 1. unfold modify at 1.
    rewrite Hk. unfold bind at 1. unfold modify at 1. cbn [CURRENT_SESSION_DATA set_ctx].
    unfold bind at 1. unfold modify at 1. cbn [CURRENT_SESSION_DATA set_ctx].
    unfold bind at 1.
    match goal with
    | |- context [try_except ?m ?h ?v] =>
        assert (Hread : exists sd' w3,
                   try_except m h v = (Ret tt, w3)
                   /\ CURRENT_SESSION_DATA w3 = Some sd'
                   /\ Session.authenticated sd' = Some true
                   /\ Session.awaiting_auth_code sd' = None
                   /\ Session.oauth_link_sent sd' = None
                   /\ outbox w3 = outbox w2)
    end.
    { unfold try_except, bind at 1, read_file. cbn [fs set_ctx].
      destruct (fs w2 !! token_file_for E sid) as [c|]; cbn.
      - destruct c; cbn; unfold remove_file; cbn;
          try (destruct (fs w2 !! token_file_for E sid); cbn);
          eexists _, _; repeat split; reflexivity.
      - eexists _, _; repeat split; reflexivity. }
    destruct Hread as (sd' & w3 & -> & Hc3 & Hauth & Haw & Hlk & Hob).
    unfold ret at 1. unfold bind at 1. unfold send, modify.
    unfold GmailProto.persist, GmailProto.session_data, get_session_ctx, bind, gets,
      store_session, modify.
    cbn [fst snd CURRENT_SESSION_DATA set_outbox storage set_storage outbox default].
    rewrite Hc3. cbn [default].
    eexists. split; [reflexivity |].
    cbn [fst snd storage set_storage outbox set_outbox].
    split; [| discriminate].
    intros _. split; [| rewrite Hob; reflexivity].
    exists sd'. repeat split; assumption.
  - (* the exchange failed *)
    unfold bind at 1. unfold bind at 1. unfold modify at 1.
    rewrite Hk. unfold bind at 1. unfold lift at 1. cbn [get].
    unfold ret at 1. unfold bind at 1. unfold send, modify.
    unfold GmailProto.persist, GmailProto.session_data, get_session_ctx, bind, gets,
      store_session, modify.
    cbn [fst snd CURRENT_SESSION_DATA set_ctx set_outbox storage set_storage outbox default].
    eexists. split; [reflexivity |].
    cbn [fst snd storage set_storage outbox set_outbox].
    split; [discriminate |].
    intros _. split; reflexivity.
Qed.

Lemma calendar_auth_workflow_reminds E sessions sid sender texts data v :
  Session.flag (Session.awaiting_auth_code data) = true ->
  texts <> [] ->
  CalendarProto.auth_workflow E sessions sid sender texts data true v
  = (Ret tt,
     set_storage (Sessions (<[sid := data]> sessions))
       (set_outbox (outbox v ++ [(sender, ChatMessage CalendarProto.reminder_text)]) v)).
Proof.
  intros Ha Ht. unfold CalendarProto.auth_workflow. rewrite Ha, andb_false_r.
  rewrite bool_decide_eq_false_2 by exact Ht. reflexivity.
Qed.

(** C8, as stated, fails: after a rejected code the Gmail router clears
    [awaiting_auth_code], so the session does not remain in
    [AWAITING_CODE]. *)
Lemma router_leaves_awaiting_code_on_failure :
  ~ (forall (E : Env) (sid sender code : string) (w : World),
        state_of (session_of sid w) = AWAITING_CODE ->
        startswith "4/" code = true ->
        let after := state_of (session_of sid
                                 (snd (GmailProto.handle_chat_message E sid sender
                                         [TextContent code] w))) in
        after = AUTHENTICATED \/ after = AWAITING_CODE).
Proof.
  intros claim.
  destruct (claim Sample.E "s1" "agent1alice" "4/bad" Sample.w1 eq_refl eq_refl)
    as [H | H]; vm_compute in H; discriminate.
Qed.

(** C8, amended: for a Gmail session that is not authenticated and awaits
    the code, with the flow object still in memory, a message whose first
    text starts with "4/" makes the router call [complete_oauth] with that
    text; when the answer reports success the session is stored as
    [AUTHENTICATED] (awaiting and link-sent flags removed) and the user is
    told so; otherwise [awaiting_auth_code] is removed, so that the session
    leaves [AWAITING_CODE], and the error is reported to the user.  The
    Calendar router exchanges no code: it reminds the user, and the session
    stays in [AWAITING_CODE]. *)
Theorem router_completes_authorization
    (E : Env) (sid sender code : string) (rest : list string)
    (msg : list content_block) (w : World) :
  has_start msg = false ->
  texts_of msg = code :: rest ->
  startswith "4/" code = true ->
  Session.flag (Session.authenticated (session_of sid w)) = false ->
  Session.flag (Session.awaiting_auth_code (session_of sid w)) = true ->
  (Broker._flow (auth w) <> None ->
   forall result w2 d,
     GmailProto._run_gmail_tool E "complete_oauth" (JObj [("auth_code", JStr code)])
       (code_received E sid sender code (session_of sid w) w) = (Ret result, w2) ->
     json_loads result = Ret (JObj d) ->
     let w' := snd (GmailProto.handle_chat_message E sid sender msg w) in
     fst (GmailProto.handle_chat_message E sid sender msg w) = Ret tt
     /\ (truthy_opt (assoc "success" d) = true ->
         state_of (session_of sid w') = AUTHENTICATED
         /\ Session.awaiting_auth_code (session_of sid w') = None
         /\ Session.oauth_link_sent (session_of sid w') = None
         /\ outbox w'
            = (outbox w2 ++ [(sender, ChatMessage GmailProto.auth_success_text)])%list)
     /\ (truthy_opt (assoc "success" d) = false ->
         state_of (session_of sid w') = UNAUTHENTICATED
         /\ Session.awaiting_auth_code (session_of sid w') = None
         /\ outbox w'
            = (outbox w2 ++ [(sender, ChatMessage (auth_failed_text E d))])%list))
  /\ (storage w <> Unparseable ->
      let w' := snd (CalendarProto._handle E sid sender msg w) in
      fst (CalendarProto._handle E sid sender msg w) = Ret tt
      /\ tool_log w' = tool_log w
      /\ state_of (session_of sid w') = AWAITING_CODE
      /\ outbox w'
         = (outbox w ++ [(sender, ChatAcknowledgement);
                         (sender, ChatMessage CalendarProto.reminder_text)])%list).
Proof.
  intros Hs Ht Hc Ha Hw. split.
  - intros Hfl result w2 d Hrun Hj w'. subst w'.
    pose proof (keeps_run_gmail_tool current_flag E "complete_oauth"
                  (JObj [("auth_code", JStr code)]) invoker_proof_current_flag
                  (code_received E sid sender code (session_of sid w) w)) as Hk.
    rewrite Hrun in Hk. cbn [snd] in Hk.
    change (current_flag (code_received E sid sender code (session_of sid w) w))
      with (Session.flag (Session.authenticated (session_of sid w))) in Hk.
    rewrite Ha, current_flag_session in Hk.
    rewrite handle_chat_message_unfold, finally_reset.
    rewrite (route_not_authenticated _ _ _ _ _ _
               (Session.set_sender_address (Some sender) (session_of sid w)));
      [| exact Hs | reflexivity | exact Ha | right; exact Hw | intros _; exact Hfl].
    rewrite Ht.
    rewrite (auth_workflow_completes _ _ _ _ _ _ _
               (Session.set_sender_address (Some sender) (session_of sid w)));
      [| reflexivity | exact Hw | exact Hc].
    destruct (complete_flow_result E (sessions_of w) sid sender code (session_of sid w)
                w result w2 d Hrun Hj) as (wc & -> & Hok & Hbad).
    cbn [fst snd]. split; [reflexivity |]. split.
    + intros H. destruct (Hok H) as [(sd' & Hst & Hau & Haw & Hlk) Hob].
      unfold session_of at 1 2 3. unfold sessions_of at 1 2 3.
      cbn [storage set_ctx outbox]. rewrite Hst, lookup_insert_eq. cbn [default from_option id].
      unfold state_of, Session.flag. rewrite Hau, Haw, Hlk, Hob. repeat split.
    + intros H. destruct (Hbad H) as [Hst Hob].
      unfold session_of at 1 2. unfold sessions_of at 1 2.
      cbn [storage set_ctx outbox]. rewrite Hst, lookup_insert_eq. cbn [default from_option id].
      unfold state_of. cbn [Session.authenticated Session.awaiting_auth_code
                           Session.set_awaiting_auth_code Session.flag].
      rewrite Hk, Hob. repeat split.
  - intros Hst w'. subst w'.
    rewrite calendar_handle_not_authenticated, finally_reset by auto.
    rewrite calendar_auth_workflow_reminds;
      [| exact Hw | rewrite Ht; discriminate].
    cbn [fst snd storage outbox tool_log set_ctx set_storage set_outbox entered].
    repeat split.
    + unfold session_of at 1. unfold sessions_of at 1.
      cbn [storage set_ctx set_storage]. rewrite lookup_insert_eq.
      cbn [default from_option id].
      unfold state_of. cbn [Session.authenticated Session.awaiting_auth_code
                           Session.set_sender_address].
      rewrite Ha, Hw. reflexivity.
    + rewrite <- app_assoc. reflexivity.
Qed.

Lemma router_completes_authorization_witness :
  state_of (session_of "s1"
              (snd (GmailProto.handle_chat_message Sample.E "s1" "agent1alice"
                      [TextContent "4/good"] Sample.w1)))
  = AUTHENTICATED.
Proof.
  assert (Hfl : Broker._flow (auth Sample.w1) <> None) by (vm_compute; discriminate).
  pose (d := [("success", JBool true)]).
  pose (v := code_received Sample.E "s1" "agent1alice" "4/good"
               (session_of "s1" Sample.w1) Sample.w1).
  pose (w2 := snd (GmailProto._run_gmail_tool Sample.E "complete_oauth"
                     (JObj [("auth_code", JStr "4/good")]) v)).
  refine (proj1 (proj1 (proj2
            (proj1 (router_completes_authorization Sample.E "s1" "agent1alice"
                      "4/good" [] [TextContent "4/good"] Sample.w1
                      eq_refl eq_refl eq_refl eq_refl eq_refl)
               Hfl (json_dumps (JObj d)) w2 d _ eq_refl)) eq_refl)).
  vm_compute. reflexivity.
Defined.
(** ** A failed exchange silences the session *)

Lemma invoker_proof_link_sent :
  invoker_proof (fun w => Session.oauth_link_sent (current_session w)).
Proof.
  repeat split; try reflexivity.
  intros p s w H. unfold current_session. cbn. rewrite H. reflexivity.
Qed.

(** The guard "against duplicate sends": with the link-sent flag set and
    no code awaited, the authentication workflow returns at once. *)
Lemma auth_workflow_guard E sessions sid sender texts v sd :
  CURRENT_SESSION_DATA v = Some sd ->
  Session.flag (Session.oauth_link_sent sd) = true ->
  Session.flag (Session.awaiting_auth_code sd) = false ->
  GmailProto.auth_workflow E sessions sid sender texts v = (Ret tt, v).
Proof.
  intros Hc Hl Ha. unfold GmailProto.auth_workflow, GmailProto.session_data,
    get_session_ctx, bind, gets. cbn. rewrite Hc. cbn. rewrite Hl, Ha. reflexivity.
Qed.

(** A message for a session that is not authenticated, awaits no code and
    has the link-sent flag: it is acknowledged, and that is all. *)
Lemma gmail_silenced_run E sid sender msg w :
  has_start msg = false ->
  Session.flag (Session.authenticated (session_of sid w)) = false ->
  Session.flag (Session.awaiting_auth_code (session_of sid w)) = false ->
  Session.flag (Session.oauth_link_sent (session_of sid w)) = true ->
  exists w',
    GmailProto.handle_chat_message E sid sender msg w = (Ret tt, w')
    /\ outbox w' = (outbox w ++ [(sender, ChatAcknowledgement)])%list
    /\ tool_log w' = tool_log w
    /\ Session.flag (Session.authenticated (session_of sid w')) = false
    /\ Session.flag (Session.awaiting_auth_code (session_of sid w')) = false
    /\ Session.flag (Session.oauth_link_sent (session_of sid w')) = true.
Proof.
  intros Hs Ha Hw Hl.
  set (sd0 := Session.set_sender_address (Some sender) (session_of sid w)).
  set (v0 := entered sender (session_of sid w) w).
  assert (Hc0 : CURRENT_SESSION_DATA v0 = Some sd0) by reflexivity.
  assert (Hroute : exists v1,
             GmailProto.route E (sessions_of w) sid sender msg v0 = (Ret tt, v1)
             /\ (v1 = v0
                 \/ v1 = set_storage (Sessions (<[sid := sd0]> (sessions_of w))) v0)).
  { unfold GmailProto.route. rewrite Hs. cbn [when].
    unfold bind at 1. unfold ret at 1.
    unfold bind at 1. unfold GmailProto.session_data at 1, get_session_ctx at 1, gets at 1.
    rewrite Hc0. cbn [default from_option id].
    change (Session.awaiting_auth_code sd0)
      with (Session.awaiting_auth_code (session_of sid w)).
    rewrite Hw. cbn [negb andb].
    destruct (bool_decide (texts_of msg = [])); cbn [andb].
    - eexists. split; [| right; reflexivity].
      unfold GmailProto.persist, GmailProto.session_data, get_session_ctx, bind, gets,
        store_session, modify. rewrite Hc0. reflexivity.
    - exists v0. split; [| left; reflexivity].
      unfold when at 1.
      unfold bind at 1. unfold get_auth at 1, gets at 1.
      unfold bind at 1. unfold ret at 1.
      unfold bind at 1. unfold GmailProto.session_data at 1, get_session_ctx at 1, gets at 1.
      rewrite Hc0. cbn [default from_option id].
      change (Session.authenticated sd0)
        with (Session.authenticated (session_of sid w)).
      rewrite Ha. cbn [when].
      unfold bind at 1. unfold ret at 1.
      unfold bind at 1. unfold GmailProto.session_data at 1, get_session_ctx at 1, gets at 1.
      rewrite Hc0. cbn [default from_option id].
      change (Session.authenticated sd0)
        with (Session.authenticated (session_of sid w)).
      rewrite Ha. cbn [negb].
      apply (auth_workflow_guard _ _ _ _ _ _ sd0 Hc0); assumption. }
  destruct Hroute as (v1 & Hroute & Hv1).
  rewrite handle_chat_message_unfold, finally_reset. fold v0. rewrite Hroute.
  cbn [fst snd]. eexists. split; [reflexivity |].
  destruct Hv1 as [-> | ->].
  - repeat split; assumption.
  - split; [reflexivity |]. split; [reflexivity |].
    match goal with
    | |- context [session_of sid ?v] => assert (Hsd : session_of sid v = sd0)
    end.
    { unfold session_of at 1. unfold sessions_of at 1.
      cbn [storage set_ctx set_storage]. rewrite lookup_insert_eq. reflexivity. }
    rewrite Hsd. split; [exact Ha |]. split; [exact Hw | exact Hl].
Qed.

Lemma gmail_silenced_for_good E sid later :
  Forall (fun m => has_start (snd m) = false) later ->
  forall w,
    Session.flag (Session.authenticated (session_of sid w)) = false ->
    Session.flag (Session.awaiting_auth_code (session_of sid w)) = false ->
    Session.flag (Session.oauth_link_sent (session_of sid w)) = true ->
    let w' := delivered E sid later w in
    outbox w' = (outbox w ++ ((fun m => (fst m, ChatAcknowledgement)) <$> later))%list
    /\ tool_log w' = tool_log w
    /\ state_of (session_of sid w') = UNAUTHENTICATED.
Proof.
  induction 1 as [|[sender msg] later Hs _ IH]; intros w Ha Hw Hl; cbn [delivered].
  - rewrite app_nil_r. split; [reflexivity |]. split; [reflexivity |].
    unfold state_of. rewrite Ha, Hw. reflexivity.
  - cbn [snd] in Hs.
    destruct (gmail_silenced_run E sid sender msg w Hs Ha Hw Hl)
      as (w1 & Hrun & Ho & Ht & Ha1 & Hw1 & Hl1).
    rewrite Hrun. cbn [snd].
    destruct (IH w1 Ha1 Hw1 Hl1) as (Ho' & Ht' & Hst).
    split; [| split; [congruence | exact Hst]].
    rewrite Ho', Ho, <- app_assoc. reflexivity.
Qed.

(** C7: the code does not make the transition of the claim for a session
    whose exchange of a code has failed.  The failure is reported with
    "Please try again" and removes [awaiting_auth_code] but not
    [oauth_link_sent]; from then on every message of the session that has
    no start-session block is acknowledged and nothing else: no tool is
    called, no link is sent, and the session stays [UNAUTHENTICATED]. *)
Theorem failed_exchange_silences_session
    (E : Env) (sid sender code : string) (rest : list string)
    (msg : list content_block) (w : World)
    (result : jtext) (w2 : World) (d : list (string * json))
    (later : list (string * list content_block)) :
  has_start msg = false ->
  texts_of msg = code :: rest ->
  startswith "4/" code = true ->
  Session.flag (Session.authenticated (session_of sid w)) = false ->
  Session.flag (Session.awaiting_auth_code (session_of sid w)) = true ->
  Session.flag (Session.oauth_link_sent (session_of sid w)) = true ->
  Broker._flow (auth w) <> None ->
  GmailProto._run_gmail_tool E "complete_oauth" (JObj [("auth_code", JStr code)])
    (code_received E sid sender code (session_of sid w) w) = (Ret result, w2) ->
  json_loads result = Ret (JObj d) ->
  truthy_opt (assoc "success" d) = false ->
  Forall (fun m => has_start (snd m) = false) later ->
  let w1 := snd (GmailProto.handle_chat_message E sid sender msg w) in
  let w' := delivered E sid later w1 in
  outbox w1 = (outbox w2 ++ [(sender, ChatMessage (auth_failed_text E d))])%list
  /\ state_of (session_of sid w1) = UNAUTHENTICATED
  /\ outbox w' = (outbox w1 ++ ((fun m => (fst m, ChatAcknowledgement)) <$> later))%list
  /\ tool_log w' = tool_log w1
  /\ state_of (session_of sid w') = UNAUTHENTICATED.
Proof.
  intros Hs Ht Hc Ha Hw Hl Hfl Hrun Hj Hbad Hlater w1 w'. subst w' w1.
  pose proof (keeps_run_gmail_tool current_flag E "complete_oauth"
                (JObj [("auth_code", JStr code)]) invoker_proof_current_flag
                (code_received E sid sender code (session_of sid w) w)) as Hk.
  rewrite Hrun in Hk. cbn [snd] in Hk.
  change (current_flag (code_received E sid sender code (session_of sid w) w))
    with (Session.flag (Session.authenticated (session_of sid w))) in Hk.
  rewrite Ha, current_flag_session in Hk.
  pose proof (keeps_run_gmail_tool
                (fun v => Session.oauth_link_sent (current_session v)) E "complete_oauth"
                (JObj [("auth_code", JStr code)]) invoker_proof_link_sent
                (code_received E sid sender code (session_of sid w) w)) as Hkl.
  rewrite Hrun in Hkl. cbn [snd] in Hkl.
  change (Session.oauth_link_sent
            (current_session (code_received E sid sender code (session_of sid w) w)))
    with (Session.oauth_link_sent (session_of sid w)) in Hkl.
  assert (Hfirst : exists w1,
             GmailProto.handle_chat_message E sid sender msg w = (Ret tt, w1)
             /\ storage w1
                = Sessions (<[sid := Session.set_awaiting_auth_code None
                                       (current_session w2)]> (sessions_of w))
             /\ outbox w1
                = (outbox w2 ++ [(sender, ChatMessage (auth_failed_text E d))])%list).
  { rewrite handle_chat_message_unfold, finally_reset.
    rewrite (route_not_authenticated _ _ _ _ _ _
               (Session.set_sender_address (Some sender) (session_of sid w)));
      [| exact Hs | reflexivity | exact Ha | right; exact Hw | intros _; exact Hfl].
    rewrite Ht.
    rewrite (auth_workflow_completes _ _ _ _ _ _ _
               (Session.set_sender_address (Some sender) (session_of sid w)));
      [| reflexivity | exact Hw | exact Hc].
    destruct (complete_flow_result E (sessions_of w) sid sender code (session_of sid w)
                w result w2 d Hrun Hj) as (wc & -> & _ & Hfail).
    destruct (Hfail Hbad) as [Hst Hob].
    cbn [fst snd]. eexists. split; [reflexivity |]. split; assumption. }
  destruct Hfirst as (w1 & -> & Hst & Hob). cbn [snd].
  assert (Hsd : session_of sid w1
                = Session.set_awaiting_auth_code None (current_session w2)).
  { unfold session_of, sessions_of. rewrite Hst, lookup_insert_eq. reflexivity. }
  assert (Ha1 : Session.flag (Session.authenticated (session_of sid w1)) = false).
  { rewrite Hsd. exact Hk. }
  assert (Hw1 : Session.flag (Session.awaiting_auth_code (session_of sid w1)) = false).
  { rewrite Hsd. reflexivity. }
  assert (Hl1 : Session.flag (Session.oauth_link_sent (session_of sid w1)) = true).
  { rewrite Hsd. cbn [Session.oauth_link_sent Session.set_awaiting_auth_code].
    rewrite Hkl. exact Hl. }
  split; [exact Hob |]. split.
  - unfold state_of. rewrite Ha1, Hw1. reflexivity.
  - apply gmail_silenced_for_good; assumption.
Qed.

Lemma failed_exchange_silences_session_witness :
  let w1 := snd (GmailProto.handle_chat_message Sample.E "s1" "agent1alice"
                   [TextContent "4/bad"] Sample.w1) in
  let w' := delivered Sample.E "s1"
              [("agent1alice", [TextContent "help"]);
               ("agent1alice", [TextContent "please send the link again"])] w1 in
  state_of (session_of "s1" w') = UNAUTHENTICATED
  /\ tool_log w' = tool_log w1
  /\ outbox w'
     = (outbox w1 ++ [("agent1alice", ChatAcknowledgement);
                      ("agent1alice", ChatAcknowledgement)])%list.
Proof.
  assert (Hfl : Broker._flow (auth Sample.w1) <> None) by (vm_compute; discriminate).
  pose (d := [("success", JBool false);
              ("error", JStr "(invalid_grant) Bad Request")]).
  pose (v := code_received Sample.E "s1" "agent1alice" "4/bad"
               (session_of "s1" Sample.w1) Sample.w1).
  pose (w2 := snd (GmailProto._run_gmail_tool Sample.E "complete_oauth"
                     (JObj [("auth_code", JStr "4/bad")]) v)).
  assert (Hrun : GmailProto._run_gmail_tool Sample.E "complete_oauth"
                   (JObj [("auth_code", JStr "4/bad")]) v
                 = (Ret (json_dumps (JObj d)), w2)) by (vm_compute; reflexivity).
  assert (Hlater : Forall (fun m : string * list content_block => has_start (snd m) = false)
                     [("agent1alice", [TextContent "help"]);
                      ("agent1alice", [TextContent "please send the link again"])])
    by (repeat constructor).
  pose proof (failed_exchange_silences_session Sample.E "s1" "agent1alice" "4/bad" []
                [TextContent "4/bad"] Sample.w1 (json_dumps (JObj d)) w2 d _
                eq_refl eq_refl eq_refl eq_refl eq_refl eq_refl Hfl Hrun eq_refl eq_refl
                Hlater) as (_ & _ & Ho & Ht & Hs).
  intros w1 w'. split; [exact Hs |]. split; [exact Ht | exact Ho].
Defined.

(** ** The authentication gate on tool calls *)

Lemma extends_gated_refl w : extends_gated w w.
Proof. exists []. split; [rewrite app_nil_r; reflexivity | constructor]. Qed.

Lemma extends_gated_same w w' : tool_log w' = tool_log w -> extends_gated w w'.
Proof. intros H. exists []. split; [rewrite app_nil_r; exact H | constructor]. Qed.

Lemma extends_gated_trans w1 w2 w3 :
  extends_gated w1 w2 -> extends_gated w2 w3 -> extends_gated w1 w3.
Proof.
  intros (l1 & H1 & F1) (l2 & H2 & F2). exists (l1 ++ l2)%list. split.
  - rewrite H2, H1, app_assoc. reflexivity.
  - apply Forall_app. split; assumption.
Qed.

Lemma keeps_gated_run {A} (m : M A) : keeps tool_log m -> gated_run m.
Proof. intros H w. apply extends_gated_same, H. Qed.

Lemma keeps_gated_if_auth {A} (m : M A) :
  keeps tool_log m -> keeps current_flag m -> gated_if_auth m.
Proof.
  intros Hl Hf w Hw. split; [apply extends_gated_same, Hl | rewrite Hf; exact Hw].
Qed.

Lemma gated_run_bind {A C} (m : M A) (k : A -> M C) :
  gated_run m -> (forall a, gated_run (k a)) -> gated_run (bind m k).
Proof.
  intros Hm Hk w. unfold bind. specialize (Hm w).
  destruct (m w) as [[a|e] w']; cbn in *; [|exact Hm].
  eapply extends_gated_trans; [exact Hm | apply Hk].
Qed.

Lemma gated_run_try_except {A} (m : M A) (h : exn -> M A) :
  gated_run m -> (forall e, gated_run (h e)) -> gated_run (try_except m h).
Proof.
  intros Hm Hh w. unfold try_except. specialize (Hm w).
  destruct (m w) as [[a|e] w']; cbn in *; [exact Hm |].
  eapply extends_gated_trans; [exact Hm | apply Hh].
Qed.

Lemma gated_run_try_except_cls {A} cls (m : M A) (h : exn -> M A) :
  gated_run m -> (forall e, gated_run (h e)) -> gated_run (try_except_cls cls m h).
Proof.
  intros Hm Hh w. unfold try_except_cls. specialize (Hm w).
  destruct (m w) as [[a|e] w']; cbn in *; [exact Hm |].
  destruct (exn_class_eqb _ _); [|exact Hm].
  eapply extends_gated_trans; [exact Hm | apply Hh].
Qed.

Lemma gated_run_finally {A} (m : M A) (g : M unit) :
  gated_run m -> gated_run g -> gated_run (finally m g).
Proof.
  intros Hm Hg w. unfold finally. specialize (Hm w).
  destruct (m w) as [r w']. specialize (Hg w').
  destruct (g w') as [[[]|e] w'']; cbn in *;
    eapply extends_gated_trans; eassumption.
Qed.

Lemma gated_if_auth_bind {A C} (m : M A) (k : A -> M C) :
  gated_if_auth m -> (forall a, gated_if_auth (k a)) -> gated_if_auth (bind m k).
Proof.
  intros Hm Hk w Hw. unfold bind. destruct (Hm w Hw) as [He Hf].
  destruct (m w) as [[a|e] w']; cbn in *; [|split; assumption].
  destruct (Hk a w' Hf) as [He' Hf']. split; [|exact Hf'].
  eapply extends_gated_trans; eassumption.
Qed.

Lemma gated_if_auth_try_except {A} (m : M A) (h : exn -> M A) :
  gated_if_auth m -> (forall e, gated_if_auth (h e)) -> gated_if_auth (try_except m h).
Proof.
  intros Hm Hh w Hw. unfold try_except. destruct (Hm w Hw) as [He Hf].
  destruct (m w) as [[a|e] w']; cbn in *; [split; assumption |].
  destruct (Hh e w' Hf) as [He' Hf']. split; [|exact Hf'].
  eapply extends_gated_trans; eassumption.
Qed.

(** A step of the session dict that leaves the flag alone. *)
Lemma keeps_flag_update f :
  (forall s, Session.authenticated (f s) = Session.authenticated s) ->
  keeps current_flag (update_session_ctx f).
Proof.
  intros H w. unfold update_session_ctx, modify, current_flag. cbn.
  destruct (CURRENT_SESSION_DATA w) eqn:Hc; cbn; [rewrite H | rewrite Hc]; reflexivity.
Qed.

Lemma keeps_log_update f : keeps tool_log (update_session_ctx f).
Proof.
  intros w. unfold update_session_ctx, modify. cbn.
  destruct (CURRENT_SESSION_DATA w); reflexivity.
Qed.

Lemma keeps_next_stream {B} (f : World -> B) :
  (forall v w, f (set_llm_tape v w) = f w) -> keeps f next_stream.
Proof. intros H w. unfold next_stream. destruct (llm_tape w); cbn; auto. Qed.

Lemma gmail_invoker_accounting E fn args w :
  called_once_or_twice fn args w (snd (GmailProto._run_gmail_tool E fn args w)).
Proof.
  apply (invoker_accounting _ _ _ (gmail_invoker_shape E)).
  - intros. apply keeps_gmail_prepare. assumption.
  - intros. apply keeps_gmail_call_tool. assumption.
Qed.

(** The invoker respects the authentication gate for an authenticated session, and for
    the OAuth tools in any session. *)
Lemma run_gmail_tool_gated_if_auth E fn args :
  gated_if_auth (GmailProto._run_gmail_tool E fn args).
Proof.
  intros w Hw. split.
  - destruct (gmail_invoker_accounting E fn args w)
      as [[Hl _] | [Hl _]]; eexists; (split; [exact Hl |]);
      repeat (constructor; [left; exact Hw |]); constructor.
  - rewrite (keeps_run_gmail_tool current_flag E fn args invoker_proof_current_flag).
    exact Hw.
Qed.

Lemma run_gmail_tool_gated_oauth E fn args :
  oauth_tool fn -> gated_run (GmailProto._run_gmail_tool E fn args).
Proof.
  intros Ho w.
  destruct (gmail_invoker_accounting E fn args w)
    as [[Hl _] | [Hl _]]; eexists; (split; [exact Hl |]);
    repeat (constructor; [right; exact Ho |]); constructor.
Qed.

(** One step of a proof that a computation respects the authentication gate. *)
Ltac gated_leaf :=
  first
    [ apply keeps_gated_run; solve [keeps_auto]
    | apply keeps_gated_run; apply keeps_log_update ].

Ltac gated_step :=
  lazymatch goal with
  | |- gated_run (bind _ _) => apply gated_run_bind; [| intros ?]
  | |- gated_run (try_except _ _) => apply gated_run_try_except; [| intros ?]
  | |- gated_run (try_except_cls _ _ _) => apply gated_run_try_except_cls; [| intros ?]
  | |- gated_run (finally _ _) => apply gated_run_finally
  | |- gated_run (GmailProto._run_gmail_tool _ "setup_oauth" _) =>
      apply run_gmail_tool_gated_oauth; left; reflexivity
  | |- gated_run (GmailProto._run_gmail_tool _ "complete_oauth" _) =>
      apply run_gmail_tool_gated_oauth; right; reflexivity
  | |- gated_run (GmailProto.update _) => apply keeps_gated_run, keeps_log_update
  | |- gated_run (update_session_ctx _) => apply keeps_gated_run, keeps_log_update
  | |- gated_run (match ?x with _ => _ end) => destruct x
  | |- gated_run _ => gated_leaf
  end.

Ltac auth_leaf :=
  first
    [ apply keeps_gated_if_auth; solve [keeps_auto]
    | apply keeps_gated_if_auth;
      [ apply keeps_log_update | apply keeps_flag_update; intros; reflexivity ] ].

Ltac auth_step :=
  lazymatch goal with
  | |- gated_if_auth (bind _ _) => apply gated_if_auth_bind; [| intros ?]
  | |- gated_if_auth (try_except _ _) => apply gated_if_auth_try_except; [| intros ?]
  | |- gated_if_auth (GmailProto._run_gmail_tool _ _ _) => apply run_gmail_tool_gated_if_auth
  | |- gated_if_auth (match ?x with _ => _ end) => destruct x
  | |- gated_if_auth _ => auth_leaf
  end.

Lemma run_calls_gated E calls :
  gated_if_auth (run_calls (GmailProto._run_gmail_tool E) calls).
Proof.
  induction calls as [|[fn args_json] rest IH]; cbn [run_calls].
  - auth_step.
  - repeat auth_step. exact IH.
Qed.

Lemma consume_stream_gated E events chunks :
  gated_if_auth (consume_stream (GmailProto._run_gmail_tool E) events chunks).
Proof.
  revert chunks. induction events as [|ev rest IH]; intros chunks; cbn [consume_stream].
  - auth_step.
  - destruct ev; [apply IH | | apply IH].
    apply gated_if_auth_bind; [apply run_calls_gated | intros; auth_step].
Qed.

Lemma hop_loop_gated E on_limit hops chunks :
  gated_if_auth on_limit ->
  gated_if_auth (hop_loop (GmailProto._run_gmail_tool E) on_limit hops chunks).
Proof.
  intros Hl. revert chunks. induction hops as [|hops IH]; intros chunks; cbn [hop_loop].
  - exact Hl.
  - apply gated_if_auth_bind.
    + apply keeps_gated_if_auth; apply keeps_next_stream; reflexivity.
    + intros events. apply gated_if_auth_bind; [apply consume_stream_gated |].
      intros r. destruct (snd r); [apply IH | auth_step].
Qed.

Lemma call_openai_responses_gated E messages :
  gated_if_auth (GmailProto._call_openai_responses E messages).
Proof. unfold GmailProto._call_openai_responses. apply hop_loop_gated. auth_step. Qed.

Lemma run_leaked_gated E calls :
  gated_if_auth (run_leaked (GmailProto._run_gmail_tool E) calls).
Proof.
  induction calls as [|c rest IH]; cbn [run_leaked].
  - auth_step.
  - repeat auth_step. exact IH.
Qed.

Lemma fallback_gated E reply : gated_if_auth (GmailProto.fallback E reply).
Proof.
  unfold GmailProto.fallback.
  apply gated_if_auth_try_except; [| intros; auth_step].
  apply gated_if_auth_bind.
  - destruct (leaked_tool_calls E reply); [auth_step |].
    apply gated_if_auth_bind; [apply run_leaked_gated |].
    intros. apply call_openai_responses_gated.
  - intros r1. apply gated_if_auth_try_except; [| intros; auth_step].
    destruct (startswith _ _); [| auth_step].
    destruct (leaked_parallel_calls E r1); [| auth_step].
    apply gated_if_auth_bind; [apply run_leaked_gated |].
    intros. apply call_openai_responses_gated.
Qed.

Lemma persist_keeps {B} (f : World -> B) sessions sid :
  (forall v w, f (set_storage v w) = f w) -> keeps f (GmailProto.persist sessions sid).
Proof.
  intros H. unfold GmailProto.persist, GmailProto.session_data, store_session.
  keeps_auto.
Qed.

Lemma send_keeps {B} (f : World -> B) to m :
  (forall v w, f (set_outbox v w) = f w) -> keeps f (send to m).
Proof. intros H. unfold send. keeps_auto. Qed.

Lemma converse_gated E sessions sid sender texts :
  gated_if_auth (GmailProto.converse E sessions sid sender texts).
Proof.
  unfold GmailProto.converse, GmailProto.session_data, GmailProto.update.
  apply gated_if_auth_bind; [auth_step | intros sd].
  apply gated_if_auth_bind.
  { destruct texts; repeat auth_step. }
  intros messages. apply gated_if_auth_bind; [auth_step | intros sd'].
  apply gated_if_auth_bind.
  { destruct (Session.messages sd'); [| auth_step].
    unfold when. destruct (_ <? _)%nat; auth_step. }
  intros _. apply gated_if_auth_bind; [apply call_openai_responses_gated |].
  intros reply. apply gated_if_auth_bind; [apply fallback_gated |].
  intros reply'. apply gated_if_auth_bind; [auth_step | intros sd''].
  apply gated_if_auth_bind; [auth_step | intros _].
  apply gated_if_auth_bind.
  - apply keeps_gated_if_auth; apply send_keeps; reflexivity.
  - intros _. apply keeps_gated_if_auth; apply persist_keeps; reflexivity.
Qed.

Lemma gated_from_auth_bind {A C} (m : M A) (k : A -> M C) :
  gated_if_auth m -> (forall a, gated_from_auth (k a)) -> gated_from_auth (bind m k).
Proof.
  intros Hm Hk w Hw. unfold bind. destruct (Hm w Hw) as [He Hf].
  destruct (m w) as [[a|e] w']; cbn in *; [| exact He].
  eapply extends_gated_trans; [exact He | apply Hk; exact Hf].
Qed.

Lemma gated_run_from_auth {A} (m : M A) : gated_run m -> gated_from_auth m.
Proof. intros H w _. apply H. Qed.

Lemma gated_from_auth_try_except {A} (m : M A) (h : exn -> M A) :
  gated_from_auth m -> (forall e, gated_run (h e)) -> gated_from_auth (try_except m h).
Proof.
  intros Hm Hh w Hw. unfold try_except. specialize (Hm w Hw).
  destruct (m w) as [[a|e] w']; cbn in *; [exact Hm |].
  eapply extends_gated_trans; [exact Hm | apply Hh].
Qed.

(** The validation of an authenticated session dispatches
    [check_auth_status] while the flag is still set. *)
Lemma revalidate_gated E : gated_from_auth (GmailProto.revalidate E).
Proof.
  unfold GmailProto.revalidate, GmailProto.session_data, GmailProto.update,
    point_broker_at.
  apply gated_from_auth_bind; [auth_step | intros sd].
  apply gated_from_auth_bind.
  { destruct (Session.tokens_path sd); [| auth_step].
    unfold when. destruct (nonempty s); repeat auth_step. }
  intros _. apply gated_from_auth_try_except.
  - apply gated_from_auth_bind; [apply run_gmail_tool_gated_if_auth | intros raw].
    apply gated_run_from_auth. unfold when. repeat gated_step.
  - intros e. gated_step.
Qed.

Lemma complete_flow_gated E sessions sid sender code :
  gated_run (GmailProto.complete_flow E sessions sid sender code).
Proof.
  unfold GmailProto.complete_flow, GmailProto.update, point_broker_at, send,
    GmailProto.persist, GmailProto.session_data, store_session.
  repeat gated_step.
Qed.

Lemma request_link_gated E sid sender :
  gated_run (GmailProto.request_link E sid sender).
Proof.
  unfold GmailProto.request_link, GmailProto.update, send.
  repeat gated_step.
Qed.

Lemma start_oauth_gated E sessions sid sender :
  gated_run (GmailProto.start_oauth E sessions sid sender).
Proof.
  unfold GmailProto.start_oauth.
  apply gated_run_bind; [apply request_link_gated | intros r].
  unfold send, GmailProto.persist, GmailProto.session_data, store_session.
  repeat gated_step.
Qed.

Lemma auth_workflow_gated E sessions sid sender texts :
  gated_run (GmailProto.auth_workflow E sessions sid sender texts).
Proof.
  unfold GmailProto.auth_workflow, GmailProto.session_data.
  apply gated_run_bind; [gated_step | intros sd].
  destruct (_ && _); [gated_step |].
  destruct (GmailProto.code_of _ _); [apply complete_flow_gated |].
  destruct (Session.flag _); [| apply start_oauth_gated].
  unfold send, GmailProto.persist, GmailProto.session_data, store_session.
  repeat gated_step.
Qed.

Lemma session_flag_current w :
  Session.flag (Session.authenticated (default Session.empty (CURRENT_SESSION_DATA w)))
  = current_flag w.
Proof. unfold current_flag. destruct (CURRENT_SESSION_DATA w); reflexivity. Qed.

Lemma gated_from_auth_then {A C} (m : M A) (k : A -> M C) :
  gated_from_auth m -> (forall a, gated_run (k a)) -> gated_from_auth (bind m k).
Proof.
  intros Hm Hk w Hw. unfold bind. specialize (Hm w Hw).
  destruct (m w) as [[a|e] w']; cbn in *; [| exact Hm].
  eapply extends_gated_trans; [exact Hm | apply Hk].
Qed.

(** The branch on the authentication flag: the authentication workflow for
    a session without the flag, the conversation for one with it. *)
Lemma branch_gated E sessions sid sender texts :
  gated_run
    (bind GmailProto.session_data
       (fun sd => if negb (Session.flag (Session.authenticated sd))
                  then GmailProto.auth_workflow E sessions sid sender texts
                  else GmailProto.converse E sessions sid sender texts)).
Proof.
  intros w. unfold bind, GmailProto.session_data, get_session_ctx, gets.
  lazy beta iota.
  rewrite session_flag_current. destruct (current_flag w) eqn:Hw; cbn [negb].
  - apply converse_gated. exact Hw.
  - apply auth_workflow_gated.
Qed.

Lemma route_gated E sessions sid sender msg :
  gated_run (GmailProto.route E sessions sid sender msg).
Proof.
  unfold GmailProto.route, GmailProto.update.
  apply gated_run_bind.
  { unfold when. destruct (has_start msg); gated_step. }
  intros _. apply gated_run_bind; [unfold GmailProto.session_data; gated_step | intros sd].
  destruct (_ && _).
  { unfold GmailProto.persist, GmailProto.session_data, store_session.
    repeat gated_step. }
  apply gated_run_bind; [gated_step | intros a].
  apply gated_run_bind.
  { unfold when. destruct (_ && _); repeat gated_step. }
  intros _ w. unfold bind at 1. unfold GmailProto.session_data at 1.
  unfold get_session_ctx, gets. lazy beta iota.
  rewrite session_flag_current. destruct (current_flag w) eqn:Hw; cbn [when].
  - apply gated_from_auth_then; [apply revalidate_gated | | exact Hw].
    intros _. apply branch_gated.
  - apply (gated_run_bind (ret tt)); [gated_step | intros _; apply branch_gated].
Qed.

Lemma handle_chat_message_gated E sid sender msg :
  gated_run (GmailProto.handle_chat_message E sid sender msg).
Proof.
  unfold GmailProto.handle_chat_message, send, load_sessions.
  apply gated_run_bind; [gated_step | intros _].
  apply gated_run_bind; [gated_step | intros sessions].
  apply gated_run_bind; [gated_step | intros token].
  apply gated_run_bind; [gated_step | intros _].
  apply gated_run_finally; [apply route_gated | gated_step].
Qed.

(** A credentialed Gmail tool without a cached service and without a token
    file does not reach the API: it reports "Not authenticated". *)
Lemma credentialed_tool_needs_token E name args w :
  name ∈ GmailServer.credentialed_tools ->
  Broker._service (auth w) = None ->
  fs w !! Broker.tokens_path (auth w) = None ->
  api_log (snd (GmailServer.call_tool E name args w)) = api_log w
  /\ (valid_args E name args = true ->
      GmailServer.call_tool E name args w
      = (Ret (json_dumps (failure (exn_str not_authenticated_gmail))), w)).
Proof.
  intros Hn Hs Hf.
  assert (Hrun : GmailServer.credentialed_tool E name args w
                 = (Ret (json_dumps (failure (exn_str not_authenticated_gmail))), w)).
  { unfold GmailServer.credentialed_tool, GmailServer.get_service.
    repeat (progress (run; rewrite ?Hs, ?Hf)). reflexivity. }
  assert (Hcall : GmailServer.call_tool E name args w
                  = if valid_args E name args
                    then GmailServer.credentialed_tool E name args w
                    else (Raise (Exn ToolError ("Input validation error: " +:+ name)), w)).
  { unfold GmailServer.credentialed_tools in Hn.
    repeat (apply elem_of_cons in Hn as [-> | Hn]);
      try (unfold GmailServer.call_tool; cbn; destruct (valid_args E _ args); reflexivity).
    apply elem_of_nil in Hn. contradiction. }
  rewrite Hcall, Hrun. split.
  - destruct (valid_args E name args); reflexivity.
  - intros ->. reflexivity.
Qed.

(** C1, as stated, fails: the router dispatches [setup_oauth] (and
    [complete_oauth]) for a session whose authenticated flag is false. *)
Lemma oauth_tools_run_before_authentication :
  ~ (forall (E : Env) (sid sender : string) (msg : list content_block) (w : World),
        tool_log w = [] ->
        Forall (fun d => d_authenticated d = true)
               (tool_log (snd (GmailProto.handle_chat_message E sid sender msg w)))).
Proof.
  intros claim.
  specialize (claim Sample.E "s1" "agent1alice" [TextContent "help"] Sample.w0 eq_refl).
  vm_compute in claim. inversion claim as [| d l Hd Hl]. discriminate.
Qed.

(** C1, amended: every tool call the Gmail router dispatches while the
    session's authenticated flag is false is [setup_oauth] or
    [complete_oauth]; every other tool call (the status check and the calls
    made for the model) is dispatched with the flag set.  A credentialed
    tool obtains its service from [get_service] first: with no cached
    service and no token file it returns the "Not authenticated" payload
    and does not reach the API. *)
Theorem tool_calls_are_gated (E : Env) :
  (forall (sid sender : string) (msg : list content_block) (w : World),
      exists l,
        tool_log (snd (GmailProto.handle_chat_message E sid sender msg w))
        = (tool_log w ++ l)%list
        /\ Forall (fun d => d_authenticated d = false ->
                            d_tool d = "setup_oauth" \/ d_tool d = "complete_oauth") l)
  /\ (forall (name : string) (args : json) (w : World),
         name ∈ GmailServer.credentialed_tools ->
         Broker._service (auth w) = None ->
         fs w !! Broker.tokens_path (auth w) = None ->
         api_log (snd (GmailServer.call_tool E name args w)) = api_log w
         /\ (valid_args E name args = true ->
             GmailServer.call_tool E name args w
             = (Ret (json_dumps (failure (exn_str not_authenticated_gmail))), w))).
Proof.
  split.
  - intros sid sender msg w.
    destruct (handle_chat_message_gated E sid sender msg w) as (l & Hl & Hg).
    exists l. split; [exact Hl |].
    eapply Forall_impl; [exact Hg |].
    intros d [Hd | Hd] Hf; [congruence | exact Hd].
  - intros. apply credentialed_tool_needs_token; assumption.
Qed.

Lemma tool_calls_are_gated_witness :
  GmailServer.call_tool Sample.E "list_emails" (JObj []) Sample.w0
  = (Ret (json_dumps (failure (exn_str not_authenticated_gmail))), Sample.w0).
Proof.
  refine (proj2 (proj2 (tool_calls_are_gated Sample.E) "list_emails" (JObj [])
                   Sample.w0 _ eq_refl eq_refl) eq_refl).
  unfold GmailServer.credentialed_tools.
  apply elem_of_cons. right. apply elem_of_cons. left. reflexivity.
Defined.
(** ** Stepping through monadic code without unfolding the file map *)

Ltac wsimpl :=
  cbn [fs auth CURRENT_SESSION_DATA storage outbox mcp_faults llm_tape uuid_count
       tool_log api_log sleep_log set_fs set_auth set_ctx set_storage set_outbox
       set_mcp_faults set_llm_tape set_uuid_count set_tool_log set_api_log
       set_sleep_log fst snd negb andb orb
       Broker.tokens_path Broker._service Broker._flow Broker.credentials_path
       Broker.set_tokens_path Broker.set_service Broker.set_flow] in *.

Ltac mstep :=
  unfold get_auth, modify_auth, path_exists, write_file, or_failure,
    from_client_secrets_file, send, store_session, load_sessions in *;
  unfold read_file, remove_file, when in *;
  unfold bind, ret, raise, gets, modify, lift, try_except, try_except_cls,
    finally in *;
  wsimpl.

Lemma exists_true {A} (m : gmap string A) p c :
  m !! p = Some c -> bool_decide (is_Some (m !! p)) = true.
Proof. intros H. apply bool_decide_eq_true_2. rewrite H. eauto. Qed.

Lemma exists_false {A} (m : gmap string A) p :
  m !! p = None -> bool_decide (is_Some (m !! p)) = false.
Proof. intros H. apply bool_decide_eq_false_2. rewrite H. intros [? ?]. discriminate. Qed.
(** ** The server tools: resetting, round trips, replies *)

Lemma reset_oauth_tokens_removes E w c :
  fs w !! TOKENS_PATH E = Some c ->
  GmailServer.reset_oauth_tokens E w
  = (Ret (json_dumps (JObj [("success", JBool true)])),
     set_auth (Broker.set_service None (auth w))
              (set_fs (delete (TOKENS_PATH E) (fs w)) w)).
Proof.
  intros Hc. unfold GmailServer.reset_oauth_tokens. mstep.
  rewrite (exists_true _ _ _ Hc), Hc. reflexivity.
Qed.

(** X1: a successful [reset_oauth_tokens] removes the default token file and
    drops the cached service; when the broker points at that file, the
    status check then reports "not authenticated" and every credentialed
    tool answers with the "Not authenticated" failure without reaching the
    API. *)
Theorem reset_oauth_tokens_revokes (E : Env) (w : World) :
  is_Some (fs w !! TOKENS_PATH E) ->
  let w' := snd (GmailServer.reset_oauth_tokens E w) in
  fst (GmailServer.reset_oauth_tokens E w)
  = Ret (json_dumps (JObj [("success", JBool true)]))
  /\ fs w' = delete (TOKENS_PATH E) (fs w)
  /\ Broker._service (auth w') = None
  /\ (Broker.tokens_path (auth w) = TOKENS_PATH E ->
      GmailServer.check_auth_status E w'
      = (Ret (json_dumps not_authenticated_status), w')
      /\ forall name args,
           name ∈ GmailServer.credentialed_tools ->
           valid_args E name args = true ->
           GmailServer.call_tool E name args w'
           = (Ret (json_dumps (failure (exn_str not_authenticated_gmail))), w')).
Proof.
  intros [c Hc] w'. subst w'.
  rewrite (reset_oauth_tokens_removes _ _ _ Hc). wsimpl.
  split; [reflexivity |]. split; [reflexivity |]. split; [reflexivity |].
  intros Hp. split.
  - unfold GmailServer.check_auth_status. mstep. rewrite Hp.
    rewrite exists_false by apply lookup_delete_eq.
    rewrite andb_false_r. reflexivity.
  - intros name args Hn Hv.
    apply credentialed_tool_needs_token; auto.
    wsimpl. rewrite Hp. apply lookup_delete_eq.
Qed.

Lemma reset_oauth_tokens_revokes_witness :
  GmailServer.check_auth_status Sample.E
    (snd (GmailServer.reset_oauth_tokens Sample.E Sample.w_cached_token))
  = (Ret (json_dumps not_authenticated_status),
     snd (GmailServer.reset_oauth_tokens Sample.E Sample.w_cached_token)).
Proof.
  assert (H : is_Some (fs Sample.w_cached_token !! TOKENS_PATH Sample.E))
    by (vm_compute; eauto).
  exact (proj1 (proj2 (proj2 (proj2
           (reset_oauth_tokens_revokes Sample.E Sample.w_cached_token H))) eq_refl)).
Defined.

(** X2: [reset_oauth_tokens] only ever removes the file at the module-level
    [TOKENS_PATH]: every other file, the broker's token path and its pending
    flow stay as they are; and without that file it reports "No token
    file" and changes nothing, not even the cached service. *)
Theorem reset_oauth_tokens_frame (E : Env) (w : World) :
  let w' := snd (GmailServer.reset_oauth_tokens E w) in
  (forall p, p <> TOKENS_PATH E -> fs w' !! p = fs w !! p)
  /\ Broker.tokens_path (auth w') = Broker.tokens_path (auth w)
  /\ Broker._flow (auth w') = Broker._flow (auth w)
  /\ (fs w !! TOKENS_PATH E = None ->
      GmailServer.reset_oauth_tokens E w
      = (Ret (json_dumps (failure "No token file")), w)).
Proof.
  intros w'. subst w'.
  destruct (fs w !! TOKENS_PATH E) as [c|] eqn:Hc.
  - rewrite (reset_oauth_tokens_removes _ _ _ Hc). wsimpl.
    repeat split; try discriminate.
    intros p Hp. apply lookup_delete_ne. congruence.
  - assert (Hr : GmailServer.reset_oauth_tokens E w
                 = (Ret (json_dumps (failure "No token file")), w)).
    { unfold GmailServer.reset_oauth_tokens. mstep.
      rewrite (exists_false _ _ Hc). reflexivity. }
    rewrite Hr. repeat split.
Qed.
Lemma gmail_complete_oauth_persists E code w fl creds :
  Broker._flow (auth w) = Some fl ->
  fetch_token E fl code = Ret creds ->
  GmailServer.complete_oauth E code w
  = (Ret (json_dumps (JObj [("success", JBool true)])), persisting creds w).
Proof.
  intros Hfl Hx.
  unfold GmailServer.complete_oauth, GmailServer.exchange_code_for_token.
  mstep. rewrite Hfl, Hx. reflexivity.
Qed.

Lemma calendar_complete_oauth_persists E code w fl creds :
  Broker._flow (auth w) = Some fl ->
  fetch_token E fl code = Ret creds ->
  CalendarServer.complete_oauth E code w
  = (Ret (json_dumps (JObj [("success", JBool true)])), persisting creds w).
Proof.
  intros Hfl Hx.
  unfold CalendarServer.complete_oauth, CalendarServer.exchange_code_for_token.
  mstep. rewrite Hfl, Hx. reflexivity.
Qed.

Lemma persisting_lookup t w :
  fs (persisting t w) !! Broker.tokens_path (auth (persisting t w)) = Some (TokenFile t).
Proof. unfold persisting. wsimpl. apply lookup_insert_eq. Qed.

(** X3: the token material that a successful [complete_oauth] writes is the
    material the broker serves afterwards: with no cached service,
    [get_service] / [service] build the client from exactly the exchanged
    credentials (with the refreshed access token when they count as
    expired and can be refreshed), and the Gmail status check reports the
    granted scopes. *)
Theorem exchanged_token_is_served (E : Env) (code : string) (w : World)
    (fl : Flow) (creds : token_data) :
  Broker._flow (auth w) = Some fl ->
  fetch_token E fl code = Ret creds ->
  Broker._service (auth w) = None ->
  let g := snd (GmailServer.complete_oauth E code w) in
  let c := snd (CalendarServer.complete_oauth E code w) in
  (expired E creds && Session.str_truthy (refresh_token creds) = false ->
   fst (GmailServer.get_service E g) = Ret (Build "gmail" creds)
   /\ fst (CalendarServer.service E c) = Ret (Build "calendar" creds)
   /\ (nonempty (Broker.tokens_path (auth w)) = true ->
       fst (GmailServer.check_auth_status E g)
       = Ret (json_dumps (authenticated_with (scopes creds)))))
  /\ (forall tok,
         expired E creds && Session.str_truthy (refresh_token creds) = true ->
         refresh E creds = Ret tok ->
         fst (GmailServer.get_service E g) = Ret (Build "gmail" (with_token creds tok))
         /\ fst (CalendarServer.service E c)
            = Ret (Build "calendar" (with_token creds tok))
         /\ fs (snd (GmailServer.get_service E g)) !! Broker.tokens_path (auth w)
            = Some (TokenFile (with_token creds tok))).
Proof.
  intros Hfl Hx Hs g c. subst g c.
  rewrite (gmail_complete_oauth_persists _ _ _ _ _ Hfl Hx),
          (calendar_complete_oauth_persists _ _ _ _ _ Hfl Hx).
  cbn [snd].
  pose proof (persisting_lookup creds w) as Hf.
  assert (Hs' : Broker._service (auth (persisting creds w)) = None) by exact Hs.
  destruct (gmail_get_service_contract E (persisting creds w) Hs') as (_ & Gr & Gk).
  destruct (calendar_service_contract E (persisting creds w) Hs') as (_ & Cr & Ck).
  split.
  - intros He. rewrite (Gk _ Hf He), (Ck _ Hf He). cbn [fst].
    split; [reflexivity |]. split; [reflexivity |].
    intros Hn. unfold GmailServer.check_auth_status. unfold bind at 1 2.
    unfold get_auth at 1, path_exists at 1, gets. 
    change (Broker.tokens_path (auth (persisting creds w)))
      with (Broker.tokens_path (auth w)) in *.
    rewrite Hn, (exists_true _ _ _ Hf). cbn [andb].
    unfold try_except, bind at 1, read_file. rewrite Hf.
    unfold bind at 1, lift at 1. cbn [GmailServer.load_scopes].
    unfold bind at 1. rewrite (Gk _ Hf He). reflexivity.
  - intros tok He Hr. apply andb_prop in He as [He1 He2].
    rewrite (Gr _ _ Hf He1 He2 Hr), (Cr _ _ Hf He1 He2 Hr). cbn [fst snd].
    split; [reflexivity |]. split; [reflexivity |].
    unfold caching, persisting. wsimpl. apply lookup_insert_eq.
Qed.

Lemma exchanged_token_is_served_witness :
  fst (GmailServer.get_service Sample.E
         (snd (GmailServer.complete_oauth Sample.E "4/good"
                 (with_flow (MkFlow Sample.cfg) Sample.w0))))
  = Ret (Build "gmail" (with_token Sample.tok "access-1")).
Proof.
  exact (proj1 (proj2 (exchanged_token_is_served Sample.E "4/good"
                         (with_flow (MkFlow Sample.cfg) Sample.w0)
                         (MkFlow Sample.cfg) Sample.tok eq_refl eq_refl eq_refl)
                  "access-1" eq_refl eq_refl)).
Defined.

Lemma gmail_get_service_caches E w svc w1 :
  GmailServer.get_service E w = (Ret svc, w1) -> Broker._service (auth w1) = Some svc.
Proof.
  unfold GmailServer.get_service. mstep.
  destruct (Broker._service (auth w)) as [s|] eqn:Hs.
  - intros H. injection H as <- <-. exact Hs.
  - destruct (bool_decide (is_Some (fs w !! Broker.tokens_path (auth w)))); wsimpl;
      [| discriminate].
    destruct (fs w !! Broker.tokens_path (auth w)) as [[t| |]|]; cbn; try discriminate.
    destruct (expired E t && Session.str_truthy (refresh_token t)); wsimpl.
    + destruct (refresh E t); wsimpl; [| discriminate].
      intros H. injection H as <- <-. reflexivity.
    + intros H. injection H as <- <-. reflexivity.
Qed.

Lemma calendar_service_caches E w svc w1 :
  CalendarServer.service E w = (Ret svc, w1) -> Broker._service (auth w1) = Some svc.
Proof.
  unfold CalendarServer.service. mstep.
  destruct (Broker._service (auth w)) as [s|] eqn:Hs.
  - intros H. injection H as <- <-. exact Hs.
  - destruct (bool_decide (is_Some (fs w !! Broker.tokens_path (auth w)))); wsimpl;
      [| discriminate].
    destruct (fs w !! Broker.tokens_path (auth w)) as [[t| |]|]; cbn; try discriminate.
    destruct (expired E t && Session.str_truthy (refresh_token t)); wsimpl.
    + destruct (refresh E t); wsimpl; [| discriminate].
      intros H. injection H as <- <-. reflexivity.
    + intros H. injection H as <- <-. reflexivity.
Qed.

Lemma cached_service_is_reused_gmail E w svc :
  Broker._service (auth w) = Some svc -> GmailServer.get_service E w = (Ret svc, w).
Proof. intros H. unfold GmailServer.get_service. mstep. rewrite H. reflexivity. Qed.

Lemma cached_service_is_reused_calendar E w svc :
  Broker._service (auth w) = Some svc -> CalendarServer.service E w = (Ret svc, w).
Proof. intros H. unfold CalendarServer.service. mstep. rewrite H. reflexivity. Qed.

(** X4: once [get_service] / [service] has returned a client, every further
    call returns the same client and changes nothing: the token file is
    read, and an expired token refreshed, at most once, also when the
    files on disk change in between. *)
Theorem get_service_is_idempotent (E : Env) (w : World) (svc : Service) (w1 : World) :
  (GmailServer.get_service E w = (Ret svc, w1) ->
   forall files,
     GmailServer.get_service E (set_fs files w1) = (Ret svc, set_fs files w1))
  /\ (CalendarServer.service E w = (Ret svc, w1) ->
      forall files,
        CalendarServer.service E (set_fs files w1) = (Ret svc, set_fs files w1)).
Proof.
  split; intros H files.
  - apply cached_service_is_reused_gmail. wsimpl.
    eapply gmail_get_service_caches; eauto.
  - apply cached_service_is_reused_calendar. wsimpl.
    eapply calendar_service_caches; eauto.
Qed.

Lemma get_service_is_idempotent_witness :
  GmailServer.get_service Sample.E
    (set_fs ∅ (snd (GmailServer.get_service Sample.E Sample.w_token)))
  = (Ret (Build "gmail" (with_token Sample.tok "access-1")),
     set_fs ∅ (snd (GmailServer.get_service Sample.E Sample.w_token))).
Proof.
  exact (proj1 (get_service_is_idempotent Sample.E Sample.w_token
                  (Build "gmail" (with_token Sample.tok "access-1"))
                  (snd (GmailServer.get_service Sample.E Sample.w_token)))
           eq_refl ∅).
Defined.
Lemma or_failure_returns (m : M jtext) w :
  exists t, fst (or_failure m w) = Ret t.
Proof.
  unfold or_failure, try_except. destruct (m w) as [[t|e] w1]; cbn; eauto.
Qed.

Lemma or_failure_payload (m : M jtext) w :
  (forall t w1, m w = (Ret t, w1) -> success_payload (Ret t)) ->
  success_payload (fst (or_failure m w)).
Proof.
  intros H. unfold or_failure, try_except. destruct (m w) as [[t|e] w1] eqn:Hm; cbn.
  - eapply H; eauto.
  - exists [("success", JBool false); ("error", JStr (exn_str e))], false.
    split; reflexivity.
Qed.

(** X5: every Gmail tool that wraps its body in [try] / [except] keeps its
    exceptions to itself, whatever the files, the broker and the provider
    do.  [setup_oauth], [complete_oauth] and [check_auth_status] always
    return a JSON object with a boolean [success]; a credentialed tool
    always returns a document; and the only exceptions of a dispatched
    call to any tool but [reset_oauth_tokens] (the one tool without a
    [try]) are FastMCP's own (unknown tool, invalid arguments). *)
Theorem guarded_gmail_tools_never_raise (E : Env) (w : World) :
  (forall session_id, success_payload (fst (GmailServer.setup_oauth E session_id w)))
  /\ (forall auth_code, success_payload (fst (GmailServer.complete_oauth E auth_code w)))
  /\ success_payload (fst (GmailServer.check_auth_status E w))
  /\ (forall name args,
         exists t, fst (GmailServer.credentialed_tool E name args w) = Ret t)
  /\ (forall name args e,
         name <> "reset_oauth_tokens" ->
         fst (GmailServer.call_tool E name args w) = Raise e -> exn_cls e = ToolError).
Proof.
  assert (Hsetup : forall sid v, success_payload (fst (GmailServer.setup_oauth E sid v))).
  { intros sid v. apply or_failure_payload. intros t w1 H.
    unfold bind in H. destruct (GmailServer.get_oauth_url E sid v) as [[url|e] w2];
      [| discriminate].
    injection H as <- <-. eexists _, _. split; reflexivity. }
  assert (Hcomplete : forall c v,
             success_payload (fst (GmailServer.complete_oauth E c v))).
  { intros c v. apply or_failure_payload. intros t w1 H.
    unfold bind in H.
    destruct (GmailServer.exchange_code_for_token E c v) as [[b|e] w2]; [| discriminate].
    injection H as <- <-. eexists _, _. split; reflexivity. }
  assert (Hcheck : forall v, success_payload (fst (GmailServer.check_auth_status E v))).
  { intros v. unfold GmailServer.check_auth_status. unfold bind at 1 2.
    unfold get_auth at 1, path_exists at 1, gets.
    destruct (nonempty _ && _).
    - unfold try_except.
      match goal with |- context [bind ?m ?k v] => destruct (bind m k v) as [[t|e] w1] eqn:Hb end.
      + unfold bind in Hb.
        destruct (read_file _ v) as [[c|?] w2]; [| discriminate].
        destruct (lift _ w2) as [[scs|?] w3]; [| discriminate].
        destruct (GmailServer.get_service E w3) as [[svc|?] w4]; [| discriminate].
        injection Hb as <- <-. eexists _, _. split; reflexivity.
      + eexists _, _. split; reflexivity.
    - eexists _, _. split; reflexivity. }
  assert (Hcred : forall name args v,
             exists t, fst (GmailServer.credentialed_tool E name args v) = Ret t).
  { intros. apply or_failure_returns. }
  repeat split; auto.
  intros name args e Hne. unfold GmailServer.call_tool.
  destruct (String.eqb name "reset_oauth_tokens") eqn:Hreset;
    [apply String.eqb_eq in Hreset; contradiction |].
  destruct (String.eqb name "setup_oauth").
  { unfold bind, lift. destruct (opt_str_arg args "session_id") as [sid|e'] eqn:Ho.
    - destruct (Hsetup sid w) as (d & b & Hr & _).
      destruct (GmailServer.setup_oauth E sid w) as [o w1]. cbn in *. congruence.
    - cbn. intros H. injection H as <-. unfold opt_str_arg in Ho.
      destruct args; try (injection Ho as <-; reflexivity).
      destruct (assoc "session_id" kv) as [[]|]; try discriminate;
        injection Ho as <-; reflexivity. }
  destruct (String.eqb name "complete_oauth").
  { unfold bind, lift. destruct (str_arg args "auth_code") as [c|e'] eqn:Ho.
    - destruct (Hcomplete c w) as (d & b & Hr & _).
      destruct (GmailServer.complete_oauth E c w) as [o w1]. cbn in *. congruence.
    - cbn. intros H. injection H as <-. unfold str_arg in Ho.
      destruct args; try (injection Ho as <-; reflexivity).
      destruct (assoc "auth_code" kv) as [[]|]; try discriminate;
        injection Ho as <-; reflexivity. }
  destruct (String.eqb name "check_auth_status").
  { destruct (Hcheck w) as (d & b & Hr & _). congruence. }
  destruct (bool_decide (name ∈ GmailServer.credentialed_tools)).
  - destruct (valid_args E name args).
    + destruct (Hcred name args w) as (t & Hr). congruence.
    + cbn. intros H. injection H as <-. reflexivity.
  - cbn. intros H. injection H as <-. reflexivity.
Qed.
(** ** The tool invoker: no exception, temporary token files, isolation *)

Lemma gmail_invoker_returns E fn args w :
  exists t, fst (GmailProto._run_gmail_tool E fn args w) = Ret t.
Proof.
  destruct (gmail_invoker_shape E fn args w) as (prep & w0 & _ & ->).
  rewrite retry_loop_range2.
  destruct (_mcp_call_tool _ fn args w0) as [[r|e] w1]; [eauto |].
  destruct (_mcp_call_tool _ fn args (slept w1)) as [[r|e2] w2]; eauto.
Qed.

Lemma calendar_invoker_returns E fn args w :
  exists t, fst (CalendarProto._run_cal_tool E fn args w) = Ret t.
Proof.
  destruct (calendar_invoker_shape E fn args w) as (prep & w0 & _ & ->).
  rewrite retry_loop_range2.
  destruct (_mcp_call_tool _ fn args w0) as [[r|e] w1]; [eauto |].
  destruct (_mcp_call_tool _ fn args (slept w1)) as [[r|e2] w2]; eauto.
Qed.

(** X6: once the preparation of the token file has returned, the invoker
    never raises: its retry loop returns a text whatever the tool and both
    transport attempts do (an exception of the second attempt comes back as
    a failure payload, the clean-up swallows its own), so both
    [_run_gmail_tool] and [_run_cal_tool] return a text from every world in
    which their preparation returns. *)
Theorem invoker_returns_once_prepared (E : Env) (fn : string) (args : json)
    (w : World) :
  (forall (call_once : M mcp_result) tc tp v,
      exists t, fst (retry_loop call_once tc tp range2 v) = Ret t)
  /\ (forall prep w0,
         GmailProto.prepare_tokens E w = (Ret prep, w0) ->
         exists t, fst (GmailProto._run_gmail_tool E fn args w) = Ret t)
  /\ (forall prep w0,
         CalendarProto.prepare_tokens E w = (Ret prep, w0) ->
         exists t, fst (CalendarProto._run_cal_tool E fn args w) = Ret t).
Proof.
  assert (Hloop : forall (call_once : M mcp_result) tc tp v,
             exists t, fst (retry_loop call_once tc tp range2 v) = Ret t).
  { intros call_once tc tp v. rewrite retry_loop_range2.
    destruct (call_once v) as [[r|e] v1]; [eauto |].
    destruct (call_once (slept v1)) as [[r|e2] v2]; eauto. }
  split; [exact Hloop |]. split.
  - intros prep w0 Hp. unfold GmailProto._run_gmail_tool. unfold bind at 1.
    rewrite Hp. apply Hloop.
  - intros prep w0 Hp. unfold CalendarProto._run_cal_tool. unfold bind at 1.
    rewrite Hp. apply Hloop.
Qed.

Lemma nonempty_app_r a b : nonempty b = true -> nonempty (a +:+ b) = true.
Proof. destruct a; intros H; [exact H | reflexivity]. Qed.

Lemma nonempty_token_file_for E name : nonempty (token_file_for E name) = true.
Proof. unfold token_file_for. apply nonempty_app_r. reflexivity. Qed.

Lemma nonempty_temp_token_path E tp w : nonempty (temp_token_path E tp w) = true.
Proof.
  unfold temp_token_path. destruct tp as [p|]; [destruct (nonempty p) eqn:H |];
    auto using nonempty_token_file_for.
Qed.

Lemma cleaned_removes p w :
  nonempty p = true -> fs (cleaned true (Some p) w) !! p = None.
Proof.
  intros Hn. unfold cleaned, cleanup_temp. rewrite Hn. cbn [andb].
  pose proof (exists_true (fs w) p) as Ht. pose proof (exists_false (fs w) p) as Hf.
  mstep. destruct (fs w !! p) as [c|] eqn:Hc.
  - rewrite (Ht _ eq_refl). wsimpl. rewrite Hc. wsimpl. apply lookup_delete_eq.
  - rewrite (Hf eq_refl). exact Hc.
Qed.

Lemma retry_loop_cleans call p w :
  nonempty p = true ->
  fs (snd (retry_loop call true (Some p) range2 w)) !! p = None.
Proof.
  intros Hn. rewrite retry_loop_range2.
  destruct (call w) as [[r|e] w1]; [apply cleaned_removes, Hn |].
  destruct (call (slept w1)) as [[r|e2] w2]; apply cleaned_removes, Hn.
Qed.

Lemma path_or_fresh_temp E tp w :
  fst (path_or_fresh E tp w) = Ret (temp_token_path E tp w).
Proof.
  unfold path_or_fresh, temp_token_path.
  destruct tp as [p|]; [destruct (nonempty p) |]; reflexivity.
Qed.

Lemma gmail_prepare_temp E w sd tj :
  CURRENT_SESSION_DATA w = Some sd ->
  Session.token_json sd = Some tj ->
  Session.str_truthy (Session.tokens_path sd) = false
  \/ fs w !! temp_token_path E (Session.tokens_path sd) w = None ->
  fst (GmailProto.prepare_tokens E w)
  = Ret (Some (temp_token_path E (Session.tokens_path sd) w), true).
Proof.
  intros Hc Hj Hm. unfold GmailProto.prepare_tokens.
  unfold bind at 1. unfold get_session_ctx at 1, gets. rewrite Hc. cbn [default from_option id].
  rewrite Hj.
  assert (Hcond : exists b,
             opt_path_exists (Session.tokens_path sd) w = (Ret b, w)
             /\ negb (Session.str_truthy (Session.tokens_path sd)) || negb b = true).
  { destruct (Session.tokens_path sd) as [p|] eqn:Hp.
    - exists (bool_decide (is_Some (fs w !! p))). split; [reflexivity |].
      destruct Hm as [Hm | Hm]; [rewrite Hm; reflexivity |].
      unfold temp_token_path in Hm. cbn [Session.str_truthy].
      destruct (nonempty p); [| reflexivity].
      rewrite (exists_false _ _ Hm). reflexivity.
    - exists false. split; reflexivity. }
  destruct Hcond as (b & Hex & Hb).
  unfold bind at 1. rewrite Hex. rewrite Hb.
  pose proof (path_or_fresh_temp E (Session.tokens_path sd) w) as Hp.
  unfold bind at 1. unfold bind at 1.
  destruct (path_or_fresh E (Session.tokens_path sd) w) as [o w1]. cbn in Hp. subst o.
  mstep. unfold update_session_ctx. mstep.
  repeat match goal with
         | |- context [match CURRENT_SESSION_DATA ?v with _ => _ end] =>
             destruct (CURRENT_SESSION_DATA v)
         | |- context [if ?c then _ else _] => destruct c
         end; reflexivity.
Qed.

Lemma calendar_prepare_temp E w sd tj :
  CURRENT_SESSION_DATA w = Some sd ->
  Session.token_json sd = Some tj ->
  Session.str_truthy (Session.tokens_path sd) = false
  \/ fs w !! temp_token_path E (Session.tokens_path sd) w = None ->
  fst (CalendarProto.prepare_tokens E w)
  = Ret (Some (temp_token_path E (Session.tokens_path sd) w), true).
Proof.
  intros Hc Hj Hm. unfold CalendarProto.prepare_tokens.
  unfold bind at 1. unfold get_session_ctx at 1, gets. rewrite Hc. cbn [default from_option id].
  rewrite Hj.
  assert (Hcond : exists b,
             opt_path_exists (Session.tokens_path sd) w = (Ret b, w)
             /\ Session.str_truthy (Session.tokens_path sd) && b = false).
  { destruct (Session.tokens_path sd) as [p|] eqn:Hp.
    - exists (bool_decide (is_Some (fs w !! p))). split; [reflexivity |].
      destruct Hm as [Hm | Hm]; [rewrite Hm; reflexivity |].
      unfold temp_token_path in Hm. cbn [Session.str_truthy].
      destruct (nonempty p); [| reflexivity].
      rewrite (exists_false _ _ Hm). reflexivity.
    - exists false. split; reflexivity. }
  destruct Hcond as (b & Hex & Hb).
  unfold bind at 1. rewrite Hex. rewrite Hb.
  pose proof (path_or_fresh_temp E (Session.tokens_path sd) w) as Hp.
  unfold bind at 1.
  destruct (path_or_fresh E (Session.tokens_path sd) w) as [o w1]. cbn in Hp. subst o.
  unfold point_broker_at. mstep. unfold update_session_ctx. mstep.
  repeat match goal with
         | |- context [match CURRENT_SESSION_DATA ?v with _ => _ end] =>
             destruct (CURRENT_SESSION_DATA v)
         end; reflexivity.
Qed.

(** X7: a token file that the invoker recreates from the session's
    in-memory token JSON (because the session has no token path, or the
    file is not on disk) is gone again when the invocation ends, however it
    ends. *)
Theorem invoker_removes_temporary_token_file
    (E : Env) (fn : string) (args : json) (w : World)
    (sd : Session.t) (tj : file_content) :
  CURRENT_SESSION_DATA w = Some sd ->
  Session.token_json sd = Some tj ->
  Session.str_truthy (Session.tokens_path sd) = false
  \/ fs w !! temp_token_path E (Session.tokens_path sd) w = None ->
  fs (snd (GmailProto._run_gmail_tool E fn args w))
    !! temp_token_path E (Session.tokens_path sd) w = None
  /\ fs (snd (CalendarProto._run_cal_tool E fn args w))
       !! temp_token_path E (Session.tokens_path sd) w = None.
Proof.
  intros Hc Hj Hm. split.
  - pose proof (gmail_prepare_temp E w sd tj Hc Hj Hm) as Hp.
    destruct (gmail_invoker_shape E fn args w) as (prep & w0 & Hp' & ->).
    rewrite Hp' in Hp. injection Hp as ->.
    apply retry_loop_cleans, nonempty_temp_token_path.
  - pose proof (calendar_prepare_temp E w sd tj Hc Hj Hm) as Hp.
    destruct (calendar_invoker_shape E fn args w) as (prep & w0 & Hp' & ->).
    rewrite Hp' in Hp. injection Hp as ->.
    apply retry_loop_cleans, nonempty_temp_token_path.
Qed.
Lemma gmail_call_credentialed E name args w :
  name ∈ GmailServer.credentialed_tools ->
  valid_args E name args = true ->
  GmailServer.call_tool E name args w = GmailServer.credentialed_tool E name args w.
Proof.
  intros Hn Hv. unfold GmailServer.credentialed_tools in Hn.
  repeat (apply elem_of_cons in Hn as [-> | Hn]);
    try (unfold GmailServer.call_tool; cbn; rewrite Hv; reflexivity).
  apply elem_of_nil in Hn. contradiction.
Qed.

(** A credentialed tool on a broker without cached service whose token
    file holds a token that needs no refresh. *)
Lemma gmail_credentialed_tool_serves E name args w t r :
  Broker._service (auth w) = None ->
  fs w !! Broker.tokens_path (auth w) = Some (TokenFile t) ->
  expired E t && Session.str_truthy (refresh_token t) = false ->
  api_execute E name args (Build "gmail" t) = Ret r ->
  GmailServer.credentialed_tool E name args w
  = (Ret (json_dumps r), served name args (Build "gmail" t) w).
Proof.
  intros Hs Hf He Hr.
  unfold GmailServer.credentialed_tool, or_failure, try_except. unfold bind at 1.
  destruct (gmail_get_service_contract E w Hs) as (_ & _ & Gk).
  rewrite (Gk _ Hf He). unfold run_with_service. mstep. rewrite Hr. reflexivity.
Qed.

Lemma repointed_same p w :
  Broker.tokens_path (auth w) = p ->
  Broker._service (auth w) = None ->
  repointed p w = w.
Proof.
  unfold repointed. destruct w as [f a c s o m l u t ap sl], a as [cp tp sv fl].
  cbn. intros -> ->. reflexivity.
Qed.

(** The preparation for a session whose token file is on disk. *)
Lemma gmail_prepare_on_disk E w sd p c :
  CURRENT_SESSION_DATA w = Some sd ->
  Session.tokens_path sd = Some p ->
  nonempty p = true ->
  fs w !! p = Some c ->
  (Broker.tokens_path (auth w) = p -> Broker._service (auth w) = None) ->
  GmailProto.prepare_tokens E w = (Ret (Some p, false), repointed p w).
Proof.
  intros Hc Hp Hn Hf Hs. unfold GmailProto.prepare_tokens.
  unfold bind at 1. unfold get_session_ctx at 1, gets. rewrite Hc.
  cbn [default from_option id]. rewrite Hp. cbn [opt_path_exists Session.str_truthy].
  unfold bind at 1. unfold path_exists at 1, gets. rewrite (exists_true _ _ _ Hf), Hn.
  cbn [negb orb].
  assert (Hprep : forall o : option file_content,
             match o with
             | Some tj => ret (Some p, false)
             | None => ret (Some p, false)
             end = (ret (Some p, false) : M (option string * bool))).
  { intros []; reflexivity. }
  rewrite Hprep. unfold bind at 1. unfold ret at 1. unfold bind at 1.
  unfold get_auth at 1, gets. cbn [fst]. rewrite Hn. cbn [andb].
  destruct (String.eqb (Broker.tokens_path (auth w)) p) eqn:Heq.
  - apply String.eqb_eq in Heq. rewrite (repointed_same _ _ Heq (Hs Heq)). reflexivity.
  - reflexivity.
Qed.

(** X8: a credentialed tool that is invoked for a session whose token
    file is on disk runs with that session's credentials, also when the
    shared broker still points at another session's token file and caches a
    client built from it: the broker is pointed at the session's file and
    its cache dropped before the tool runs. *)
Theorem invoker_serves_session_credentials
    (E : Env) (name : string) (args : json) (w : World)
    (sd : Session.t) (p : string) (t : token_data) (r : json) :
  name ∈ GmailServer.credentialed_tools ->
  valid_args E name args = true ->
  CURRENT_SESSION_DATA w = Some sd ->
  Session.tokens_path sd = Some p ->
  nonempty p = true ->
  fs w !! p = Some (TokenFile t) ->
  (Broker.tokens_path (auth w) = p -> Broker._service (auth w) = None) ->
  expired E t && Session.str_truthy (refresh_token t) = false ->
  hd None (mcp_faults w) = None ->
  api_execute E name args (Build "gmail" t) = Ret r ->
  let w' := snd (GmailProto._run_gmail_tool E name args w) in
  fst (GmailProto._run_gmail_tool E name args w) = Ret (json_dumps r)
  /\ api_log w' = (api_log w ++ [(name, args)])%list
  /\ Broker.tokens_path (auth w') = p
  /\ Broker._service (auth w') = Some (Build "gmail" t)
  /\ fs w' = fs w.
Proof.
  intros Hn Hv Hc Hp Hne Hf Hs He Hm Hr w'. subst w'.
  pose proof (gmail_prepare_on_disk E w sd p _ Hc Hp Hne Hf Hs) as Hprep.
  erewrite (invoker_first_try _ _ _ _ _ _ _ _ _ _ (gmail_invoker_shape E) Hprep Hm).
  2:{ rewrite (gmail_call_credentialed _ _ _ _ Hn Hv).
      apply gmail_credentialed_tool_serves; eauto. }
  cbn [fst snd]. unfold cleaned, cleanup_temp. cbn [andb].
  split; [reflexivity |]. repeat split.
Qed.
(** The preparation for a session whose token lives in its dict only. *)
Lemma gmail_prepare_in_memory E w sd p tj :
  CURRENT_SESSION_DATA w = Some sd ->
  Session.tokens_path sd = Some p ->
  nonempty p = true ->
  Session.token_json sd = Some tj ->
  fs w !! p = None ->
  (Broker.tokens_path (auth w) = p -> Broker._service (auth w) = None) ->
  GmailProto.prepare_tokens E w
  = (Ret (Some p, true),
     repointed p (set_ctx (Some (Session.set_tokens_path (Some p) sd))
                    (set_fs (<[p := tj]> (fs w)) w))).
Proof.
  intros Hc Hp Hn Hj Hf Hs. unfold GmailProto.prepare_tokens.
  unfold bind at 1. unfold get_session_ctx at 1, gets. rewrite Hc.
  cbn [default from_option id]. rewrite Hp, Hj.
  cbn [opt_path_exists Session.str_truthy path_or_fresh].
  unfold bind at 1. unfold path_exists at 1, gets. rewrite (exists_false _ _ Hf), Hn.
  cbn [negb orb]. unfold update_session_ctx. mstep. rewrite Hc, Hn. cbn [andb].
  destruct (String.eqb (Broker.tokens_path (auth w)) p) eqn:Heq;
    wsimpl; rewrite ?Heq; cbn [negb]; unfold point_broker_at; mstep.
  - apply String.eqb_eq in Heq. unfold repointed. wsimpl.
    pose proof (Hs Heq) as Hsv.
    destruct w as [f a c s o m l u tl ap sl], a as [cp tp sv fl]. cbn in *.
    subst. reflexivity.
  - reflexivity.
Qed.

(** X9: a session that keeps its token only in its dict (the token file
    was removed after the authorization) still gets its tool calls served
    with that token: the invoker writes the token to the session's path,
    the tool runs with it, and the file is removed again, so that the
    files on disk are afterwards what they were before. *)
Theorem invoker_serves_stored_token
    (E : Env) (name : string) (args : json) (w : World)
    (sd : Session.t) (p : string) (t : token_data) (r : json) :
  name ∈ GmailServer.credentialed_tools ->
  valid_args E name args = true ->
  CURRENT_SESSION_DATA w = Some sd ->
  Session.tokens_path sd = Some p ->
  nonempty p = true ->
  Session.token_json sd = Some (TokenFile t) ->
  fs w !! p = None ->
  (Broker.tokens_path (auth w) = p -> Broker._service (auth w) = None) ->
  expired E t && Session.str_truthy (refresh_token t) = false ->
  hd None (mcp_faults w) = None ->
  api_execute E name args (Build "gmail" t) = Ret r ->
  let w' := snd (GmailProto._run_gmail_tool E name args w) in
  fst (GmailProto._run_gmail_tool E name args w) = Ret (json_dumps r)
  /\ api_log w' = (api_log w ++ [(name, args)])%list
  /\ Broker._service (auth w') = Some (Build "gmail" t)
  /\ fs w' = fs w.
Proof.
  intros Hn Hv Hc Hp Hne Hj Hf Hs He Hm Hr w'. subst w'.
  pose proof (gmail_prepare_in_memory E w sd p _ Hc Hp Hne Hj Hf Hs) as Hprep.
  erewrite (invoker_first_try _ _ _ _ _ _ _ _ _ _ (gmail_invoker_shape E) Hprep Hm).
  2:{ rewrite (gmail_call_credentialed _ _ _ _ Hn Hv).
      apply gmail_credentialed_tool_serves; eauto.
      unfold logged, repointed. wsimpl. apply lookup_insert_eq. }
  cbn [fst snd]. unfold cleaned, cleanup_temp. rewrite Hne. cbn [andb].
  unfold served, logged, repointed. mstep.
  rewrite (exists_true _ p (TokenFile t)) by apply lookup_insert_eq.
  wsimpl. rewrite lookup_insert_eq. wsimpl.
  split; [reflexivity |]. split; [reflexivity |]. split; [reflexivity |].
  apply delete_insert_id. exact Hf.
Qed.
Lemma invoker_removes_temporary_token_file_witness :
  fs (snd (GmailProto._run_gmail_tool Sample.E "get_profile" (JObj [])
             Scenario.w_in_memory))
    !! temp_token_path Sample.E (Session.tokens_path Scenario.sd_in_memory)
         Scenario.w_in_memory
  = None.
Proof.
  assert (Hf : fs Scenario.w_in_memory
                 !! temp_token_path Sample.E
                      (Session.tokens_path Scenario.sd_in_memory)
                      Scenario.w_in_memory = None)
    by (vm_compute; reflexivity).
  exact (proj1 (invoker_removes_temporary_token_file Sample.E "get_profile" (JObj [])
                  Scenario.w_in_memory Scenario.sd_in_memory
                  (TokenFile Scenario.tok_plain) eq_refl eq_refl (or_intror Hf))).
Defined.

Lemma invoker_serves_session_credentials_witness :
  fst (GmailProto._run_gmail_tool Sample.E "get_profile" (JObj []) Scenario.w_on_disk)
  = Ret (json_dumps (JObj [("success", JBool true)])).
Proof.
  assert (Hn : "get_profile" ∈ GmailServer.credentialed_tools)
    by (unfold GmailServer.credentialed_tools; set_solver).
  assert (Hf : fs Scenario.w_on_disk !! Scenario.path_s1
               = Some (TokenFile Scenario.tok_plain))
    by (vm_compute; reflexivity).
  assert (Hs : Broker.tokens_path (auth Scenario.w_on_disk) = Scenario.path_s1 ->
               Broker._service (auth Scenario.w_on_disk) = None)
    by (intros H; vm_compute in H; discriminate).
  exact (proj1 (invoker_serves_session_credentials Sample.E "get_profile" (JObj [])
                  Scenario.w_on_disk Scenario.sd_on_disk Scenario.path_s1
                  Scenario.tok_plain (JObj [("success", JBool true)])
                  Hn eq_refl eq_refl eq_refl eq_refl Hf Hs eq_refl eq_refl eq_refl)).
Defined.

Lemma invoker_serves_stored_token_witness :
  fst (GmailProto._run_gmail_tool Sample.E "get_profile" (JObj []) Scenario.w_in_memory)
  = Ret (json_dumps (JObj [("success", JBool true)]))
  /\ fs (snd (GmailProto._run_gmail_tool Sample.E "get_profile" (JObj [])
                Scenario.w_in_memory))
     = fs Scenario.w_in_memory.
Proof.
  assert (Hn : "get_profile" ∈ GmailServer.credentialed_tools)
    by (unfold GmailServer.credentialed_tools; set_solver).
  assert (Hf : fs Scenario.w_in_memory !! Scenario.path_s1 = None)
    by (vm_compute; reflexivity).
  assert (Hs : Broker.tokens_path (auth Scenario.w_in_memory) = Scenario.path_s1 ->
               Broker._service (auth Scenario.w_in_memory) = None)
    by (intros H; vm_compute in H; discriminate).
  pose proof (invoker_serves_stored_token Sample.E "get_profile" (JObj [])
                Scenario.w_in_memory Scenario.sd_in_memory Scenario.path_s1
                Scenario.tok_plain (JObj [("success", JBool true)])
                Hn eq_refl eq_refl eq_refl eq_refl eq_refl Hf Hs eq_refl eq_refl eq_refl)
    as (H1 & _ & _ & H4).
  split; [exact H1 | exact H4].
Defined.

Lemma guarded_gmail_tools_never_raise_witness :
  exn_cls (Exn ToolError "Unknown tool: archive_email") = ToolError.
Proof.
  assert (Hne : "archive_email" <> "reset_oauth_tokens") by discriminate.
  exact (proj2 (proj2 (proj2 (proj2
           (guarded_gmail_tools_never_raise Sample.E Sample.w0))))
           "archive_email" (JObj []) _ Hne eq_refl).
Defined.
(** ** The routers: session start, reminders, restarts *)

(** X10: a message that carries a start-session block resets the session,
    whatever state it was in and whatever text comes with it: the stored
    dict becomes [{"messages": []}], the message is acknowledged, and
    nothing else happens (no reply, no tool call, no request to the
    model). *)
Theorem start_session_resets (E : Env) (sid sender : string)
    (msg : list content_block) (w : World) :
  has_start msg = true ->
  GmailProto.handle_chat_message E sid sender msg w
  = (Ret tt, answered sid sender [] Session.fresh w)
  /\ (storage w <> Unparseable ->
      CalendarProto._handle E sid sender msg w
      = (Ret tt, answered sid sender [] Session.fresh w)).
Proof.
  intros Hs. split.
  - rewrite handle_chat_message_unfold, finally_reset.
    unfold GmailProto.route. rewrite Hs. cbn [when].
    unfold GmailProto.persist, GmailProto.session_data, get_session_ctx. mstep.
    unfold entered, answered. wsimpl. cbn. reflexivity.
  - intros Hst. unfold CalendarProto._handle. rewrite Hs. mstep.
    unfold answered, sessions_of.
    destruct (storage w) eqn:Hw; try contradiction; mstep; cbn; reflexivity.
Qed.

Lemma start_session_resets_witness :
  GmailProto.handle_chat_message Sample.E "s1" "agent1alice"
    [StartSessionContent; TextContent "4/good"] Sample.w1
  = (Ret tt, answered "s1" "agent1alice" [] Session.fresh Sample.w1).
Proof.
  exact (proj1 (start_session_resets Sample.E "s1" "agent1alice"
                  [StartSessionContent; TextContent "4/good"] Sample.w1 eq_refl)).
Defined.
Lemma auth_workflow_reminds E sessions sid sender texts v sd :
  CURRENT_SESSION_DATA v = Some sd ->
  Session.flag (Session.awaiting_auth_code sd) = true ->
  (forall t rest, texts = t :: rest -> startswith "4/" t = false) ->
  GmailProto.auth_workflow E sessions sid sender texts v
  = (Ret tt,
     set_storage (Sessions (<[sid := sd]> sessions))
       (set_outbox (outbox v ++ [(sender, ChatMessage GmailProto.reminder_text)]) v)).
Proof.
  intros Hc Ha Ht. unfold GmailProto.auth_workflow.
  unfold bind at 1. unfold GmailProto.session_data at 1, get_session_ctx, gets.
  rewrite Hc. cbn [default from_option id]. rewrite Ha, andb_false_r.
  assert (Hcode : GmailProto.code_of true texts = None).
  { unfold GmailProto.code_of. destruct texts as [|t rest]; [reflexivity |].
    rewrite (Ht t rest eq_refl). reflexivity. }
  rewrite Hcode.
  unfold GmailProto.persist, GmailProto.session_data, get_session_ctx. mstep.
  rewrite Hc. reflexivity.
Qed.

(** X11: while the Gmail session awaits the code (and the flow object is
    still in memory), a message whose first text does not start with "4/",
    or that has no text at all, is answered with the reminder only: no tool
    is called, and the session is stored as it was, still awaiting the
    code. *)
Theorem router_reminds_while_awaiting (E : Env) (sid sender : string)
    (msg : list content_block) (w : World) :
  has_start msg = false ->
  Session.flag (Session.authenticated (session_of sid w)) = false ->
  Session.flag (Session.awaiting_auth_code (session_of sid w)) = true ->
  Broker._flow (auth w) <> None ->
  (forall t rest, texts_of msg = t :: rest -> startswith "4/" t = false) ->
  GmailProto.handle_chat_message E sid sender msg w
  = (Ret tt,
     answered sid sender [GmailProto.reminder_text]
       (Session.set_sender_address (Some sender) (session_of sid w)) w)
  /\ state_of (Session.set_sender_address (Some sender) (session_of sid w))
     = AWAITING_CODE.
Proof.
  intros Hs Ha Hw Hfl Ht. split.
  - rewrite handle_chat_message_unfold, finally_reset.
    rewrite (route_not_authenticated _ _ _ _ _ _
               (Session.set_sender_address (Some sender) (session_of sid w)));
      [| exact Hs | reflexivity | exact Ha | right; exact Hw | intros _; exact Hfl].
    rewrite (auth_workflow_reminds _ _ _ _ _ _
               (Session.set_sender_address (Some sender) (session_of sid w)));
      [| reflexivity | exact Hw | exact Ht].
    unfold answered, entered. wsimpl. cbn [fmap list_fmap].
    rewrite <- app_assoc. reflexivity.
  - unfold state_of. cbn [Session.authenticated Session.awaiting_auth_code
                          Session.set_sender_address].
    rewrite Ha, Hw. reflexivity.
Qed.

Lemma router_reminds_while_awaiting_witness :
  GmailProto.handle_chat_message Sample.E "s1" "agent1alice"
    [TextContent "did it work?"] Sample.w1
  = (Ret tt,
     answered "s1" "agent1alice" [GmailProto.reminder_text]
       (Session.set_sender_address (Some "agent1alice") (session_of "s1" Sample.w1))
       Sample.w1).
Proof.
  assert (Hfl : Broker._flow (auth Sample.w1) <> None) by (vm_compute; discriminate).
  assert (Ht : forall t rest,
             texts_of [TextContent "did it work?"] = t :: rest ->
             startswith "4/" t = false).
  { intros t rest H. vm_compute in H. injection H as <- _. reflexivity. }
  exact (proj1 (router_reminds_while_awaiting Sample.E "s1" "agent1alice"
                  [TextContent "did it work?"] Sample.w1
                  eq_refl eq_refl eq_refl Hfl Ht)).
Defined.

(** A code that follows a no-break space (U+00A0) is a code: [strip]
    removes the space, so such a message is not answered with the reminder
    but exchanged. *)
Lemma code_behind_no_break_space_is_exchanged :
  let text := String (ascii_of_nat 194) (String (ascii_of_nat 160) "4/good") in
  texts_of [TextContent text] = ["4/good"]
  /\ state_of (session_of "s1"
                 (snd (GmailProto.handle_chat_message Sample.E "s1" "agent1alice"
                         [TextContent text] Sample.w1)))
     = AUTHENTICATED.
Proof. vm_compute. split; reflexivity. Qed.
Lemma keeps_after_bind {A C B} (f : World -> B) (m : M A) (k : A -> M C) w :
  (forall a, keeps f (k a)) -> f (snd (bind m k w)) = f (snd (m w)).
Proof.
  intros Hk. unfold bind. destruct (m w) as [[a|e] w1]; [apply Hk | reflexivity].
Qed.

Lemma keeps_after_try {A B} (f : World -> B) (m : M A) (h : exn -> M A) w :
  (forall e, keeps f (h e)) -> f (snd (try_except m h w)) = f (snd (m w)).
Proof.
  intros Hh. unfold try_except. destruct (m w) as [[a|e] w1]; [reflexivity | apply Hh].
Qed.

Lemma start_oauth_tool_log E sessions sid sender v :
  tool_log (snd (GmailProto.start_oauth E sessions sid sender v))
  = tool_log (snd (GmailProto._run_gmail_tool E "setup_oauth"
                     (JObj [("session_id", JStr sid)]) v)).
Proof.
  unfold GmailProto.start_oauth.
  rewrite keeps_after_bind.
  2:{ intros [url|]; [| apply keeps_ret].
      apply keeps_bind; [apply send_keeps; reflexivity | intros _].
      apply persist_keeps. reflexivity. }
  unfold GmailProto.request_link.
  rewrite keeps_after_try.
  2:{ intros e. apply keeps_bind; [apply send_keeps; reflexivity | intros _].
      apply keeps_ret. }
  apply keeps_after_bind. intros oauth_json.
  unfold GmailProto.update.
  repeat first [ apply keeps_log_update
               | apply send_keeps; reflexivity
               | keeps_step ].
Qed.

Lemma route_lost_flow E sessions sid sender msg v sd :
  has_start msg = false ->
  CURRENT_SESSION_DATA v = Some sd ->
  Session.flag (Session.authenticated sd) = false ->
  Session.flag (Session.awaiting_auth_code sd) = true ->
  Broker._flow (auth v) = None ->
  GmailProto.route E sessions sid sender msg v
  = GmailProto.start_oauth E sessions sid sender
      (set_ctx (Some (Session.set_oauth_link_sent None
                        (Session.set_awaiting_auth_code None sd))) v).
Proof.
  intros Hs Hc Ha Hw Hfl. unfold GmailProto.route. rewrite Hs. cbn [when].
  unfold GmailProto.update, update_session_ctx, GmailProto.session_data, get_session_ctx.
  mstep. rewrite Hc. cbn [default from_option id]. rewrite Hw, andb_false_r, Hfl.
  rewrite bool_decide_eq_true_2 by reflexivity. wsimpl. rewrite Hc. wsimpl.
  cbn [default from_option id Session.authenticated Session.set_oauth_link_sent
       Session.set_awaiting_auth_code].
  rewrite Ha. wsimpl.
  cbn [default from_option id Session.authenticated Session.set_oauth_link_sent
       Session.set_awaiting_auth_code].
  rewrite Ha. cbn [negb].
  rewrite (auth_workflow_starts _ _ _ _ _ _
             (Session.set_oauth_link_sent None (Session.set_awaiting_auth_code None sd)));
    reflexivity.
Qed.

(** X12: when the session awaits a code but the broker has lost the flow
    object (the process was restarted), the Gmail router drops both flags
    of the old flow and starts a new authorization, whatever the message
    says: a pasted code is not exchanged, the only tool called is
    [setup_oauth], and when that succeeds the new link is sent and the
    session awaits the code again. *)
Theorem router_restarts_after_lost_flow (E : Env) (sid sender : string)
    (msg : list content_block) (w : World) :
  has_start msg = false ->
  Session.flag (Session.authenticated (session_of sid w)) = false ->
  Session.flag (Session.awaiting_auth_code (session_of sid w)) = true ->
  Broker._flow (auth w) = None ->
  let w' := snd (GmailProto.handle_chat_message E sid sender msg w) in
  (exists l,
      tool_log w' = (tool_log w ++ l)%list
      /\ l <> []
      /\ Forall (fun d => d_tool d = "setup_oauth") l)
  /\ (forall oauth_json w2 d url,
         GmailProto._run_gmail_tool E "setup_oauth" (JObj [("session_id", JStr sid)])
           (restarted sender (session_of sid w) w) = (Ret oauth_json, w2) ->
         json_loads oauth_json = Ret (JObj d) ->
         truthy_opt (assoc "success" d) = true ->
         assoc "auth_url" d = Some (JStr url) ->
         fst (GmailProto.handle_chat_message E sid sender msg w) = Ret tt
         /\ state_of (session_of sid w') = AWAITING_CODE
         /\ outbox w'
            = (outbox w2
                 ++ [(sender, ChatMessage (GmailProto.link_reply
                                             (GmailProto.attach_state url sid)))])%list).
Proof.
  intros Hs Ha Hw Hfl w'. subst w'.
  rewrite handle_chat_message_unfold, finally_reset.
  rewrite (route_lost_flow _ _ _ _ _ _
             (Session.set_sender_address (Some sender) (session_of sid w)));
    [| exact Hs | reflexivity | exact Ha | exact Hw | exact Hfl].
  change (set_ctx _ (entered sender (session_of sid w) w))
    with (restarted sender (session_of sid w) w).
  cbn [fst snd]. split.
  - wsimpl. rewrite start_oauth_tool_log.
    destruct (gmail_invoker_accounting E "setup_oauth" (JObj [("session_id", JStr sid)])
                (restarted sender (session_of sid w) w)) as [[Hl _] | [Hl _]];
      rewrite Hl; eexists; (split; [reflexivity |]); split;
      try discriminate; repeat constructor.
  - intros oauth_json w2 d url Hrun Hj Hok Hu.
    pose proof (keeps_run_gmail_tool current_flag E "setup_oauth"
                  (JObj [("session_id", JStr sid)]) invoker_proof_current_flag
                  (restarted sender (session_of sid w) w)) as Hk.
    rewrite Hrun in Hk. cbn [snd] in Hk.
    rewrite (start_oauth_sends_link E (sessions_of w) sid sender
               (restarted sender (session_of sid w) w) oauth_json w2 d url
               eq_refl Hrun Hj Hok Hu).
    cbn [fst snd]. wsimpl. repeat split.
    unfold session_of at 1. unfold sessions_of at 1. wsimpl.
    rewrite lookup_insert_eq. cbn [default from_option id].
    unfold state_of, awaiting_code. cbn.
    rewrite <- current_flag_session, Hk.
    change (current_flag (restarted sender (session_of sid w) w))
      with (Session.flag (Session.authenticated (session_of sid w))).
    rewrite Ha. reflexivity.
Qed.

Lemma router_restarts_after_lost_flow_witness :
  state_of (session_of "s1"
              (snd (GmailProto.handle_chat_message Sample.E "s1" "agent1alice"
                      [TextContent "4/good"] Scenario.w_lost_flow)))
  = AWAITING_CODE.
Proof.
  pose (url := "https://accounts.google.com/o/oauth2/auth?response_type=code&state=s1&prompt=consent").
  pose (d := [("success", JBool true); ("auth_url", JStr url)]).
  pose (v := restarted "agent1alice" (session_of "s1" Scenario.w_lost_flow)
               Scenario.w_lost_flow).
  pose (w2 := snd (GmailProto._run_gmail_tool Sample.E "setup_oauth"
                     (JObj [("session_id", JStr "s1")]) v)).
  refine (proj1 (proj2
            (proj2 (router_restarts_after_lost_flow Sample.E "s1" "agent1alice"
                      [TextContent "4/good"] Scenario.w_lost_flow
                      eq_refl eq_refl eq_refl eq_refl)
               (json_dumps (JObj d)) w2 d url _ eq_refl eq_refl eq_refl))).
  vm_compute. reflexivity.
Defined.
(** ** What the handlers leave alone *)

Section LoopKeeps.
Context {B : Type} (f : World -> B).
Variable run_tool : string -> json -> M jtext.
Hypothesis run_tool_keeps : forall fn a, keeps f (run_tool fn a).
Hypothesis f_llm : forall v w, f (set_llm_tape v w) = f w.

Lemma keeps_run_calls calls : keeps f (run_calls run_tool calls).
Proof.
  induction calls as [|[fn a] rest IH]; cbn [run_calls]; [apply keeps_ret |].
  apply keeps_bind; [apply keeps_lift | intros d].
  apply keeps_bind; [apply run_tool_keeps | intros _; exact IH].
Qed.

Lemma keeps_consume_stream events chunks :
  keeps f (consume_stream run_tool events chunks).
Proof.
  revert chunks. induction events as [|ev rest IH]; intros chunks;
    cbn [consume_stream]; [apply keeps_ret |].
  destruct ev; auto.
  apply keeps_bind; [apply keeps_run_calls | intros _; apply keeps_ret].
Qed.

Lemma keeps_hop_loop on_limit hops chunks :
  keeps f on_limit -> keeps f (hop_loop run_tool on_limit hops chunks).
Proof.
  intros Hl. revert chunks. induction hops as [|n IH]; intros chunks;
    cbn [hop_loop]; [exact Hl |].
  apply keeps_bind; [apply keeps_next_stream, f_llm | intros events].
  apply keeps_bind; [apply keeps_consume_stream | intros r].
  destruct (snd r); [apply IH | apply keeps_ret].
Qed.

Lemma keeps_run_leaked calls : keeps f (run_leaked run_tool calls).
Proof.
  induction calls as [|c rest IH]; cbn [run_leaked]; [apply keeps_ret |].
  apply keeps_bind; [apply keeps_lift | intros np].
  apply keeps_bind; [apply run_tool_keeps | intros _; exact IH].
Qed.

End LoopKeeps.

Lemma keeps_gmail_call_openai {B} (f : World -> B) E messages :
  invoker_proof f -> (forall v w, f (set_llm_tape v w) = f w) ->
  keeps f (GmailProto._call_openai_responses E messages).
Proof.
  intros Hi Hl. unfold GmailProto._call_openai_responses.
  apply keeps_hop_loop; auto using keeps_raise.
  intros. apply keeps_run_gmail_tool, Hi.
Qed.

Lemma keeps_calendar_call_openai {B} (f : World -> B) E messages :
  invoker_proof f -> (forall v w, f (set_llm_tape v w) = f w) ->
  keeps f (CalendarProto._call_openai_responses E messages).
Proof.
  intros Hi Hl. unfold CalendarProto._call_openai_responses.
  apply keeps_hop_loop; auto using keeps_ret.
  intros. apply keeps_run_cal_tool, Hi.
Qed.

Lemma keeps_gmail_fallback {B} (f : World -> B) E reply :
  invoker_proof f -> (forall v w, f (set_llm_tape v w) = f w) ->
  keeps f (GmailProto.fallback E reply).
Proof.
  intros Hi Hl. unfold GmailProto.fallback.
  apply keeps_try_except; [| intros; apply keeps_ret].
  apply keeps_bind.
  - destruct (leaked_tool_calls E reply); [apply keeps_ret |].
    apply keeps_bind; [| intros _; apply keeps_gmail_call_openai; assumption].
    apply keeps_run_leaked. intros. apply keeps_run_gmail_tool, Hi.
  - intros r1. apply keeps_try_except; [| intros; apply keeps_ret].
    destruct (startswith _ _); [| apply keeps_ret].
    destruct (leaked_parallel_calls E r1); [| apply keeps_ret].
    apply keeps_bind; [| intros _; apply keeps_gmail_call_openai; assumption].
    apply keeps_run_leaked. intros. apply keeps_run_gmail_tool, Hi.
Qed.

Lemma invoker_proof_mailbox : invoker_proof mailbox.
Proof. repeat split; reflexivity. Qed.

Lemma keeps_update {B} (f : World -> B) g :
  (forall s w, CURRENT_SESSION_DATA w = Some s -> f (set_ctx (Some (g s)) w) = f w) ->
  keeps f (update_session_ctx g).
Proof.
  intros H w. unfold update_session_ctx, modify. cbn.
  destruct (CURRENT_SESSION_DATA w) eqn:Hc; [apply H, Hc | reflexivity].
Qed.

Section Preserves.
Context (I : World -> Prop).

Lemma preserves_ret {A} (a : A) : preserves I (ret a).
Proof. intros w H. exact H. Qed.

Lemma preserves_raise {A} e : preserves I (@raise A e).
Proof. intros w H. exact H. Qed.

Lemma preserves_bind {A C} (m : M A) (k : A -> M C) :
  preserves I m -> (forall a, preserves I (k a)) -> preserves I (bind m k).
Proof.
  intros Hm Hk w H. unfold bind. specialize (Hm w H).
  destruct (m w) as [[a|e] w1]; [apply Hk, Hm | exact Hm].
Qed.

Lemma preserves_try_except {A} (m : M A) (h : exn -> M A) :
  preserves I m -> (forall e, preserves I (h e)) -> preserves I (try_except m h).
Proof.
  intros Hm Hh w H. unfold try_except. specialize (Hm w H).
  destruct (m w) as [[a|e] w1]; [exact Hm | apply Hh, Hm].
Qed.

Lemma preserves_try_except_cls {A} cls (m : M A) (h : exn -> M A) :
  preserves I m -> (forall e, preserves I (h e)) -> preserves I (try_except_cls cls m h).
Proof.
  intros Hm Hh w H. unfold try_except_cls. specialize (Hm w H).
  destruct (m w) as [[a|e] w1]; [exact Hm |].
  destruct (exn_class_eqb _ _); [apply Hh, Hm | exact Hm].
Qed.

Lemma preserves_finally {A} (m : M A) (g : M unit) :
  preserves I m -> preserves I g -> preserves I (finally m g).
Proof.
  intros Hm Hg w H. unfold finally. specialize (Hm w H).
  destruct (m w) as [r w1]. specialize (Hg w1 Hm).
  destruct (g w1) as [[u|e] w2]; exact Hg.
Qed.

Lemma preserves_when b (m : M unit) : preserves I m -> preserves I (when b m).
Proof. intros H. destruct b; [exact H | apply preserves_ret]. Qed.

Lemma preserves_keeps {A B} (f : World -> B) (m : M A) :
  (forall w w', f w' = f w -> I w -> I w') -> keeps f m -> preserves I m.
Proof. intros Hf Hk w H. exact (Hf _ _ (Hk w) H). Qed.

End Preserves.
Section Mailbox.
Context (I : World -> Prop) (E : Env) (sessions : gmap string Session.t)
        (sid sender : string).
Hypothesis I_frame : forall w w', mailbox w' = mailbox w -> I w -> I w'.
Hypothesis I_store : forall sd, preserves I (store_session sessions sid sd).
Hypothesis I_send : forall m, preserves I (send sender m).

Lemma mailbox_leaf {A} (m : M A) : keeps mailbox m -> preserves I m.
Proof. apply preserves_keeps, I_frame. Qed.

Lemma preserves_persist : preserves I (GmailProto.persist sessions sid).
Proof.
  unfold GmailProto.persist. apply preserves_bind; [| intros sd; apply I_store].
  apply mailbox_leaf. unfold GmailProto.session_data. keeps_auto.
Qed.

Lemma keeps_mailbox_update g : keeps mailbox (update_session_ctx g).
Proof. apply keeps_update. reflexivity. Qed.

Lemma keeps_mailbox_gmail_tool fn args :
  keeps mailbox (GmailProto._run_gmail_tool E fn args).
Proof. apply keeps_run_gmail_tool, invoker_proof_mailbox. Qed.

Lemma keeps_mailbox_cal_tool fn args :
  keeps mailbox (CalendarProto._run_cal_tool E fn args).
Proof. apply keeps_run_cal_tool, invoker_proof_mailbox. Qed.

End Mailbox.

Ltac mailbox_leaf_tac :=
  apply mailbox_leaf; [assumption |];
  first [ apply keeps_mailbox_update
        | apply keeps_mailbox_gmail_tool
        | apply keeps_mailbox_cal_tool
        | apply keeps_gmail_call_openai;
          [apply invoker_proof_mailbox | reflexivity]
        | apply keeps_calendar_call_openai;
          [apply invoker_proof_mailbox | reflexivity]
        | apply keeps_gmail_fallback;
          [apply invoker_proof_mailbox | reflexivity]
        | apply keeps_point_broker_at; reflexivity
        | solve [unfold GmailProto.session_data; keeps_auto] ].

Ltac pres_step :=
  lazymatch goal with
  | |- preserves _ (bind _ _) => apply preserves_bind; [| intros ?]
  | |- preserves _ (try_except _ _) => apply preserves_try_except; [| intros ?]
  | |- preserves _ (try_except_cls _ _ _) => apply preserves_try_except_cls; [| intros ?]
  | |- preserves _ (finally _ _) => apply preserves_finally
  | |- preserves _ (when _ _) => apply preserves_when
  | |- preserves _ (ret _) => apply preserves_ret
  | |- preserves _ (raise _) => apply preserves_raise
  | |- preserves _ (send _ _) => solve [auto]
  | |- preserves _ (store_session _ _ _) => solve [auto]
  | |- preserves _ (GmailProto.persist _ _) => apply preserves_persist; assumption
  | |- preserves _ (GmailProto.update _) => unfold GmailProto.update; mailbox_leaf_tac
  | |- preserves _ (match ?x with _ => _ end) => destruct x
  | |- preserves _ _ => mailbox_leaf_tac
  end.

Section MailboxGmail.
Context (I : World -> Prop) (E : Env) (sessions : gmap string Session.t)
        (sid sender : string).
Hypothesis I_frame : forall w w', mailbox w' = mailbox w -> I w -> I w'.
Hypothesis I_store : forall sd, preserves I (store_session sessions sid sd).
Hypothesis I_send : forall m, preserves I (send sender m).

Lemma preserves_complete_flow code :
  preserves I (GmailProto.complete_flow E sessions sid sender code).
Proof. unfold GmailProto.complete_flow. repeat pres_step. Qed.

Lemma preserves_request_link :
  preserves I (GmailProto.request_link E sid sender).
Proof. unfold GmailProto.request_link. repeat pres_step. Qed.

Lemma preserves_start_oauth :
  preserves I (GmailProto.start_oauth E sessions sid sender).
Proof.
  unfold GmailProto.start_oauth.
  apply preserves_bind; [apply preserves_request_link | intros r].
  repeat pres_step.
Qed.

Lemma preserves_auth_workflow texts :
  preserves I (GmailProto.auth_workflow E sessions sid sender texts).
Proof.
  unfold GmailProto.auth_workflow.
  apply preserves_bind; [pres_step | intros sd].
  destruct (_ && _); [apply preserves_ret |].
  destruct (GmailProto.code_of _ _); [apply preserves_complete_flow |].
  destruct (Session.flag _); [repeat pres_step | apply preserves_start_oauth].
Qed.

Lemma preserves_revalidate : preserves I (GmailProto.revalidate E).
Proof. unfold GmailProto.revalidate. repeat pres_step. Qed.

Lemma preserves_converse texts :
  preserves I (GmailProto.converse E sessions sid sender texts).
Proof.
  unfold GmailProto.converse.
  apply preserves_bind; [pres_step | intros sd].
  apply preserves_bind; [destruct texts; repeat pres_step | intros messages].
  apply preserves_bind; [pres_step | intros sd'].
  apply preserves_bind.
  { destruct (Session.messages sd'); repeat pres_step. }
  intros _. repeat pres_step.
Qed.

Lemma preserves_route msg :
  preserves I (GmailProto.route E sessions sid sender msg).
Proof.
  unfold GmailProto.route.
  apply preserves_bind.
  { apply preserves_when, mailbox_leaf; [assumption |].
    apply keeps_modify. reflexivity. }
  intros _. apply preserves_bind; [pres_step | intros sd].
  destruct (_ && _); [pres_step |].
  apply preserves_bind; [pres_step | intros a].
  apply preserves_bind; [repeat pres_step | intros _].
  apply preserves_bind; [pres_step | intros sd1].
  apply preserves_bind; [apply preserves_when, preserves_revalidate | intros _].
  apply preserves_bind; [pres_step | intros sd2].
  destruct (negb _); [apply preserves_auth_workflow | apply preserves_converse].
Qed.

End MailboxGmail.
Lemma keeps_call_with {A B} (f : World -> B) aliased data (m : M A) :
  (forall v w, f (set_ctx v w) = f w) -> keeps f m ->
  keeps f (CalendarProto.call_with aliased data m).
Proof.
  intros Hc Hm w. unfold CalendarProto.call_with. destruct aliased.
  - specialize (Hm (set_ctx (Some data) w)).
    destruct (m (set_ctx (Some data) w)) as [r w1]. cbn in *. rewrite Hm. apply Hc.
  - specialize (Hm w). destruct (m w) as [r w1]. exact Hm.
Qed.

Section MailboxCalendar.
Context (I : World -> Prop) (E : Env) (sessions : gmap string Session.t)
        (sid sender : string).
Hypothesis I_frame : forall w w', mailbox w' = mailbox w -> I w -> I w'.
Hypothesis I_store : forall sd, preserves I (store_session sessions sid sd).
Hypothesis I_send : forall m, preserves I (send sender m).

Lemma preserves_call_with {A} aliased data (m : M A) :
  keeps mailbox m -> preserves I (CalendarProto.call_with aliased data m).
Proof.
  intros H. apply mailbox_leaf; [assumption |].
  apply keeps_call_with; [reflexivity | exact H].
Qed.

Lemma preserves_calendar_auth_workflow inbound data aliased :
  preserves I (CalendarProto.auth_workflow E sessions sid sender inbound data aliased).
Proof.
  unfold CalendarProto.auth_workflow.
  destruct (_ && _); [apply preserves_ret |].
  destruct (Session.flag _); [repeat pres_step |].
  apply preserves_bind.
  { apply preserves_call_with, keeps_mailbox_cal_tool. }
  intros r. repeat pres_step.
Qed.

Lemma preserves_calendar_revalidate data :
  preserves I (CalendarProto.revalidate E data).
Proof.
  unfold CalendarProto.revalidate.
  apply preserves_bind; [destruct (Session.tokens_path data); repeat pres_step | intros _].
  apply preserves_bind.
  { apply preserves_when, mailbox_leaf; [assumption |]. apply keeps_modify. reflexivity. }
  intros _. apply preserves_bind.
  { apply preserves_call_with.
    apply keeps_bind; [apply keeps_mailbox_cal_tool | intros ?].
    keeps_auto. }
  intros r. apply preserves_bind; [| intros _; apply preserves_ret].
  apply preserves_when, mailbox_leaf; [assumption |]. apply keeps_modify. reflexivity.
Qed.

Lemma preserves_calendar_converse inbound data aliased :
  preserves I (CalendarProto.converse E sessions sid sender inbound data aliased).
Proof.
  unfold CalendarProto.converse.
  apply preserves_bind; [destruct (_ && _); repeat pres_step | intros data1].
  apply preserves_bind.
  { destruct inbound; [apply preserves_ret |].
    destruct (Session.messages data1); [apply preserves_ret | apply preserves_raise]. }
  intros step. apply preserves_bind.
  { destruct (Session.messages (snd step)); [| apply preserves_raise].
    destruct (_ <? _)%nat; apply preserves_ret. }
  intros data2. apply preserves_bind.
  { apply preserves_call_with, keeps_calendar_call_openai;
      [apply invoker_proof_mailbox | reflexivity]. }
  intros r. repeat pres_step.
Qed.

Lemma preserves_calendar_handle msg w :
  sessions_of w = sessions ->
  I w -> I (snd (CalendarProto._handle E sid sender msg w)).
Proof.
  intros Hs HI. unfold CalendarProto._handle.
  pose proof (I_send ChatAcknowledgement w HI) as H1.
  unfold bind at 1. unfold send at 1, modify at 1.
  set (w1 := set_outbox (outbox w ++ [(sender, ChatAcknowledgement)]) w) in *.
  change (I w1) in H1.
  unfold bind at 1, gets at 1. change (storage w1) with (storage w).
  unfold sessions_of in Hs.
  destruct (storage w) as [| |m] eqn:Hw;
    [ | exact H1 | ]; unfold bind at 1; unfold ret at 1; rewrite Hs.
  all: match goal with
       | |- I (snd (?m ?v)) => assert (Hp : preserves I m); [| exact (Hp v H1)]
       end.
  all: destruct (_ && _); [auto |].
  all: apply preserves_bind; [pres_step | intros token].
  all: apply preserves_bind;
    [apply mailbox_leaf; [assumption | apply keeps_modify; reflexivity] | intros _].
  all: apply preserves_finally;
    [| apply mailbox_leaf; [assumption | apply keeps_modify; reflexivity]].
  all: apply preserves_bind;
    [destruct (Session.flag _);
      [apply preserves_calendar_revalidate | apply preserves_ret] | intros r].
  all: destruct (negb _);
    [apply preserves_calendar_auth_workflow | apply preserves_calendar_converse].
Qed.

End MailboxCalendar.

Lemma others_as_in_frame base sid w w' :
  mailbox w' = mailbox w -> others_as_in base sid w -> others_as_in base sid w'.
Proof.
  unfold mailbox, others_as_in, sessions_of. intros H. injection H as -> _. auto.
Qed.

Lemma others_as_in_store base sid sd :
  preserves (others_as_in base sid) (store_session base sid sd).
Proof.
  intros w _ sid' Hne. unfold store_session, modify, sessions_of. cbn.
  apply lookup_insert_ne. congruence.
Qed.

Lemma others_as_in_send base sid to m :
  preserves (others_as_in base sid) (send to m).
Proof. intros w H. exact H. Qed.

Lemma sent_to_only_frame sender base w w' :
  mailbox w' = mailbox w -> sent_to_only sender base w -> sent_to_only sender base w'.
Proof.
  unfold mailbox, sent_to_only. intros H. injection H as _ ->. auto.
Qed.

Lemma sent_to_only_store sender base sessions sid sd :
  preserves (sent_to_only sender base) (store_session sessions sid sd).
Proof. intros w H. exact H. Qed.

Lemma sent_to_only_send sender base m :
  preserves (sent_to_only sender base) (send sender m).
Proof.
  intros w (l & Hl & Hall). exists (l ++ [(sender, m)])%list.
  unfold send, modify. cbn. rewrite Hl, <- app_assoc. split; [reflexivity |].
  apply Forall_app. split; [exact Hall | repeat constructor].
Qed.

(** X13: handling a message of session [sid] leaves the stored dict of
    every other session as it was, whatever the message and the state of
    the world, in the Gmail and in the Calendar handler. *)
Theorem handlers_leave_other_sessions_alone (E : Env) (sid sender : string)
    (msg : list content_block) (w : World) (other : string) :
  other <> sid ->
  sessions_of (snd (GmailProto.handle_chat_message E sid sender msg w)) !! other
  = sessions_of w !! other
  /\ sessions_of (snd (CalendarProto._handle E sid sender msg w)) !! other
     = sessions_of w !! other.
Proof.
  intros Hne. split.
  - rewrite handle_chat_message_unfold.
    assert (Hp : preserves (others_as_in (sessions_of w) sid)
                   (finally (GmailProto.route E (sessions_of w) sid sender msg)
                            (modify (set_ctx (CURRENT_SESSION_DATA w))))).
    { apply preserves_finally.
      - apply preserves_route;
          [ apply others_as_in_frame
          | intros; apply others_as_in_store
          | intros; apply others_as_in_send ].
      - apply preserves_keeps with (f := mailbox);
          [apply others_as_in_frame | apply keeps_modify; reflexivity]. }
    apply (Hp (entered sender (session_of sid w) w)); [| exact Hne].
    intros sid' _. reflexivity.
  - apply (preserves_calendar_handle (others_as_in (sessions_of w) sid) E
             (sessions_of w) sid sender);
      [ apply others_as_in_frame
      | intros; apply others_as_in_store
      | intros; apply others_as_in_send
      | reflexivity
      | intros sid' _; reflexivity
      | exact Hne ].
Qed.

Lemma handlers_leave_other_sessions_alone_witness :
  sessions_of (snd (GmailProto.handle_chat_message Sample.E "s2" "agent1bob"
                      [TextContent "hello"] Sample.w1)) !! "s1"
  = sessions_of Sample.w1 !! "s1".
Proof.
  assert (H : "s1" <> "s2") by discriminate.
  exact (proj1 (handlers_leave_other_sessions_alone Sample.E "s2" "agent1bob"
                  [TextContent "hello"] Sample.w1 "s1" H)).
Defined.

(** X14: whatever happens, the handlers acknowledge the message first and
    send everything else to the sender of the message, to nobody else. *)
Theorem handlers_reply_to_sender_only (E : Env) (sid sender : string)
    (msg : list content_block) (w : World) :
  sent_to_only sender (outbox w ++ [(sender, ChatAcknowledgement)])
    (snd (GmailProto.handle_chat_message E sid sender msg w))
  /\ sent_to_only sender (outbox w ++ [(sender, ChatAcknowledgement)])
       (snd (CalendarProto._handle E sid sender msg w)).
Proof.
  set (base := (outbox w ++ [(sender, ChatAcknowledgement)])%list).
  split.
  - rewrite handle_chat_message_unfold.
    assert (Hp : preserves (sent_to_only sender base)
                   (finally (GmailProto.route E (sessions_of w) sid sender msg)
                            (modify (set_ctx (CURRENT_SESSION_DATA w))))).
    { apply preserves_finally.
      - apply preserves_route;
          [ apply sent_to_only_frame
          | intros; apply sent_to_only_store
          | intros; apply sent_to_only_send ].
      - apply preserves_keeps with (f := mailbox);
          [apply sent_to_only_frame | apply keeps_modify; reflexivity]. }
    apply (Hp (entered sender (session_of sid w) w)).
    exists []. split; [unfold entered; cbn; rewrite app_nil_r; reflexivity | constructor].
  - unfold CalendarProto._handle. unfold bind at 1. unfold send at 1, modify at 1.
    set (w1 := set_outbox _ w).
    assert (H1 : sent_to_only sender base w1).
    { exists []. split; [cbn; rewrite app_nil_r; reflexivity | constructor]. }
    unfold bind at 1, gets at 1.
    change (storage w1) with (storage w).
    destruct (storage w) as [| |m] eqn:Hw; [ | exact H1 | ];
      unfold bind at 1; unfold ret at 1.
    all: match goal with
         | |- sent_to_only _ _ (snd (?m ?v)) =>
             assert (Hp : preserves (sent_to_only sender base) m); [| exact (Hp v H1)]
         end.
    all: destruct (_ && _); [apply sent_to_only_store |].
    all: apply preserves_bind;
      [apply preserves_keeps with (f := mailbox);
        [apply sent_to_only_frame | apply keeps_gets] | intros token].
    all: apply preserves_bind;
      [apply preserves_keeps with (f := mailbox);
        [apply sent_to_only_frame | apply keeps_modify; reflexivity] | intros _].
    all: apply preserves_finally;
      [| apply preserves_keeps with (f := mailbox);
         [apply sent_to_only_frame | apply keeps_modify; reflexivity]].
    all: apply preserves_bind;
      [destruct (Session.flag _);
        [apply preserves_calendar_revalidate; apply sent_to_only_frame
        | apply preserves_ret] | intros r].
    all: destruct (negb _);
      [apply preserves_calendar_auth_workflow | apply preserves_calendar_converse];
      first [ apply sent_to_only_frame
            | intros; apply sent_to_only_store
            | intros; apply sent_to_only_send ].
Qed.
(** ** What an unauthenticated session cannot reach *)

Lemma prepare_proof_reached : prepare_proof reached.
Proof. repeat split; reflexivity. Qed.

Lemma keeps_reached_gmail_get_service E : keeps reached (GmailServer.get_service E).
Proof. unfold GmailServer.get_service. keeps_auto. Qed.

Lemma keeps_reached_gmail_oauth_tool E fn args :
  fn ∈ oauth_tools -> keeps reached (GmailServer.call_tool E fn args).
Proof.
  intros Hn. unfold oauth_tools in Hn.
  repeat (apply elem_of_cons in Hn as [-> | Hn]); [ | | | | inversion Hn];
    unfold GmailServer.call_tool; cbn [String.eqb Ascii.eqb Bool.eqb];
    cbn.
  - unfold GmailServer.setup_oauth, GmailServer.get_oauth_url. keeps_auto.
  - unfold GmailServer.complete_oauth, GmailServer.exchange_code_for_token. keeps_auto.
  - unfold GmailServer.check_auth_status. 
    repeat first [apply keeps_reached_gmail_get_service | keeps_step].
  - unfold GmailServer.reset_oauth_tokens. keeps_auto.
Qed.

Lemma keeps_reached_calendar_oauth_tool E fn args :
  fn ∈ oauth_tools -> keeps reached (CalendarServer.call_tool E fn args).
Proof.
  intros Hn. unfold oauth_tools in Hn.
  repeat (apply elem_of_cons in Hn as [-> | Hn]); [ | | | | inversion Hn];
    unfold CalendarServer.call_tool; cbn.
  - unfold CalendarServer.setup_oauth, CalendarServer.get_oauth_url. keeps_auto.
  - unfold CalendarServer.complete_oauth, CalendarServer.exchange_code_for_token.
    keeps_auto.
  - unfold CalendarServer.check_auth_status. keeps_auto.
  - apply keeps_raise.
Qed.

Lemma keeps_reached_mcp_call ct fn args :
  keeps reached (ct fn args) -> keeps reached (_mcp_call_tool ct fn args).
Proof.
  intros H. unfold _mcp_call_tool.
  apply keeps_bind; [apply keeps_modify; reflexivity | intros _].
  apply keeps_bind.
  - intros w. destruct (mcp_faults w); reflexivity.
  - intros [e|]; [apply keeps_raise |].
    apply keeps_bind; [exact H | intros; apply keeps_ret].
Qed.

Lemma keeps_reached_cleaned tc tp w : reached (cleaned tc tp w) = reached w.
Proof. apply (keeps_cleanup_temp reached tc tp). reflexivity. Qed.

Lemma keeps_reached_retry_loop call tc tp :
  keeps reached call -> keeps reached (retry_loop call tc tp range2).
Proof.
  intros H w. rewrite retry_loop_range2. pose proof (H w) as H1.
  destruct (call w) as [[r|e] w1]; cbn [snd] in *.
  - rewrite keeps_reached_cleaned. exact H1.
  - pose proof (H (slept w1)) as H2.
    destruct (call (slept w1)) as [[r|e2] w2]; cbn [snd] in *;
      rewrite keeps_reached_cleaned, H2; exact H1.
Qed.

Lemma keeps_reached_gmail_tool E fn args :
  fn ∈ oauth_tools -> keeps reached (GmailProto._run_gmail_tool E fn args).
Proof.
  intros Hn. unfold GmailProto._run_gmail_tool.
  apply keeps_bind; [apply keeps_gmail_prepare, prepare_proof_reached | intros prep].
  apply keeps_reached_retry_loop, keeps_reached_mcp_call.
  apply keeps_reached_gmail_oauth_tool, Hn.
Qed.

Lemma keeps_reached_cal_tool E fn args :
  fn ∈ oauth_tools -> keeps reached (CalendarProto._run_cal_tool E fn args).
Proof.
  intros Hn. unfold CalendarProto._run_cal_tool.
  apply keeps_bind; [apply keeps_calendar_prepare, prepare_proof_reached | intros prep].
  apply keeps_reached_retry_loop, keeps_reached_mcp_call.
  apply keeps_reached_calendar_oauth_tool, Hn.
Qed.

Ltac reached_step :=
  first
    [ apply keeps_reached_gmail_tool; unfold oauth_tools; set_solver
    | apply keeps_reached_cal_tool; unfold oauth_tools; set_solver
    | apply keeps_update; reflexivity
    | apply send_keeps; reflexivity
    | apply persist_keeps; reflexivity
    | apply keeps_point_broker_at; reflexivity
    | apply keeps_call_with; [reflexivity |]
    | keeps_step ].

Lemma keeps_reached_gmail_auth_workflow E sessions sid sender texts :
  keeps reached (GmailProto.auth_workflow E sessions sid sender texts).
Proof.
  unfold GmailProto.auth_workflow, GmailProto.complete_flow, GmailProto.start_oauth,
    GmailProto.request_link, GmailProto.session_data, GmailProto.update, store_session.
  repeat reached_step.
Qed.

Lemma keeps_reached_calendar_auth_workflow E sessions sid sender inbound data aliased :
  keeps reached (CalendarProto.auth_workflow E sessions sid sender inbound data aliased).
Proof.
  unfold CalendarProto.auth_workflow, store_session.
  repeat reached_step.
Qed.
Lemma gmail_route_unauthenticated_reached E sessions sid sender msg v sd :
  CURRENT_SESSION_DATA v = Some sd ->
  Session.flag (Session.authenticated sd) = false ->
  reached (snd (GmailProto.route E sessions sid sender msg v)) = reached v.
Proof.
  intros Hc Ha. unfold GmailProto.route.
  set (v1 := snd (when (has_start msg) (modify (set_ctx (Some Session.fresh))) v)).
  assert (H1 : exists sd1, CURRENT_SESSION_DATA v1 = Some sd1
                           /\ Session.flag (Session.authenticated sd1) = false
                           /\ reached v1 = reached v).
  { subst v1. destruct (has_start msg); cbn; eauto. }
  destruct H1 as (sd1 & Hc1 & Ha1 & Hr1).
  unfold bind at 1.
  replace (when (has_start msg) (modify (set_ctx (Some Session.fresh))) v)
    with (Ret tt, v1) by (subst v1; destruct (has_start msg); reflexivity).
  rewrite <- Hr1. clearbody v1. clear Hc Ha Hr1 sd v.
  unfold bind at 1. unfold GmailProto.session_data at 1, get_session_ctx, gets.
  rewrite Hc1. cbn [default from_option id].
  destruct (_ && _).
  { apply persist_keeps. reflexivity. }
  unfold bind at 1. unfold get_auth at 1, gets. unfold bind at 1.
  set (stale := when _ _).
  assert (H2 : exists sd2 v2, stale v1 = (Ret tt, v2)
                              /\ CURRENT_SESSION_DATA v2 = Some sd2
                              /\ Session.flag (Session.authenticated sd2) = false
                              /\ reached v2 = reached v1).
  { subst stale. destruct (_ && _); cbn [when].
    - unfold GmailProto.update, update_session_ctx. mstep. rewrite Hc1. wsimpl.
      eexists _, _. split; [reflexivity |]. wsimpl. split; [reflexivity |].
      split; [exact Ha1 | reflexivity].
    - eexists _, _. split; [reflexivity |]. eauto. }
  destruct H2 as (sd2 & v2 & -> & Hc2 & Ha2 & Hr2). rewrite <- Hr2.
  unfold bind at 1. unfold GmailProto.session_data at 1, get_session_ctx, gets.
  rewrite Hc2. cbn [default from_option id]. rewrite Ha2. cbn [when].
  unfold bind at 1. unfold ret at 1.
  unfold bind at 1. unfold GmailProto.session_data at 1, get_session_ctx, gets.
  rewrite Hc2. cbn [default from_option id]. rewrite Ha2. cbn [negb].
  apply keeps_reached_gmail_auth_workflow.
Qed.

(** X15: for a session that is not authenticated, the handlers neither ask
    the model nor make a Google API request, whatever the message says. *)
Theorem unauthenticated_session_reaches_nothing (E : Env) (sid sender : string)
    (msg : list content_block) (w : World) :
  Session.flag (Session.authenticated (session_of sid w)) = false ->
  reached (snd (GmailProto.handle_chat_message E sid sender msg w)) = reached w
  /\ reached (snd (CalendarProto._handle E sid sender msg w)) = reached w.
Proof.
  intros Ha. split.
  - rewrite handle_chat_message_unfold, finally_reset. cbn [snd].
    change (reached (set_ctx ?t ?v)) with (reached v).
    rewrite (gmail_route_unauthenticated_reached _ _ _ _ _ _
               (Session.set_sender_address (Some sender) (session_of sid w)));
      [reflexivity | reflexivity | exact Ha].
  - unfold CalendarProto._handle. unfold bind at 1. unfold send at 1, modify at 1.
    set (w1 := set_outbox _ w). change (reached w) with (reached w1).
    unfold bind at 1, gets at 1. change (storage w1) with (storage w).
    unfold session_of, sessions_of in Ha.
    destruct (storage w) as [| |m] eqn:Hw; [ | reflexivity | ];
      unfold bind at 1; unfold ret at 1.
    all: destruct (_ && _); [reflexivity |].
    all: unfold bind at 1; unfold gets at 1; unfold bind at 1; unfold modify at 1.
    all: rewrite finally_reset; cbn [snd]; change (reached (set_ctx ?t ?v)) with (reached v).
    all: match goal with
         | |- context [Session.flag (Session.authenticated ?d)] =>
             assert (Hd : Session.flag (Session.authenticated d) = false)
               by (destruct (has_start msg); [reflexivity | exact Ha])
         end.
    all: rewrite Hd; unfold bind at 1; unfold ret at 1; cbn [fst snd negb];
      rewrite Hd; cbn [negb].
    all: rewrite keeps_reached_calendar_auth_workflow; reflexivity.
Qed.

Lemma unauthenticated_session_reaches_nothing_witness :
  reached (snd (GmailProto.handle_chat_message Sample.E "s1" "agent1alice"
                  [TextContent "list my emails"] Sample.w0))
  = reached Sample.w0.
Proof.
  exact (proj1 (unauthenticated_session_reaches_nothing Sample.E "s1" "agent1alice"
                  [TextContent "list my emails"] Sample.w0 eq_refl)).
Defined.
(** ** The conversation history stays bounded *)

Lemma invoker_proof_history_and_storage : invoker_proof history_and_storage.
Proof.
  repeat split; try reflexivity.
  intros p s w H. unfold history_and_storage, ctx_history, current_session.
  cbn. rewrite H. reflexivity.
Qed.

Lemma invoker_proof_ctx_history : invoker_proof ctx_history.
Proof.
  repeat split; try reflexivity.
  intros p s w H. unfold ctx_history, current_session.
  cbn. rewrite H. reflexivity.
Qed.

Lemma length_last_n {A} k (l : list A) :
  (0 < k)%nat -> (length (last_n k l) <= k)%nat.
Proof.
  intros Hk. unfold last_n. destruct (k =? 0)%nat eqn:H0.
  - apply Nat.eqb_eq in H0. lia.
  - rewrite length_drop. lia.
Qed.

Section History.
Context (E : Env) (sessions : gmap string Session.t) (sid sender : string)
        (bound : nat).
Hypothesis max_positive : (0 < MAX_HISTORY E)%nat.
Hypothesis bound_large : (MAX_HISTORY E * 2 + 1 <= bound)%nat.

Lemma history_frame w w' :
  history_and_storage w' = history_and_storage w -> history_within bound sid w -> history_within bound sid w'.
Proof.
  unfold history_and_storage, history_within, session_of, sessions_of.
  intros H. injection H as -> ->. auto.
Qed.

Lemma history_leaf {A} (m : M A) : keeps history_and_storage m -> preserves (history_within bound sid) m.
Proof. apply preserves_keeps, history_frame. Qed.

Lemma history_persist : preserves (history_within bound sid) (GmailProto.persist sessions sid).
Proof.
  intros w [Hc Hs]. unfold GmailProto.persist, GmailProto.session_data,
    get_session_ctx, store_session. mstep.
  split; [exact Hc |].
  unfold session_of, sessions_of. wsimpl. rewrite lookup_insert_eq. exact Hc.
Qed.

Lemma history_update g :
  (forall s, Session.messages (g s) = Session.messages s) ->
  preserves (history_within bound sid) (update_session_ctx g).
Proof.
  intros Hg. apply history_leaf, keeps_update. intros s w Hc.
  unfold history_and_storage, ctx_history, current_session, history.
  cbn. rewrite Hc, Hg. reflexivity.
Qed.

Lemma history_tool fn args : preserves (history_within bound sid) (GmailProto._run_gmail_tool E fn args).
Proof. apply history_leaf, keeps_run_gmail_tool, invoker_proof_history_and_storage. Qed.

Lemma history_send to m : preserves (history_within bound sid) (send to m).
Proof. apply history_leaf, send_keeps. reflexivity. Qed.

End History.

Ltac hist_step :=
  lazymatch goal with
  | |- preserves _ (bind _ _) => apply preserves_bind; [| intros ?]
  | |- preserves _ (try_except _ _) => apply preserves_try_except; [| intros ?]
  | |- preserves _ (try_except_cls _ _ _) => apply preserves_try_except_cls; [| intros ?]
  | |- preserves _ (when _ _) => apply preserves_when
  | |- preserves _ (ret _) => apply preserves_ret
  | |- preserves _ (raise _) => apply preserves_raise
  | |- preserves _ (send _ _) => apply history_send
  | |- preserves _ (GmailProto.persist _ _) => apply history_persist
  | |- preserves _ (GmailProto._run_gmail_tool _ _ _) => apply history_tool
  | |- preserves _ (GmailProto.update _) =>
      unfold GmailProto.update; apply history_update; intros; reflexivity
  | |- preserves _ (update_session_ctx _) => apply history_update; intros; reflexivity
  | |- preserves _ (match ?x with _ => _ end) => destruct x
  | |- preserves _ _ =>
      apply history_leaf;
      first [ apply keeps_point_broker_at; reflexivity
            | solve [unfold GmailProto.session_data; keeps_auto] ]
  end.

Section HistoryGmail.
Context (E : Env) (sessions : gmap string Session.t) (sid sender : string)
        (bound : nat).
Hypothesis max_positive : (0 < MAX_HISTORY E)%nat.
Hypothesis bound_large : (MAX_HISTORY E * 2 + 1 <= bound)%nat.

Lemma history_auth_workflow texts :
  preserves (history_within bound sid) (GmailProto.auth_workflow E sessions sid sender texts).
Proof.
  unfold GmailProto.auth_workflow, GmailProto.complete_flow, GmailProto.start_oauth,
    GmailProto.request_link.
  repeat hist_step.
Qed.

Lemma history_revalidate : preserves (history_within bound sid) (GmailProto.revalidate E).
Proof. unfold GmailProto.revalidate. repeat hist_step. Qed.

End HistoryGmail.
Section HistoryConverse.
Context (E : Env) (sessions : gmap string Session.t) (sid sender : string)
        (bound : nat).
Hypothesis max_positive : (0 < MAX_HISTORY E)%nat.
Hypothesis bound_large : (MAX_HISTORY E * 2 + 1 <= bound)%nat.

Lemma stored_history_frame w w' :
  storage w' = storage w ->
  stored_history_within bound sid w -> stored_history_within bound sid w'.
Proof.
  unfold stored_history_within, session_of, sessions_of. intros ->. auto.
Qed.

(** After the trimming step the history at hand has at most
    [MAX_HISTORY * 2] entries. *)
Lemma trim_bounds sd l v :
  CURRENT_SESSION_DATA v = Some sd ->
  Session.messages sd = Some l ->
  let v' := snd (when (MAX_HISTORY E * 2 <? length l)%nat
                   (GmailProto.update
                      (Session.set_messages (Some (last_n (MAX_HISTORY E * 2) l)))) v) in
  (length (ctx_history v') <= MAX_HISTORY E * 2)%nat /\ storage v' = storage v.
Proof.
  intros Hc Hm v'. subst v'.
  destruct (MAX_HISTORY E * 2 <? length l)%nat eqn:Hlt; cbn [when].
  - unfold GmailProto.update, update_session_ctx, modify. cbn. rewrite Hc.
    unfold ctx_history, current_session, history. cbn.
    split; [| reflexivity]. apply length_last_n. lia.
  - apply Nat.ltb_ge in Hlt. unfold ret. cbn.
    unfold ctx_history, current_session, history. rewrite Hc. cbn. rewrite Hm. cbn.
    split; [exact Hlt | reflexivity].
Qed.

Lemma history_converse texts v :
  stored_history_within bound sid v ->
  stored_history_within bound sid
    (snd (GmailProto.converse E sessions sid sender texts v)).
Proof.
  intros HQ. unfold GmailProto.converse.
  unfold bind at 1. unfold GmailProto.session_data at 1, get_session_ctx, gets.
  set (sd0 := default Session.empty (CURRENT_SESSION_DATA v)).
  cbn beta.
  lazymatch goal with
  | |- stored_history_within _ _ (snd (bind ?m _ v)) => set (m1 := m)
  end.
  unfold bind at 1.
  assert (H1 : exists a v1, m1 v = (Ret a, v1) /\ storage v1 = storage v).
  { subst m1. destruct texts.
    - eexists _, _. split; reflexivity.
    - unfold GmailProto.update, update_session_ctx. mstep.
      destruct (CURRENT_SESSION_DATA v); eexists _, _; split; reflexivity. }
  destruct H1 as (a1 & v1 & -> & Hs1).
  unfold bind at 1. unfold GmailProto.session_data at 1, get_session_ctx, gets.
  unfold bind at 1.
  destruct (CURRENT_SESSION_DATA v1) as [sd1|] eqn:Hc1; cbn [default from_option id].
  2:{ cbn. apply (stored_history_frame v); assumption. }
  destruct (Session.messages sd1) as [l|] eqn:Hm1.
  2:{ cbn. apply (stored_history_frame v); assumption. }
  destruct (trim_bounds sd1 l v1 Hc1 Hm1) as [Hlen Hs2].
  set (trim := when _ _) in *.
  assert (Ht : fst (trim v1) = Ret tt).
  { subst trim. destruct (_ <? _)%nat; reflexivity. }
  destruct (trim v1) as [o v2]. cbn [fst snd] in *. subst o.
  pose proof (keeps_gmail_call_openai ctx_history E
                (a1 : list (string * string)) invoker_proof_ctx_history
                (fun _ _ => eq_refl) v2) as Hk1.
  pose proof (keeps_gmail_call_openai storage E
                (a1 : list (string * string)) invoker_proof_storage
                (fun _ _ => eq_refl) v2) as Hk1'.
  unfold bind at 1.
  destruct (GmailProto._call_openai_responses E a1 v2) as [[reply|e] v3];
    cbn [snd] in Hk1, Hk1'.
  2:{ cbn [snd]. apply (stored_history_frame v); [congruence | assumption]. }
  pose proof (keeps_gmail_fallback ctx_history E reply invoker_proof_ctx_history
                (fun _ _ => eq_refl) v3) as Hk2.
  pose proof (keeps_gmail_fallback storage E reply invoker_proof_storage
                (fun _ _ => eq_refl) v3) as Hk2'.
  unfold bind at 1.
  destruct (GmailProto.fallback E reply v3) as [[reply'|e] v4]; cbn [snd] in Hk2, Hk2'.
  2:{ cbn [snd]. apply (stored_history_frame v); [congruence | assumption]. }
  unfold GmailProto.persist, GmailProto.session_data, GmailProto.update,
    update_session_ctx, get_session_ctx, store_session. mstep.
  unfold stored_history_within, session_of, sessions_of. 
  assert (Hlen4 : (length (ctx_history v4) <= MAX_HISTORY E * 2)%nat) by congruence.
  unfold ctx_history, current_session in Hlen4.
  destruct (CURRENT_SESSION_DATA v4) as [sd4|] eqn:Hc4; wsimpl;
    rewrite ?Hc4; wsimpl; rewrite ?Hc4;
    rewrite lookup_insert_eq; cbn [default from_option id].
  - unfold history in *. cbn [Session.messages Session.set_messages default from_option id] in *.
    rewrite length_app. cbn [length]. lia.
  - cbn. lia.
Qed.

End HistoryConverse.
Lemma ensures_bind (I Q : World -> Prop) {A C} (m : M A) (k : A -> M C) :
  (forall w, I w -> Q w) ->
  preserves I m ->
  (forall a w, I w -> Q (snd (k a w))) ->
  forall w, I w -> Q (snd (bind m k w)).
Proof.
  intros HIQ Hm Hk w H. unfold bind. specialize (Hm w H).
  destruct (m w) as [[a|e] w1]; [apply Hk, Hm | apply HIQ, Hm].
Qed.

Section HistoryRoute.
Context (E : Env) (sessions : gmap string Session.t) (sid sender : string)
        (bound : nat).
Hypothesis max_positive : (0 < MAX_HISTORY E)%nat.
Hypothesis bound_large : (MAX_HISTORY E * 2 + 1 <= bound)%nat.

Lemma history_within_stored w :
  history_within bound sid w -> stored_history_within bound sid w.
Proof. intros [_ H]. exact H. Qed.

Lemma history_route msg v :
  history_within bound sid v ->
  stored_history_within bound sid (snd (GmailProto.route E sessions sid sender msg v)).
Proof.
  unfold GmailProto.route. revert v.
  apply ensures_bind; [apply history_within_stored | | intros _].
  { apply preserves_when. intros w [_ Hs]. split; [cbn; lia | exact Hs]. }
  apply ensures_bind; [apply history_within_stored | hist_step | intros sd].
  destruct (_ && _).
  { intros w H. apply history_within_stored, history_persist, H. }
  apply ensures_bind; [apply history_within_stored | hist_step | intros a].
  apply ensures_bind; [apply history_within_stored | repeat hist_step | intros _].
  apply ensures_bind; [apply history_within_stored | hist_step | intros sd1].
  apply ensures_bind; [apply history_within_stored | | intros _].
  { apply preserves_when, history_revalidate. }
  apply ensures_bind; [apply history_within_stored | hist_step | intros sd2].
  destruct (negb _); intros w H.
  - apply history_within_stored, history_auth_workflow, H.
  - apply history_converse; auto using history_within_stored.
Qed.

End HistoryRoute.

(** X16: the Gmail handler keeps the stored conversation history of a
    session bounded: with [MAX_HISTORY] > 0, a history of at most [bound]
    entries, for any [bound] of at least [2 * MAX_HISTORY + 1], still has
    at most [bound] entries after any message, however the handler ends. *)
Theorem history_stays_bounded (E : Env) (sid sender : string)
    (msg : list content_block) (w : World) (bound : nat) :
  (0 < MAX_HISTORY E)%nat ->
  (MAX_HISTORY E * 2 + 1 <= bound)%nat ->
  (length (history (session_of sid w)) <= bound)%nat ->
  (length (history (session_of sid
                      (snd (GmailProto.handle_chat_message E sid sender msg w))))
   <= bound)%nat.
Proof.
  intros Hmax Hb Hlen. rewrite handle_chat_message_unfold, finally_reset. cbn [snd].
  apply (stored_history_frame sid bound
           (snd (GmailProto.route E (sessions_of w) sid sender msg
                   (entered sender (session_of sid w) w)))); [reflexivity |].
  apply history_route; auto.
  split; [exact Hlen | exact Hlen].
Qed.

Lemma history_stays_bounded_witness :
  (length (history (session_of "s1"
                      (snd (GmailProto.handle_chat_message Sample.E "s1" "agent1alice"
                              [TextContent "4/good"] Sample.w1))))
   <= 21)%nat.
Proof.
  assert (H1 : (0 < MAX_HISTORY Sample.E)%nat) by (vm_compute; lia).
  assert (H2 : (MAX_HISTORY Sample.E * 2 + 1 <= 21)%nat) by (vm_compute; lia).
  assert (H3 : (length (history (session_of "s1" Sample.w1)) <= 21)%nat)
    by (vm_compute; lia).
  exact (history_stays_bounded Sample.E "s1" "agent1alice" [TextContent "4/good"]
           Sample.w1 21 H1 H2 H3).
Defined.
(** ** The loop around the model *)

Lemma next_stream_length w :
  (length (llm_tape w) <= length (llm_tape (snd (next_stream w))) + 1)%nat.
Proof.
  unfold next_stream. destruct (llm_tape w) as [|o rest]; cbn; lia.
Qed.

Lemma hop_loop_requests run_tool on_limit hops chunks w :
  (forall fn a, keeps llm_tape (run_tool fn a)) ->
  keeps llm_tape on_limit ->
  (length (llm_tape w)
   <= length (llm_tape (snd (hop_loop run_tool on_limit hops chunks w))) + hops)%nat.
Proof.
  intros Hr Hl. revert chunks w. induction hops as [|n IH]; intros chunks w;
    cbn [hop_loop].
  - rewrite Hl. lia.
  - unfold bind at 1. pose proof (next_stream_length w) as H1.
    destruct (next_stream w) as [[events|e] w1]; cbn [snd] in *; [| lia].
    unfold bind at 1.
    pose proof (keeps_consume_stream llm_tape run_tool Hr events chunks w1) as H2.
    destruct (consume_stream run_tool events chunks w1) as [[r|e] w2];
      cbn [snd] in *; rewrite <- H2 in H1; [| lia].
    destruct (snd r).
    + specialize (IH (fst r) w2). lia.
    + cbn. lia.
Qed.

(** X17: one run of [_call_openai_responses] sends at most ten requests to
    the model, whatever the model answers and whatever the tools do. *)
Theorem model_loop_sends_at_most_ten_requests (E : Env)
    (messages : list (string * string)) (w : World) :
  (length (llm_tape w)
   <= length (llm_tape (snd (GmailProto._call_openai_responses E messages w))) + 10)%nat
  /\ (length (llm_tape w)
      <= length (llm_tape (snd (CalendarProto._call_openai_responses E messages w)))
         + 10)%nat.
Proof.
  split.
  - apply hop_loop_requests; [| apply keeps_raise].
    intros. apply keeps_run_gmail_tool, invoker_proof_llm_tape.
  - apply hop_loop_requests; [| apply keeps_ret].
    intros. apply keeps_run_cal_tool, invoker_proof_llm_tape.
Qed.

Lemma run_calls_returns run_tool calls w :
  (forall fn a v, exists t, fst (run_tool fn a v) = Ret t) ->
  Forall (fun c => exists j, json_loads (snd c) = Ret j) calls ->
  fst (run_calls run_tool calls w) = Ret tt.
Proof.
  intros Hr Hc. revert w. induction Hc as [|[fn a] rest [j Hj] _ IH]; intros w;
    cbn [run_calls]; [reflexivity |].
  cbn [snd] in Hj. unfold bind, lift. rewrite Hj.
  destruct (Hr fn j w) as [t Ht]. destruct (run_tool fn j w) as [o w1].
  cbn in Ht. subst o. apply IH.
Qed.

Lemma consume_stream_breaks run_tool events calls chunks w :
  (forall fn a v, exists t, fst (run_tool fn a v) = Ret t) ->
  first_tool_calls events = Some calls ->
  Forall (fun c => exists j, json_loads (snd c) = Ret j) calls ->
  exists chunks', fst (consume_stream run_tool events chunks w) = Ret (chunks', true).
Proof.
  intros Hr Hf Hc. revert chunks. induction events as [|ev rest IH]; intros chunks;
    [discriminate |].
  destruct ev; cbn [consume_stream first_tool_calls] in *; auto.
  injection Hf as ->. unfold bind.
  pose proof (run_calls_returns run_tool calls w Hr Hc) as H.
  destruct (run_calls run_tool calls w) as [o w1]. cbn in H. subst o.
  eexists. reflexivity.
Qed.

Lemma hop_loop_limit run_tool on_limit hops chunks w l rest :
  (forall fn a v, exists t, fst (run_tool fn a v) = Ret t) ->
  (forall fn a, keeps llm_tape (run_tool fn a)) ->
  llm_tape w = (l ++ rest)%list ->
  length l = hops ->
  Forall tool_round l ->
  exists w',
    llm_tape w' = rest
    /\ hop_loop run_tool on_limit hops chunks w = on_limit w'.
Proof.
  intros Hr Hk. revert chunks w l. induction hops as [|n IH]; intros chunks w l Ht Hlen Hall.
  - destruct l; [| discriminate]. exists w. split; [exact Ht | reflexivity].
  - destruct l as [|o l]; [discriminate |]. injection Hlen as Hlen.
    apply Forall_cons in Hall as [(events & calls & -> & Hf & Hc) Hall].
    cbn [hop_loop]. unfold bind at 1. unfold next_stream. rewrite Ht. cbn [app].
    unfold bind at 1.
    destruct (consume_stream_breaks run_tool events calls chunks
                (set_llm_tape (l ++ rest) w) Hr Hf Hc) as [chunks' Hb].
    pose proof (keeps_consume_stream llm_tape run_tool Hk events chunks
                  (set_llm_tape (l ++ rest) w)) as Hkeep.
    destruct (consume_stream run_tool events chunks (set_llm_tape (l ++ rest) w))
      as [o w1]. cbn [fst snd] in *. subst o. cbn [snd fst].
    apply (IH chunks' w1 l); assumption.
Qed.

(** X18: when the model answers ten requests in a row with a round of tool
    calls, the Gmail loop raises the [RuntimeError] of the hop limit,
    whereas the Calendar loop returns the text "(no response)"; both have
    consumed exactly these ten answers. *)
Theorem model_loop_gives_up_after_ten_rounds (E : Env)
    (messages : list (string * string)) (w : World)
    (rounds rest : list (outcome (list event))) :
  llm_tape w = (rounds ++ rest)%list ->
  length rounds = 10%nat ->
  Forall tool_round rounds ->
  fst (GmailProto._call_openai_responses E messages w) = Raise hop_limit_error
  /\ fst (CalendarProto._call_openai_responses E messages w) = Ret "(no response)"
  /\ llm_tape (snd (GmailProto._call_openai_responses E messages w)) = rest
  /\ llm_tape (snd (CalendarProto._call_openai_responses E messages w)) = rest.
Proof.
  intros Ht Hlen Hall.
  destruct (hop_loop_limit (GmailProto._run_gmail_tool E) (raise hop_limit_error)
              10 [] w rounds rest) as (w1 & Hr1 & He1); auto.
  { intros. apply gmail_invoker_returns. }
  { intros. apply keeps_run_gmail_tool, invoker_proof_llm_tape. }
  destruct (hop_loop_limit (CalendarProto._run_cal_tool E) (ret "(no response)")
              10 [] w rounds rest) as (w2 & Hr2 & He2); auto.
  { intros. apply calendar_invoker_returns. }
  { intros. apply keeps_run_cal_tool, invoker_proof_llm_tape. }
  unfold GmailProto._call_openai_responses, CalendarProto._call_openai_responses.
  fold hop_limit_error. rewrite He1, He2. repeat split; assumption.
Qed.

Lemma model_loop_gives_up_after_ten_rounds_witness :
  let round := Ret [Delta "Checking"; ToolCall [("check_auth_status", json_dumps (JObj []))]] in
  let w := set_llm_tape (repeat round 10 ++ [Ret [Delta "done"]]) Sample.w0 in
  fst (GmailProto._call_openai_responses Sample.E [("user", "hi")] w)
  = Raise hop_limit_error
  /\ fst (CalendarProto._call_openai_responses Sample.E [("user", "hi")] w)
     = Ret "(no response)".
Proof.
  intros round w.
  assert (Hr : tool_round round).
  { eexists _, _. split; [reflexivity |]. split; [reflexivity |].
    repeat constructor. eexists. reflexivity. }
  pose proof (model_loop_gives_up_after_ten_rounds Sample.E [("user", "hi")] w
                (repeat round 10) [Ret [Delta "done"]] eq_refl eq_refl
                ltac:(repeat constructor; exact Hr)) as (H1 & H2 & _).
  split; [exact H1 | exact H2].
Defined.
(** ** The REST callback *)

Lemma pointed_facts p w :
  fs (pointed p w) = fs w
  /\ Broker.tokens_path (auth (pointed p w)) = p
  /\ Broker._flow (auth (pointed p w)) = Broker._flow (auth w)
  /\ Broker.credentials_path (auth (pointed p w)) = Broker.credentials_path (auth w)
  /\ CURRENT_SESSION_DATA (pointed p w) = CURRENT_SESSION_DATA w
  /\ mcp_faults (pointed p w) = mcp_faults w
  /\ mailbox (pointed p w) = mailbox w.
Proof.
  unfold pointed. destruct (String.eqb _ p) eqn:Heq.
  - apply String.eqb_eq in Heq. repeat split; auto.
  - repeat split.
Qed.

(** The preparation for a session that has a token path and no token in
    its dict. *)
Lemma gmail_prepare_plain E w sd p :
  CURRENT_SESSION_DATA w = Some sd ->
  Session.tokens_path sd = Some p ->
  nonempty p = true ->
  Session.token_json sd = None ->
  GmailProto.prepare_tokens E w = (Ret (Some p, false), pointed p w).
Proof.
  intros Hc Hp Hn Hj. unfold GmailProto.prepare_tokens.
  unfold bind at 1. unfold get_session_ctx at 1, gets. rewrite Hc.
  cbn [default from_option id]. rewrite Hp, Hj. cbn [opt_path_exists].
  unfold bind at 1. unfold path_exists at 1, gets.
  unfold bind at 1. unfold ret at 1. unfold bind at 1. unfold get_auth at 1, gets.
  cbn [fst]. rewrite Hn. cbn [andb]. unfold pointed.
  destruct (String.eqb (Broker.tokens_path (auth w)) p); reflexivity.
Qed.

Lemma set_mcp_faults_same v : set_mcp_faults (mcp_faults v) v = v.
Proof. destruct v. reflexivity. Qed.

(** An OAuth tool invoked for such a session when no fault is due. *)
Lemma gmail_run_plain E fn args w sd p t w1 :
  CURRENT_SESSION_DATA w = Some sd ->
  Session.tokens_path sd = Some p ->
  nonempty p = true ->
  Session.token_json sd = None ->
  mcp_faults w = [] ->
  GmailServer.call_tool E fn args (logged fn args (pointed p w)) = (Ret t, w1) ->
  GmailProto._run_gmail_tool E fn args w = (Ret t, w1).
Proof.
  intros Hc Hp Hn Hj Hm Hcall.
  pose proof (gmail_prepare_plain E w sd p Hc Hp Hn Hj) as Hprep.
  destruct (pointed_facts p w) as (_ & _ & _ & _ & _ & Hm' & _).
  rewrite (invoker_first_try _ _ _ _ _ _ _ _ t w1 (gmail_invoker_shape E) Hprep).
  - reflexivity.
  - rewrite Hm', Hm. reflexivity.
  - rewrite <- Hcall. f_equal.
    replace (tl (mcp_faults (pointed p w)))
      with (mcp_faults (logged fn args (pointed p w)))
      by (unfold logged; cbn; rewrite Hm', Hm; reflexivity).
    apply set_mcp_faults_same.
Qed.
Lemma pointed_same p v : Broker.tokens_path (auth v) = p -> pointed p v = v.
Proof. intros H. unfold pointed. rewrite H, String.eqb_refl. reflexivity. Qed.

Lemma flow_lost_is_recognised :
  contains "flow not initialised" (lower flow_lost_message) = true.
Proof. vm_compute. reflexivity. Qed.

Lemma gmail_setup_oauth_sets_flow E session_id v cfg :
  fs v !! Broker.credentials_path (auth v) = Some (SecretsFile cfg) ->
  exists t, GmailServer.setup_oauth E session_id v = (Ret t, with_flow (MkFlow cfg) v).
Proof.
  intros Hf. unfold GmailServer.setup_oauth, GmailServer.get_oauth_url. mstep.
  rewrite (exists_true _ _ _ Hf). wsimpl. rewrite Hf. wsimpl.
  destruct (Session.str_truthy session_id); eexists; reflexivity.
Qed.

(** The exchange of the callback on a broker that lost the flow object. *)
Lemma gmail_exchange_recovers E sid code w sd p cfg creds :
  CURRENT_SESSION_DATA w = Some sd ->
  Session.tokens_path sd = Some p ->
  nonempty p = true ->
  Session.token_json sd = None ->
  mcp_faults w = [] ->
  Broker._flow (auth w) = None ->
  fs w !! Broker.credentials_path (auth w) = Some (SecretsFile cfg) ->
  fetch_token E (MkFlow cfg) code = Ret creds ->
  exists w',
    GmailAgent.exchange E sid code w = (Ret (JObj [("success", JBool true)]), w')
    /\ fs w' = <[p := TokenFile creds]> (fs w)
    /\ mailbox w' = mailbox w
    /\ CURRENT_SESSION_DATA w' = Some sd.
Proof.
  intros Hc Hp Hn Hj Hm Hfl Hsec Hx.
  destruct (pointed_facts p w) as (Pfs & Ppath & Pfl & Pcp & Pctx & Pm & Pbox).
  set (a1 := JObj [("auth_code", JStr code)]).
  set (v1 := logged "complete_oauth" a1 (pointed p w)).
  assert (R1 : GmailProto._run_gmail_tool E "complete_oauth" a1 w
               = (Ret (json_dumps (failure flow_lost_message)), v1)).
  { apply (gmail_run_plain E _ _ w sd p); auto.
    change (GmailServer.call_tool E "complete_oauth" a1)
      with (bind (lift (Ret code)) (GmailServer.complete_oauth E)).
    unfold bind, lift. apply complete_oauth_flow_lost.
    unfold v1, logged. cbn. rewrite Pfl. exact Hfl. }
  assert (V1 : CURRENT_SESSION_DATA v1 = Some sd /\ mcp_faults v1 = []
               /\ Broker.tokens_path (auth v1) = p
               /\ fs v1 = fs w /\ mailbox v1 = mailbox w
               /\ Broker.credentials_path (auth v1) = Broker.credentials_path (auth w)).
  { unfold v1, logged, mailbox in *. cbn. injection Pbox as Pst Pout.
    repeat split; congruence. }
  destruct V1 as (C1 & M1 & T1 & F1 & B1 & K1).
  set (a2 := JObj [("session_id", JStr sid)]).
  set (v2 := with_flow (MkFlow cfg) (logged "setup_oauth" a2 v1)).
  assert (R2 : exists t, GmailProto._run_gmail_tool E "setup_oauth" a2 v1 = (Ret t, v2)).
  { destruct (gmail_setup_oauth_sets_flow E (Some sid) (logged "setup_oauth" a2 v1) cfg)
      as [t Ht].
    { unfold logged. wsimpl. rewrite K1, F1. exact Hsec. }
    exists t. apply (gmail_run_plain E _ _ v1 sd p); auto.
    rewrite (pointed_same _ _ T1). exact Ht. }
  destruct R2 as [t2 R2].
  assert (V2 : CURRENT_SESSION_DATA v2 = Some sd /\ mcp_faults v2 = []
               /\ Broker.tokens_path (auth v2) = p
               /\ fs v2 = fs w /\ mailbox v2 = mailbox w).
  { unfold v2, with_flow, logged, mailbox in *. cbn. injection B1 as Bst Bout.
    repeat split; congruence. }
  destruct V2 as (C2 & M2 & T2 & F2 & B2).
  set (v3 := persisting creds (logged "complete_oauth" a1 v2)).
  assert (R3 : GmailProto._run_gmail_tool E "complete_oauth" a1 v2
               = (Ret (json_dumps (JObj [("success", JBool true)])), v3)).
  { apply (gmail_run_plain E _ _ v2 sd p); auto.
    rewrite (pointed_same _ _ T2).
    change (GmailServer.call_tool E "complete_oauth" a1)
      with (bind (lift (Ret code)) (GmailServer.complete_oauth E)).
    unfold bind, lift.
    apply (gmail_complete_oauth_persists E code _ (MkFlow cfg)); [reflexivity | exact Hx]. }
  exists v3. split.
  - unfold GmailAgent.exchange. fold a1. unfold bind at 1. rewrite R1.
    unfold bind at 1. unfold lift at 1. cbn [json_dumps json_loads].
    unfold bind at 1. unfold lift at 1. cbn [get failure assoc String.eqb Ascii.eqb Bool.eqb].
    cbn [truthy_opt truthy negb].
    unfold bind at 1. unfold bind at 1. unfold lift at 1.
    cbn [GmailAgent.error_lower get failure assoc String.eqb Ascii.eqb Bool.eqb].
    rewrite flow_lost_is_recognised. unfold ret at 1.
    unfold GmailAgent.restart_and_retry. fold a1 a2.
    unfold bind at 1. rewrite R2. unfold bind at 1. rewrite R3. reflexivity.
  - unfold v3, persisting, logged, mailbox in *. wsimpl.
    rewrite T2, F2. repeat split; assumption.
Qed.
(** The exchange of the callback on a broker that holds the flow object. *)
Lemma gmail_exchange_direct E sid code w sd p fl creds :
  CURRENT_SESSION_DATA w = Some sd ->
  Session.tokens_path sd = Some p ->
  nonempty p = true ->
  Session.token_json sd = None ->
  mcp_faults w = [] ->
  Broker._flow (auth w) = Some fl ->
  fetch_token E fl code = Ret creds ->
  exists w',
    GmailAgent.exchange E sid code w = (Ret (JObj [("success", JBool true)]), w')
    /\ fs w' = <[p := TokenFile creds]> (fs w)
    /\ mailbox w' = mailbox w
    /\ CURRENT_SESSION_DATA w' = Some sd.
Proof.
  intros Hc Hp Hn Hj Hm Hfl Hx.
  destruct (pointed_facts p w) as (Pfs & Ppath & Pfl & Pcp & Pctx & Pm & Pbox).
  set (a1 := JObj [("auth_code", JStr code)]).
  set (v1 := persisting creds (logged "complete_oauth" a1 (pointed p w))).
  assert (R1 : GmailProto._run_gmail_tool E "complete_oauth" a1 w
               = (Ret (json_dumps (JObj [("success", JBool true)])), v1)).
  { apply (gmail_run_plain E _ _ w sd p); auto.
    change (GmailServer.call_tool E "complete_oauth" a1)
      with (bind (lift (Ret code)) (GmailServer.complete_oauth E)).
    unfold bind, lift.
    apply (gmail_complete_oauth_persists E code _ fl); [| exact Hx].
    unfold logged. wsimpl. rewrite Pfl. exact Hfl. }
  exists v1. split.
  - unfold GmailAgent.exchange. fold a1. unfold bind at 1. rewrite R1. reflexivity.
  - unfold v1, persisting, logged, mailbox in *. wsimpl.
    rewrite Ppath, Pfs. repeat split; first [assumption | congruence].
Qed.

Lemma gmail_exchange_succeeds E sid code w sd p creds :
  CURRENT_SESSION_DATA w = Some sd ->
  Session.tokens_path sd = Some p ->
  nonempty p = true ->
  Session.token_json sd = None ->
  mcp_faults w = [] ->
  exchangeable E code creds w ->
  exists w',
    GmailAgent.exchange E sid code w = (Ret (JObj [("success", JBool true)]), w')
    /\ fs w' = <[p := TokenFile creds]> (fs w)
    /\ mailbox w' = mailbox w
    /\ CURRENT_SESSION_DATA w' = Some sd.
Proof.
  intros Hc Hp Hn Hj Hm [(fl & Hfl & Hx) | (Hfl & cfg & Hsec & Hx)].
  - eapply gmail_exchange_direct; eauto.
  - eapply gmail_exchange_recovers; eauto.
Qed.

Lemma gmail_callback_run E sid auth_code w creds :
  Session.flag (Session.authenticated (session_of sid w)) = false ->
  mcp_faults w = [] ->
  exchangeable E (strip auth_code) creds w ->
  exists w',
    GmailAgent._handle_oauth E sid auth_code w
    = (Ret (MkOAuthResponse true "OAuth completed and tokens stored"), w')
    /\ session_of sid w' = completed E sid (strip auth_code) creds (session_of sid w)
    /\ fs w' = delete (token_file_for E sid) (fs w)
    /\ outbox w' = (outbox w ++ notification (session_of sid w))%list.
Proof.
  intros Ha Hm Hx.
  unfold GmailAgent._handle_oauth.
  unfold bind at 1. unfold load_sessions at 1, gets.
  fold (sessions_of w). fold (session_of sid w). rewrite Ha.
  unfold bind at 1. unfold modify at 1.
  set (ctx0 := Session.set_tokens_path (Some (token_file_for E sid)) Session.empty).
  destruct (gmail_exchange_succeeds E sid (strip auth_code) (set_ctx (Some ctx0) w)
              ctx0 (token_file_for E sid) creds)
    as (v & Hex & Hfs & Hbox & Hctx); auto using nonempty_token_file_for.
  unfold bind at 1. rewrite finally_reset, Hex. cbn [fst snd].
  unfold bind at 1. unfold lift at 1.
  cbn [get assoc String.eqb Ascii.eqb Bool.eqb truthy_opt truthy negb].
  unfold bind at 1. unfold try_except at 1. unfold bind at 1. unfold read_file at 1.
  wsimpl. rewrite Hfs, lookup_insert_eq.
  unfold bind at 1. unfold lift at 1. cbn [load_json_file].
  unfold bind at 1. unfold try_except at 1. unfold remove_file at 1.
  wsimpl. rewrite Hfs, lookup_insert_eq. unfold ret at 1.
  unfold bind at 1. unfold store_session at 1, modify at 1.
  unfold mailbox in Hbox. injection Hbox as Hst Hout. cbn in Hst, Hout.
  assert (Hsend : forall (m : M unit) v0,
             (exists l, m v0 = (Ret tt, set_outbox (outbox v0 ++ l) v0)
                        /\ l = notification (session_of sid w)) ->
             exists v1, m v0 = (Ret tt, v1) /\ storage v1 = storage v0
                        /\ fs v1 = fs v0
                        /\ outbox v1 = (outbox v0 ++ notification (session_of sid w))%list).
  { intros m v0 (l & -> & ->). eexists. split; [reflexivity |]. repeat split. }
  unfold bind at 1.
  match goal with
  | |- context [match ?m ?v0 with _ => _ end] =>
      destruct (Hsend m v0) as (v1 & -> & Hs1 & Hf1 & Ho1)
  end.
  { cbn [Session.sender_address Session.set_oauth_link_sent
         Session.set_awaiting_auth_code Session.set_authenticated
         Session.set_token_json Session.set_auth_code Session.set_tokens_path].
    unfold notification.
    destruct (Session.sender_address (session_of sid w)) as [addr|].
    - destruct (nonempty addr); cbn [when].
      + eexists. split; [reflexivity | reflexivity].
      + exists []. split; [| reflexivity]. unfold ret.
        rewrite app_nil_r. reflexivity.
    - exists []. split; [| reflexivity]. unfold ret.
      rewrite app_nil_r. reflexivity. }
  eexists. split; [reflexivity |].
  split; [| split].
  - unfold session_of at 1, sessions_of at 1. rewrite Hs1. wsimpl.
    rewrite lookup_insert_eq. reflexivity.
  - rewrite Hf1. wsimpl. rewrite ?Hfs. apply delete_insert_eq.
  - rewrite Ho1. wsimpl. rewrite Hout. reflexivity.
Qed.

(** X19: the REST callback completes the authorization of a session that is
    not yet authenticated whenever the broker can exchange the code, also
    after a restart that lost the flow object (it then runs [setup_oauth]
    and retries): the token is stored in the session's dict, the session
    is marked authenticated, the token file it used is removed from disk,
    and the user is told when the session knows their address. *)
Theorem callback_completes_authorization (E : Env) (sid auth_code : string)
    (w : World) (creds : token_data) :
  Session.flag (Session.authenticated (session_of sid w)) = false ->
  mcp_faults w = [] ->
  exchangeable E (strip auth_code) creds w ->
  let w' := snd (GmailAgent._handle_oauth E sid auth_code w) in
  fst (GmailAgent._handle_oauth E sid auth_code w)
  = Ret (MkOAuthResponse true "OAuth completed and tokens stored")
  /\ session_of sid w' = completed E sid (strip auth_code) creds (session_of sid w)
  /\ fs w' = delete (token_file_for E sid) (fs w)
  /\ outbox w' = (outbox w ++ notification (session_of sid w))%list.
Proof.
  intros Ha Hm Hx w'. subst w'.
  destruct (gmail_callback_run E sid auth_code w creds Ha Hm Hx) as (v & -> & H).
  cbn [fst snd]. split; [reflexivity | exact H].
Qed.
Lemma callback_completes_authorization_witness :
  fst (GmailAgent._handle_oauth Sample.E "s1" " 4/good " Sample.w0)
  = Ret (MkOAuthResponse true "OAuth completed and tokens stored")
  /\ fs (snd (GmailAgent._handle_oauth Sample.E "s1" " 4/good " Sample.w0))
     = delete (token_file_for Sample.E "s1") (fs Sample.w0).
Proof.
  assert (Hx : exchangeable Sample.E (strip " 4/good ") Sample.tok Sample.w0).
  { right. split; [reflexivity |]. exists Sample.cfg.
    split; [vm_compute; reflexivity | reflexivity]. }
  pose proof (callback_completes_authorization Sample.E "s1" " 4/good " Sample.w0
                Sample.tok eq_refl eq_refl Hx) as (H1 & _ & H3 & _).
  split; [exact H1 | exact H3].
Defined.

Lemma keeps_mailbox_exchange E sid code :
  keeps mailbox (GmailAgent.exchange E sid code).
Proof.
  unfold GmailAgent.exchange, GmailAgent.restart_and_retry.
  repeat first [apply keeps_mailbox_gmail_tool | keeps_step].
Qed.

Lemma calendar_notify_run (sd : Session.t) v :
  exists v',
    (match Session.sender_address sd with
     | Some addr =>
         when (nonempty addr) (send addr (ChatMessage CalendarAgent.auth_success_text))
     | None => ret tt
     end) v = (Ret tt, v')
    /\ storage v' = storage v
    /\ fs v' = fs v
    /\ outbox v' = (outbox v ++ calendar_notification sd)%list.
Proof.
  unfold calendar_notification.
  destruct (Session.sender_address sd) as [addr|].
  - destruct (nonempty addr); cbn [when].
    + eexists. split; [reflexivity |]. repeat split.
    + exists v. rewrite app_nil_r. repeat split.
  - exists v. rewrite app_nil_r. repeat split.
Qed.

Lemma calendar_callback_tail (sessions : gmap string Session.t) sid (d : Session.t)
    (r : OAuthResponse) v :
  exists v',
    bind (store_session sessions sid d)
      (fun _ =>
         bind (match Session.sender_address d with
               | Some addr =>
                   when (nonempty addr)
                        (send addr (ChatMessage CalendarAgent.auth_success_text))
               | None => ret tt
               end)
           (fun _ => ret r)) v
    = (Ret r, v')
    /\ storage v' = Sessions (<[sid := d]> sessions)
    /\ fs v' = fs v
    /\ outbox v' = (outbox v ++ calendar_notification d)%list.
Proof.
  unfold bind at 1. unfold store_session at 1, modify at 1.
  destruct (calendar_notify_run d (set_storage (Sessions (<[sid := d]> sessions)) v))
    as (v2 & Hn & Hs2 & Hf2 & Ho2).
  unfold bind at 1. rewrite Hn. eexists. split; [reflexivity |].
  repeat split; assumption.
Qed.

Lemma gmail_callback_frame E sid auth_code w :
  mailbox (snd (GmailAgent._handle_oauth E sid auth_code w)) = mailbox w
  \/ fst (GmailAgent._handle_oauth E sid auth_code w)
     = Ret (MkOAuthResponse true "OAuth completed and tokens stored").
Proof.
  destruct (GmailAgent._handle_oauth E sid auth_code w) as [o w'] eqn:Hrun.
  cbn [fst snd].
  unfold GmailAgent._handle_oauth in Hrun.
  unfold bind at 1 in Hrun. unfold load_sessions, gets in Hrun.
  destruct (Session.flag _).
  { left. injection Hrun as _ <-. reflexivity. }
  unfold bind at 1 in Hrun. unfold modify at 1 in Hrun.
  unfold bind at 1 in Hrun. rewrite finally_reset in Hrun.
  set (v0 := set_ctx _ w) in Hrun.
  pose proof (keeps_mailbox_exchange E sid (strip auth_code) v0) as Hk.
  change (mailbox v0) with (mailbox w) in Hk.
  destruct (GmailAgent.exchange E sid (strip auth_code) v0) as [[res|e] v1];
    cbn [fst snd] in *;
    [| left; injection Hrun as _ <-; exact Hk].
  set (v2 := set_ctx (Some Session.empty) v1) in Hrun.
  change (mailbox v1) with (mailbox v2) in Hk.
  unfold bind at 1 in Hrun. unfold lift at 1 in Hrun.
  destruct (get res "success") as [ok|e];
    [| left; injection Hrun as _ <-; exact Hk].
  destruct (negb (truthy_opt ok)).
  - left. unfold bind, lift, ret in Hrun.
    destruct (get res "error") as [err|e];
      [| injection Hrun as _ <-; exact Hk].
    destruct (GmailAgent.as_message _); injection Hrun as _ <-; exact Hk.
  - right. unfold bind at 1 in Hrun.
    match type of Hrun with
    | context [try_except ?m ?h v2] =>
        assert (Ht : exists sd v3, try_except m h v2 = (Ret sd, v3))
    end.
    { unfold try_except at 1.
      match goal with
      | |- context [match ?x with _ => _ end] => destruct x as [[sd|e] v3]
      end; eexists _, _; reflexivity. }
    destruct Ht as (sd & v3 & Ht). rewrite Ht in Hrun.
    unfold bind at 1 in Hrun. unfold store_session at 1, modify at 1 in Hrun.
    unfold bind at 1 in Hrun.
    match type of Hrun with
    | context [match ?m ?v with _ => _ end] =>
        assert (Hs : exists v4, m v = (Ret tt, v4))
    end.
    { destruct (Session.sender_address _) as [addr|]; [| eexists; reflexivity].
      unfold when. destruct (nonempty addr); eexists; reflexivity. }
    destruct Hs as (v4 & Hs). rewrite Hs in Hrun.
    injection Hrun as <- _. reflexivity.
Qed.

Lemma keeps_mailbox_calendar_exchange E sid code :
  keeps mailbox (CalendarAgent.exchange E sid code).
Proof.
  unfold CalendarAgent.exchange, CalendarAgent.restart_and_retry.
  repeat first [apply keeps_mailbox_cal_tool | keeps_step].
Qed.

Lemma calendar_callback_frame E sid auth_code w :
  mailbox (snd (CalendarAgent._cb E sid auth_code w)) = mailbox w
  \/ fst (CalendarAgent._cb E sid auth_code w)
     = Ret (MkOAuthResponse true "OAuth completed and tokens stored").
Proof.
  destruct (CalendarAgent._cb E sid auth_code w) as [o w'] eqn:Hrun.
  cbn [fst snd].
  unfold CalendarAgent._cb in Hrun.
  unfold bind at 1 in Hrun. unfold load_sessions, gets in Hrun.
  destruct (Session.flag _).
  { left. injection Hrun as _ <-. reflexivity. }
  unfold bind at 1 in Hrun. unfold modify at 1 in Hrun.
  unfold bind at 1 in Hrun. rewrite finally_reset in Hrun.
  set (v0 := set_ctx _ w) in Hrun.
  pose proof (keeps_mailbox_calendar_exchange E sid (strip auth_code) v0) as Hk.
  change (mailbox v0) with (mailbox w) in Hk.
  destruct (CalendarAgent.exchange E sid (strip auth_code) v0) as [[res|e] v1];
    cbn [fst snd] in *;
    [| left; injection Hrun as _ <-; exact Hk].
  set (v2 := set_ctx (Some Session.empty) v1) in Hrun.
  change (mailbox v1) with (mailbox v2) in Hk.
  unfold bind at 1 in Hrun. unfold lift at 1 in Hrun.
  destruct (get res "success") as [ok|e];
    [| left; injection Hrun as _ <-; exact Hk].
  destruct (negb (truthy_opt ok)).
  - left. unfold bind, lift, ret in Hrun.
    destruct (get res "error") as [err|e];
      [| injection Hrun as _ <-; exact Hk].
    destruct (GmailAgent.as_message _); injection Hrun as _ <-; exact Hk.
  - right. unfold bind at 1 in Hrun.
    match type of Hrun with
    | context [try_except ?m ?h v2] =>
        assert (Ht : exists sd v3, try_except m h v2 = (Ret sd, v3))
    end.
    { unfold try_except at 1.
      match goal with
      | |- context [match ?x with _ => _ end] => destruct x as [[sd|e] v3]
      end; eexists _, _; reflexivity. }
    destruct Ht as (sd & v3 & Ht). rewrite Ht in Hrun.
    destruct (calendar_callback_tail (sessions_of w) sid
                (Session.set_oauth_link_sent None
                   (Session.set_awaiting_auth_code None
                      (Session.set_authenticated (Some true) sd)))
                (MkOAuthResponse true "OAuth completed and tokens stored") v3)
      as (v4 & Htail & _).
    unfold sessions_of in Htail. rewrite Htail in Hrun.
    injection Hrun as <- _. reflexivity.
Qed.

(** X20: the REST callbacks of both agents touch agent storage and the
    outbox only when they complete an authorization: in every other case
    (the session is authenticated already, the exchange fails, an exception
    escapes) both are left as they were. *)
Theorem callback_stores_only_on_success (E : Env) (sid auth_code : string)
    (w : World) :
  (mailbox (snd (GmailAgent._handle_oauth E sid auth_code w)) = mailbox w
   \/ fst (GmailAgent._handle_oauth E sid auth_code w)
      = Ret (MkOAuthResponse true "OAuth completed and tokens stored"))
  /\ (mailbox (snd (CalendarAgent._cb E sid auth_code w)) = mailbox w
      \/ fst (CalendarAgent._cb E sid auth_code w)
         = Ret (MkOAuthResponse true "OAuth completed and tokens stored")).
Proof.
  split; [apply gmail_callback_frame | apply calendar_callback_frame].
Qed.
(** ** A conversation of an authenticated session *)

Lemma consume_stream_text run_tool events chunks w :
  first_tool_calls events = None ->
  consume_stream run_tool events chunks w
  = (Ret ((chunks ++ deltas events)%list, false), w).
Proof.
  revert chunks. induction events as [|ev events IH]; intros chunks Hf.
  - cbn. rewrite app_nil_r. reflexivity.
  - destruct ev as [text | calls |]; cbn in Hf |- *.
    + rewrite IH by exact Hf. rewrite <- app_assoc. reflexivity.
    + discriminate.
    + apply IH. exact Hf.
Qed.

Lemma gmail_model_answers E messages w events rest :
  llm_tape w = Ret events :: rest ->
  first_tool_calls events = None ->
  GmailProto._call_openai_responses E messages w
  = (Ret (answer events), set_llm_tape rest w).
Proof.
  intros Ht Hf. unfold GmailProto._call_openai_responses. cbn [hop_loop].
  unfold bind at 1. unfold next_stream. rewrite Ht.
  unfold bind at 1. rewrite consume_stream_text by exact Hf.
  reflexivity.
Qed.

Lemma gmail_fallback_plain E reply w :
  leaked_tool_calls E reply = [] ->
  startswith "parallel_tool_calls" (strip reply) = false ->
  GmailProto.fallback E reply w = (Ret reply, w).
Proof.
  intros Hl Hp. unfold GmailProto.fallback. rewrite Hl.
  unfold try_except at 1. unfold bind at 1. unfold ret at 1.
  unfold try_except at 1. rewrite Hp. reflexivity.
Qed.

(** The status check on a broker without cached service whose token file
    holds a token that needs no refresh. *)
Lemma gmail_check_auth_status_serves E w t :
  Broker._service (auth w) = None ->
  nonempty (Broker.tokens_path (auth w)) = true ->
  fs w !! Broker.tokens_path (auth w) = Some (TokenFile t) ->
  expired E t && Session.str_truthy (refresh_token t) = false ->
  GmailServer.check_auth_status E w
  = (Ret (json_dumps (authenticated_with (scopes t))), caching (Build "gmail" t) w).
Proof.
  intros Hs Hn Hf He.
  destruct (gmail_get_service_contract E w Hs) as (_ & _ & Gk).
  unfold GmailServer.check_auth_status. unfold bind at 1 2.
  unfold get_auth at 1, path_exists at 1, gets.
  rewrite Hn, (exists_true _ _ _ Hf). cbn [andb].
  unfold try_except, bind at 1, read_file. rewrite Hf.
  unfold bind at 1, lift at 1. cbn [GmailServer.load_scopes].
  unfold bind at 1. rewrite (Gk _ Hf He). reflexivity.
Qed.

(** The status check invoked for a session that keeps its token in its
    dict only. *)
Lemma gmail_status_in_memory E v sd p tk :
  CURRENT_SESSION_DATA v = Some sd ->
  Session.tokens_path sd = Some p ->
  nonempty p = true ->
  Session.token_json sd = Some (TokenFile tk) ->
  fs v !! p = None ->
  (Broker.tokens_path (auth v) = p -> Broker._service (auth v) = None) ->
  expired E tk && Session.str_truthy (refresh_token tk) = false ->
  hd None (mcp_faults v) = None ->
  exists v',
    GmailProto._run_gmail_tool E "check_auth_status" (JObj []) v
    = (Ret (json_dumps (authenticated_with (scopes tk))), v')
    /\ fs v' = fs v
    /\ CURRENT_SESSION_DATA v' = Some (Session.set_tokens_path (Some p) sd)
    /\ mailbox v' = mailbox v
    /\ llm_tape v' = llm_tape v
    /\ api_log v' = api_log v
    /\ tool_log v'
       = (tool_log v ++ [Dispatch "check_auth_status" (JObj [])
                           (Session.flag (Session.authenticated sd))])%list
    /\ mcp_faults v' = tl (mcp_faults v).
Proof.
  intros Hc Hp Hne Hj Hf Hs He Hm.
  pose proof (gmail_prepare_in_memory E v sd p _ Hc Hp Hne Hj Hf Hs) as Hprep.
  eexists. split.
  - eapply (invoker_first_try _ _ _ _ _ _ _ _ _ _ (gmail_invoker_shape E) Hprep Hm).
    change (GmailServer.call_tool E "check_auth_status" (JObj []))
      with (GmailServer.check_auth_status E).
    apply gmail_check_auth_status_serves.
    + reflexivity.
    + exact Hne.
    + unfold logged, repointed. wsimpl. apply lookup_insert_eq.
    + exact He.
  - cbn [fst snd]. unfold cleaned, cleanup_temp. rewrite Hne. cbn [andb].
    unfold caching, logged, repointed, mailbox. mstep.
    rewrite (exists_true _ p (TokenFile tk)) by apply lookup_insert_eq.
    wsimpl. rewrite lookup_insert_eq. wsimpl.
    unfold current_flag. wsimpl.
    repeat split. apply delete_insert_id. exact Hf.
Qed.
Lemma gmail_converse_run E sessions sid sender texts v sd events rest :
  CURRENT_SESSION_DATA v = Some sd ->
  texts <> [] ->
  llm_tape v = Ret events :: rest ->
  first_tool_calls events = None ->
  leaked_tool_calls E (answer events) = [] ->
  startswith "parallel_tool_calls" (strip (answer events)) = false ->
  exists v',
    GmailProto.converse E sessions sid sender texts v = (Ret tt, v')
    /\ storage v'
       = Sessions (<[sid := Session.set_messages
                              (Some (with_user_text E texts (history sd)
                                       ++ [Entry "assistant" (answer events)])%list) sd]>
                     sessions)
    /\ outbox v' = (outbox v ++ [(sender, ChatMessage (answer events))])%list
    /\ fs v' = fs v
    /\ llm_tape v' = rest
    /\ tool_log v' = tool_log v
    /\ api_log v' = api_log v.
Proof.
  intros Hc Ht Hl Hf Hk Hp.
  unfold GmailProto.converse.
  unfold bind at 1. unfold GmailProto.session_data at 1, get_session_ctx at 1, gets at 1.
  rewrite Hc. cbn [default from_option id].
  destruct texts as [|t ts]; [contradiction |].
  set (texts := t :: ts).
  unfold bind at 1. unfold bind at 1.
  unfold GmailProto.update at 1, update_session_ctx at 1, modify at 1.
  rewrite Hc. unfold ret at 1.
  set (l := (default [] (Session.messages sd)
               ++ [Entry "human" (join nl texts)])%list).
  set (sdT := Session.set_messages (Some (with_user_text E texts (history sd))) sd).
  unfold bind at 1. unfold GmailProto.session_data at 1, get_session_ctx at 1, gets at 1.
  wsimpl. cbn [default from_option id Session.messages Session.set_messages].
  unfold bind at 1.
  assert (Htrim :
            when (MAX_HISTORY E * 2 <? length l)%nat
              (GmailProto.update
                 (Session.set_messages (Some (last_n (MAX_HISTORY E * 2) l))))
              (set_ctx (Some (Session.set_messages (Some l) sd)) v)
            = (Ret tt, set_ctx (Some sdT) v)).
  { unfold sdT, with_user_text, history. fold l.
    destruct (MAX_HISTORY E * 2 <? length l)%nat; cbn [when]; reflexivity. }
  rewrite Htrim.
  unfold bind at 1.
  rewrite (gmail_model_answers E _ (set_ctx (Some sdT) v) events rest Hl Hf).
  unfold bind at 1. rewrite (gmail_fallback_plain E _ _ Hk Hp).
  unfold bind at 1. unfold GmailProto.session_data at 1, get_session_ctx at 1, gets at 1.
  unfold bind at 1. unfold GmailProto.update at 1, update_session_ctx at 1, modify at 1.
  unfold bind at 1. unfold send at 1, modify at 1.
  unfold GmailProto.persist. unfold bind at 1.
  unfold GmailProto.session_data at 1, get_session_ctx at 1, gets at 1.
  unfold store_session, modify.
  eexists. split; [reflexivity |].
  wsimpl. cbn [default from_option id Session.messages Session.set_messages].
  repeat split.
Qed.

Lemma set_tokens_path_same sd p :
  Session.tokens_path sd = Some p -> Session.set_tokens_path (Some p) sd = sd.
Proof. destruct sd. cbn. intros ->. reflexivity. Qed.

(** The validation of an authenticated session that keeps its token in
    its dict only: the session stays as it is. *)
Lemma gmail_revalidate_in_memory E v sd p tk :
  CURRENT_SESSION_DATA v = Some sd ->
  Session.tokens_path sd = Some p ->
  nonempty p = true ->
  Session.token_json sd = Some (TokenFile tk) ->
  fs v !! p = None ->
  expired E tk && Session.str_truthy (refresh_token tk) = false ->
  hd None (mcp_faults v) = None ->
  exists v',
    GmailProto.revalidate E v = (Ret tt, v')
    /\ fs v' = fs v
    /\ CURRENT_SESSION_DATA v' = Some sd
    /\ mailbox v' = mailbox v
    /\ llm_tape v' = llm_tape v
    /\ api_log v' = api_log v
    /\ tool_log v'
       = (tool_log v ++ [Dispatch "check_auth_status" (JObj [])
                           (Session.flag (Session.authenticated sd))])%list.
Proof.
  intros Hc Hp Hne Hj Hf He Hm.
  unfold GmailProto.revalidate.
  unfold bind at 1. unfold GmailProto.session_data at 1, get_session_ctx at 1, gets at 1.
  rewrite Hc. cbn [default from_option id]. rewrite Hp, Hne. cbn [when].
  unfold bind at 1. unfold point_broker_at, modify_auth, bind, modify.
  set (v1 := set_auth _ (set_auth _ v)).
  destruct (gmail_status_in_memory E v1 sd p tk) as
    (v2 & Hrun & F2 & C2 & B2 & L2 & A2 & T2 & _); auto.
  unfold try_except. rewrite Hrun.
  unfold lift. cbn [json_loads json_dumps authenticated_with get assoc
                    String.eqb Ascii.eqb Bool.eqb truthy_opt truthy negb when].
  unfold ret. eexists. split; [reflexivity |].
  rewrite (set_tokens_path_same _ _ Hp) in C2.
  repeat split; assumption.
Qed.

Lemma gmail_conversation_run E sid sender msg w p tk events rest :
  has_start msg = false ->
  texts_of msg <> [] ->
  Session.flag (Session.authenticated (session_of sid w)) = true ->
  Session.flag (Session.awaiting_auth_code (session_of sid w)) = false ->
  Session.tokens_path (session_of sid w) = Some p ->
  nonempty p = true ->
  Session.token_json (session_of sid w) = Some (TokenFile tk) ->
  fs w !! p = None ->
  expired E tk && Session.str_truthy (refresh_token tk) = false ->
  hd None (mcp_faults w) = None ->
  llm_tape w = Ret events :: rest ->
  first_tool_calls events = None ->
  leaked_tool_calls E (answer events) = [] ->
  startswith "parallel_tool_calls" (strip (answer events)) = false ->
  exists w',
    GmailProto.handle_chat_message E sid sender msg w = (Ret tt, w')
    /\ outbox w'
       = (outbox w ++ [(sender, ChatAcknowledgement);
                       (sender, ChatMessage (answer events))])%list
    /\ sessions_of w'
       = <[sid := conversed E sender (texts_of msg) (answer events) (session_of sid w)]>
           (sessions_of w)
    /\ fs w' = fs w
    /\ llm_tape w' = rest
    /\ tool_log w'
       = (tool_log w ++ [Dispatch "check_auth_status" (JObj []) true])%list
    /\ api_log w' = api_log w
    /\ CURRENT_SESSION_DATA w' = CURRENT_SESSION_DATA w.
Proof.
  intros Hs Ht Ha Haw Hp Hne Hj Hf He Hm Hl Hfc Hk Hpar.
  set (sd0 := Session.set_sender_address (Some sender) (session_of sid w)).
  set (v0 := entered sender (session_of sid w) w).
  assert (Hc0 : CURRENT_SESSION_DATA v0 = Some sd0) by reflexivity.
  assert (Hroute : exists v1 v2,
             GmailProto.route E (sessions_of w) sid sender msg v0 = (Ret tt, v2)
             /\ GmailProto.converse E (sessions_of w) sid sender (texts_of msg) v1
                = (Ret tt, v2)
             /\ GmailProto.revalidate E v0 = (Ret tt, v1)).
  { destruct (gmail_revalidate_in_memory E v0 sd0 p tk) as
      (v1 & Hrun & F1 & C1 & B1 & L1 & A1 & T1); auto.
    destruct (gmail_converse_run E (sessions_of w) sid sender (texts_of msg) v1 sd0
                events rest) as (v2 & Hrun2 & _); auto.
    { rewrite L1. exact Hl. }
    exists v1, v2. split; [| split; assumption].
    unfold GmailProto.route. rewrite Hs. cbn [when].
    unfold bind at 1. unfold ret at 1.
    unfold bind at 1. unfold GmailProto.session_data at 1, get_session_ctx at 1, gets at 1.
    rewrite Hc0. cbn [default from_option id].
    change (Session.awaiting_auth_code sd0)
      with (Session.awaiting_auth_code (session_of sid w)).
    rewrite Haw. cbn [negb andb].
    rewrite (bool_decide_eq_false_2 _ Ht). cbn [andb when].
    unfold bind at 1. unfold get_auth at 1, gets at 1.
    unfold bind at 1. unfold ret at 1.
    unfold bind at 1. unfold GmailProto.session_data at 1, get_session_ctx at 1, gets at 1.
    rewrite Hc0. cbn [default from_option id].
    change (Session.authenticated sd0)
      with (Session.authenticated (session_of sid w)).
    rewrite Ha. cbn [when].
    unfold bind at 1. rewrite Hrun.
    unfold bind at 1. unfold GmailProto.session_data at 1, get_session_ctx at 1, gets at 1.
    rewrite C1. cbn [default from_option id].
    change (Session.authenticated sd0)
      with (Session.authenticated (session_of sid w)).
    rewrite Ha. cbn [negb]. exact Hrun2. }
  destruct Hroute as (v1 & v2 & Hroute & Hrun2 & Hrun).
  destruct (gmail_revalidate_in_memory E v0 sd0 p tk) as
    (v1' & Hrun' & F1 & C1 & B1 & L1 & A1 & T1); auto.
  rewrite Hrun in Hrun'. injection Hrun' as <-.
  destruct (gmail_converse_run E (sessions_of w) sid sender (texts_of msg) v1 sd0
              events rest) as (v2' & Hrun2' & S2 & O2 & F2 & L2 & T2 & A2); auto.
  { rewrite L1. exact Hl. }
  rewrite Hrun2 in Hrun2'. injection Hrun2' as <-.
  rewrite handle_chat_message_unfold, finally_reset. fold v0. rewrite Hroute.
  cbn [fst snd].
  eexists. split; [reflexivity |].
  unfold mailbox in B1. injection B1 as B1s B1o.
  change (Session.authenticated sd0)
    with (Session.authenticated (session_of sid w)) in T1. rewrite Ha in T1.
  unfold sessions_of at 1. wsimpl. rewrite S2, O2, F2, L2, T2, A2, B1o, F1, T1, A1.
  repeat split. rewrite <- app_assoc. reflexivity.
Qed.

(** X21: a text message of an authenticated Gmail session whose token is
    kept in its dict (the state in which an authorization leaves it) and
    needs no refresh, when the model answers the first request without
    tool calls and the answer leaks none: the session is validated with one
    [check_auth_status] call, the answer is sent to the sender after the
    acknowledgement, the user's text and the answer are appended to the
    stored history (cut to [2 * MAX_HISTORY] entries before the answer),
    no Google API request is made and the files on disk are as before. *)
Theorem authenticated_session_converses (E : Env) (sid sender : string)
    (msg : list content_block) (w : World) (p : string) (tk : token_data)
    (events : list event) (rest : list (outcome (list event))) :
  has_start msg = false ->
  texts_of msg <> [] ->
  Session.flag (Session.authenticated (session_of sid w)) = true ->
  Session.flag (Session.awaiting_auth_code (session_of sid w)) = false ->
  Session.tokens_path (session_of sid w) = Some p ->
  nonempty p = true ->
  Session.token_json (session_of sid w) = Some (TokenFile tk) ->
  fs w !! p = None ->
  expired E tk && Session.str_truthy (refresh_token tk) = false ->
  hd None (mcp_faults w) = None ->
  llm_tape w = Ret events :: rest ->
  first_tool_calls events = None ->
  leaked_tool_calls E (answer events) = [] ->
  startswith "parallel_tool_calls" (strip (answer events)) = false ->
  let w' := snd (GmailProto.handle_chat_message E sid sender msg w) in
  fst (GmailProto.handle_chat_message E sid sender msg w) = Ret tt
  /\ outbox w'
     = (outbox w ++ [(sender, ChatAcknowledgement);
                     (sender, ChatMessage (answer events))])%list
  /\ sessions_of w'
     = <[sid := conversed E sender (texts_of msg) (answer events) (session_of sid w)]>
         (sessions_of w)
  /\ tool_log w' = (tool_log w ++ [Dispatch "check_auth_status" (JObj []) true])%list
  /\ api_log w' = api_log w
  /\ fs w' = fs w.
Proof.
  intros Hs Ht Ha Haw Hp Hne Hj Hf He Hm Hl Hfc Hk Hpar.
  destruct (gmail_conversation_run E sid sender msg w p tk events rest)
    as (v & -> & Ho & Hse & Hfs & _ & Htl & Hal & _); auto.
  cbn [fst snd]. repeat split; assumption.
Qed.

Lemma authenticated_session_converses_witness :
  let w' := snd (GmailProto.handle_chat_message Sample.E "s1" "agent1alice"
                   [TextContent " Any news? "] Scenario.w_chat) in
  outbox w'
  = [("agent1alice", ChatAcknowledgement);
     ("agent1alice", ChatMessage "You have two new messages.")]
  /\ history (session_of "s1" w')
     = [Entry "human" "Any news?"; Entry "assistant" "You have two new messages."].
Proof.
  pose proof (authenticated_session_converses Sample.E "s1" "agent1alice"
                [TextContent " Any news? "] Scenario.w_chat Scenario.path_s1
                Scenario.tok_plain
                [Delta "You have "; OtherEvent; Delta "two new messages. "] [])
    as H.
  destruct H as (_ & Ho & Hs & _); try reflexivity.
  - discriminate.
  - intros w'. subst w'. split.
    + rewrite Ho. reflexivity.
    + unfold session_of. rewrite Hs, lookup_insert_eq. reflexivity.
Defined.
(** ** An authenticated session whose token is gone *)

Lemma gmail_check_auth_status_absent E w :
  fs w !! Broker.tokens_path (auth w) = None ->
  GmailServer.check_auth_status E w = (Ret (json_dumps not_authenticated_status), w).
Proof.
  intros Hf. unfold GmailServer.check_auth_status. mstep.
  rewrite (exists_false _ _ Hf), andb_false_r. reflexivity.
Qed.

(** The validation of an authenticated session that has neither a token
    file nor a token in its dict: the session loses the flag. *)
Lemma gmail_revalidate_token_gone E v sd p :
  CURRENT_SESSION_DATA v = Some sd ->
  Session.tokens_path sd = Some p ->
  nonempty p = true ->
  Session.token_json sd = None ->
  fs v !! p = None ->
  mcp_faults v = [] ->
  exists v',
    GmailProto.revalidate E v = (Ret tt, v')
    /\ CURRENT_SESSION_DATA v' = Some (Session.set_authenticated (Some false) sd)
    /\ fs v' = fs v
    /\ mailbox v' = mailbox v
    /\ reached v' = reached v
    /\ mcp_faults v' = []
    /\ Broker.tokens_path (auth v') = p
    /\ Broker.credentials_path (auth v') = Broker.credentials_path (auth v)
    /\ tool_log v'
       = (tool_log v ++ [Dispatch "check_auth_status" (JObj [])
                           (Session.flag (Session.authenticated sd))])%list.
Proof.
  intros Hc Hp Hne Hj Hf Hm.
  unfold GmailProto.revalidate.
  unfold bind at 1. unfold GmailProto.session_data at 1, get_session_ctx at 1, gets at 1.
  rewrite Hc. cbn [default from_option id]. rewrite Hp, Hne. cbn [when].
  unfold bind at 1. unfold point_broker_at, modify_auth, bind, modify.
  set (v1 := set_auth _ (set_auth _ v)).
  assert (P1 : Broker.tokens_path (auth v1) = p) by reflexivity.
  assert (Hrun : GmailProto._run_gmail_tool E "check_auth_status" (JObj []) v1
                 = (Ret (json_dumps not_authenticated_status),
                    logged "check_auth_status" (JObj []) v1)).
  { apply (gmail_run_plain E _ _ v1 sd p); auto.
    rewrite (pointed_same _ _ P1).
    change (GmailServer.call_tool E "check_auth_status" (JObj []))
      with (GmailServer.check_auth_status E).
    apply gmail_check_auth_status_absent. exact Hf. }
  unfold try_except. rewrite Hrun.
  unfold lift. cbn [json_loads json_dumps not_authenticated_status get assoc
                    String.eqb Ascii.eqb Bool.eqb truthy_opt truthy negb when].
  unfold GmailProto.update, update_session_ctx, modify.
  eexists. split; [reflexivity |].
  unfold logged, v1, mailbox, reached, current_flag. wsimpl. rewrite Hc.
  repeat split; auto.
Qed.

Lemma gmail_setup_oauth_link E session_id v cfg :
  fs v !! Broker.credentials_path (auth v) = Some (SecretsFile cfg) ->
  GmailServer.setup_oauth E session_id v
  = (Ret (json_dumps
            (JObj [("success", JBool true);
                   ("auth_url",
                    JStr (authorization_url E (MkFlow cfg)
                            (if Session.str_truthy session_id
                             then session_id else None)))])),
     with_flow (MkFlow cfg) v).
Proof.
  intros Hf. unfold GmailServer.setup_oauth, GmailServer.get_oauth_url. mstep.
  rewrite (exists_true _ _ _ Hf). wsimpl. rewrite Hf. wsimpl.
  destruct (Session.str_truthy session_id); reflexivity.
Qed.

Lemma gmail_route_token_gone E sessions sid sender msg v sd p :
  has_start msg = false ->
  texts_of msg <> [] ->
  CURRENT_SESSION_DATA v = Some sd ->
  Session.flag (Session.authenticated sd) = true ->
  Session.flag (Session.awaiting_auth_code sd) = false ->
  Session.flag (Session.oauth_link_sent sd) = false ->
  Session.tokens_path sd = Some p ->
  nonempty p = true ->
  Session.token_json sd = None ->
  fs v !! p = None ->
  mcp_faults v = [] ->
  exists v1,
    GmailProto.route E sessions sid sender msg v
    = GmailProto.start_oauth E sessions sid sender v1
    /\ CURRENT_SESSION_DATA v1 = Some (Session.set_authenticated (Some false) sd)
    /\ fs v1 = fs v
    /\ mailbox v1 = mailbox v
    /\ reached v1 = reached v
    /\ mcp_faults v1 = []
    /\ Broker.tokens_path (auth v1) = p
    /\ Broker.credentials_path (auth v1) = Broker.credentials_path (auth v)
    /\ tool_log v1
       = (tool_log v ++ [Dispatch "check_auth_status" (JObj []) true])%list.
Proof.
  intros Hs Ht Hc Ha Haw Hls Hp Hne Hj Hf Hm.
  destruct (gmail_revalidate_token_gone E v sd p) as
    (v1 & Hrun & C1 & F1 & B1 & R1 & M1 & P1 & K1 & T1); auto.
  rewrite Ha in T1.
  exists v1. split; [| repeat split; assumption].
  unfold GmailProto.route. rewrite Hs. cbn [when].
  unfold bind at 1. unfold ret at 1.
  unfold bind at 1. unfold GmailProto.session_data at 1, get_session_ctx at 1, gets at 1.
  rewrite Hc. cbn [default from_option id].
  rewrite Haw. cbn [negb andb].
  rewrite (bool_decide_eq_false_2 _ Ht). cbn [andb when].
  unfold bind at 1. unfold get_auth at 1, gets at 1.
  unfold bind at 1. unfold ret at 1.
  unfold bind at 1. unfold GmailProto.session_data at 1, get_session_ctx at 1, gets at 1.
  rewrite Hc. cbn [default from_option id].
  rewrite Ha. cbn [when].
  unfold bind at 1. rewrite Hrun.
  unfold bind at 1. unfold GmailProto.session_data at 1, get_session_ctx at 1, gets at 1.
  rewrite C1. cbn [default from_option id Session.authenticated
                   Session.set_authenticated Session.flag negb].
  apply (auth_workflow_starts _ _ _ _ _ _ _ C1); assumption.
Qed.

Lemma gmail_setup_run_plain E sid v sd p :
  CURRENT_SESSION_DATA v = Some sd ->
  Session.tokens_path sd = Some p ->
  nonempty p = true ->
  Session.token_json sd = None ->
  mcp_faults v = [] ->
  Broker.tokens_path (auth v) = p ->
  exists t v',
    GmailProto._run_gmail_tool E "setup_oauth" (JObj [("session_id", JStr sid)]) v
    = (Ret t, v')
    /\ GmailServer.setup_oauth E (Some sid)
         (logged "setup_oauth" (JObj [("session_id", JStr sid)]) v) = (Ret t, v').
Proof.
  intros Hc Hp Hne Hj Hm Hb.
  set (args := JObj [("session_id", JStr sid)]).
  destruct (or_failure_returns
              (url <- GmailServer.get_oauth_url E (Some sid);
               ret (json_dumps (JObj [("success", JBool true); ("auth_url", JStr url)])))
              (logged "setup_oauth" args v)) as [t Ht].
  fold (GmailServer.setup_oauth E (Some sid)) in Ht.
  destruct (GmailServer.setup_oauth E (Some sid) (logged "setup_oauth" args v))
    as [o v'] eqn:Hrun. cbn [fst] in Ht. subst o.
  exists t, v'. split; [| reflexivity].
  apply (gmail_run_plain E _ _ v sd p); auto.
  rewrite (pointed_same _ _ Hb). exact Hrun.
Qed.

Lemma keeps_reached_start_oauth E sessions sid sender :
  keeps reached (GmailProto.start_oauth E sessions sid sender).
Proof.
  unfold GmailProto.start_oauth, GmailProto.request_link, GmailProto.session_data,
    GmailProto.update, store_session.
  repeat reached_step.
Qed.

Lemma gmail_token_gone_run E sid sender msg w p :
  has_start msg = false ->
  texts_of msg <> [] ->
  Session.flag (Session.authenticated (session_of sid w)) = true ->
  Session.flag (Session.awaiting_auth_code (session_of sid w)) = false ->
  Session.flag (Session.oauth_link_sent (session_of sid w)) = false ->
  Session.tokens_path (session_of sid w) = Some p ->
  nonempty p = true ->
  Session.token_json (session_of sid w) = None ->
  fs w !! p = None ->
  mcp_faults w = [] ->
  exists o w',
    GmailProto.handle_chat_message E sid sender msg w = (o, w')
    /\ reached w' = reached w
    /\ tool_log w'
       = (tool_log w ++ [Dispatch "check_auth_status" (JObj []) true;
                         Dispatch "setup_oauth" (JObj [("session_id", JStr sid)]) false])%list
    /\ (forall cfg,
           fs w !! Broker.credentials_path (auth w) = Some (SecretsFile cfg) ->
           o = Ret tt
           /\ state_of (session_of sid w') = AWAITING_CODE
           /\ outbox w'
              = (outbox w
                   ++ [(sender, ChatAcknowledgement);
                       (sender,
                        ChatMessage
                          (GmailProto.link_reply
                             (GmailProto.attach_state
                                (authorization_url E (MkFlow cfg)
                                   (if nonempty sid then Some sid else None))
                                sid)))])%list).
Proof.
  intros Hs Ht Ha Haw Hls Hp Hne Hj Hf Hm.
  set (sd0 := Session.set_sender_address (Some sender) (session_of sid w)).
  set (v0 := entered sender (session_of sid w) w).
  destruct (gmail_route_token_gone E (sessions_of w) sid sender msg v0 sd0 p)
    as (v1 & Hroute & C1 & F1 & B1 & R1 & M1 & P1 & K1 & T1); auto.
  set (sd1 := Session.set_authenticated (Some false) sd0) in *.
  set (args := JObj [("session_id", JStr sid)]).
  destruct (gmail_setup_run_plain E sid v1 sd1 p) as (t & v2 & Hrun & Hset); auto.
  fold args in Hrun, Hset.
  assert (T2 : tool_log v2 = (tool_log v1 ++ [Dispatch "setup_oauth" args false])%list).
  { pose proof (keeps_gmail_call_tool tool_log E "setup_oauth" args tool_proof_tool_log
                  (logged "setup_oauth" args v1)) as Hk.
    change (GmailServer.call_tool E "setup_oauth" args)
      with (bind (lift (Ret (Some sid))) (GmailServer.setup_oauth E)) in Hk.
    unfold bind at 1, lift at 1 in Hk. cbv beta iota zeta in Hk. rewrite Hset in Hk. cbn [snd] in Hk.
    rewrite Hk. unfold logged, current_flag. wsimpl. rewrite C1. reflexivity. }
  rewrite handle_chat_message_unfold, finally_reset. fold v0. rewrite Hroute.
  eexists _, _. split; [reflexivity |]. split; [| split].
  - change (reached (snd (GmailProto.start_oauth E (sessions_of w) sid sender v1))
            = reached w).
    rewrite keeps_reached_start_oauth. rewrite R1. reflexivity.
  - change (tool_log (snd (GmailProto.start_oauth E (sessions_of w) sid sender v1))
            = (tool_log w ++ [Dispatch "check_auth_status" (JObj []) true;
                              Dispatch "setup_oauth" args false])%list).
    rewrite start_oauth_tool_log. fold args. rewrite Hrun. cbn [snd].
    rewrite T2, T1. unfold v0, entered. wsimpl. rewrite <- app_assoc. reflexivity.
  - intros cfg Hsec.
    assert (Hlink := gmail_setup_oauth_link E (Some sid) (logged "setup_oauth" args v1) cfg).
    rewrite Hset in Hlink.
    assert (Hsec1 : fs (logged "setup_oauth" args v1)
                      !! Broker.credentials_path (auth (logged "setup_oauth" args v1))
                    = Some (SecretsFile cfg)).
    { unfold logged. wsimpl. rewrite K1, F1. exact Hsec. }
    specialize (Hlink Hsec1). injection Hlink as Ht2 Hv2.
    rewrite (start_oauth_sends_link E (sessions_of w) sid sender v1 t v2
               [("success", JBool true);
                ("auth_url", JStr (authorization_url E (MkFlow cfg)
                                     (if Session.str_truthy (Some sid)
                                      then Some sid else None)))]
               (authorization_url E (MkFlow cfg)
                  (if nonempty sid then Some sid else None))).
    + cbn [fst snd]. split; [reflexivity |]. split.
      * unfold session_of at 1. unfold sessions_of at 1. wsimpl.
        rewrite lookup_insert_eq. cbn [default from_option id].
        unfold state_of, awaiting_code, current_session. 
        rewrite Hv2. unfold with_flow, logged. wsimpl. rewrite C1. reflexivity.
      * wsimpl. rewrite Hv2. unfold with_flow, logged. wsimpl.
        unfold mailbox in B1. injection B1 as _ B1o. rewrite B1o.
        unfold v0, entered. wsimpl. rewrite <- app_assoc. reflexivity.
    + unfold ctx_set. rewrite C1. reflexivity.
    + exact Hrun.
    + rewrite Ht2. reflexivity.
    + reflexivity.
    + reflexivity.
Qed.

(** X22: a text message of a Gmail session that is stored as authenticated
    but has neither its token file nor a token in its dict: the status
    check finds the session not authenticated, so the router asks for a
    new authorization instead of answering.  Exactly two tools are called
    ([check_auth_status], then [setup_oauth]), the model is not asked and
    no Google API request is made; with the client secrets on disk the
    link is sent and the stored session awaits the code. *)
Theorem router_demotes_session_without_token (E : Env) (sid sender : string)
    (msg : list content_block) (w : World) (p : string) :
  has_start msg = false ->
  texts_of msg <> [] ->
  Session.flag (Session.authenticated (session_of sid w)) = true ->
  Session.flag (Session.awaiting_auth_code (session_of sid w)) = false ->
  Session.flag (Session.oauth_link_sent (session_of sid w)) = false ->
  Session.tokens_path (session_of sid w) = Some p ->
  nonempty p = true ->
  Session.token_json (session_of sid w) = None ->
  fs w !! p = None ->
  mcp_faults w = [] ->
  let w' := snd (GmailProto.handle_chat_message E sid sender msg w) in
  reached w' = reached w
  /\ tool_log w'
     = (tool_log w ++ [Dispatch "check_auth_status" (JObj []) true;
                       Dispatch "setup_oauth" (JObj [("session_id", JStr sid)]) false])%list
  /\ (forall cfg,
         fs w !! Broker.credentials_path (auth w) = Some (SecretsFile cfg) ->
         fst (GmailProto.handle_chat_message E sid sender msg w) = Ret tt
         /\ state_of (session_of sid w') = AWAITING_CODE
         /\ outbox w'
            = (outbox w
                 ++ [(sender, ChatAcknowledgement);
                     (sender,
                      ChatMessage
                        (GmailProto.link_reply
                           (GmailProto.attach_state
                              (authorization_url E (MkFlow cfg)
                                 (if nonempty sid then Some sid else None))
                              sid)))])%list).
Proof.
  intros Hs Ht Ha Haw Hls Hp Hne Hj Hf Hm.
  destruct (gmail_token_gone_run E sid sender msg w p)
    as (o & v & -> & Hr & Hl & Hc); auto.
Qed.

Lemma router_demotes_session_without_token_witness :
  let w' := snd (GmailProto.handle_chat_message Sample.E "s1" "agent1alice"
                   [TextContent "Any news?"] Scenario.w_token_gone) in
  state_of (session_of "s1" Scenario.w_token_gone) = AUTHENTICATED
  /\ state_of (session_of "s1" w') = AWAITING_CODE
  /\ llm_tape w' = llm_tape Scenario.w_token_gone.
Proof.
  pose proof (router_demotes_session_without_token Sample.E "s1" "agent1alice"
                [TextContent "Any news?"] Scenario.w_token_gone Scenario.path_s1) as H.
  destruct H as (Hr & _ & Hc); try reflexivity.
  - discriminate.
  - destruct (Hc Sample.cfg eq_refl) as (_ & Hst & _).
    intros w'. subst w'. split; [reflexivity |]. split; [exact Hst |].
    exact (f_equal fst Hr).
Defined.
(** ** The REST callback of the Calendar agent *)

(** The preparation for a session that has a token path, no token in its
    dict and no token file: nothing is touched. *)
Lemma calendar_prepare_plain E w sd p :
  CURRENT_SESSION_DATA w = Some sd ->
  Session.tokens_path sd = Some p ->
  Session.token_json sd = None ->
  fs w !! p = None ->
  CalendarProto.prepare_tokens E w = (Ret (Some p, false), w).
Proof.
  intros Hc Hp Hj Hf. unfold CalendarProto.prepare_tokens.
  unfold bind at 1. unfold get_session_ctx at 1, gets. rewrite Hc.
  cbn [default from_option id]. rewrite Hp, Hj. cbn [opt_path_exists].
  unfold bind at 1. unfold path_exists at 1, gets.
  rewrite (exists_false _ _ Hf), andb_false_r. reflexivity.
Qed.

Lemma calendar_run_plain E fn args w sd p t w1 :
  CURRENT_SESSION_DATA w = Some sd ->
  Session.tokens_path sd = Some p ->
  Session.token_json sd = None ->
  fs w !! p = None ->
  mcp_faults w = [] ->
  CalendarServer.call_tool E fn args (logged fn args w) = (Ret t, w1) ->
  CalendarProto._run_cal_tool E fn args w = (Ret t, w1).
Proof.
  intros Hc Hp Hj Hf Hm Hcall.
  pose proof (calendar_prepare_plain E w sd p Hc Hp Hj Hf) as Hprep.
  rewrite (invoker_first_try _ _ _ _ _ _ _ _ t w1 (calendar_invoker_shape E) Hprep).
  - reflexivity.
  - rewrite Hm. reflexivity.
  - rewrite <- Hcall. f_equal.
    replace (tl (mcp_faults w)) with (mcp_faults (logged fn args w))
      by (unfold logged; cbn; rewrite Hm; reflexivity).
    apply set_mcp_faults_same.
Qed.

Lemma calendar_complete_oauth_flow_lost E code w :
  Broker._flow (auth w) = None ->
  CalendarServer.complete_oauth E code w
  = (Ret (json_dumps (failure flow_lost_message)), w).
Proof.
  intros H. unfold CalendarServer.complete_oauth, CalendarServer.exchange_code_for_token.
  mstep. rewrite H. reflexivity.
Qed.

Lemma calendar_setup_oauth_sets_flow E session_id v cfg :
  fs v !! Broker.credentials_path (auth v) = Some (SecretsFile cfg) ->
  exists t, CalendarServer.setup_oauth E session_id v = (Ret t, with_flow (MkFlow cfg) v).
Proof.
  intros Hf. unfold CalendarServer.setup_oauth, CalendarServer.get_oauth_url. mstep.
  rewrite Hf. wsimpl. eexists; reflexivity.
Qed.

(** The exchange of the Calendar callback: the token is written to the
    file at which the broker points. *)
Lemma calendar_exchange_succeeds E sid code w sd p creds :
  CURRENT_SESSION_DATA w = Some sd ->
  Session.tokens_path sd = Some p ->
  Session.token_json sd = None ->
  fs w !! p = None ->
  mcp_faults w = [] ->
  exchangeable E code creds w ->
  exists w',
    CalendarAgent.exchange E sid code w = (Ret (JObj [("success", JBool true)]), w')
    /\ fs w' = <[Broker.tokens_path (auth w) := TokenFile creds]> (fs w)
    /\ mailbox w' = mailbox w.
Proof.
  intros Hc Hp Hj Hf Hm [(fl & Hfl & Hx) | (Hfl & cfg & Hsec & Hx)].
  - set (a1 := JObj [("auth_code", JStr code)]).
    set (v1 := persisting creds (logged "complete_oauth" a1 w)).
    assert (R1 : CalendarProto._run_cal_tool E "complete_oauth" a1 w
                 = (Ret (json_dumps (JObj [("success", JBool true)])), v1)).
    { apply (calendar_run_plain E _ _ w sd p); auto.
      change (CalendarServer.call_tool E "complete_oauth" a1)
        with (bind (lift (Ret code)) (CalendarServer.complete_oauth E)).
      unfold bind, lift.
      apply (calendar_complete_oauth_persists E code _ fl); [exact Hfl | exact Hx]. }
    exists v1. split.
    + unfold CalendarAgent.exchange. fold a1. unfold bind at 1. rewrite R1. reflexivity.
    + unfold v1, persisting, logged, mailbox. wsimpl. split; reflexivity.
  - set (a1 := JObj [("auth_code", JStr code)]).
    set (v1 := logged "complete_oauth" a1 w).
    assert (R1 : CalendarProto._run_cal_tool E "complete_oauth" a1 w
                 = (Ret (json_dumps (failure flow_lost_message)), v1)).
    { apply (calendar_run_plain E _ _ w sd p); auto.
      change (CalendarServer.call_tool E "complete_oauth" a1)
        with (bind (lift (Ret code)) (CalendarServer.complete_oauth E)).
      unfold bind, lift. apply calendar_complete_oauth_flow_lost. exact Hfl. }
    set (a2 := JObj [("session_id", JStr sid)]).
    set (v2 := with_flow (MkFlow cfg) (logged "setup_oauth" a2 v1)).
    assert (R2 : exists t, CalendarProto._run_cal_tool E "setup_oauth" a2 v1 = (Ret t, v2)).
    { destruct (calendar_setup_oauth_sets_flow E (Some sid) (logged "setup_oauth" a2 v1) cfg)
        as [t Ht]; [exact Hsec |].
      exists t. apply (calendar_run_plain E _ _ v1 sd p); auto. }
    destruct R2 as [t2 R2].
    set (v3 := persisting creds (logged "complete_oauth" a1 v2)).
    assert (R3 : CalendarProto._run_cal_tool E "complete_oauth" a1 v2
                 = (Ret (json_dumps (JObj [("success", JBool true)])), v3)).
    { apply (calendar_run_plain E _ _ v2 sd p); auto.
      change (CalendarServer.call_tool E "complete_oauth" a1)
        with (bind (lift (Ret code)) (CalendarServer.complete_oauth E)).
      unfold bind, lift.
      apply (calendar_complete_oauth_persists E code _ (MkFlow cfg));
        [reflexivity | exact Hx]. }
    exists v3. split.
    + unfold CalendarAgent.exchange. fold a1. unfold bind at 1. rewrite R1.
      unfold bind at 1. unfold lift at 1. cbn [json_dumps json_loads].
      unfold bind at 1. unfold lift at 1.
      cbn [get failure assoc String.eqb Ascii.eqb Bool.eqb].
      cbn [truthy_opt truthy negb].
      unfold bind at 1. unfold bind at 1. unfold lift at 1.
      cbn [GmailAgent.error_lower get failure assoc String.eqb Ascii.eqb Bool.eqb].
      rewrite flow_lost_is_recognised. unfold ret at 1.
      unfold CalendarAgent.restart_and_retry. fold a1 a2.
      unfold bind at 1. rewrite R2. unfold bind at 1. rewrite R3. reflexivity.
    + unfold v3, v2, v1, persisting, with_flow, logged, mailbox. wsimpl.
      split; reflexivity.
Qed.

Lemma calendar_callback_run E sid auth_code w creds :
  Session.flag (Session.authenticated (calendar_session_of sid w)) = false ->
  mcp_faults w = [] ->
  exchangeable E (strip auth_code) creds w ->
  fs w !! token_file_for E sid = None ->
  let sd := calendar_session_of sid w in
  let written := <[Broker.tokens_path (auth w) := TokenFile creds]> (fs w) in
  exists w',
    CalendarAgent._cb E sid auth_code w
    = (Ret (MkOAuthResponse true "OAuth completed and tokens stored"), w')
    /\ outbox w' = (outbox w ++ calendar_notification sd)%list
    /\ Session.flag (Session.authenticated (calendar_session_of sid w')) = true
    /\ (forall t,
           written !! TOKENS_PATH E = Some (TokenFile t) ->
           sessions_of w'
           = <[sid := Session.set_tokens_path (Some (TOKENS_PATH E))
                        (Session.set_token_json (Some (TokenFile t))
                           (calendar_marked (strip auth_code) sd))]> (sessions_of w)
           /\ fs w' = delete (token_file_for E sid) written)
    /\ (written !! TOKENS_PATH E = None ->
        sessions_of w'
        = <[sid := Session.set_tokens_path (Some (token_file_for E sid))
                     (calendar_marked (strip auth_code) sd)]> (sessions_of w)
        /\ fs w' = written).
Proof.
  intros Ha Hm Hx Hf sd written.
  unfold CalendarAgent._cb.
  unfold bind at 1. unfold load_sessions at 1, gets.
  fold (sessions_of w). fold (calendar_session_of sid w). rewrite Ha. fold sd.
  unfold bind at 1. unfold modify at 1.
  set (ctx0 := Session.set_tokens_path (Some (token_file_for E sid)) Session.empty).
  destruct (calendar_exchange_succeeds E sid (strip auth_code) (set_ctx (Some ctx0) w)
              ctx0 (token_file_for E sid) creds)
    as (v & Hex & Hfs & Hbox); auto.
  change (fs v = written) in Hfs.
  unfold mailbox in Hbox. injection Hbox as Hst Hout. cbn in Hst, Hout.
  unfold bind at 1. rewrite finally_reset, Hex. cbn [fst snd].
  unfold bind at 1. unfold lift at 1.
  cbn [get assoc String.eqb Ascii.eqb Bool.eqb truthy_opt truthy negb].
  set (v1 := set_ctx (Some Session.empty) v).
  unfold bind at 1. unfold try_except at 1. unfold bind at 1. unfold read_file at 1.
  change (fs v1) with (fs v). rewrite Hfs.
  destruct (written !! TOKENS_PATH E) as [c|] eqn:Hcan.
  - unfold bind at 1. unfold lift at 1.
    destruct c as [t | cfg |]; cbn [load_json_file].
    + unfold bind at 1.
      assert (Hrm : exists v2,
                 try_except (ex <- path_exists (token_file_for E sid);
                             when ex (remove_file (token_file_for E sid)))
                            (fun _ => ret tt) v1 = (Ret tt, v2)
                 /\ storage v2 = storage v1 /\ outbox v2 = outbox v1
                 /\ fs v2 = delete (token_file_for E sid) written).
      { unfold try_except, bind, path_exists, gets, when, remove_file.
        change (fs v1) with (fs v). rewrite Hfs.
        pose proof (exists_true written (token_file_for E sid)) as Et.
        pose proof (exists_false written (token_file_for E sid)) as Ef.
        destruct (written !! token_file_for E sid) as [c|] eqn:Hc.
        - rewrite (Et _ eq_refl). cbv beta iota.
          change (fs v1) with (fs v). rewrite Hfs, Hc.
          eexists. split; [reflexivity |].
          wsimpl. rewrite ?Hfs. repeat split.
        - rewrite (Ef eq_refl). eexists. split; [reflexivity |].
          unfold ret. change (fs v1) with (fs v).
          rewrite Hfs, delete_id by exact Hc. repeat split. }
      destruct Hrm as (v2 & -> & Hs2 & Ho2 & Hf2). unfold ret at 1.
      match goal with
      | |- context [bind (store_session ?ss ?i ?d) ?k ?v0] =>
          destruct (calendar_callback_tail ss i d
                      (MkOAuthResponse true "OAuth completed and tokens stored") v0)
            as (v3 & Hrun & Hs3 & Hf3 & Ho3)
      end.
      exists v3. split; [exact Hrun |]. split;
        [| split; [unfold calendar_session_of, sessions_of;
                   rewrite Hs3, lookup_insert_eq; reflexivity | split]].
      * rewrite Ho3, Ho2. change (outbox v1) with (outbox v). rewrite Hout. reflexivity.
      * intros t' Ht'. injection Ht' as <-. unfold sessions_of at 1. rewrite Hs3.
        split; [reflexivity |]. rewrite Hf3. exact Hf2.
      * intros Hn. discriminate Hn.
    + unfold bind at 1.
      assert (Hrm : exists v2,
                 try_except (ex <- path_exists (token_file_for E sid);
                             when ex (remove_file (token_file_for E sid)))
                            (fun _ => ret tt) v1 = (Ret tt, v2)
                 /\ storage v2 = storage v1 /\ outbox v2 = outbox v1).
      { unfold try_except, bind, path_exists, gets, when, remove_file.
        pose proof (exists_true (fs v1) (token_file_for E sid)) as Et.
        pose proof (exists_false (fs v1) (token_file_for E sid)) as Ef.
        destruct (fs v1 !! token_file_for E sid) as [c|] eqn:Hc.
        - rewrite (Et _ eq_refl). cbv beta iota. rewrite Hc.
          eexists. split; [reflexivity |].
          repeat split.
        - rewrite (Ef eq_refl). eexists. split; [reflexivity |].
          repeat split. }
      destruct Hrm as (v2 & -> & Hs2 & Ho2). unfold ret at 1.
      match goal with
      | |- context [bind (store_session ?ss ?i ?d) ?k ?v0] =>
          destruct (calendar_callback_tail ss i d
                      (MkOAuthResponse true "OAuth completed and tokens stored") v0)
            as (v3 & Hrun & Hs3 & Hf3 & Ho3)
      end.
      exists v3. split; [exact Hrun |]. split;
        [| split; [unfold calendar_session_of, sessions_of;
                   rewrite Hs3, lookup_insert_eq; reflexivity | split]].
      * rewrite Ho3, Ho2. change (outbox v1) with (outbox v). rewrite Hout. reflexivity.
      * intros t' Ht'. discriminate Ht'.
      * intros Hn. discriminate Hn.
    + unfold ret at 1.
      match goal with
      | |- context [bind (store_session ?ss ?i ?d) ?k ?v0] =>
          destruct (calendar_callback_tail ss i d
                      (MkOAuthResponse true "OAuth completed and tokens stored") v0)
            as (v3 & Hrun & Hs3 & Hf3 & Ho3)
      end.
      exists v3. split; [exact Hrun |]. split;
        [| split; [unfold calendar_session_of, sessions_of;
                   rewrite Hs3, lookup_insert_eq; reflexivity | split]].
      * rewrite Ho3. change (outbox v1) with (outbox v). rewrite Hout. reflexivity.
      * intros t' Ht'. discriminate Ht'.
      * intros Hn. discriminate Hn.
  - unfold ret at 1.
    match goal with
    | |- context [bind (store_session ?ss ?i ?d) ?k ?v0] =>
        destruct (calendar_callback_tail ss i d
                    (MkOAuthResponse true "OAuth completed and tokens stored") v0)
          as (v3 & Hrun & Hs3 & Hf3 & Ho3)
    end.
    exists v3. split; [exact Hrun |]. split;
        [| split; [unfold calendar_session_of, sessions_of;
                   rewrite Hs3, lookup_insert_eq; reflexivity | split]].
    + rewrite Ho3. change (outbox v1) with (outbox v). rewrite Hout. reflexivity.
    + intros t' Ht'. discriminate Ht'.
    + intros _. unfold sessions_of at 1. rewrite Hs3.
      split; [reflexivity |]. rewrite Hf3. exact Hfs.
Qed.

Lemma calendar_callback_duplicate E sid auth_code w :
  Session.flag (Session.authenticated (calendar_session_of sid w)) = true ->
  CalendarAgent._cb E sid auth_code w
  = (Ret (MkOAuthResponse true "Already authenticated"), w).
Proof.
  intros Ha. unfold CalendarAgent._cb.
  unfold bind at 1. unfold load_sessions at 1, gets.
  fold (sessions_of w). fold (calendar_session_of sid w). rewrite Ha. reflexivity.
Qed.

(** X23: the Calendar REST callback completes the authorization of a session
    that is not yet authenticated whenever the broker can exchange the code
    (also after a restart that lost the flow object) and still points at the
    canonical token file: the token is written to that file, which stays on
    disk, and is copied into the session's dict together with the canonical
    path; the session is stored as authenticated, the user is told when the
    session knows their address, and a second delivery for the session is
    ignored. *)
Theorem calendar_callback_completes (E : Env) (sid auth_code : string)
    (w : World) (creds : token_data) :
  Session.flag (Session.authenticated (calendar_session_of sid w)) = false ->
  mcp_faults w = [] ->
  exchangeable E (strip auth_code) creds w ->
  Broker.tokens_path (auth w) = TOKENS_PATH E ->
  fs w !! token_file_for E sid = None ->
  token_file_for E sid <> TOKENS_PATH E ->
  let w' := snd (CalendarAgent._cb E sid auth_code w) in
  fst (CalendarAgent._cb E sid auth_code w)
  = Ret (MkOAuthResponse true "OAuth completed and tokens stored")
  /\ sessions_of w'
     = <[sid := Session.set_tokens_path (Some (TOKENS_PATH E))
                  (Session.set_token_json (Some (TokenFile creds))
                     (calendar_marked (strip auth_code) (calendar_session_of sid w)))]>
         (sessions_of w)
  /\ fs w' = <[TOKENS_PATH E := TokenFile creds]> (fs w)
  /\ outbox w' = (outbox w ++ calendar_notification (calendar_session_of sid w))%list
  /\ (forall again,
         CalendarAgent._cb E sid again w'
         = (Ret (MkOAuthResponse true "Already authenticated"), w')).
Proof.
  intros Ha Hm Hx Hb Hf Hne.
  destruct (calendar_callback_run E sid auth_code w creds Ha Hm Hx Hf)
    as (v & -> & Ho & _ & Hcan & _).
  cbn [fst snd]. rewrite Hb in Hcan.
  destruct (Hcan creds (lookup_insert_eq _ _ _)) as [Hs Hfs].
  split; [reflexivity |]. split; [exact Hs |]. split; [| split; [exact Ho |]].
  - rewrite Hfs. apply delete_id. rewrite lookup_insert_ne by congruence. exact Hf.
  - intros again. apply calendar_callback_duplicate.
    unfold calendar_session_of. rewrite Hs, lookup_insert_eq. reflexivity.
Qed.

Lemma calendar_callback_completes_witness :
  let w' := snd (CalendarAgent._cb Sample.E "s1" " 4/good " Sample.w0) in
  fs w' !! TOKENS_PATH Sample.E = Some (TokenFile Sample.tok)
  /\ CalendarAgent._cb Sample.E "s1" "4/good" w'
     = (Ret (MkOAuthResponse true "Already authenticated"), w').
Proof.
  assert (Hx : exchangeable Sample.E (strip " 4/good ") Sample.tok Sample.w0).
  { right. split; [reflexivity |]. exists Sample.cfg.
    split; [vm_compute; reflexivity | reflexivity]. }
  assert (Hne : token_file_for Sample.E "s1" <> TOKENS_PATH Sample.E)
    by (vm_compute; discriminate).
  pose proof (calendar_callback_completes Sample.E "s1" " 4/good " Sample.w0
                Sample.tok eq_refl eq_refl Hx eq_refl eq_refl Hne)
    as (_ & _ & Hfs & _ & Hdup).
  intros w'. subst w'. split.
  - rewrite Hfs. apply lookup_insert_eq.
  - apply Hdup.
Defined.

(** X24: when the broker points at another file than the canonical token
    file (the invoker re-points it and never points it back), the Calendar
    REST callback still answers that the tokens are stored and stores the
    session as authenticated, but the exchanged token is not what the
    session gets: without a canonical file the dict gets no token and the
    path of the session's own token file; with a canonical file it gets the
    token that this file held before, whosever it is. *)
Theorem calendar_callback_misses_redirected_token (E : Env) (sid auth_code : string)
    (w : World) (creds : token_data) :
  Session.flag (Session.authenticated (calendar_session_of sid w)) = false ->
  mcp_faults w = [] ->
  exchangeable E (strip auth_code) creds w ->
  Broker.tokens_path (auth w) <> TOKENS_PATH E ->
  fs w !! token_file_for E sid = None ->
  let w' := snd (CalendarAgent._cb E sid auth_code w) in
  let sd' := calendar_session_of sid w' in
  fst (CalendarAgent._cb E sid auth_code w)
  = Ret (MkOAuthResponse true "OAuth completed and tokens stored")
  /\ state_of sd' = AUTHENTICATED
  /\ (fs w !! TOKENS_PATH E = None ->
      Session.token_json sd' = Session.token_json (calendar_session_of sid w)
      /\ Session.tokens_path sd' = Some (token_file_for E sid)
      /\ fs w' = <[Broker.tokens_path (auth w) := TokenFile creds]> (fs w))
  /\ (forall t,
         fs w !! TOKENS_PATH E = Some (TokenFile t) ->
         Session.token_json sd' = Some (TokenFile t)
         /\ Session.tokens_path sd' = Some (TOKENS_PATH E)).
Proof.
  intros Ha Hm Hx Hb Hf w' sd'. subst sd' w'.
  destruct (calendar_callback_run E sid auth_code w creds Ha Hm Hx Hf)
    as (v & -> & Ho & Hfl & Hold & Hnone).
  cbn [fst snd]. rewrite lookup_insert_ne in Hold, Hnone by exact Hb.
  split; [reflexivity |]. split; [| split].
  - unfold state_of. rewrite Hfl. reflexivity.
  - intros Hc. destruct (Hnone Hc) as [Hs Hfs].
    unfold calendar_session_of at 1 3. rewrite Hs, lookup_insert_eq.
    split; [reflexivity |]. split; [reflexivity | exact Hfs].
  - intros t Ht. destruct (Hold t Ht) as [Hs _].
    unfold calendar_session_of. rewrite Hs, lookup_insert_eq.
    split; reflexivity.
Qed.

Lemma calendar_callback_misses_redirected_token_witness :
  let w := set_auth (Broker.set_tokens_path ".tokens/other.json" (auth Sample.w0))
             (set_fs (<["oauth_tokens.json" := TokenFile Scenario.tok_plain]>
                        (fs Sample.w0)) Sample.w0) in
  let w' := snd (CalendarAgent._cb Sample.E "s1" "4/good" w) in
  state_of (calendar_session_of "s1" w') = AUTHENTICATED
  /\ Session.token_json (calendar_session_of "s1" w')
     = Some (TokenFile Scenario.tok_plain).
Proof.
  intros w.
  assert (Hx : exchangeable Sample.E (strip "4/good") Sample.tok w).
  { right. split; [reflexivity |]. exists Sample.cfg.
    split; [vm_compute; reflexivity | reflexivity]. }
  assert (Hne : Broker.tokens_path (auth w) <> TOKENS_PATH Sample.E)
    by (vm_compute; discriminate).
  pose proof (calendar_callback_misses_redirected_token Sample.E "s1" "4/good" w
                Sample.tok eq_refl eq_refl Hx Hne eq_refl)
    as (_ & Hst & _ & Hold).
  intros w'. subst w'. split; [exact Hst |].
  exact (proj1 (Hold Scenario.tok_plain eq_refl)).
Defined.
(** ** The answer of the loop around the model *)

Lemma consume_stream_spoken run_tool events calls chunks w :
  (forall fn a v, exists t, fst (run_tool fn a v) = Ret t) ->
  first_tool_calls events = Some calls ->
  Forall (fun c => exists j, json_loads (snd c) = Ret j) calls ->
  fst (consume_stream run_tool events chunks w)
  = Ret ((chunks ++ spoken events)%list, true).
Proof.
  intros Hr Hf Hc. revert chunks. induction events as [|ev rest IH]; intros chunks;
    [discriminate |].
  destruct ev; cbn [consume_stream first_tool_calls spoken] in *.
  - rewrite IH by exact Hf. rewrite <- app_assoc. reflexivity.
  - injection Hf as ->. unfold bind.
    pose proof (run_calls_returns run_tool calls w Hr Hc) as H.
    destruct (run_calls run_tool calls w) as [o w1]. cbn in H. subst o.
    rewrite app_nil_r. reflexivity.
  - apply IH. exact Hf.
Qed.

Lemma spoken_deltas events :
  first_tool_calls events = None -> spoken events = deltas events.
Proof.
  induction events as [|ev rest IH]; intros Hf; [reflexivity |].
  destruct ev; cbn in Hf |- *.
  - f_equal. apply IH. exact Hf.
  - discriminate.
  - apply IH. exact Hf.
Qed.

Lemma said_cons_ret events l : said (Ret events :: l) = (spoken events ++ said l)%list.
Proof. reflexivity. Qed.

Lemma hop_loop_answers run_tool on_limit hops chunks w l final rest :
  (forall fn a v, exists t, fst (run_tool fn a v) = Ret t) ->
  (forall fn a, keeps llm_tape (run_tool fn a)) ->
  llm_tape w = (l ++ Ret final :: rest)%list ->
  (length l < hops)%nat ->
  Forall tool_round l ->
  first_tool_calls final = None ->
  exists w',
    hop_loop run_tool on_limit hops chunks w
    = (Ret (strip (join EmptyString (chunks ++ said (l ++ [Ret final])))), w')
    /\ llm_tape w' = rest.
Proof.
  intros Hr Hk. revert chunks w l.
  induction hops as [|n IH]; intros chunks w l Ht Hlen Hall Hfin; [lia |].
  destruct l as [|o l].
  - cbn [hop_loop app] in *. unfold bind at 1. unfold next_stream. rewrite Ht.
    unfold bind at 1. rewrite consume_stream_text by exact Hfin.
    cbn [snd fst]. unfold ret.
    exists (set_llm_tape rest w). split; [| reflexivity].
    rewrite said_cons_ret, (spoken_deltas _ Hfin). unfold said. cbn [fmap list_fmap mjoin list_join].
    rewrite app_nil_r. reflexivity.
  - apply Forall_cons in Hall as [(events & calls & -> & Hf & Hc) Hall].
    cbn [length] in Hlen.
    cbn [hop_loop]. unfold bind at 1. unfold next_stream. rewrite Ht. cbn [app].
    unfold bind at 1.
    pose proof (consume_stream_spoken run_tool events calls chunks
                  (set_llm_tape (l ++ Ret final :: rest) w) Hr Hf Hc) as Hb.
    pose proof (keeps_consume_stream llm_tape run_tool Hk events chunks
                  (set_llm_tape (l ++ Ret final :: rest) w)) as Hkeep.
    destruct (consume_stream run_tool events chunks
                (set_llm_tape (l ++ Ret final :: rest) w)) as [o w1].
    cbn [fst snd] in *. subst o. cbn [snd fst].
    destruct (IH (chunks ++ spoken events)%list w1 l) as (w' & Hrun & Hrest);
      auto; [lia |].
    exists w'. split; [| exact Hrest].
    rewrite Hrun. rewrite said_cons_ret, app_assoc. reflexivity.
Qed.

(** X25: when the model answers fewer than ten requests with a round of
    tool calls and the next one with a stream without tool calls, the loop
    returns the text of the whole exchange: the deltas of every stream up
    to its tool call (what follows a tool call in a stream is not read)
    and those of the last stream, joined and stripped; it has then
    consumed exactly these answers. *)
Theorem model_loop_answers (E : Env) (messages : list (string * string)) (w : World)
    (rounds : list (outcome (list event))) (final : list event)
    (rest : list (outcome (list event))) :
  llm_tape w = (rounds ++ Ret final :: rest)%list ->
  (length rounds < 10)%nat ->
  Forall tool_round rounds ->
  first_tool_calls final = None ->
  let text := strip (join EmptyString (said (rounds ++ [Ret final]))) in
  fst (GmailProto._call_openai_responses E messages w) = Ret text
  /\ fst (CalendarProto._call_openai_responses E messages w) = Ret text
  /\ llm_tape (snd (GmailProto._call_openai_responses E messages w)) = rest
  /\ llm_tape (snd (CalendarProto._call_openai_responses E messages w)) = rest.
Proof.
  intros Ht Hlen Hall Hfin text. subst text.
  destruct (hop_loop_answers (GmailProto._run_gmail_tool E)
              (raise hop_limit_error) 10 [] w rounds final rest)
    as (w1 & He1 & Hr1); auto.
  { intros. apply gmail_invoker_returns. }
  { intros. apply keeps_run_gmail_tool, invoker_proof_llm_tape. }
  destruct (hop_loop_answers (CalendarProto._run_cal_tool E) (ret "(no response)")
              10 [] w rounds final rest) as (w2 & He2 & Hr2); auto.
  { intros. apply calendar_invoker_returns. }
  { intros. apply keeps_run_cal_tool, invoker_proof_llm_tape. }
  unfold GmailProto._call_openai_responses, CalendarProto._call_openai_responses.
  fold hop_limit_error. rewrite He1, He2. repeat split; assumption.
Qed.

Lemma model_loop_answers_witness :
  let w := set_llm_tape
             [Ret [Delta "Let me check. ";
                   ToolCall [("check_auth_status", json_dumps (JObj []))];
                   Delta "(not read)"];
              Ret [Delta "You are signed in."]] Sample.w0 in
  fst (GmailProto._call_openai_responses Sample.E [("user", "hi")] w)
  = Ret "Let me check. You are signed in.".
Proof.
  intros w.
  pose proof (model_loop_answers Sample.E [("user", "hi")] w
                [Ret [Delta "Let me check. ";
                      ToolCall [("check_auth_status", json_dumps (JObj []))];
                      Delta "(not read)"]]
                [Delta "You are signed in."] [] eq_refl) as H.
  destruct H as (H1 & _).
  - cbn. lia.
  - repeat constructor. eexists _, _. split; [reflexivity |].
    split; [reflexivity |]. repeat constructor. eexists. reflexivity.
  - reflexivity.
  - exact H1.
Defined.
